(** * Superalink analytics: date ranges, ledger rollups, pagination and
      session attribution

    A shallow embedding of the TypeScript sources and of the BigQuery
    statement they issue, with the properties of the written
    specification stated and proved against it.

    Conventions of the embedding.
    - A JavaScript [string] is a Rocq [string]; case conversion, trimming
      and the character classes of the regular expressions act on ASCII.
    - A [Date] is its time value, an integer number of milliseconds since
      1970-01-01T00:00:00Z.  The range check of ECMAScript's TimeClip
      (8.64e15 ms either side of the epoch) is outside the model: every
      date built below from a four-digit year is far inside that range.
    - A JavaScript [number] that holds a count or an amount in minor units
      is an integer ([Z]); an amount in major units is the rational that
      the number stands for ([Q]).  The rollups of the two ledgers compute
      on these rationals exactly; the charge summaries, the metadata
      totals and the currency conversion carry out their arithmetic on
      doubles ([Double]: binary64, rounded to nearest, ties to even).
    - A function that can throw returns a [result]. *)

From Stdlib Require Import ZArith QArith Qround Qabs List String Ascii Bool Lia.
From Stdlib Require Import DecimalString DecimalN Permutation Sorted.
From Equations Require Import Equations.
Import ListNotations.

Open Scope Z_scope.

(* ===================================================================== *)
(** * Results of functions that may throw *)
(* ===================================================================== *)

Inductive result (A : Type) : Type :=
| Ok (value : A)
| Throw (message : string).
Arguments Ok {A} value.
Arguments Throw {A} message.

Definition bind {A B : Type} (r : result A) (k : A -> result B) : result B :=
  match r with
  | Ok a => k a
  | Throw m => Throw m
  end.

Notation "x <- e ;; k" := (bind e (fun x => k))
  (at level 61, e at next level, right associativity).
Notation "e ;;; k" := (bind e (fun _ => k))
  (at level 61, right associativity).

(** [try { body } catch (error) { console.error(error); return handler }] *)
Definition try_catch {A : Type} (body : result A) (handler : A) : result A :=
  match body with
  | Ok a => Ok a
  | Throw _ => Ok handler
  end.

Definition is_throw {A : Type} (r : result A) : bool :=
  match r with
  | Ok _ => false
  | Throw _ => true
  end.

(* ===================================================================== *)
(** * Strings *)
(* ===================================================================== *)

Module Str.

Definition is_digit (c : ascii) : bool :=
  let n := nat_of_ascii c in (48 <=? n)%nat && (n <=? 57)%nat.

Definition digit_value (c : ascii) : Z := Z.of_nat (nat_of_ascii c) - 48.

Definition is_upper (c : ascii) : bool :=
  let n := nat_of_ascii c in (65 <=? n)%nat && (n <=? 90)%nat.

Definition is_lower (c : ascii) : bool :=
  let n := nat_of_ascii c in (97 <=? n)%nat && (n <=? 122)%nat.

Definition lower_char (c : ascii) : ascii :=
  if is_upper c then ascii_of_nat (nat_of_ascii c + 32) else c.

Definition upper_char (c : ascii) : ascii :=
  if is_lower c then ascii_of_nat (nat_of_ascii c - 32) else c.

Fixpoint map_chars (f : ascii -> ascii) (s : string) : string :=
  match s with
  | EmptyString => EmptyString
  | String c rest => String (f c) (map_chars f rest)
  end.

(** [String.prototype.toLowerCase], [LOWER] *)
Definition toLowerCase : string -> string := map_chars lower_char.

(** [String.prototype.toUpperCase] *)
Definition toUpperCase : string -> string := map_chars upper_char.

(** [String.prototype.startsWith] *)
Fixpoint startsWith (s p : string) : bool :=
  match p, s with
  | EmptyString, _ => true
  | String _ _, EmptyString => false
  | String a p', String b s' => Ascii.eqb a b && startsWith s' p'
  end.

(** [String.prototype.includes] *)
Fixpoint includes (s p : string) : bool :=
  startsWith s p ||
  match s with
  | EmptyString => false
  | String _ s' => includes s' p
  end.

Fixpoint drop (n : nat) (s : string) : string :=
  match n, s with
  | O, _ => s
  | S _, EmptyString => EmptyString
  | S n', String _ s' => drop n' s'
  end.

(** [String.prototype.endsWith] *)
Definition endsWith (s p : string) : bool :=
  (String.length p <=? String.length s)%nat &&
  String.eqb (drop (String.length s - String.length p) s) p.

(** The longest prefix whose characters all satisfy [keep]. *)
Fixpoint take_while (keep : ascii -> bool) (s : string) : string :=
  match s with
  | EmptyString => EmptyString
  | String c rest => if keep c then String c (take_while keep rest) else EmptyString
  end.

Definition is_space (c : ascii) : bool :=
  let n := nat_of_ascii c in
  (n =? 32)%nat || ((9 <=? n)%nat && (n <=? 13)%nat).

Fixpoint trim_start (s : string) : string :=
  match s with
  | EmptyString => EmptyString
  | String c rest => if is_space c then trim_start rest else s
  end.

Fixpoint rev_string (s : string) : string :=
  match s with
  | EmptyString => EmptyString
  | String c rest => (rev_string rest ++ String c EmptyString)%string
  end.

(** [String.prototype.trim] *)
Definition trim (s : string) : string :=
  rev_string (trim_start (rev_string (trim_start s))).

Definition digit_char (d : Z) : ascii := ascii_of_nat (Z.to_nat (48 + d mod 10)).

(** The last [width] decimal digits of [n], zero padded. *)
Fixpoint pad_digits (width : nat) (n : Z) : string :=
  match width with
  | O => EmptyString
  | S w => (pad_digits w (n / 10) ++ String (digit_char n) EmptyString)%string
  end.

Fixpoint digits_value (acc : Z) (s : string) : Z :=
  match s with
  | EmptyString => acc
  | String c rest => digits_value (10 * acc + digit_value c) rest
  end.

End Str.

(* ===================================================================== *)
(** * The Date built-ins the sources call *)
(* ===================================================================== *)

Module JsDate.

Definition msPerDay : Z := 86400000.

(** ECMAScript [Day(t)] and [TimeWithinDay(t)] *)
Definition Day (t : Z) : Z := t / msPerDay.
Definition TimeWithinDay (t : Z) : Z := t mod msPerDay.

(** ECMAScript [DayFromYear(y)] *)
Definition DayFromYear (y : Z) : Z :=
  365 * (y - 1970) + (y - 1969) / 4 - (y - 1901) / 100 + (y - 1601) / 400.

Definition InLeapYear (y : Z) : bool :=
  ((y mod 4 =? 0) && negb (y mod 100 =? 0)) || (y mod 400 =? 0).

(** Days of the year that precede month [m] (0 = January). *)
Definition DaysBeforeMonth (m : Z) (leap : bool) : Z :=
  let l := if leap then 1 else 0 in
  if m =? 0 then 0
  else if m =? 1 then 31
  else if m =? 2 then 59 + l
  else if m =? 3 then 90 + l
  else if m =? 4 then 120 + l
  else if m =? 5 then 151 + l
  else if m =? 6 then 181 + l
  else if m =? 7 then 212 + l
  else if m =? 8 then 243 + l
  else if m =? 9 then 273 + l
  else if m =? 10 then 304 + l
  else 334 + l.

(** ECMAScript [MakeDay(year, month, date)]: [month] is zero based and may
    lie outside 0..11, [date] may lie outside the month. *)
Definition MakeDay (year month date : Z) : Z :=
  let ym := year + month / 12 in
  let mn := month mod 12 in
  DayFromYear ym + DaysBeforeMonth mn (InLeapYear ym) + date - 1.

(** ECMAScript [MakeDate(day, time)] *)
Definition MakeDate (day time : Z) : Z := day * msPerDay + time.

(** ECMAScript [YearFromTime], on the day number: the largest year whose
    first day is not after [day].  The year is estimated from the mean
    length of a year and corrected by at most one. *)
Definition YearFromDay (day : Z) : Z :=
  let y := 1970 + (day * 400) / 146097 in
  if DayFromYear (y + 1) <=? day then y + 1
  else if DayFromYear y <=? day then y
  else y - 1.

(** ECMAScript [DayWithinYear] *)
Definition DayWithinYear (day : Z) : Z := day - DayFromYear (YearFromDay day).

(** ECMAScript [MonthFromTime]: 0 = January. *)
Definition MonthFromDay (day : Z) : Z :=
  let d := DayWithinYear day in
  let l := if InLeapYear (YearFromDay day) then 1 else 0 in
  if d <? 31 then 0
  else if d <? 59 + l then 1
  else if d <? 90 + l then 2
  else if d <? 120 + l then 3
  else if d <? 151 + l then 4
  else if d <? 181 + l then 5
  else if d <? 212 + l then 6
  else if d <? 243 + l then 7
  else if d <? 273 + l then 8
  else if d <? 304 + l then 9
  else if d <? 334 + l then 10
  else 11.

(** ECMAScript [DateFromTime]: the day of the month, from 1. *)
Definition DateFromDay (day : Z) : Z :=
  DayWithinYear day
  - DaysBeforeMonth (MonthFromDay day) (InLeapYear (YearFromDay day)) + 1.

Definition getUTCFullYear (t : Z) : Z := YearFromDay (Day t).
Definition getUTCMonth (t : Z) : Z := MonthFromDay (Day t).
Definition getUTCDate (t : Z) : Z := DateFromDay (Day t).

(** [Date.UTC(year, month, date, hours, minutes, seconds, ms)]; a year in
    0..99 stands for 1900 + year. *)
Definition UTC (year month date hours minutes seconds ms : Z) : Z :=
  let yr := if (0 <=? year) && (year <=? 99) then 1900 + year else year in
  MakeDate (MakeDay yr month date)
           (hours * 3600000 + minutes * 60000 + seconds * 1000 + ms).

(** [date.setUTCDate(dt)], returning the new time value *)
Definition setUTCDate (t dt : Z) : Z :=
  MakeDate (MakeDay (getUTCFullYear t) (getUTCMonth t) dt) (TimeWithinDay t).

(** [Date.prototype.toISOString]: YYYY-MM-DDTHH:mm:ss.sssZ, with a sign and
    six digits for a year outside 0..9999. *)
Definition toISOString (t : Z) : string :=
  let y := getUTCFullYear t in
  let m := getUTCMonth t + 1 in
  let d := getUTCDate t in
  let w := TimeWithinDay t in
  let year :=
    if (0 <=? y) && (y <=? 9999) then Str.pad_digits 4 y
    else if y <? 0 then ("-" ++ Str.pad_digits 6 (Z.abs y))%string
    else ("+" ++ Str.pad_digits 6 y)%string in
  (year ++ "-" ++ Str.pad_digits 2 m ++ "-" ++ Str.pad_digits 2 d ++ "T"
   ++ Str.pad_digits 2 (w / 3600000) ++ ":"
   ++ Str.pad_digits 2 ((w / 60000) mod 60) ++ ":"
   ++ Str.pad_digits 2 ((w / 1000) mod 60) ++ "."
   ++ Str.pad_digits 3 (w mod 1000) ++ "Z")%string.

(** The pattern [^\d{4}-\d{2}-\d{2}$]; on a match, the three groups. *)
Definition match_ymd (s : string) : option (Z * Z * Z) :=
  match s with
  | String y1 (String y2 (String y3 (String y4 (String h1
      (String m1 (String m2 (String h2 (String d1 (String d2 EmptyString))))))))) =>
      if forallb Str.is_digit [y1; y2; y3; y4; m1; m2; d1; d2]
         && Ascii.eqb h1 "-" && Ascii.eqb h2 "-"
      then Some (Str.digits_value 0 (String y1 (String y2 (String y3 (String y4 EmptyString)))),
                 Str.digits_value 0 (String m1 (String m2 EmptyString)),
                 Str.digits_value 0 (String d1 (String d2 EmptyString)))
      else None
  | _ => None
  end.

(** [Date.parse(value + "T00:00:00.000Z")] for a [value] that matches
    [^\d{4}-\d{2}-\d{2}$], as V8 (Node.js) evaluates it: the month must lie
    in 1..12 and the day in 1..31, and a day past the end of its month runs
    over into the next one; [None] is NaN. *)
Definition parse_utc_midnight (value : string) : option Z :=
  match match_ymd value with
  | Some (y, m, d) =>
      if (1 <=? m) && (m <=? 12) && (1 <=? d) && (d <=? 31)
      then Some (MakeDate (MakeDay y (m - 1) d) 0)
      else None
  | None => None
  end.

End JsDate.

(* ===================================================================== *)
(** * The analytics workflow: resolving the date range
      (mastra/workflows/analytics-workflow.ts) *)
(* ===================================================================== *)

Module Workflow.
Import JsDate.

Record DateRange : Type := { startDate : string; endDate : string }.

(** An optional string in a condition: absent and [""] are both falsy. *)
Definition truthy (s : option string) : bool :=
  match s with
  | Some (String _ _) => true
  | _ => false
  end.

Definition get (s : option string) : string :=
  match s with
  | Some v => v
  | None => EmptyString
  end.

Definition ISO_DATE_REGEX_test (value : string) : bool :=
  match match_ymd value with
  | Some _ => true
  | None => false
  end.

Definition parseISODate (value field : string) : result Z :=
  if negb (ISO_DATE_REGEX_test value) then
    Throw ("Invalid " ++ field ++ ". Expected format YYYY-MM-DD, received: " ++ value)
  else
    match parse_utc_midnight value with
    | None => Throw ("Invalid " ++ field ++ ". Unable to parse date: " ++ value)
    | Some timestamp => Ok timestamp
    end.

Definition formatISODate (date : Z) : string :=
  substring 0 10 (toISOString date).

Definition addDays (date days : Z) : Z :=
  setUTCDate date (getUTCDate date + days).

Definition ensureChronology (start finish : Z) : result unit :=
  if finish <? start then Throw "endDate must be on or after startDate."
  else Ok tt.

Definition ensureNotFuture (date today : Z) (field : string) : result unit :=
  if date >? today then Throw (field ++ " cannot be in the future.")
  else Ok tt.

Definition startOfUTCDate (date : Z) : Z :=
  UTC (getUTCFullYear date) (getUTCMonth date) (getUTCDate date) 0 0 0 0.

Definition computeDateRange (startDate endDate : option string) (today : Z)
  : result DateRange :=
  let todayStart := startOfUTCDate today in
  if truthy startDate && truthy endDate then
    start <- parseISODate (get startDate) "startDate" ;;
    finish <- parseISODate (get endDate) "endDate" ;;
    ensureChronology start finish ;;;
    ensureNotFuture start todayStart "startDate" ;;;
    ensureNotFuture finish todayStart "endDate" ;;;
    Ok (Build_DateRange (formatISODate start) (formatISODate finish))
  else if truthy startDate && negb (truthy endDate) then
    start <- parseISODate (get startDate) "startDate" ;;
    ensureNotFuture start todayStart "startDate" ;;;
    let tentativeEnd := addDays start 6 in
    let finish := if tentativeEnd >? todayStart then todayStart else tentativeEnd in
    ensureChronology start finish ;;;
    Ok (Build_DateRange (formatISODate start) (formatISODate finish))
  else if negb (truthy startDate) && truthy endDate then
    finish <- parseISODate (get endDate) "endDate" ;;
    ensureNotFuture finish todayStart "endDate" ;;;
    let start := addDays finish (-6) in
    Ok (Build_DateRange (formatISODate start) (formatISODate finish))
  else
    let finish := todayStart in
    let start := addDays finish (-6) in
    Ok (Build_DateRange (formatISODate start) (formatISODate finish)).

(** The reading of "a date in YYYY-MM-DD format" the properties below use:
    four digits, two digits that name a month and two digits that name a
    day of a month, separated by hyphens. *)
Definition in_ymd_format (value : string) : bool :=
  match match_ymd value with
  | Some (_, m, d) => (1 <=? m) && (m <=? 12) && (1 <=? d) && (d <=? 31)
  | None => false
  end.

(** The instant a date in YYYY-MM-DD format names: midnight UTC. *)
Definition instant (value : string) : Z :=
  match match_ymd value with
  | Some (y, m, d) => MakeDate (MakeDay y (m - 1) d) 0
  | None => 0
  end.

End Workflow.


(* ===================================================================== *)
(** * Numbers, Maps and Array methods the rollups use *)
(* ===================================================================== *)

Module Js.

(** [Number(x.toFixed(2))]: the nearest multiple of 1/100, a tie going
    away from zero. *)
Definition toFixed2 (x : Q) : Q :=
  let n := Qfloor (Qabs x * 100 + (1 # 2))%Q in
  if Qle_bool 0 x then (n # 100) else (- n # 100).

(** [Math.round]: the nearest integer, a tie going up. *)
Definition round (x : Q) : Z := Qfloor (x + (1 # 2))%Q.

(** [String(n)] for an integer. *)
Definition string_of_Z (n : Z) : string :=
  if n <? 0 then ("-" ++ NilZero.string_of_uint (N.to_uint (Z.to_N (- n))))%string
  else NilZero.string_of_uint (N.to_uint (Z.to_N n)).

(** [Set.prototype.has] on a Set of strings *)
Definition has (set : list string) (x : string) : bool :=
  existsb (String.eqb x) set.

(** [Map.prototype.get] on a Map with string keys, kept in insertion order. *)
Fixpoint map_get {V : Type} (key : string) (m : list (string * V)) : option V :=
  match m with
  | [] => None
  | (k, v) :: rest => if String.eqb k key then Some v else map_get key rest
  end.

(** [Map.prototype.set]: an existing key keeps its position, a new key goes
    last. *)
Fixpoint map_set {V : Type} (key : string) (value : V) (m : list (string * V))
  : list (string * V) :=
  match m with
  | [] => [(key, value)]
  | (k, v) :: rest =>
      if String.eqb k key then (k, value) :: rest
      else (k, v) :: map_set key value rest
  end.

(** [array.sort((a, b) => key(b) - key(a))]: descending by [key], stable. *)
Fixpoint insert_desc {A : Type} (key : A -> Q) (x : A) (sorted : list A) : list A :=
  match sorted with
  | [] => [x]
  | y :: rest =>
      if Qle_bool (key y) (key x) then x :: y :: rest
      else y :: insert_desc key x rest
  end.

Definition sort_desc {A : Type} (key : A -> Q) (l : list A) : list A :=
  fold_right (insert_desc key) [] l.

(** [array.slice(0, n)] *)
Definition slice0 {A : Type} (n : Z) (l : list A) : list A :=
  if n <? 0 then firstn (List.length l - Z.to_nat (- n)) l
  else firstn (Z.to_nat n) l.

(** [array.join(sep)] on strings *)
Fixpoint join (sep : string) (l : list string) : string :=
  match l with
  | [] => EmptyString
  | [x] => x
  | x :: rest => (x ++ sep ++ join sep rest)%string
  end.

(** Digits in groups of three, separated by commas. *)
Fixpoint group3_rev (fuel : nat) (rev_digits : string) : string :=
  match fuel, rev_digits with
  | S f, String a (String b (String c (String d rest))) =>
      String a (String b (String c (String "," (group3_rev f (String d rest)))))
  | _, _ => rev_digits
  end.

Definition group3 (digits : string) : string :=
  Str.rev_string (group3_rev (String.length digits) (Str.rev_string digits)).

(** [value.toLocaleString('en-US', { minimumFractionDigits: 2,
    maximumFractionDigits: 2 })] *)
Definition formatMajor (value : Q) : string :=
  let hundredths := Qfloor (Qabs value * 100 + (1 # 2))%Q in
  let body :=
    (group3 (string_of_Z (hundredths / 100)) ++ "."
     ++ Str.pad_digits 2 (hundredths mod 100))%string in
  if Qle_bool 0 value then body else ("-" ++ body)%string.

End Js.

(* ===================================================================== *)
(** * Card-ledger rollups (mastra/tools/stripe-analytics-tools.ts) *)
(* ===================================================================== *)

Module StripeAnalytics.

(** [CardSummary] of stripe-charge-tool.ts *)
Record CardSummary : Type := {
  brand : option string;
  country : option string;
  exp_month : option Z;
  exp_year : option Z;
  last4 : option string;
  funding : option string
}.

(** [ChargeSummary] of stripe-charge-tool.ts; the provider's own
    [paymentMethodDetails] object is carried along unread and left out. *)
Record ChargeSummary : Type := {
  id : string;
  amount : Z;
  currency : string;
  status : option string;
  description : option string;
  customerId : option string;
  created : Z;
  refunded : bool;
  receiptUrl : option string;
  card : option CardSummary;
  metadata : list (string * string);
  metadataAmounts : list (string * Q)
}.

Record CurrencyBreakdown : Type := {
  cb_currency : string;
  cb_chargeCount : Z;
  cb_refundedCount : Z;
  cb_grossAmountMinor : Z;
  cb_grossAmountMajor : Q;
  cb_averageTicketMajor : option Q
}.

Record TopCustomer : Type := {
  tc_customerId : string;
  tc_chargeCount : Z;
  tc_grossAmountMinor : Z;
  tc_grossAmountMajor : Q;
  tc_lastChargeId : string;
  tc_lastChargeCreated : Z;
  tc_currencyBreakdown : list CurrencyBreakdown;
  tc_metadataTotals : list (string * Q)
}.

Record TopCustomersOutput : Type := {
  range : string * string;
  totalCustomers : Z;
  topCustomers : list TopCustomer;
  insights : list string
}.

Definition ZERO_DECIMAL_CURRENCIES : list string :=
  ["bif"; "clp"; "djf"; "gnf"; "jpy"; "kmf"; "krw"; "mga"; "pyg"; "rwf";
   "ugx"; "vnd"; "vuv"; "xaf"; "xof"; "xpf"]%string.

Definition convertToMajorUnits (amount : Z) (currency : string) : Q :=
  let divisor := if Js.has ZERO_DECIMAL_CURRENCIES (Str.toLowerCase currency) then 1 else 100 in
  Js.toFixed2 (inject_Z amount / inject_Z divisor).

Definition sumMajorAmount (charges : list ChargeSummary) : Q :=
  Js.toFixed2
    (fold_left (fun acc charge =>
                  (acc + convertToMajorUnits (amount charge) (currency charge))%Q)
               charges 0%Q).

(** The entry a currency accumulates in the Map of [aggregateByCurrency]. *)
Record CurrencyEntry : Type := {
  chargeCount : Z;
  refundedCount : Z;
  grossAmountMinor : Z
}.

Definition aggregateByCurrency_step
  (map : list (string * CurrencyEntry)) (charge : ChargeSummary)
  : list (string * CurrencyEntry) :=
  let currency := Str.toLowerCase (currency charge) in
  let entry :=
    match Js.map_get currency map with
    | Some e => e
    | None => Build_CurrencyEntry 0 0 0
    end in
  let entry :=
    Build_CurrencyEntry
      (chargeCount entry + 1)
      (if refunded charge then refundedCount entry + 1 else refundedCount entry)
      (grossAmountMinor entry + amount charge) in
  Js.map_set currency entry map.

Definition aggregateByCurrency (charges : list ChargeSummary) : list CurrencyBreakdown :=
  let map := fold_left aggregateByCurrency_step charges [] in
  let breakdown :=
    List.map
      (fun '(currency, entry) =>
         let grossAmountMajor := convertToMajorUnits (grossAmountMinor entry) currency in
         Build_CurrencyBreakdown
           currency
           (chargeCount entry)
           (refundedCount entry)
           (grossAmountMinor entry)
           grossAmountMajor
           (if chargeCount entry >? 0
            then Some (Js.toFixed2 (grossAmountMajor / inject_Z (chargeCount entry)))
            else None))
      map in
  Js.sort_desc cb_grossAmountMajor breakdown.

(** [mergeMetadataTotals]: a copy of [base] with every amount of [addition]
    added in; the keys met here are never array indices, so the object
    keeps them in insertion order. *)
Definition mergeMetadataTotals (base addition : list (string * Q)) : list (string * Q) :=
  fold_left
    (fun merged '(key, value) =>
       Js.map_set key
         ((match Js.map_get key merged with Some v => v | None => 0 end) + value)%Q
         merged)
    addition base.

Definition formatDate (unixSeconds : Z) : string :=
  Str.take_while (fun c => negb (Ascii.eqb c "T")) (JsDate.toISOString (unixSeconds * 1000)).

(** The value a customer accumulates in the Map of [buildTopCustomersSummary]. *)
Record CustomerEntry : Type := {
  ce_chargeCount : Z;
  ce_grossAmountMinor : Z;
  ce_lastChargeCreated : Z;
  ce_lastChargeId : string;
  ce_charges : list ChargeSummary;
  ce_metadataTotals : list (string * Q)
}.

Definition customer_step
  (customerMap : list (string * CustomerEntry)) (charge : ChargeSummary)
  : list (string * CustomerEntry) :=
  let customerId := match customerId charge with Some c => c | None => "unknown"%string end in
  match Js.map_get customerId customerMap with
  | None =>
      Js.map_set customerId
        (Build_CustomerEntry 1 (amount charge) (created charge) (id charge)
           [charge] (metadataAmounts charge))
        customerMap
  | Some existing =>
      let newer := created charge >? ce_lastChargeCreated existing in
      Js.map_set customerId
        (Build_CustomerEntry
           (ce_chargeCount existing + 1)
           (ce_grossAmountMinor existing + amount charge)
           (if newer then created charge else ce_lastChargeCreated existing)
           (if newer then id charge else ce_lastChargeId existing)
           (ce_charges existing ++ [charge])
           (mergeMetadataTotals (ce_metadataTotals existing) (metadataAmounts charge)))
        customerMap
  end.

(** The metadata highlights of an insight: non-zero totals, largest
    magnitude first, the first two. *)
Definition metadata_highlights (totals : list (string * Q)) : list string :=
  List.map (fun '(key, value) => (key ++ ": " ++ Js.formatMajor value)%string)
    (Js.slice0 2
       (Js.sort_desc (fun e => Qabs (snd e))
          (filter (fun e => negb (Qeq_bool (snd e) 0)) totals))).

Definition generateTopCustomerInsights
  (startDate endDate : string) (totalCustomers : Z)
  (topCustomers : list TopCustomer) (limit : Z) : list string :=
  if totalCustomers =? 0 then
    [("No customer activity detected between " ++ startDate ++ " and " ++ endDate ++ ".")%string]
  else
    let displayedCount := Z.of_nat (List.length topCustomers) in
    let displayedGross :=
      fold_left (fun sum customer => (sum + tc_grossAmountMajor customer)%Q) topCustomers 0%Q in
    let first :=
      (Js.string_of_Z totalCustomers ++ " customers transacted between " ++ startDate
       ++ " and " ++ endDate ++ "; top " ++ Js.string_of_Z displayedCount
       ++ " accounted for " ++ Js.formatMajor displayedGross ++ ".")%string in
    let about_leader :=
      match topCustomers with
      | [] => []
      | leader :: _ =>
          let lastChargeDate := formatDate (tc_lastChargeCreated leader) in
          [("Top customer " ++ tc_customerId leader ++ " generated "
            ++ Js.formatMajor (tc_grossAmountMajor leader) ++ " across "
            ++ Js.string_of_Z (tc_chargeCount leader) ++ " charges; last purchase on "
            ++ lastChargeDate ++ ".")%string]
          ++ match tc_currencyBreakdown leader with
             | [] => []
             | leaderCurrency :: _ =>
                 [(tc_customerId leader ++ " primarily paid in "
                   ++ Str.toUpperCase (cb_currency leaderCurrency) ++ " totaling "
                   ++ Js.formatMajor (cb_grossAmountMajor leaderCurrency) ++ ".")%string]
             end
          ++ match metadata_highlights (tc_metadataTotals leader) with
             | [] => []
             | highlights =>
                 [("Key metadata for " ++ tc_customerId leader ++ ": "
                   ++ Js.join ", " highlights ++ ".")%string]
             end
      end in
    let truncated :=
      if totalCustomers >? displayedCount then
        [("Only top " ++ Js.string_of_Z displayedCount ++ " of "
          ++ Js.string_of_Z totalCustomers ++ " customers shown (limit "
          ++ Js.string_of_Z limit ++ ").")%string]
      else [] in
    first :: about_leader ++ truncated.

Definition buildTopCustomersSummary
  (startDate endDate : string) (charges : list ChargeSummary) (limit : Z)
  : TopCustomersOutput :=
  let customerMap := fold_left customer_step charges [] in
  let customerSummaries :=
    Js.slice0 limit
      (Js.sort_desc tc_grossAmountMajor
         (List.map
            (fun '(customerId, data) =>
               Build_TopCustomer
                 customerId
                 (ce_chargeCount data)
                 (ce_grossAmountMinor data)
                 (sumMajorAmount (ce_charges data))
                 (ce_lastChargeId data)
                 (ce_lastChargeCreated data)
                 (aggregateByCurrency (ce_charges data))
                 (ce_metadataTotals data))
            customerMap)) in
  let size := Z.of_nat (List.length customerMap) in
  Build_TopCustomersOutput
    (startDate, endDate)
    size
    customerSummaries
    (generateTopCustomerInsights startDate endDate size customerSummaries limit).

End StripeAnalytics.

(* ===================================================================== *)
(** * HTTP responses and computations that may not finish *)
(* ===================================================================== *)

(** What [await fetch(url, init)] resolves to, as far as the callers look:
    [json] is what [await response.json()] gives, which can itself throw. *)
Record Response (Body : Type) : Type := {
  ok : bool;
  http_status : Z;
  text : string;
  json : result Body
}.
Arguments ok {Body}.
Arguments http_status {Body}.
Arguments text {Body}.
Arguments json {Body}.

(** A loop whose length the remote side decides runs on fuel: [None] means
    that the fuel ran out before the loop ended. *)
Definition outcome (A : Type) : Type := option (result A).

(* ===================================================================== *)
(** * Wallet-ledger access token (lib/paypal.ts) *)
(* ===================================================================== *)

Module PaypalAuth.

(** The body of the token response: [access_token] when it is a string. *)
Record TokenBody : Type := { access_token : option string }.

Definition getPaypalAccessToken (fetched : result (Response TokenBody))
  : result (option string) :=
  response <- fetched ;;
  if negb (ok response) then
    Throw ("Failed to fetch PayPal access token: "
           ++ Js.string_of_Z (http_status response) ++ " " ++ text response)
  else
    data <- json response ;;
    match access_token data with
    | Some (String c rest) => Ok (Some (String c rest))
    | _ => Ok None
    end.

End PaypalAuth.

(* ===================================================================== *)
(** * Wallet-ledger adapter (mastra/tools/paypal-charge-tool.ts) *)
(* ===================================================================== *)

Module PaypalCharge.

Definition EXPRESS_CHECKOUT_EVENT_CODES : list string :=
  ["T0006"; "T1106"; "T1006"]%string.

Record PaypalPhone : Type := {
  national_number : option string;
  extension_number : option string;
  phone_type : option string;
  area_code : option string
}.

Record PaypalAddress : Type := {
  line1 : option string;
  line2 : option string;
  city : option string;
  state : option string;
  address_country_code : option string;
  postal_code : option string;
  admin_area_1 : option string;
  admin_area_2 : option string
}.

Record TransactionAmount : Type := {
  currency_code : option string;
  value : option string
}.

Record TransactionInfo : Type := {
  transaction_id : option string;
  paypal_reference_id : option string;
  paypal_reference_id_type : option string;
  transaction_event_code : option string;
  transaction_event_code_description : option string;
  transaction_status : option string;
  transaction_initiation_date : option string;
  transaction_updated_date : option string;
  transaction_amount : option TransactionAmount;
  invoice_id : option string;
  custom_field : option string
}.

Record PayerInfo : Type := {
  email_address : option string;
  account_id : option string;
  trx_id : option string;
  phone : option string;
  phone_number : option PaypalPhone;
  first_name : option string;
  last_name : option string;
  middle_name : option string;
  payer_country_code : option string;
  payer_address : option PaypalAddress
}.

Record ShippingInfo : Type := {
  shipping_name : option string;
  shipping_address : option PaypalAddress
}.

Record PaypalTransactionDetail : Type := {
  transaction_info : option TransactionInfo;
  payer_info : option PayerInfo;
  shipping_info : option ShippingInfo
}.

(** [CardInfoRecord]; its [provider] is the constant 'paypal'. *)
Record CardInfoRecord : Type := {
  orderId : string;
  transactionId : string;
  amountMinor : Z;
  amountMajor : Q;
  createdAtUtc : string;
  status : option string;
  currency : option string;
  customerEmail : option string;
  customerPhone : option string;
  record_city : option string;
  addressCountry : option string;
  issueCountry : option string;
  cardBrand : option string;
  cardFunding : option string;
  cardTokenization : option string;
  cardLast4 : option string;
  avsLine1 : option string;
  avsZip : option string;
  cvcStatus : option string
}.

(** The empty object that stands in for a missing part of a transaction. *)
Definition no_info : TransactionInfo :=
  Build_TransactionInfo None None None None None None None None None None None.
Definition no_payer : PayerInfo :=
  Build_PayerInfo None None None None None None None None None None.
Definition no_shipping : ShippingInfo := Build_ShippingInfo None None.

(** [a ?? b] *)
Definition orElse {A : Type} (a b : option A) : option A :=
  match a with
  | Some _ => a
  | None => b
  end.

Definition toNullableString (value : option string) : option string :=
  match value with
  | None | Some EmptyString => None
  | Some v =>
      let trimmed := Str.trim v in
      if (0 <? String.length trimmed)%nat then Some trimmed else None
  end.

Definition toUpper (value : option string) : option string :=
  match toNullableString value with
  | Some (String c rest) => Some (Str.toUpperCase (String c rest))
  | _ => None
  end.

(** The argument of [normalizePhone]: a phone object or a plain string. *)
Inductive phone_value : Type :=
| PhoneObject (p : PaypalPhone)
| PhoneString (s : string).

Definition normalizePhone (phone : option phone_value) : option string :=
  match phone with
  | None | Some (PhoneString EmptyString) => None
  | Some (PhoneString s) => toNullableString (Some s)
  | Some (PhoneObject p) =>
      let national := toNullableString (national_number p) in
      let extension := toNullableString (extension_number p) in
      match national, extension with
      | Some n, Some e => Some (n ++ " ext " ++ e)%string
      | _, _ => orElse national extension
      end
  end.

Definition isExpressCheckoutPayment (detail : PaypalTransactionDetail) : bool :=
  let codeRaw := match transaction_info detail with
                 | Some info => transaction_event_code info
                 | None => None
                 end in
  let by_code :=
    match codeRaw with
    | Some (String c rest) =>
        Js.has EXPRESS_CHECKOUT_EVENT_CODES (Str.toUpperCase (String c rest))
    | _ => false
    end in
  if by_code then true
  else
    let description := match transaction_info detail with
                       | Some info => transaction_event_code_description info
                       | None => None
                       end in
    match description with
    | Some d => Str.includes (Str.toLowerCase d) "express checkout payment"
    | None => false
    end.

Definition ZERO_DECIMAL_CURRENCIES : list string :=
  ["bif"; "clp"; "djf"; "gnf"; "jpy"; "kmf"; "krw"; "mga"; "pyg"; "rwf";
   "ugx"; "vnd"; "vuv"; "xaf"; "xof"; "xpf"]%string.

(** What [Number.parseFloat] can return. *)
Inductive number : Type :=
| NaN
| Infinity (negative : bool)
| Finite (q : Q).

Section Adapter.

(** The built-ins whose result depends on the engine or on the clock, and
    the two remote calls. *)
Variable parseFloat : string -> number.
Variable Date_parse : string -> option Z.
Variable now : Z.
Variable fetch_token : result (Response PaypalAuth.TokenBody).

(** The body of a page of the transaction listing:
    [transaction_details] when it is an array, [total_pages] when it is a
    number. *)
Record TransactionsPage : Type := {
  transaction_details : option (list PaypalTransactionDetail);
  total_pages : option Z
}.

Variable fetch_page : Z -> Z -> Z -> result (Response TransactionsPage).

Definition normalizeAmount (transactionAmount : option TransactionAmount) : Z * Q :=
  let valueRaw := match transactionAmount with Some a => value a | None => None end in
  let currency := match transactionAmount with Some a => currency_code a | None => None end in
  let numeric := match valueRaw with Some v => parseFloat v | None => NaN end in
  let normalizedCurrency :=
    match toUpper currency with Some c => c | None => "USD"%string end in
  match numeric with
  | NaN | Infinity _ => (0, 0%Q)
  | Finite q =>
      if Qle_bool 0 q then
        let divisor :=
          if Js.has ZERO_DECIMAL_CURRENCIES (Str.toLowerCase normalizedCurrency)
          then 1 else 100 in
        let minor := Js.round (q * inject_Z divisor) in
        let major := Js.toFixed2 (inject_Z minor / inject_Z divisor) in
        (minor, major)
      else (0, 0%Q)
  end.

(** [new Date(...).toISOString()], which throws on an invalid date. *)
Definition toISOString (date : option Z) : result string :=
  match date with
  | Some t => Ok (JsDate.toISOString t)
  | None => Throw "Invalid time value"
  end.

Definition mapPaypalTransactionToCardInfo (detail : PaypalTransactionDetail)
  : result (option CardInfoRecord) :=
  if negb (isExpressCheckoutPayment detail) then Ok None
  else
    let info := match transaction_info detail with Some i => i | None => no_info end in
    let payer := match payer_info detail with Some p => p | None => no_payer end in
    let shipping := match shipping_info detail with Some s => s | None => no_shipping end in
    let amount := normalizeAmount (transaction_amount info) in
    match toNullableString (transaction_id info) with
    | None => Ok None
    | Some transactionId =>
        match orElse (toNullableString (invoice_id info))
                     (toNullableString (custom_field info)) with
        | None => Ok None
        | Some orderId =>
            let initiationDate :=
              match transaction_initiation_date info with
              | Some (String c rest) => Date_parse (String c rest)
              | _ => Some now
              end in
            let shippingAddress := orElse (shipping_address shipping) (payer_address payer) in
            let address_field (f : PaypalAddress -> option string) :=
              match shippingAddress with Some a => f a | None => None end in
            created <- toISOString initiationDate ;;
            Ok (Some (Build_CardInfoRecord
              orderId
              transactionId
              (fst amount)
              (snd amount)
              created
              (toNullableString (transaction_status info))
              (toUpper (match transaction_amount info with
                        | Some a => currency_code a
                        | None => None
                        end))
              (toNullableString (email_address payer))
              (orElse (normalizePhone (option_map PhoneObject (phone_number payer)))
                      (normalizePhone (option_map PhoneString (phone payer))))
              (orElse (toNullableString (address_field city))
                      (toNullableString (address_field admin_area_2)))
              (orElse (toUpper (address_field address_country_code))
                      (toUpper (payer_country_code payer)))
              None None None None None None None None))
        end
    end.

(** The [while (page <= totalPages)] loop of [fetchPaypalTransactions]. *)
Fixpoint fetch_pages (fuel : nat) (start finish page totalPages : Z)
  (details : list PaypalTransactionDetail) : outcome (list PaypalTransactionDetail) :=
  if page <=? totalPages then
    match fuel with
    | O => None
    | S fuel' =>
        match fetch_page start finish page with
        | Throw m => Some (Throw m)
        | Ok response =>
            if negb (ok response) then
              Some (Throw ("Failed to fetch PayPal transactions: "
                           ++ Js.string_of_Z (http_status response) ++ " " ++ text response))
            else
              match json response with
              | Throw m => Some (Throw m)
              | Ok data =>
                  let pageDetails :=
                    match transaction_details data with Some l => l | None => [] end in
                  let totalPages' :=
                    match total_pages data with
                    | Some n => if n >? 0 then n else 1
                    | None => 1
                    end in
                  fetch_pages fuel' start finish (page + 1) totalPages'
                    (details ++ pageDetails)
              end
        end
    end
  else Some (Ok details).

Definition fetchPaypalTransactions (fuel : nat) (start finish : Z)
  : outcome (list PaypalTransactionDetail) :=
  match PaypalAuth.getPaypalAccessToken fetch_token with
  | Throw m => Some (Throw m)
  | Ok None => Some (Ok [])
  | Ok (Some accessToken) => fetch_pages fuel start finish 1 1 []
  end.

(** [transactions.map(mapPaypalTransactionToCardInfo).filter(r => r !== null)] *)
Fixpoint map_records (transactions : list PaypalTransactionDetail)
  : result (list CardInfoRecord) :=
  match transactions with
  | [] => Ok []
  | detail :: rest =>
      record <- mapPaypalTransactionToCardInfo detail ;;
      records <- map_records rest ;;
      Ok (match record with Some r => r :: records | None => records end)
  end.

Definition fetchPaypalCardInfo (fuel : nat) (start finish : Z)
  : outcome (list CardInfoRecord) :=
  match fetchPaypalTransactions fuel start finish with
  | None => None
  | Some (Throw m) => Some (Throw m)
  | Some (Ok transactions) => Some (map_records transactions)
  end.

Definition parseDate (date field : string) (isStart : bool) : result Z :=
  match JsDate.match_ymd date with
  | None =>
      Throw ("Invalid " ++ field ++ " supplied. Expected format YYYY-MM-DD, received: " ++ date)
  | Some (year, month, day) =>
      let monthIndex := month - 1 in
      Ok (if isStart then JsDate.UTC year monthIndex day 0 0 0 0
          else JsDate.UTC year monthIndex day 23 59 59 999)
  end.

Definition parseDateRange (startDate endDate : string) : result (Z * Z) :=
  start <- parseDate startDate "startDate" true ;;
  finish <- parseDate endDate "endDate" false ;;
  if finish <? start then Throw "endDate must be after startDate"
  else Ok (start, finish).

(** [paypalChargeTool.execute] *)
Definition paypalChargeTool (fuel : nat) (startDate endDate : string)
  : outcome (list CardInfoRecord) :=
  match parseDateRange startDate endDate with
  | Throw _ => Some (Ok [])
  | Ok (start, finish) =>
      match fetchPaypalCardInfo fuel start finish with
      | None => None
      | Some body => Some (try_catch body [])
      end
  end.

End Adapter.

End PaypalCharge.

(* ===================================================================== *)
(** * Wallet-ledger rollups (mastra/tools/paypal-analytics-tools.ts) *)
(* ===================================================================== *)

Module PaypalAnalytics.
Import PaypalCharge.

Record CurrencyBreakdown : Type := {
  cb_currency : string;
  cb_transactionCount : Z;
  cb_refundedCount : Z;
  cb_grossAmountMinor : Z;
  cb_grossAmountMajor : Q;
  cb_averageTicketMajor : option Q
}.

Record CustomerBreakdown : Type := {
  tc_customerId : string;
  tc_transactionCount : Z;
  tc_grossAmountMinor : Z;
  tc_grossAmountMajor : Q;
  tc_lastTransactionId : string;
  tc_lastTransactionCreated : string;
  tc_currencyBreakdown : list CurrencyBreakdown
}.

Record TopCustomersOutput : Type := {
  range : string * string;
  totalCustomers : Z;
  topCustomers : list CustomerBreakdown;
  insights : list string
}.

Definition isRefunded (status : option string) : bool :=
  match status with
  | None | Some EmptyString => false
  | Some s =>
      let normalized := Str.toLowerCase s in
      Str.includes normalized "refund"
      || String.eqb normalized "reversed"
      || String.eqb normalized "cancelled"
  end.

Definition deriveCustomerId (charge : CardInfoRecord) : string :=
  match orElse (customerEmail charge) (customerPhone charge) with
  | Some c => c
  | None => "unknown"%string
  end.

(** The entry a currency accumulates in the Map of [aggregateByCurrency]. *)
Record CurrencyEntry : Type := {
  transactionCount : Z;
  refundedCount : Z;
  grossAmountMinor : Z;
  grossAmountMajor : Q
}.

Definition aggregateByCurrency_step
  (map : list (string * CurrencyEntry)) (charge : CardInfoRecord)
  : list (string * CurrencyEntry) :=
  let currency :=
    Str.toUpperCase (match currency charge with Some c => c | None => "USD"%string end) in
  let entry :=
    match Js.map_get currency map with
    | Some e => e
    | None => Build_CurrencyEntry 0 0 0 0%Q
    end in
  let entry :=
    Build_CurrencyEntry
      (transactionCount entry + 1)
      (refundedCount entry + (if isRefunded (status charge) then 1 else 0))
      (grossAmountMinor entry + amountMinor charge)
      (grossAmountMajor entry + amountMajor charge)%Q in
  Js.map_set currency entry map.

Definition aggregateByCurrency (charges : list CardInfoRecord) : list CurrencyBreakdown :=
  let map := fold_left aggregateByCurrency_step charges [] in
  let breakdown :=
    List.map
      (fun '(currency, entry) =>
         Build_CurrencyBreakdown
           currency
           (transactionCount entry)
           (refundedCount entry)
           (grossAmountMinor entry)
           (Js.toFixed2 (grossAmountMajor entry))
           (if transactionCount entry >? 0
            then Some (Js.toFixed2 (grossAmountMajor entry / inject_Z (transactionCount entry)))
            else None))
      map in
  Js.sort_desc cb_grossAmountMajor breakdown.

Section Rollup.

(** [new Date(iso).getTime()]; [None] is NaN. *)
Variable Date_parse : string -> option Z.

Definition formatDate (iso : string) : string :=
  match Date_parse iso with
  | None => iso
  | Some t => substring 0 10 (JsDate.toISOString t)
  end.

(** The value a customer accumulates in the Map of [buildTopCustomersSummary]. *)
Record CustomerEntry : Type := {
  ce_transactionCount : Z;
  ce_grossAmountMinor : Z;
  ce_grossAmountMajor : Q;
  ce_lastTransactionId : string;
  ce_lastTransactionCreated : string;
  ce_charges : list CardInfoRecord
}.

Definition customer_step
  (customerMap : list (string * CustomerEntry)) (charge : CardInfoRecord)
  : list (string * CustomerEntry) :=
  let customerId := deriveCustomerId charge in
  match Js.map_get customerId customerMap with
  | None =>
      Js.map_set customerId
        (Build_CustomerEntry 1 (amountMinor charge) (amountMajor charge)
           (transactionId charge) (createdAtUtc charge) [charge])
        customerMap
  | Some existing =>
      let newer :=
        match Date_parse (createdAtUtc charge),
              Date_parse (ce_lastTransactionCreated existing) with
        | Some a, Some b => a >? b
        | _, _ => false
        end in
      Js.map_set customerId
        (Build_CustomerEntry
           (ce_transactionCount existing + 1)
           (ce_grossAmountMinor existing + amountMinor charge)
           (ce_grossAmountMajor existing + amountMajor charge)%Q
           (if newer then transactionId charge else ce_lastTransactionId existing)
           (if newer then createdAtUtc charge else ce_lastTransactionCreated existing)
           (ce_charges existing ++ [charge]))
        customerMap
  end.

Definition generateTopCustomerInsights
  (startDate endDate : string) (totalCustomers : Z)
  (topCustomers : list CustomerBreakdown) (limit : Z) : list string :=
  if totalCustomers =? 0 then
    [("No PayPal customer activity detected between " ++ startDate ++ " and "
      ++ endDate ++ ".")%string]
  else
    let displayedCount := Z.of_nat (List.length topCustomers) in
    let displayedGross :=
      fold_left (fun sum customer => (sum + tc_grossAmountMajor customer)%Q) topCustomers 0%Q in
    let first :=
      (Js.string_of_Z totalCustomers ++ " PayPal customers transacted between "
       ++ startDate ++ " and " ++ endDate ++ "; top " ++ Js.string_of_Z displayedCount
       ++ " accounted for " ++ Js.formatMajor (Js.toFixed2 displayedGross) ++ ".")%string in
    let about_leader :=
      match topCustomers with
      | [] => []
      | leader :: _ =>
          let lastDate := formatDate (tc_lastTransactionCreated leader) in
          [("Top customer " ++ tc_customerId leader ++ " contributed "
            ++ Js.formatMajor (tc_grossAmountMajor leader) ++ " across "
            ++ Js.string_of_Z (tc_transactionCount leader)
            ++ " transactions; last activity " ++ lastDate ++ ".")%string]
      end in
    let remainder :=
      if (totalCustomers >? limit) && (displayedCount >? 0) then
        [("Additional " ++ Js.string_of_Z (totalCustomers - displayedCount)
          ++ " customers generated the remainder of volume.")%string]
      else [] in
    first :: about_leader ++ remainder.

Definition buildTopCustomersSummary
  (startDate endDate : string) (charges : list CardInfoRecord) (limit : Z)
  : TopCustomersOutput :=
  let customerMap := fold_left customer_step charges [] in
  let customerSummaries :=
    Js.slice0 limit
      (Js.sort_desc tc_grossAmountMajor
         (List.map
            (fun '(customerId, data) =>
               Build_CustomerBreakdown
                 customerId
                 (ce_transactionCount data)
                 (ce_grossAmountMinor data)
                 (Js.toFixed2 (ce_grossAmountMajor data))
                 (ce_lastTransactionId data)
                 (ce_lastTransactionCreated data)
                 (aggregateByCurrency (ce_charges data)))
            customerMap)) in
  let size := Z.of_nat (List.length customerMap) in
  Build_TopCustomersOutput
    (startDate, endDate)
    size
    customerSummaries
    (generateTopCustomerInsights startDate endDate size customerSummaries limit).

End Rollup.

End PaypalAnalytics.

(* ===================================================================== *)
(** * Card-ledger adapter (mastra/tools/stripe-charge-tool.ts) *)
(* ===================================================================== *)

Module StripeCharge.
Import StripeAnalytics.

(** [charge.customer]: an id, an expanded customer object, or null. *)
Inductive customer_ref : Type :=
| CustomerId (id : string)
| CustomerObject (id : string).

(** The fields of a [Stripe.Charge] that [getStripeCharges] reads. *)
Record ApiCharge : Type := {
  api_id : string;
  api_amount : Z;
  api_currency : string;
  api_status : string;
  api_description : option string;
  api_customer : option customer_ref;
  api_created : Z;
  api_refunded : option bool;
  api_receipt_url : option string;
  api_card : option CardSummary;
  api_metadata : list (string * string)
}.

Definition CENT_VALUE_KEYS : list string :=
  ["gross"; "net"; "product_gross"; "product_net"; "product_total";
   "total_additions"; "total_cuts"; "price"; "amount"; "subtotal"; "tax"; "fee"]%string.

Definition CENT_SUFFIXES : list string :=
  ["_gross"; "_net"; "_total"; "_amount"; "_price"; "_subtotal"; "_tax"; "_fee"]%string.

Definition isCentKey (key : string) : bool :=
  let normalized := Str.toLowerCase key in
  if Js.has CENT_VALUE_KEYS normalized then true
  else existsb (fun suffix => Str.endsWith normalized suffix) CENT_SUFFIXES.

Definition toCardSummary (card : option CardSummary) : option CardSummary := card.

Section Adapter.

(** [Number(value)] of a metadata string; [None] is NaN.  A string that
    converts to an infinite number is outside this model. *)
Variable Number_of_string : string -> option Q.

(** The auto-paginated [stripe.charges.list({ limit: 100, created: { gte,
    lte } })], read to its end by [for await]: every charge it yields, or
    the error that the iteration rejects with. *)
Variable list_charges : Z -> Z -> result (list ApiCharge).

Definition extractMetadataAmounts (metadata : list (string * string)) : list (string * Q) :=
  fold_left
    (fun amounts '(key, value) =>
       match value with
       | EmptyString => amounts
       | _ =>
           if negb (isCentKey key) then amounts
           else match Number_of_string value with
                | None => amounts
                | Some numeric => Js.map_set key (numeric / 100)%Q amounts
                end
       end)
    metadata [].

Definition parseDateToUnix (date field : string) : result Z :=
  match JsDate.match_ymd date with
  | None =>
      Throw ("Invalid " ++ field ++ " supplied. Expected format YYYY-MM-DD, received: " ++ date)
  | Some (year, month, day) =>
      let monthIndex := month - 1 in
      let utcMs :=
        if String.eqb field "startDate" then JsDate.UTC year monthIndex day 0 0 0 0
        else JsDate.UTC year monthIndex day 23 59 59 999 in
      Ok (utcMs / 1000)
  end.

Definition to_summary (charge : ApiCharge) : ChargeSummary :=
  Build_ChargeSummary
    (api_id charge)
    (api_amount charge)
    (api_currency charge)
    (Some (api_status charge))
    (api_description charge)
    (match api_customer charge with
     | Some (CustomerId c) => Some c
     | Some (CustomerObject c) => Some c
     | None => None
     end)
    (api_created charge)
    (match api_refunded charge with Some b => b | None => false end)
    (api_receipt_url charge)
    (toCardSummary (api_card charge))
    (api_metadata charge)
    (extractMetadataAmounts (api_metadata charge)).

(** The body of the [try] block of [getStripeCharges]. *)
Definition getStripeCharges_body (startDate endDate : string) : result (list ChargeSummary) :=
  startTimestamp <- parseDateToUnix startDate "startDate" ;;
  endTimestamp <- parseDateToUnix endDate "endDate" ;;
  if endTimestamp <? startTimestamp then Throw "endDate must be after startDate"
  else
    listed <- list_charges startTimestamp endTimestamp ;;
    Ok (List.map to_summary
          (filter (fun charge => String.eqb (api_status charge) "succeeded") listed)).

Definition getStripeCharges (startDate endDate : string) : result (list ChargeSummary) :=
  try_catch (getStripeCharges_body startDate endDate) [].

(** [stripeChargeTool.execute] *)
Definition stripeChargeTool (startDate endDate : string) : result (list ChargeSummary) :=
  getStripeCharges startDate endDate.

End Adapter.

End StripeCharge.

(* ===================================================================== *)
(** * Purchase sessions: the paged query (lib/bigquery.ts) and the tool
      that stitches pages together (mastra/tools/bigquery-purchase-tool.ts) *)
(* ===================================================================== *)

Module PurchaseSessions.

Definition MAX_ROWS : Z := 5000.
Definition DEFAULT_LIMIT : Z := 500.
Definition DEFAULT_PAGE : Z := 1.

(** The options of [fetchPurchaseSessions]; the paging numbers are
    integers when present. *)
Record FetchOptions : Type := {
  startDate : option string;
  endDate : option string;
  limit : option Z;
  page : option Z;
  pageSize : option Z;
  truncateStrings : bool
}.

Section Query.

(** A row the statement returns and the record [fetchPurchaseSessions]
    shapes it into (its strings clipped when [truncateStrings] is set). *)
Variables RawRow Row : Type.
Variable shape : bool -> RawRow -> Row.

(** The rows of the purchase-sessions statement for a table and a date
    range, in the order of its ORDER BY and before its LIMIT and OFFSET;
    a failed job throws. *)
Variable run_query : string -> option string -> option string -> result (list RawRow).

Definition fetchPurchaseSessions (eventsTable : string) (options : FetchOptions)
  : result (list Row) :=
  let effectivePageSize :=
    match pageSize options with
    | Some n => if n >? 0 then Z.min n MAX_ROWS else DEFAULT_LIMIT
    | None => DEFAULT_LIMIT
    end in
  let effectivePage :=
    match page options with
    | Some n => if n >? 0 then n else DEFAULT_PAGE
    | None => DEFAULT_PAGE
    end in
  let effectiveLimit :=
    match limit options with
    | Some n => if n >? 0 then Z.min n MAX_ROWS else effectivePageSize
    | None => effectivePageSize
    end in
  let offset := (effectivePage - 1) * effectivePageSize in
  ordered <- run_query eventsTable (startDate options) (endDate options) ;;
  let rows :=
    firstn (Z.to_nat effectiveLimit)
      (if offset >? 0 then skipn (Z.to_nat offset) ordered else ordered) in
  Ok (List.map (shape (truncateStrings options)) rows).

End Query.

Inductive environment : Type := env_default | env_dev.

(** The validated input of the tool. *)
Record Context : Type := {
  ctx_startDate : option string;
  ctx_endDate : option string;
  ctx_limit : option Z;
  ctx_environment : environment;
  ctx_page : option Z;
  ctx_pageSize : option Z;
  ctx_truncateStrings : bool;
  ctx_fetchAllPages : bool
}.

Section Tool.

Variable Row : Type.
Variable getPurchaseSessionsByDateRange : FetchOptions -> result (list Row).
Variable getDevPurchaseSessionsByDateRange : FetchOptions -> result (list Row).

Section Loop.

Variable fetcher : FetchOptions -> result (list Row).
Variable context : Context.
Variables target perPage : Z.

(** The options of the fetch for one page inside the loop. *)
Definition page_options (currentPage : Z) : FetchOptions :=
  Build_FetchOptions (ctx_startDate context) (ctx_endDate context)
    (Some perPage) (Some currentPage) (Some perPage) (ctx_truncateStrings context).

(** The [while (rows.length < target)] loop; next to the rows it returns
    the options of every fetch it made, in order. *)
Equations? accumulate (currentPage : Z) (rows : list Row) (calls : list FetchOptions)
  : result (list Row * list FetchOptions)
  by wf (Z.to_nat (target - Z.of_nat (List.length rows))) lt :=
  accumulate currentPage rows calls
    with Z_lt_dec (Z.of_nat (List.length rows)) target => {
    | right _ => Ok (rows, calls);
    | left _ with fetcher (page_options currentPage) => {
      | Throw m => Throw m;
      | Ok [] => Ok (rows, calls ++ [page_options currentPage]);
      | Ok (r :: batch)
          with Z_lt_dec (Z.of_nat (List.length (r :: batch))) perPage => {
          | left _ => Ok (rows ++ r :: batch, calls ++ [page_options currentPage]);
          | right _ =>
              accumulate (currentPage + 1) (rows ++ r :: batch)
                (calls ++ [page_options currentPage]) } } }.
Proof.
  rewrite length_app. cbn [List.length]. lia.
Qed.

End Loop.

(** [bigqueryPurchaseSessionsTool.execute], with the log of its fetches. *)
Definition execute_traced (context : Context) : result (list Row * list FetchOptions) :=
  let fetcher :=
    match ctx_environment context with
    | env_dev => getDevPurchaseSessionsByDateRange
    | env_default => getPurchaseSessionsByDateRange
    end in
  if negb (ctx_fetchAllPages context) then
    let options :=
      Build_FetchOptions (ctx_startDate context) (ctx_endDate context)
        (ctx_limit context) (ctx_page context) (ctx_pageSize context)
        (ctx_truncateStrings context) in
    rows <- fetcher options ;;
    Ok (rows, [options])
  else
    let currentPage := match ctx_page context with Some p => p | None => 1 end in
    let target := match ctx_limit context with Some l => l | None => 100 end in
    let perPage := match ctx_pageSize context with Some s => s | None => 100 end in
    traced <- accumulate fetcher context target perPage currentPage [] [] ;;
    Ok (Js.slice0 target (fst traced), snd traced).

Definition execute (context : Context) : result (list Row) :=
  traced <- execute_traced context ;; Ok (fst traced).

End Tool.

End PurchaseSessions.

(* ===================================================================== *)
(** * Session attribution: PURCHASE_SESSIONS_QUERY_TEMPLATE (lib/bigquery.ts)

    The common table expressions of the statement that decide a session's
    traffic source, as functions over the rows of [events_base].  A NULL
    is [None].  Where the statement leaves a choice to the engine
    ([ANY_VALUE], the order of rows with equal timestamps under
    [ORDER BY event_ts]), the choice is made by a [Chooser], and the
    properties hold for every chooser. *)
(* ===================================================================== *)

Module SessionsQuery.

(** A value of [event_params]: the typed fields of [ep.value]. *)
Record ParamValue : Type := {
  string_value : option string;
  int_value : option Z
}.

Definition text (s : string) : ParamValue := Build_ParamValue (Some s) None.
Definition number (n : Z) : ParamValue := Build_ParamValue None (Some n).

(** An event of the export table, as far as the attribution reads it.
    The parameter keys of one event are distinct. *)
Record Event : Type := {
  event_timestamp : Z;
  raw_event_name : string;
  raw_user_pseudo_id : string;
  event_params : list (string * ParamValue)
}.

(** [(SELECT ep.value.string_value FROM UNNEST(e.event_params) ep
      WHERE ep.key = key)] *)
Definition param_string (key : string) (e : Event) : option string :=
  match Js.map_get key (event_params e) with
  | Some v => string_value v
  | None => None
  end.

Definition param_int (key : string) (e : Event) : option Z :=
  match Js.map_get key (event_params e) with
  | Some v => int_value v
  | None => None
  end.

(** A row of [events_base], restricted to the columns that the session
    key and the attribution read. *)
Record EventRow : Type := {
  event_ts : Z;
  event_name : string;
  user_pseudo_id : string;
  ga_session_id : option Z;
  page_location : option string;
  page_referrer : option string;
  source_start : option string;
  medium_start : option string;
  campaign_start : option string;
  gclid_start : option string;
  dclid_start : option string
}.

Definition events_base_row (e : Event) : EventRow :=
  Build_EventRow
    (event_timestamp e)
    (raw_event_name e)
    (raw_user_pseudo_id e)
    (param_int "ga_session_id" e)
    (param_string "page_location" e)
    (param_string "page_referrer" e)
    (param_string "source" e)
    (param_string "medium" e)
    (param_string "campaign" e)
    (param_string "gclid" e)
    (param_string "dclid" e).

Definition events_base (events : list Event) : list EventRow :=
  List.map events_base_row events.

(** ** The engine's free choices *)

Record Chooser : Type := {
  choose : forall A : Type, list A -> option A;
  choose_In : forall (A : Type) (l : list A) (x : A), choose A l = Some x -> In x l;
  choose_nonempty : forall (A : Type) (l : list A), l <> [] -> choose A l <> None
}.

Definition non_null {A : Type} (l : list (option A)) : list A :=
  flat_map (fun o => match o with Some a => [a] | None => [] end) l.

Definition is_some {A : Type} (o : option A) : bool :=
  match o with Some _ => true | None => false end.

Section Aggregates.

Variable C : Chooser.

(** [ANY_VALUE(column)] over the rows of a group: some non-NULL value of
    the column, NULL when there is none. *)
Definition any_value (column : EventRow -> option string) (rows : list EventRow)
  : option string :=
  choose C string (non_null (List.map column rows)).

(** The rows among [rows] whose timestamp is the least. *)
Definition earliest_rows (rows : list EventRow) : list EventRow :=
  match rows with
  | [] => []
  | r :: rest =>
      let least := fold_left Z.min (List.map event_ts rest) (event_ts r) in
      filter (fun x => event_ts x =? least) rows
  end.

(** [ARRAY_AGG(expr IGNORE NULLS ORDER BY event_ts ASC)[OFFSET(0)]] *)
Definition first_by_ts (expr : EventRow -> option string) (rows : list EventRow)
  : option string :=
  choose C string
    (non_null (List.map expr (earliest_rows (filter (fun r => is_some (expr r)) rows)))).

(** ** Regular expressions of the statement *)

(** [REGEXP_EXTRACT(s, r'^https?://([^/:]+)')] *)
Definition url_host (s : string) : option string :=
  let after_scheme :=
    if Str.startsWith s "http://" then Some (Str.drop 7 s)
    else if Str.startsWith s "https://" then Some (Str.drop 8 s)
    else None in
  match after_scheme with
  | None => None
  | Some rest =>
      match Str.take_while
              (fun c => negb (Ascii.eqb c "/") && negb (Ascii.eqb c ":")) rest with
      | EmptyString => None
      | host => Some host
      end
  end.

(** [REGEXP_CONTAINS(host, r'(^|\.)superalink\.com$')] *)
Definition is_own_domain (host : string) : bool :=
  String.eqb host "superalink.com" || Str.endsWith host ".superalink.com".

(** [REGEXP_EXTRACT] of a landing-page parameter: at the leftmost place
    where ?key= or &key= occurs, the run of characters up to the next
    ampersand or hash sign (possibly empty). *)
Fixpoint query_param (key : string) (url : string) : option string :=
  match url with
  | EmptyString => None
  | String c rest =>
      if (Ascii.eqb c "?" || Ascii.eqb c "&") && Str.startsWith rest (key ++ "=")
      then Some (Str.take_while
                   (fun x => negb (Ascii.eqb x "&") && negb (Ascii.eqb x "#"))
                   (Str.drop (String.length key + 1) rest))
      else query_param key rest
  end.

(** [REGEXP_CONTAINS(referrer, r'(?i)://(www\.)?engine\.')] *)
Definition names_engine (engine referrer : string) : bool :=
  let r := Str.toLowerCase referrer in
  Str.includes r ("://" ++ engine ++ ".") || Str.includes r ("://www." ++ engine ++ ".").

(** The WHEN branches shared by [ref_medium] and [ref_source], in order:
    the pattern's engine and the source it stands for. *)
Definition SEARCH_ENGINES : list (string * string) :=
  [("google", "google"); ("bing", "bing"); ("search.yahoo", "yahoo");
   ("duckduckgo", "duckduckgo"); ("baidu", "baidu"); ("yandex", "yandex")]%string.

Definition search_engine (referrer : string) : option string :=
  option_map snd (find (fun e => names_engine (fst e) referrer) SEARCH_ENGINES).

(** ** The common table expressions, for the rows of one session *)

(** [starts]: present when the session has a [session_start] event. *)
Record Starts : Type := {
  utm_source_start : option string;
  utm_medium_start : option string;
  utm_campaign_start : option string;
  starts_gclid : option string;
  starts_dclid : option string
}.

Definition session_start_rows (rows : list EventRow) : list EventRow :=
  filter (fun r => String.eqb (event_name r) "session_start") rows.

Definition starts (rows : list EventRow) : option Starts :=
  match session_start_rows rows with
  | [] => None
  | group =>
      Some (Build_Starts
              (any_value source_start group)
              (any_value medium_start group)
              (any_value campaign_start group)
              (any_value gclid_start group)
              (any_value dclid_start group))
  end.

(** [session_pages.landing_url] *)
Definition landing_url (rows : list EventRow) : option string :=
  first_by_ts
    (fun r => if String.eqb (event_name r) "page_view" then page_location r else None)
    rows.

(** [utm_from_landing]: one column per key. *)
Definition landing_param (key : string) (rows : list EventRow) : option string :=
  match landing_url rows with
  | Some url => query_param key url
  | None => None
  end.

(** The WHERE clause of the subquery of [first_ext_ref]. *)
Definition external_referrer (r : EventRow) : bool :=
  String.eqb (event_name r) "page_view"
  && match page_referrer r with
     | None => false
     | Some referrer =>
         negb (String.eqb referrer "")
         && negb (is_own_domain
                    (Str.toLowerCase
                       (match url_host referrer with Some h => h | None => EmptyString end)))
     end.

(** [first_ext_ref.first_referrer]; NULL also when the session has no row
    in [first_ext_ref]. *)
Definition first_referrer (rows : list EventRow) : option string :=
  first_by_ts page_referrer (filter external_referrer rows).

(** [ref_derived] *)
Definition ref_medium (rows : list EventRow) : option string :=
  match first_referrer rows with
  | None => None
  | Some referrer =>
      match search_engine referrer with
      | Some _ => Some "organic"%string
      | None => Some "referral"%string
      end
  end.

Definition ref_source (rows : list EventRow) : option string :=
  match first_referrer rows with
  | None => None
  | Some referrer =>
      match search_engine referrer with
      | Some engine => Some engine
      | None => option_map Str.toLowerCase (url_host referrer)
      end
  end.

(** [COALESCE] *)
Fixpoint coalesce (candidates : list (option string)) : option string :=
  match candidates with
  | [] => None
  | Some v :: _ => Some v
  | None :: rest => coalesce rest
  end.

Definition or_default (o : option string) (default : string) : string :=
  match o with Some v => v | None => default end.

(** The attribution columns of a row of [sessions_final]. *)
Record SessionRow : Type := {
  sf_user_pseudo_id : string;
  sf_ga_session_id : option Z;
  sf_utm_source_start : option string;
  sf_utm_medium_start : option string;
  sf_utm_campaign_start : option string;
  sf_utm_source_lp : option string;
  sf_utm_medium_lp : option string;
  sf_utm_campaign_lp : option string;
  sf_utm_term_lp : option string;
  sf_utm_content_lp : option string;
  sf_ref_source : option string;
  sf_ref_medium : option string;
  gclid : option string;
  dclid : option string;
  traffic_source_type : string;
  traffic_source : string;
  traffic_medium : string;
  traffic_campaign : string
}.

Definition no_starts : Starts := Build_Starts None None None None None.

(** The row of [sessions_final] for the session whose rows are [rows]. *)
Definition session_row (user : string) (session : option Z) (rows : list EventRow)
  : SessionRow :=
  let st := match starts rows with Some s => s | None => no_starts end in
  let utm_source_lp := landing_param "utm_source" rows in
  let utm_medium_lp := landing_param "utm_medium" rows in
  let utm_campaign_lp := landing_param "utm_campaign" rows in
  Build_SessionRow
    user session
    (utm_source_start st) (utm_medium_start st) (utm_campaign_start st)
    utm_source_lp utm_medium_lp utm_campaign_lp
    (landing_param "utm_term" rows) (landing_param "utm_content" rows)
    (ref_source rows) (ref_medium rows)
    (coalesce [starts_gclid st; landing_param "gclid" rows])
    (coalesce [starts_dclid st; landing_param "dclid" rows])
    (if is_some (utm_source_start st) || is_some (utm_medium_start st) then "session_start"
     else if is_some utm_source_lp || is_some utm_medium_lp then "first_pageview_utm"
     else if is_some (ref_source rows) then "referrer"
     else "direct")
    (or_default (coalesce [utm_source_start st; utm_source_lp; ref_source rows]) "(direct)")
    (or_default (coalesce [utm_medium_start st; utm_medium_lp; ref_medium rows]) "(none)")
    (or_default (coalesce [utm_campaign_start st; utm_campaign_lp]) "(not set)").

(** ** Sessions: GROUP BY user_pseudo_id, ga_session_id *)

Definition same_session (user : string) (session : option Z) (r : EventRow) : bool :=
  String.eqb (user_pseudo_id r) user
  && match ga_session_id r, session with
     | Some a, Some b => a =? b
     | None, None => true
     | _, _ => false
     end.

(** The distinct keys, in the order of their first event. *)
Fixpoint session_keys (rows : list EventRow) : list (string * option Z) :=
  match rows with
  | [] => []
  | r :: rest =>
      (user_pseudo_id r, ga_session_id r)
      :: filter (fun k => negb (same_session (fst k) (snd k) r)) (session_keys rest)
  end.

(** [sessions_final] for the sessions that have a session id.  (The rows
    without one form a group of their own whose key is NULL: no purchase
    can join it, and its joins inside [sessions_final] find nothing.) *)
Definition sessions_final (rows : list EventRow) : list SessionRow :=
  flat_map
    (fun k =>
       match snd k with
       | Some _ => [session_row (fst k) (snd k) (filter (same_session (fst k) (snd k)) rows)]
       | None => []
       end)
    (session_keys rows).

End Aggregates.

(** A chooser: the first candidate in the order of the input. *)
Lemma hd_error_In (A : Type) (l : list A) (x : A) : hd_error l = Some x -> In x l.
Proof. destruct l; [discriminate|]. intros H. inversion H. now left. Qed.

Lemma hd_error_nonempty (A : Type) (l : list A) : l <> [] -> hd_error l <> None.
Proof. destruct l; [contradiction|discriminate]. Qed.

Definition first_chooser : Chooser :=
  Build_Chooser (fun A l => hd_error l) hd_error_In hd_error_nonempty.

End SessionsQuery.

(* ===================================================================== *)
(** * Arithmetic on doubles

    Where a value that the code prints or compares is the result of
    arithmetic on binary64 numbers, the operation is carried out as the
    engine does: on the doubles that its operands stand for, rounding the
    exact result to the nearest double, a tie going to the even
    significand.  A double is the rational that it is; [0] and [-0] are
    not told apart, and a result of magnitude 2^1024 or more, which the
    engine turns into an infinity, is outside the model, as is a division
    by zero. *)
(* ===================================================================== *)

Module Double.

(** [floor (log2 (p / q))] for [p] and [q] above zero *)
Definition floor_log2 (p q : Z) : Z :=
  let e := Z.log2 p - Z.log2 q in
  if (if 0 <=? e then p <? q * 2 ^ e else p * 2 ^ (- e) <? q) then e - 1 else e.

(** [n / d] rounded to the nearest integer, a tie going to the even one,
    for [n >= 0] and [d > 0] *)
Definition round_half_even (n d : Z) : Z :=
  let q := n / d in
  let r := n mod d in
  match 2 * r ?= d with
  | Lt => q
  | Gt => q + 1
  | Eq => if Z.even q then q else q + 1
  end.

(** The double nearest to a rational: a significand of 53 bits, or of
    fewer bits below 2^-1022, where the spacing stays 2^-1074. *)
Definition nearest (x : Q) : Q :=
  let p := Z.abs (Qnum x) in
  let q := Zpos (Qden x) in
  if p =? 0 then 0%Q
  else
    let e := Z.max (floor_log2 p q - 52) (-1074) in
    let n :=
      if 0 <=? e then round_half_even p (q * 2 ^ e)
      else round_half_even (p * 2 ^ (- e)) q in
    let m := Z.sgn (Qnum x) * n in
    Qred (if 0 <=? e then inject_Z (m * 2 ^ e) else Qmake m (Z.to_pos (2 ^ (- e)))).

(** [a + b], [a * b] and [a / b] on numbers *)
Definition add (a b : Q) : Q := nearest (nearest a + nearest b).
Definition mul (a b : Q) : Q := nearest (nearest a * nearest b).
Definition div (a b : Q) : Q := nearest (nearest a / nearest b).

End Double.

(* ===================================================================== *)
(** * Card-ledger reports (mastra/tools/stripe-analytics-tools.ts):
      the charge summary and the two tools *)
(* ===================================================================== *)

Module StripeReports.

(** The entry a card brand or a product accumulates in its Map. *)
Record VolumeEntry : Type := {
  ve_chargeCount : Z;
  ve_grossAmountMinor : Z;
  ve_grossAmountMajor : Q
}.

Record CardBrandBreakdown : Type := {
  bb_brand : string;
  bb_chargeCount : Z;
  bb_grossAmountMinor : Z;
  bb_grossAmountMajor : Q
}.

Record ProductBreakdown : Type := {
  pb_productName : string;
  pb_chargeCount : Z;
  pb_grossAmountMinor : Z;
  pb_grossAmountMajor : Q
}.

Record ChargeSummaryOutput : Type := {
  range : string * string;
  totalCharges : Z;
  refundedCharges : Z;
  currencyBreakdown : list StripeAnalytics.CurrencyBreakdown;
  cardBrandBreakdown : list CardBrandBreakdown;
  topProducts : list ProductBreakdown;
  metadataTotals : list (string * Q);
  insights : list string
}.

(** [charge.card?.brand ?? 'unknown'] *)
Definition brand_of (charge : StripeAnalytics.ChargeSummary) : string :=
  match StripeAnalytics.card charge with
  | Some c => match StripeAnalytics.brand c with Some b => b | None => "unknown"%string end
  | None => "unknown"%string
  end.

Definition add_charge (entry : VolumeEntry) (charge : StripeAnalytics.ChargeSummary)
  : VolumeEntry :=
  Build_VolumeEntry
    (ve_chargeCount entry + 1)
    (ve_grossAmountMinor entry + StripeAnalytics.amount charge)
    (ve_grossAmountMajor entry
     + StripeAnalytics.convertToMajorUnits
         (StripeAnalytics.amount charge) (StripeAnalytics.currency charge))%Q.

Definition aggregateCardBrands_step
  (map : list (string * VolumeEntry)) (charge : StripeAnalytics.ChargeSummary)
  : list (string * VolumeEntry) :=
  let brand := brand_of charge in
  let entry :=
    match Js.map_get brand map with
    | Some e => e
    | None => Build_VolumeEntry 0 0 0
    end in
  Js.map_set brand (add_charge entry charge) map.

Definition aggregateCardBrands (charges : list StripeAnalytics.ChargeSummary)
  : list CardBrandBreakdown :=
  let map := fold_left aggregateCardBrands_step charges [] in
  Js.sort_desc bb_grossAmountMajor
    (List.map
       (fun '(brand, entry) =>
          Build_CardBrandBreakdown brand (ve_chargeCount entry) (ve_grossAmountMinor entry)
            (Js.toFixed2 (ve_grossAmountMajor entry)))
       map).

(** [charge.metadata.product_name] when it is not falsy. *)
Definition product_of (charge : StripeAnalytics.ChargeSummary) : option string :=
  match Js.map_get "product_name" (StripeAnalytics.metadata charge) with
  | Some (String c rest) => Some (String c rest)
  | _ => None
  end.

Definition aggregateProducts_step
  (map : list (string * VolumeEntry)) (charge : StripeAnalytics.ChargeSummary)
  : list (string * VolumeEntry) :=
  match product_of charge with
  | None => map
  | Some productName =>
      let entry :=
        match Js.map_get productName map with
        | Some e => e
        | None => Build_VolumeEntry 0 0 0
        end in
      Js.map_set productName (add_charge entry charge) map
  end.

Definition aggregateProducts (charges : list StripeAnalytics.ChargeSummary)
  : list ProductBreakdown :=
  let map := fold_left aggregateProducts_step charges [] in
  Js.slice0 10
    (Js.sort_desc pb_grossAmountMajor
       (List.map
          (fun '(productName, entry) =>
             Build_ProductBreakdown productName (ve_chargeCount entry)
               (ve_grossAmountMinor entry) (Js.toFixed2 (ve_grossAmountMajor entry)))
          map)).

(** [aggregateMetadataTotals]; no key met here is an array index, so the
    object keeps insertion order.  The amounts are added as doubles. *)
Definition aggregateMetadataTotals (charges : list StripeAnalytics.ChargeSummary)
  : list (string * Q) :=
  fold_left
    (fun totals charge =>
       fold_left
         (fun totals '(key, value) =>
            Js.map_set key
              (Double.add (match Js.map_get key totals with Some v => v | None => 0%Q end)
                 value)
              totals)
         (StripeAnalytics.metadataAmounts charge) totals)
    charges [].

(** [value.toFixed(1)] followed by a percent sign, for a value below
    1e21: the multiple of a tenth nearest to the double, a tie going away
    from zero. *)
Definition formatPercentage (value : Q) : string :=
  let tenths := Qfloor (Qabs value * 10 + (1 # 2))%Q in
  let body :=
    (Js.string_of_Z (tenths / 10) ++ "." ++ Str.pad_digits 1 (tenths mod 10) ++ "%")%string in
  if Qle_bool 0 value then body else ("-" ++ body)%string.

Definition generateChargeSummaryInsights
  (startDate endDate : string) (totalCharges refundedCharges : Z)
  (currencyBreakdown : list StripeAnalytics.CurrencyBreakdown)
  (cardBrandBreakdown : list CardBrandBreakdown)
  (topProducts : list ProductBreakdown)
  (metadataTotals : list (string * Q)) : list string :=
  if totalCharges =? 0 then
    [("No successful charges were recorded between " ++ startDate ++ " and "
      ++ endDate ++ ".")%string]
  else
    let refundRate :=
      if totalCharges =? 0 then 0%Q
      else Double.mul (Double.div (inject_Z refundedCharges) (inject_Z totalCharges)) 100 in
    let first :=
      ("Processed " ++ Js.string_of_Z totalCharges ++ " charges from " ++ startDate
       ++ " to " ++ endDate ++ "; " ++ Js.string_of_Z refundedCharges ++ " ("
       ++ formatPercentage refundRate ++ ") were refunded.")%string in
    let about_currency :=
      match currencyBreakdown with
      | [] => []
      | topCurrency :: _ =>
          let averageTicket :=
            match StripeAnalytics.cb_averageTicketMajor topCurrency with
            | Some average => (Js.formatMajor average ++ " average ticket")%string
            | None => "average ticket unavailable"%string
            end in
          [(Str.toUpperCase (StripeAnalytics.cb_currency topCurrency)
            ++ " led charge volume with "
            ++ Js.string_of_Z (StripeAnalytics.cb_chargeCount topCurrency)
            ++ " charges totaling "
            ++ Js.formatMajor (StripeAnalytics.cb_grossAmountMajor topCurrency)
            ++ "; " ++ averageTicket ++ ".")%string]
      end in
    let about_brand :=
      match cardBrandBreakdown with
      | [] => []
      | topBrand :: _ =>
          [(bb_brand topBrand ++ " cards contributed "
            ++ Js.formatMajor (bb_grossAmountMajor topBrand) ++ " across "
            ++ Js.string_of_Z (bb_chargeCount topBrand) ++ " charges.")%string]
      end in
    let about_product :=
      match topProducts with
      | [] => []
      | leadingProduct :: _ =>
          [(pb_productName leadingProduct ++ " was the top product with "
            ++ Js.formatMajor (pb_grossAmountMajor leadingProduct) ++ " over "
            ++ Js.string_of_Z (pb_chargeCount leadingProduct) ++ " charges.")%string]
      end in
    let about_metadata :=
      match StripeAnalytics.metadata_highlights metadataTotals with
      | [] => []
      | highlights =>
          [("Metadata totals highlight " ++ Js.join ", " highlights ++ ".")%string]
      end in
    first :: about_currency ++ about_brand ++ about_product ++ about_metadata.

Definition buildChargeSummary
  (startDate endDate : string) (charges : list StripeAnalytics.ChargeSummary)
  : ChargeSummaryOutput :=
  let currencyBreakdown := StripeAnalytics.aggregateByCurrency charges in
  let cardBrandBreakdown := aggregateCardBrands charges in
  let topProducts := aggregateProducts charges in
  let metadataTotals := aggregateMetadataTotals charges in
  let refundedCharges :=
    Z.of_nat (List.length (filter StripeAnalytics.refunded charges)) in
  let totalCharges := Z.of_nat (List.length charges) in
  Build_ChargeSummaryOutput
    (startDate, endDate)
    totalCharges
    refundedCharges
    currencyBreakdown
    cardBrandBreakdown
    topProducts
    metadataTotals
    (generateChargeSummaryInsights startDate endDate totalCharges refundedCharges
       currencyBreakdown cardBrandBreakdown topProducts metadataTotals).

Section Tools.

Variable Number_of_string : string -> option Q.
Variable list_charges : Z -> Z -> result (list StripeCharge.ApiCharge).

(** [stripeChargeSummaryTool.execute] *)
Definition stripeChargeSummaryTool (startDate endDate : string)
  : result ChargeSummaryOutput :=
  charges <- StripeCharge.getStripeCharges Number_of_string list_charges startDate endDate ;;
  Ok (buildChargeSummary startDate endDate charges).

(** [stripeTopCustomersTool.execute] *)
Definition stripeTopCustomersTool (startDate endDate : string) (limit : option Z)
  : result StripeAnalytics.TopCustomersOutput :=
  charges <- StripeCharge.getStripeCharges Number_of_string list_charges startDate endDate ;;
  Ok (StripeAnalytics.buildTopCustomersSummary startDate endDate charges
        (match limit with Some l => l | None => 5 end)).

End Tools.

End StripeReports.

(* ===================================================================== *)
(** * Wallet-ledger reports (mastra/tools/paypal-analytics-tools.ts):
      the transaction summary and the two tools *)
(* ===================================================================== *)

Module PaypalReports.

Record ChargeSummaryOutput : Type := {
  range : string * string;
  totalTransactions : Z;
  refundedTransactions : Z;
  currencyBreakdown : list PaypalAnalytics.CurrencyBreakdown;
  insights : list string
}.

Definition generateChargeSummaryInsights
  (startDate endDate : string) (totalTransactions refundedTransactions : Z)
  (currencyBreakdown : list PaypalAnalytics.CurrencyBreakdown) : list string :=
  if totalTransactions =? 0 then
    [("No PayPal transactions recorded between " ++ startDate ++ " and "
      ++ endDate ++ ".")%string]
  else
    let refundRate :=
      if totalTransactions =? 0 then 0%Q
      else Double.mul (Double.div (inject_Z refundedTransactions)
                         (inject_Z totalTransactions)) 100 in
    let first :=
      ("Processed " ++ Js.string_of_Z totalTransactions ++ " PayPal transactions from "
       ++ startDate ++ " to " ++ endDate ++ "; " ++ Js.string_of_Z refundedTransactions
       ++ " (" ++ StripeReports.formatPercentage refundRate
       ++ ") were refunded or reversed.")%string in
    let about_currency :=
      match currencyBreakdown with
      | [] => []
      | topCurrency :: _ =>
          let averageTicket :=
            match PaypalAnalytics.cb_averageTicketMajor topCurrency with
            | Some average => (Js.formatMajor average ++ " average ticket")%string
            | None => "average ticket unavailable"%string
            end in
          [(Str.toUpperCase (PaypalAnalytics.cb_currency topCurrency)
            ++ " led PayPal volume with "
            ++ Js.string_of_Z (PaypalAnalytics.cb_transactionCount topCurrency)
            ++ " transactions totaling "
            ++ Js.formatMajor (PaypalAnalytics.cb_grossAmountMajor topCurrency)
            ++ "; " ++ averageTicket ++ ".")%string]
      end in
    first :: about_currency.

Definition buildChargeSummary
  (startDate endDate : string) (charges : list PaypalCharge.CardInfoRecord)
  : ChargeSummaryOutput :=
  let currencyBreakdown := PaypalAnalytics.aggregateByCurrency charges in
  let refundedTransactions :=
    Z.of_nat (List.length
                (filter (fun charge => PaypalAnalytics.isRefunded (PaypalCharge.status charge))
                        charges)) in
  let totalTransactions := Z.of_nat (List.length charges) in
  Build_ChargeSummaryOutput
    (startDate, endDate)
    totalTransactions
    refundedTransactions
    currencyBreakdown
    (generateChargeSummaryInsights startDate endDate totalTransactions
       refundedTransactions currencyBreakdown).

(** [parseDate] of paypal-analytics-tools.ts, which has its own copy. *)
Definition parseDate (date field : string) (isStart : bool) : result Z :=
  match JsDate.match_ymd date with
  | None =>
      Throw ("Invalid " ++ field ++ " supplied. Expected format YYYY-MM-DD, received: " ++ date)
  | Some (year, month, day) =>
      let monthIndex := month - 1 in
      Ok (if isStart then JsDate.UTC year monthIndex day 0 0 0 0
          else JsDate.UTC year monthIndex day 23 59 59 999)
  end.

Section Tools.

Variable parseFloat : string -> PaypalCharge.number.
Variable Date_parse : string -> option Z.
Variable now : Z.
Variable fetch_token : result (Response PaypalAuth.TokenBody).
Variable fetch_page : Z -> Z -> Z -> result (Response PaypalCharge.TransactionsPage).

(** The argument of both tools: the two dates are parsed, start first,
    and the records of the window fetched; nothing here catches. *)
Definition fetch_window (fuel : nat) (startDate endDate : string)
  : outcome (list PaypalCharge.CardInfoRecord) :=
  match parseDate startDate "startDate" true with
  | Throw m => Some (Throw m)
  | Ok start =>
      match parseDate endDate "endDate" false with
      | Throw m => Some (Throw m)
      | Ok finish =>
          PaypalCharge.fetchPaypalCardInfo parseFloat Date_parse now fetch_token fetch_page
            fuel start finish
      end
  end.

(** [paypalChargeSummaryTool.execute] *)
Definition paypalChargeSummaryTool (fuel : nat) (startDate endDate : string)
  : outcome ChargeSummaryOutput :=
  match fetch_window fuel startDate endDate with
  | None => None
  | Some (Throw m) => Some (Throw m)
  | Some (Ok charges) => Some (Ok (buildChargeSummary startDate endDate charges))
  end.

(** [paypalTopCustomersTool.execute] *)
Definition paypalTopCustomersTool (fuel : nat) (startDate endDate : string)
  (limit : option Z) : outcome PaypalAnalytics.TopCustomersOutput :=
  match fetch_window fuel startDate endDate with
  | None => None
  | Some (Throw m) => Some (Throw m)
  | Some (Ok charges) =>
      Some (Ok (PaypalAnalytics.buildTopCustomersSummary Date_parse startDate endDate charges
                  (match limit with Some l => l | None => 5 end)))
  end.

End Tools.

End PaypalReports.

(* ===================================================================== *)
(** * Purchase sessions: shaping the rows (lib/bigquery.ts) *)
(* ===================================================================== *)

Module PurchaseRows.

(** [maybeTrimString] of [fetchPurchaseSessions], on a column that holds a
    string or NULL. *)
Definition maybeTrimString (truncateStrings : bool) (value : option string)
  : option string :=
  match value with
  | None => None
  | Some str =>
      if negb truncateStrings then Some str
      else if (200 <? String.length str)%nat
           then Some (substring 0 197 str ++ "...")%string
           else Some str
  end.

End PurchaseRows.

(* ===================================================================== *)
(** * The analytics workflow: the steps that read the two ledgers
      (mastra/workflows/analytics-workflow.ts) *)
(* ===================================================================== *)

Module WorkflowSteps.

Section Steps.

(** [Date.parse], also behind [new Date(string)]; [None] is NaN. *)
Variable Date_parse : string -> option Z.
(** [getCurrentIsoTime()] when the range is resolved, and [new Date()]
    when a record is mapped, as instants. *)
Variable current_time : Z.
Variable now : Z.
Variable Number_of_string : string -> option Q.
Variable list_charges : Z -> Z -> result (list StripeCharge.ApiCharge).
Variable parseFloat : string -> PaypalCharge.number.
Variable fetch_token : result (Response PaypalAuth.TokenBody).
Variable fetch_page : Z -> Z -> Z -> result (Response PaypalCharge.TransactionsPage).

(** [resolveDateRange.execute]: the clock is read once, as an ISO string
    that [new Date] reads back to the same instant. *)
Definition resolveDateRange (startDate endDate : option string)
  : result Workflow.DateRange :=
  Workflow.computeDateRange startDate endDate current_time.

(** The check that both fetching steps make on the resolved dates. *)
Definition parsed_window (startDate endDate : string) : result (Z * Z) :=
  match Date_parse startDate, Date_parse endDate with
  | Some start, Some finish =>
      if finish <? start then Throw "endDate must be on or after startDate."
      else Ok (start, finish)
  | _, _ => Throw "Invalid date supplied. Use format YYYY-MM-DD."
  end.

(** [fetchStripeCharges.execute], as far as the charges go *)
Definition fetchStripeCharges (startDate endDate : string)
  : result (list StripeAnalytics.ChargeSummary) :=
  parsed_window startDate endDate ;;;
  StripeCharge.getStripeCharges Number_of_string list_charges startDate endDate.

(** [fetchPaypalCharges.execute], as far as the records go *)
Definition fetchPaypalCharges (fuel : nat) (startDate endDate : string)
  : outcome (list PaypalCharge.CardInfoRecord) :=
  match parsed_window startDate endDate with
  | Throw m => Some (Throw m)
  | Ok (start, finish) =>
      PaypalCharge.fetchPaypalCardInfo parseFloat Date_parse now fetch_token fetch_page
        fuel start finish
  end.

End Steps.

End WorkflowSteps.

(* ===================================================================== *)
(** * Purchases joined to their sessions: PURCHASE_SESSIONS_QUERY_TEMPLATE
      (lib/bigquery.ts)

    The rest of the statement: the purchases, the metrics of a session
    and the final join, as functions over the events of the export
    table.  The columns are restricted to those that the join and the
    metrics read; a BOOL or a count that the statement can never leave
    NULL is a [bool] or a [Z].  The rows are those that the statement
    selects, before [ORDER BY source.purchase_ts] and the LIMIT clause
    order and cut them. *)
(* ===================================================================== *)

Module PurchaseJoin.

(** [DATE(TIMESTAMP_MICROS(e.event_timestamp), 'Asia/Makassar')], as the
    number of the day counted from 1970-01-01; the zone is eight hours
    ahead of UTC all year. *)
Definition day_tz (e : SessionsQuery.Event) : Z :=
  (SessionsQuery.event_timestamp e + 28800000000) / 86400000000.

(** [(@startDate IS NULL OR day >= @startDate)
     AND (@endDate IS NULL OR day <= @endDate)] *)
Definition in_window (startDate endDate : option Z) (day : Z) : bool :=
  match startDate with Some s => s <=? day | None => true end
  && match endDate with Some f => day <=? f | None => true end.

Record PurchaseRow : Type := {
  transaction_id : option string;
  user_pseudo_id : string;
  ga_session_id : option Z;
  purchase_ts : Z;
  event_date : Z
}.

(** The CTE [purchases] *)
Definition purchases (startDate endDate : option Z) (events : list SessionsQuery.Event)
  : list PurchaseRow :=
  List.map
    (fun e =>
       Build_PurchaseRow
         (SessionsQuery.param_string "transaction_id" e)
         (SessionsQuery.raw_user_pseudo_id e)
         (SessionsQuery.param_int "ga_session_id" e)
         (SessionsQuery.event_timestamp e)
         (day_tz e))
    (filter (fun e => String.eqb (SessionsQuery.raw_event_name e) "purchase"
                      && in_window startDate endDate (day_tz e))
       events).

(** [CONCAT(user_pseudo_id, '.', CAST(ga_session_id AS STRING))], NULL
    when the session id is. *)
Definition session_key_of (user : string) (session : option Z) : option string :=
  match session with
  | Some id => Some (user ++ "." ++ Js.string_of_Z id)%string
  | None => None
  end.

Record SourceRow : Type := {
  purchase : PurchaseRow;
  session_key : option string
}.

(** The CTE [source] *)
Definition source (startDate endDate : option Z) (events : list SessionsQuery.Event)
  : list SourceRow :=
  List.map
    (fun p => Build_SourceRow p (session_key_of (user_pseudo_id p) (ga_session_id p)))
    (filter (fun p => SessionsQuery.is_some (transaction_id p))
       (purchases startDate endDate events)).

(** The events that [events_base] keeps. *)
Definition events_in_window (startDate endDate : option Z)
  (events : list SessionsQuery.Event) : list SessionsQuery.Event :=
  filter (fun e => in_window startDate endDate (day_tz e)) events.

(** The events of a group of [GROUP BY user_pseudo_id, ga_session_id] *)
Definition session_events (user : string) (session : option Z)
  (events : list SessionsQuery.Event) : list SessionsQuery.Event :=
  filter (fun e => SessionsQuery.same_session user session (SessionsQuery.events_base_row e))
    events.

(** [COUNTIF(event_name = name)] *)
Definition countif (name : string) (events : list SessionsQuery.Event) : Z :=
  Z.of_nat (List.length
              (filter (fun e => String.eqb (SessionsQuery.raw_event_name e) name) events)).

(** The metric columns of a row of [sessions_final]; the timestamps in
    microseconds. *)
Record SessionMetrics : Type := {
  sm_session_key : option string;
  sm_user_pseudo_id : string;
  sm_ga_session_id : option Z;
  session_start_ts : Z;
  session_end_ts : Z;
  session_duration_sec : Q;
  pageviews_count : Z;
  events_count : Z;
  engagement_time_msec_sum : Z;
  is_engaged_session : bool;
  bounce_like : bool;
  transactions_count : Z;
  conversion_flag : bool;
  has_session_start : bool
}.

(** The row of [sessions_final] for a group; a group has an event. *)
Definition session_metrics (user : string) (session : option Z)
  (group : list SessionsQuery.Event) : option SessionMetrics :=
  match group with
  | [] => None
  | first :: rest =>
      let timestamps := List.map SessionsQuery.event_timestamp rest in
      let session_start_ts := fold_left Z.min timestamps (SessionsQuery.event_timestamp first) in
      let session_end_ts := fold_left Z.max timestamps (SessionsQuery.event_timestamp first) in
      let pageviews_count := countif "page_view" group in
      let engagement_time_msec_sum :=
        fold_right Z.add 0
          (List.map (fun e => match SessionsQuery.param_int "engagement_time_msec" e with
                              | Some n => n
                              | None => 0
                              end)
             group) in
      let engaged := (10000 <=? engagement_time_msec_sum) || (2 <=? pageviews_count) in
      let transactions_count := countif "purchase" group in
      Some (Build_SessionMetrics
              (session_key_of user session)
              user
              session
              session_start_ts
              session_end_ts
              ((session_end_ts - session_start_ts) # 1000000)
              pageviews_count
              (Z.of_nat (List.length group))
              engagement_time_msec_sum
              engaged
              ((pageviews_count =? 1) && negb engaged)
              transactions_count
              (0 <? transactions_count)
              (0 <? countif "session_start" group))
  end.

(** [sessions_final] for the sessions that have a session id: the group
    of the events without one has a NULL key, which no purchase joins. *)
Definition sessions_final (startDate endDate : option Z) (events : list SessionsQuery.Event)
  : list SessionMetrics :=
  let base := events_in_window startDate endDate events in
  flat_map
    (fun k =>
       match snd k with
       | Some _ =>
           match session_metrics (fst k) (snd k) (session_events (fst k) (snd k) base) with
           | Some row => [row]
           | None => []
           end
       | None => []
       end)
    (SessionsQuery.session_keys (SessionsQuery.events_base base)).

(** [ON source.session_key = sessions.session_key]: never true of a NULL *)
Definition on_session_key (s : SourceRow) (row : SessionMetrics) : bool :=
  match session_key s, sm_session_key row with
  | Some a, Some b => String.eqb a b
  | _, _ => false
  end.

(** [source LEFT JOIN sessions_final AS sessions ON ...] *)
Definition left_join (sources : list SourceRow) (sessions : list SessionMetrics)
  : list (SourceRow * option SessionMetrics) :=
  flat_map
    (fun s =>
       match filter (on_session_key s) sessions with
       | [] => [(s, None)]
       | matches => List.map (fun row => (s, Some row)) matches
       end)
    sources.

(** The rows that the statement selects. *)
Definition selected (startDate endDate : option Z) (events : list SessionsQuery.Event)
  : list (SourceRow * option SessionMetrics) :=
  filter (fun row => in_window startDate endDate (event_date (purchase (fst row))))
    (left_join (source startDate endDate events) (sessions_final startDate endDate events)).

End PurchaseJoin.

(* ===================================================================== *)
(** * Time-zone information (mastra/tools/timezone-info-tool.ts) *)
(* ===================================================================== *)

Module TimezoneInfo.

Definition is_sign (c : ascii) : bool := Ascii.eqb c "+" || Ascii.eqb c "-".

(** [\d{2}] at the start of a string: the two digits. *)
Definition two_digits (s : string) : option string :=
  match s with
  | String a (String b _) =>
      if Str.is_digit a && Str.is_digit b then Some (String a (String b EmptyString))
      else None
  | _ => None
  end.

(** The pattern [GMT([+-]\d{2})(?::?(\d{2}))?] with the flag [i], at the
    start of a string: the groups 1 and 2 of the match.  The optional
    group takes a colon when there is one, and gives up when two digits
    do not follow. *)
Definition match_here (s : string) : option (string * option string) :=
  match s with
  | String g (String m (String t (String sign (String h1 (String h2 rest))))) =>
      if Ascii.eqb (Str.lower_char g) "g" && Ascii.eqb (Str.lower_char m) "m"
         && Ascii.eqb (Str.lower_char t) "t"
         && is_sign sign && Str.is_digit h1 && Str.is_digit h2
      then
        Some (String sign (String h1 (String h2 EmptyString)),
              match rest with
              | String c after => if Ascii.eqb c ":" then two_digits after else two_digits rest
              | EmptyString => None
              end)
      else None
  | _ => None
  end.

(** [tzName.match(pattern)]: the leftmost match. *)
Fixpoint match_offset (s : string) : option (string * option string) :=
  match match_here s with
  | Some groups => Some groups
  | None =>
      match s with
      | EmptyString => None
      | String _ rest => match_offset rest
      end
  end.

(** [Number] of a sign and digits. *)
Definition Number_of_signed (s : string) : Z :=
  match s with
  | String sign digits =>
      if Ascii.eqb sign "-" then - Str.digits_value 0 digits
      else Str.digits_value 0 digits
  | EmptyString => 0
  end.

(** [String(n).padStart(2, '0')] for a whole number that is not negative *)
Definition padStart2 (n : Z) : string :=
  let s := Js.string_of_Z n in
  if (String.length s <? 2)%nat then ("0" ++ s)%string else s.

(** The code unit U+00B1, the plus-minus sign. *)
Definition PLUS_MINUS : ascii := ascii_of_nat 177.

Record Offset : Type := { offsetMinutes : Z; offsetLabel : string }.

Definition parseOffset (tzName : string) : Offset :=
  match match_offset tzName with
  | None =>
      Build_Offset 0 ("GMT" ++ String PLUS_MINUS "00:00")%string
  | Some (m1, m2) =>
      let hours := Number_of_signed m1 in
      let mins := match m2 with Some digits => Str.digits_value 0 digits | None => 0 end in
      let total := hours * 60 + Z.sgn hours * mins in
      let sign : string := if 0 <=? total then "+"%string else "-"%string in
      let absMins := Z.abs total in
      let hh := padStart2 (absMins / 60) in
      let mm := padStart2 (absMins mod 60) in
      Build_Offset total ("GMT" ++ sign ++ hh ++ ":" ++ mm)%string
  end.

End TimezoneInfo.

(* ===================================================================== *)
(** * Conversion into USD (mastra/tools/currency-conversion-tool.ts)

    An amount or a rate is the rational that the number stands for; the
    product of the two is taken on doubles.  An object of rates is the
    list of its entries in insertion order, each value being what
    [Number] makes of it. *)
(* ===================================================================== *)

Module CurrencyConversion.

Inductive RateSource : Type := override | config | remote | default.

(** [Object.fromEntries(Object.entries(raw).flatMap(...))]: a later entry
    of the same upper-cased key replaces the earlier one. *)
Definition normalizeRates (raw : list (string * PaypalCharge.number))
  : list (string * Q) :=
  fold_left
    (fun rates '(key, value) =>
       match value with
       | PaypalCharge.Finite numeric =>
           if Qle_bool numeric 0 then rates
           else Js.map_set (Str.toUpperCase key) numeric rates
       | _ => rates
       end)
    raw [].

(** An object of numbers, passed where any values are expected. *)
Definition as_values (rates : list (string * Q)) : list (string * PaypalCharge.number) :=
  List.map (fun '(key, value) => (key, PaypalCharge.Finite value)) rates.

Section Tool.

(** [await fetch(url)] for the latest rates: [json] is what [JSON.parse]
    makes of the body text, as far as the caller looks: the entries of
    [data.rates] when [data] is an object whose [rates] is an object,
    [None] for any other shape. *)
Variable fetch_latest : result (Response (option (list (string * PaypalCharge.number)))).

Definition fetchUsdRates : result (list (string * Q)) :=
  response <- fetch_latest ;;
  if negb (ok response) then
    Throw ("Failed to fetch FX rates from exchangerate.host: "
           ++ Js.string_of_Z (http_status response))
  else
    match json response with
    | Throw _ =>
        Throw ("Unexpected FX response from exchangerate.host (non-JSON): "
               ++ substring 0 200 (text response))
    | Ok None =>
        Throw ("Unexpected FX response shape from exchangerate.host: "
               ++ substring 0 200 (text response))
    | Ok (Some rates) =>
        let normalized := normalizeRates rates in
        if (List.length normalized =? 0)%nat then
          Throw ("No usable FX rates returned from exchangerate.host: "
                 ++ substring 0 200 (text response))
        else Ok normalized
    end.

Definition resolveRates (overrides : list (string * Q))
  : result (list (string * Q) * RateSource) :=
  if (0 <? List.length overrides)%nat then
    Ok (normalizeRates (as_values overrides), override)
  else
    remoteRates <- fetchUsdRates ;;
    Ok (remoteRates, remote).

Definition resolveRate (currency : string) (rates : list (string * Q))
  (source : RateSource) : result (Q * RateSource) :=
  if String.eqb currency "USD" then Ok (1%Q, default)
  else
    match Js.map_get currency rates with
    | Some rate => Ok (rate, source)
    | None =>
        Throw ("No USD conversion rate available for " ++ currency
               ++ ". Provide overrideRates or set USD_CONVERSION_RATES env JSON.")
    end.

Record Conversion : Type := {
  currency : string;
  amount : Q;
  usdAmount : Q;
  rateUsed : Q;
  rateSource : RateSource
}.

(** [currencyConversionTool.execute]; [usdAmount] is the product of the
    two doubles, itself a double, rounded to two decimals. *)
Definition execute (contextCurrency : string) (contextAmount : Q)
  (overrideRates : option (list (string * PaypalCharge.number))) : result Conversion :=
  let currency := Str.toUpperCase contextCurrency in
  let overrideRates :=
    normalizeRates (match overrideRates with Some raw => raw | None => [] end) in
  resolved <- resolveRates overrideRates ;;
  chosen <- resolveRate currency (fst resolved) (snd resolved) ;;
  Ok (Build_Conversion currency contextAmount
        (Js.toFixed2 (Double.mul contextAmount (fst chosen))) (fst chosen) (snd chosen)).

End Tool.

End CurrencyConversion.

(* ===================================================================== *)
(** * Properties *)
(* ===================================================================== *)

(** ** Dates *)

Example toISOString_epoch :
  JsDate.toISOString 0 = "1970-01-01T00:00:00.000Z"%string.
Proof. reflexivity. Qed.

Example toISOString_2024 :
  JsDate.toISOString 1718020799999 = "2024-06-10T11:59:59.999Z"%string.
Proof. vm_compute. reflexivity. Qed.

Example parse_2024_06_10 :
  JsDate.parse_utc_midnight "2024-06-10" = Some 1717977600000.
Proof. vm_compute. reflexivity. Qed.

Example parse_feb_30 :
  option_map JsDate.toISOString (JsDate.parse_utc_midnight "2024-02-30")
  = Some "2024-03-01T00:00:00.000Z"%string.
Proof. vm_compute. reflexivity. Qed.

Example range_no_dates :
  Workflow.computeDateRange None None 1717977600000
  = Ok (Workflow.Build_DateRange "2024-06-04" "2024-06-10").
Proof. vm_compute. reflexivity. Qed.

Example range_start_only :
  Workflow.computeDateRange (Some "2024-06-01"%string) None 1717977600000
  = Ok (Workflow.Build_DateRange "2024-06-01" "2024-06-07").
Proof. vm_compute. reflexivity. Qed.


Section Calendar.
Import JsDate.

(** The year found is the year of the day: its first day is not after the
    day, and the first day of the next year is. *)
Lemma YearFromDay_spec (day : Z) :
  DayFromYear (YearFromDay day) <= day < DayFromYear (YearFromDay day + 1).
Proof.
  unfold YearFromDay. cbv zeta.
  set (y := 1970 + day * 400 / 146097).
  assert (Hlo : DayFromYear (y - 1) <= day).
  { unfold DayFromYear, y. Z.to_euclidean_division_equations. lia. }
  assert (Hhi : day < DayFromYear (y + 2)).
  { unfold DayFromYear, y. Z.to_euclidean_division_equations. lia. }
  destruct (DayFromYear (y + 1) <=? day) eqn:E1.
  - apply Z.leb_le in E1. replace (y + 1 + 1) with (y + 2) by lia. lia.
  - apply Z.leb_gt in E1.
    destruct (DayFromYear y <=? day) eqn:E2.
    + apply Z.leb_le in E2. lia.
    + apply Z.leb_gt in E2. replace (y - 1 + 1) with y by lia. lia.
Qed.

Lemma DaysInYear (y : Z) :
  DayFromYear (y + 1) - DayFromYear y = if InLeapYear y then 366 else 365.
Proof.
  unfold DayFromYear, InLeapYear.
  destruct (y mod 4 =? 0) eqn:E4, (y mod 100 =? 0) eqn:E100, (y mod 400 =? 0) eqn:E400;
    cbn [andb orb negb];
    repeat match goal with
      | H : (_ =? _) = true |- _ => apply Z.eqb_eq in H
      | H : (_ =? _) = false |- _ => apply Z.eqb_neq in H
      end;
    Z.to_euclidean_division_equations; lia.
Qed.

Lemma DayWithinYear_range (day : Z) :
  0 <= DayWithinYear day < (if InLeapYear (YearFromDay day) then 366 else 365).
Proof.
  unfold DayWithinYear.
  pose proof (YearFromDay_spec day). pose proof (DaysInYear (YearFromDay day)). lia.
Qed.

Ltac split_ltb :=
  repeat match goal with
    | |- context [?a <? ?b] =>
        let E := fresh "E" in
        destruct (a <? b) eqn:E; [apply Z.ltb_lt in E | apply Z.ltb_ge in E]
    end.

Lemma MonthFromDay_range (day : Z) : 0 <= MonthFromDay day <= 11.
Proof. unfold MonthFromDay. cbv zeta. split_ltb; lia. Qed.

(** The day of the month is a day of that month. *)
Lemma DateFromDay_range (day : Z) : 1 <= DateFromDay day <= 31.
Proof.
  unfold DateFromDay, MonthFromDay. cbv zeta.
  pose proof (DayWithinYear_range day) as H.
  destruct (InLeapYear (YearFromDay day)); split_ltb; cbn; lia.
Qed.

(** [MakeDay] undoes the split of a day number into year, month and day. *)
Lemma MakeDay_of_day (day : Z) :
  MakeDay (YearFromDay day) (MonthFromDay day) (DateFromDay day) = day.
Proof.
  pose proof (MonthFromDay_range day) as Hm.
  unfold MakeDay. cbv zeta.
  rewrite Z.div_small, Z.mod_small, Z.add_0_r by lia.
  unfold DateFromDay, DayWithinYear. lia.
Qed.

Lemma MakeDay_date (y m d k : Z) : MakeDay y m (d + k) = MakeDay y m d + k.
Proof. unfold MakeDay. lia. Qed.

Lemma MakeDay_of_time (t : Z) :
  MakeDay (getUTCFullYear t) (getUTCMonth t) (getUTCDate t) = Day t.
Proof. apply MakeDay_of_day. Qed.

(** [setUTCDate(getUTCDate() + k)] moves a time value by [k] whole days. *)
Lemma addDays_shift (t k : Z) : Workflow.addDays t k = t + k * msPerDay.
Proof.
  unfold Workflow.addDays, setUTCDate.
  rewrite MakeDay_date, MakeDay_of_time.
  unfold MakeDate, Day, TimeWithinDay.
  pose proof (Z.div_mod t msPerDay ltac:(unfold msPerDay; lia)). lia.
Qed.

Lemma year_after_epoch (t : Z) : 0 <= t -> 1969 <= getUTCFullYear t.
Proof.
  intros Ht. unfold getUTCFullYear, YearFromDay. cbv zeta.
  assert (0 <= Day t) by (unfold Day, msPerDay; apply Z.div_pos; lia).
  assert (0 <= Day t * 400 / 146097) by (apply Z.div_pos; lia).
  destruct (_ <=? _); [lia|]. destruct (_ <=? _); lia.
Qed.

(** The start of the UTC day of [t], for a year outside 0..99 (which
    [Date.UTC] would read as 1900..1999). *)
Lemma startOfUTCDate_floor (t : Z) :
  ~ (0 <= getUTCFullYear t <= 99) ->
  Workflow.startOfUTCDate t = Day t * msPerDay.
Proof.
  intros Hy. unfold Workflow.startOfUTCDate, UTC.
  destruct ((0 <=? getUTCFullYear t) && (getUTCFullYear t <=? 99)) eqn:E.
  - apply andb_true_iff in E as [E1 E2].
    apply Z.leb_le in E1, E2. lia.
  - rewrite MakeDay_of_time. unfold MakeDate. lia.
Qed.

Lemma startOfUTCDate_midnight (t : Z) :
  0 <= t -> t mod msPerDay = 0 -> Workflow.startOfUTCDate t = t.
Proof.
  intros Ht Hm. rewrite startOfUTCDate_floor.
  - unfold Day. pose proof (Z.div_mod t msPerDay ltac:(unfold msPerDay; lia)). lia.
  - pose proof (year_after_epoch t Ht). lia.
Qed.

End Calendar.

(** ** The date-range resolver *)

Section DateRangeResolver.
Import JsDate Workflow.

Lemma parseISODate_ok (value field : string) :
  in_ymd_format value = true -> parseISODate value field = Ok (instant value).
Proof.
  unfold in_ymd_format, parseISODate, ISO_DATE_REGEX_test, parse_utc_midnight, instant.
  destruct (match_ymd value) as [[[y m] d]|]; [|discriminate].
  intros ->. reflexivity.
Qed.

Lemma parseISODate_throw (value field : string) :
  in_ymd_format value = false -> is_throw (parseISODate value field) = true.
Proof.
  unfold in_ymd_format, parseISODate, ISO_DATE_REGEX_test, parse_utc_midnight.
  destruct (match_ymd value) as [[[y m] d]|]; [|reflexivity].
  intros ->. reflexivity.
Qed.

Lemma parseISODate_inv (value field : string) (t : Z) :
  parseISODate value field = Ok t -> in_ymd_format value = true /\ t = instant value.
Proof.
  intros H. destruct (in_ymd_format value) eqn:E.
  - rewrite (parseISODate_ok _ _ E) in H. now inversion H.
  - pose proof (parseISODate_throw value field E) as Ht.
    rewrite H in Ht. discriminate.
Qed.

Lemma ensureNotFuture_ok (date today : Z) (field : string) :
  date <= today -> ensureNotFuture date today field = Ok tt.
Proof.
  intros H. unfold ensureNotFuture.
  destruct (date >? today) eqn:E; [|reflexivity].
  apply Z.gtb_lt in E. lia.
Qed.

Lemma ensureNotFuture_throw (date today : Z) (field : string) :
  today < date ->
  ensureNotFuture date today field = Throw (field ++ " cannot be in the future.").
Proof.
  intros H. unfold ensureNotFuture.
  destruct (date >? today) eqn:E; [reflexivity|].
  rewrite Z.gtb_ltb in E. apply Z.ltb_ge in E. lia.
Qed.

Lemma ensureChronology_ok (start finish : Z) :
  start <= finish -> ensureChronology start finish = Ok tt.
Proof.
  intros H. unfold ensureChronology.
  destruct (finish <? start) eqn:E; [|reflexivity].
  apply Z.ltb_lt in E. lia.
Qed.

Lemma ensureChronology_throw (start finish : Z) :
  finish < start ->
  ensureChronology start finish = Throw "endDate must be on or after startDate.".
Proof.
  intros H. unfold ensureChronology.
  destruct (finish <? start) eqn:E; [reflexivity|].
  apply Z.ltb_ge in E. lia.
Qed.

(** The four branches of [computeDateRange], one equation each. *)

Local Opaque formatISODate startOfUTCDate instant in_ymd_format parseISODate.

Lemma computeDateRange_neither (startDate endDate : option string) (today : Z) :
  truthy startDate = false -> truthy endDate = false ->
  computeDateRange startDate endDate today
  = Ok (Build_DateRange (formatISODate (startOfUTCDate today - 6 * msPerDay))
                        (formatISODate (startOfUTCDate today))).
Proof.
  intros Hs He. unfold computeDateRange. rewrite Hs, He. cbn [andb negb].
  rewrite addDays_shift.
  replace (startOfUTCDate today + -6 * msPerDay)
    with (startOfUTCDate today - 6 * msPerDay) by lia.
  reflexivity.
Qed.

Lemma computeDateRange_start_only (startDate endDate : option string) (today : Z) :
  truthy startDate = true -> truthy endDate = false ->
  in_ymd_format (get startDate) = true ->
  instant (get startDate) <= startOfUTCDate today ->
  computeDateRange startDate endDate today
  = Ok (Build_DateRange
          (formatISODate (instant (get startDate)))
          (formatISODate (Z.min (instant (get startDate) + 6 * msPerDay)
                                (startOfUTCDate today)))).
Proof.
  intros Hs He Hf Hn. unfold computeDateRange. rewrite Hs, He. cbn [andb negb].
  rewrite (parseISODate_ok _ _ Hf). cbn [bind].
  rewrite (ensureNotFuture_ok _ _ _ Hn). cbn [bind].
  rewrite addDays_shift.
  set (s := instant (get startDate)) in *. set (T := startOfUTCDate today) in *.
  assert (Hmin : (if s + 6 * msPerDay >? T then T else s + 6 * msPerDay)
                 = Z.min (s + 6 * msPerDay) T).
  { destruct (s + 6 * msPerDay >? T) eqn:E.
    - apply Z.gtb_lt in E. lia.
    - rewrite Z.gtb_ltb in E. apply Z.ltb_ge in E. lia. }
  rewrite Hmin.
  rewrite ensureChronology_ok; [reflexivity|].
  unfold msPerDay. lia.
Qed.

Lemma computeDateRange_end_only (startDate endDate : option string) (today : Z) :
  truthy startDate = false -> truthy endDate = true ->
  in_ymd_format (get endDate) = true ->
  instant (get endDate) <= startOfUTCDate today ->
  computeDateRange startDate endDate today
  = Ok (Build_DateRange (formatISODate (instant (get endDate) - 6 * msPerDay))
                        (formatISODate (instant (get endDate)))).
Proof.
  intros Hs He Hf Hn. unfold computeDateRange. rewrite Hs, He. cbn [andb negb].
  rewrite (parseISODate_ok _ _ Hf). cbn [bind].
  rewrite (ensureNotFuture_ok _ _ _ Hn). cbn [bind].
  rewrite addDays_shift.
  replace (instant (get endDate) + -6 * msPerDay)
    with (instant (get endDate) - 6 * msPerDay) by lia.
  reflexivity.
Qed.

Lemma computeDateRange_both (startDate endDate : option string) (today : Z) :
  truthy startDate = true -> truthy endDate = true ->
  in_ymd_format (get startDate) = true -> in_ymd_format (get endDate) = true ->
  instant (get startDate) <= instant (get endDate) ->
  instant (get startDate) <= startOfUTCDate today ->
  instant (get endDate) <= startOfUTCDate today ->
  computeDateRange startDate endDate today
  = Ok (Build_DateRange (formatISODate (instant (get startDate)))
                        (formatISODate (instant (get endDate)))).
Proof.
  intros Hs He Hfs Hfe Hc Hns Hne. unfold computeDateRange. rewrite Hs, He.
  cbn [andb negb].
  rewrite (parseISODate_ok _ _ Hfs), (parseISODate_ok _ _ Hfe). cbn [bind].
  rewrite (ensureChronology_ok _ _ Hc). cbn [bind].
  rewrite (ensureNotFuture_ok _ _ _ Hns), (ensureNotFuture_ok _ _ _ Hne).
  reflexivity.
Qed.

(** When the resolver raises, as a decision procedure on its input. *)
Definition raises (startDate endDate : option string) (today : Z) : bool :=
  let T := startOfUTCDate today in
  let s := get startDate in
  let e := get endDate in
  (truthy startDate && negb (in_ymd_format s))
  || (truthy endDate && negb (in_ymd_format e))
  || (truthy startDate && truthy endDate && (instant e <? instant s))
  || (truthy startDate && (T <? instant s))
  || (truthy endDate && (T <? instant e)).

Lemma is_throw_bind {A B : Type} (r : result A) (k : A -> result B) :
  is_throw r = true -> is_throw (bind r k) = true.
Proof. destruct r; [discriminate|reflexivity]. Qed.

Lemma computeDateRange_raises (startDate endDate : option string) (today : Z) :
  is_throw (computeDateRange startDate endDate today) = raises startDate endDate today.
Proof.
  unfold raises. cbv zeta.
  set (T := startOfUTCDate today).
  destruct (truthy startDate) eqn:Hs, (truthy endDate) eqn:He; cbn [andb orb negb].
  - (* both *)
    destruct (in_ymd_format (get startDate)) eqn:Hfs; cbn [andb orb negb].
    2:{ unfold computeDateRange. rewrite Hs, He. cbn [andb].
        apply is_throw_bind, parseISODate_throw, Hfs. }
    destruct (in_ymd_format (get endDate)) eqn:Hfe; cbn [andb orb negb].
    2:{ unfold computeDateRange. rewrite Hs, He. cbn [andb].
        rewrite (parseISODate_ok _ _ Hfs). cbn [bind].
        apply is_throw_bind, parseISODate_throw, Hfe. }
    destruct (instant (get endDate) <? instant (get startDate)) eqn:Hc;
      cbn [andb orb negb].
    { apply Z.ltb_lt in Hc. unfold computeDateRange. rewrite Hs, He. cbn [andb].
      rewrite (parseISODate_ok _ _ Hfs), (parseISODate_ok _ _ Hfe). cbn [bind].
      rewrite (ensureChronology_throw _ _ Hc). reflexivity. }
    apply Z.ltb_ge in Hc.
    destruct (T <? instant (get startDate)) eqn:Hns; cbn [andb orb negb].
    { apply Z.ltb_lt in Hns. unfold computeDateRange. rewrite Hs, He. cbn [andb].
      rewrite (parseISODate_ok _ _ Hfs), (parseISODate_ok _ _ Hfe). cbn [bind].
      rewrite (ensureChronology_ok _ _ Hc). cbn [bind].
      fold T. rewrite (ensureNotFuture_throw _ _ _ Hns). reflexivity. }
    apply Z.ltb_ge in Hns.
    destruct (T <? instant (get endDate)) eqn:Hne; cbn [andb orb negb].
    { apply Z.ltb_lt in Hne. unfold computeDateRange. rewrite Hs, He. cbn [andb].
      rewrite (parseISODate_ok _ _ Hfs), (parseISODate_ok _ _ Hfe). cbn [bind].
      rewrite (ensureChronology_ok _ _ Hc). cbn [bind]. fold T.
      rewrite (ensureNotFuture_ok _ _ _ Hns). cbn [bind].
      rewrite (ensureNotFuture_throw _ _ _ Hne). reflexivity. }
    apply Z.ltb_ge in Hne.
    rewrite computeDateRange_both; auto.
  - (* start only *)
    destruct (in_ymd_format (get startDate)) eqn:Hfs; cbn [andb orb negb].
    2:{ unfold computeDateRange. rewrite Hs, He. cbn [andb negb].
        apply is_throw_bind, parseISODate_throw, Hfs. }
    destruct (T <? instant (get startDate)) eqn:Hns; cbn [andb orb negb].
    { apply Z.ltb_lt in Hns. unfold computeDateRange. rewrite Hs, He. cbn [andb negb].
      rewrite (parseISODate_ok _ _ Hfs). cbn [bind]. fold T.
      rewrite (ensureNotFuture_throw _ _ _ Hns). reflexivity. }
    apply Z.ltb_ge in Hns.
    rewrite computeDateRange_start_only; auto.
  - (* end only *)
    destruct (in_ymd_format (get endDate)) eqn:Hfe; cbn [andb orb negb].
    2:{ unfold computeDateRange. rewrite Hs, He. cbn [andb negb].
        apply is_throw_bind, parseISODate_throw, Hfe. }
    destruct (T <? instant (get endDate)) eqn:Hne; cbn [andb orb negb].
    { apply Z.ltb_lt in Hne. unfold computeDateRange. rewrite Hs, He. cbn [andb negb].
      rewrite (parseISODate_ok _ _ Hfe). cbn [bind]. fold T.
      rewrite (ensureNotFuture_throw _ _ _ Hne). reflexivity. }
    apply Z.ltb_ge in Hne.
    rewrite computeDateRange_end_only; auto.
  - rewrite computeDateRange_neither; auto.
Qed.

Lemma raises_false (startDate endDate : option string) (today : Z) :
  raises startDate endDate today = false ->
  (truthy startDate = true -> in_ymd_format (get startDate) = true
     /\ instant (get startDate) <= startOfUTCDate today)
  /\ (truthy endDate = true -> in_ymd_format (get endDate) = true
     /\ instant (get endDate) <= startOfUTCDate today)
  /\ (truthy startDate = true -> truthy endDate = true ->
      instant (get startDate) <= instant (get endDate)).
Proof.
  unfold raises. cbv zeta. rewrite !orb_false_iff.
  intros [[[[H1 H2] H3] H4] H5].
  split; [|split].
  - intros Hs. rewrite Hs in H1, H4. cbn [andb] in H1, H4.
    apply Z.ltb_ge in H4. split; [|exact H4].
    now destruct (in_ymd_format (get startDate)).
  - intros He. rewrite He in H2, H5. cbn [andb] in H2, H5.
    apply Z.ltb_ge in H5. split; [|exact H5].
    now destruct (in_ymd_format (get endDate)).
  - intros Hs He. rewrite Hs, He in H3. cbn [andb] in H3.
    apply Z.ltb_ge in H3. exact H3.
Qed.


End DateRangeResolver.

Lemma in_ymd_format_truthy (value : string) :
  Workflow.in_ymd_format value = true -> Workflow.truthy (Some value) = true.
Proof. destruct value; [discriminate|reflexivity]. Qed.

(** C6. Date-range defaults.  With neither date the resolver returns the
    seven days that end today: end = today (the start of today's UTC day)
    and start = today - 6 days.  With only a start date that is well formed
    and not after today it returns that start and end = start + 6 days,
    clamped to today.  A reference "today" at UTC midnight is its own start
    of day.  For today = 2024-06-10 this gives 2024-06-04..2024-06-10 with
    no dates, and 2024-06-01..2024-06-07 for startDate = 2024-06-01. *)
Theorem computeDateRange_defaults (today : Z) (startDate : string)
  (Hformat : Workflow.in_ymd_format startDate = true)
  (Hnotfuture : Workflow.instant startDate <= Workflow.startOfUTCDate today) :
  let todayStart := Workflow.startOfUTCDate today in
  Workflow.computeDateRange None None today
  = Ok (Workflow.Build_DateRange
          (Workflow.formatISODate (todayStart - 6 * JsDate.msPerDay))
          (Workflow.formatISODate todayStart))
  /\ Workflow.computeDateRange (Some startDate) None today
     = Ok (Workflow.Build_DateRange
             (Workflow.formatISODate (Workflow.instant startDate))
             (Workflow.formatISODate
                (Z.min (Workflow.instant startDate + 6 * JsDate.msPerDay) todayStart)))
  /\ (0 <= today -> today mod JsDate.msPerDay = 0 -> todayStart = today)
  /\ Workflow.formatISODate 1717977600000 = "2024-06-10"%string
  /\ Workflow.computeDateRange None None 1717977600000
     = Ok (Workflow.Build_DateRange "2024-06-04" "2024-06-10")
  /\ Workflow.computeDateRange (Some "2024-06-01"%string) None 1717977600000
     = Ok (Workflow.Build_DateRange "2024-06-01" "2024-06-07").
Proof.
  intros todayStart. split; [|split; [|split; [|split; [|split]]]].
  - apply computeDateRange_neither; reflexivity.
  - apply (computeDateRange_start_only (Some startDate) None); auto.
    apply in_ymd_format_truthy, Hformat.
  - intros H0 Hm. apply startOfUTCDate_midnight; assumption.
  - vm_compute. reflexivity.
  - vm_compute. reflexivity.
  - vm_compute. reflexivity.
Qed.

(** The defaults at today = 2024-06-10 and startDate = 2024-06-01. *)
Lemma computeDateRange_defaults_witness :
  Workflow.in_ymd_format "2024-06-01" = true
  /\ Workflow.instant "2024-06-01" <= Workflow.startOfUTCDate 1717977600000
  /\ Workflow.computeDateRange (Some "2024-06-01"%string) None 1717977600000
     = Ok (Workflow.Build_DateRange
             (Workflow.formatISODate (Workflow.instant "2024-06-01"))
             (Workflow.formatISODate
                (Z.min (Workflow.instant "2024-06-01" + 6 * JsDate.msPerDay)
                       (Workflow.startOfUTCDate 1717977600000)))).
Proof.
  assert (Hf : Workflow.in_ymd_format "2024-06-01" = true) by (vm_compute; reflexivity).
  assert (Hn : Workflow.instant "2024-06-01" <= Workflow.startOfUTCDate 1717977600000)
    by (vm_compute; discriminate).
  split; [exact Hf|]. split; [exact Hn|].
  exact (proj1 (proj2 (computeDateRange_defaults 1717977600000 "2024-06-01" Hf Hn))).
Defined.


(** The edges of that reading, on today = 2024-06-10: an empty string is a
    date that was not supplied; a month 13 cannot be parsed; a day 30 in
    February runs over into March. *)
Example range_empty_start :
  Workflow.computeDateRange (Some ""%string) None 1717977600000
  = Ok (Workflow.Build_DateRange "2024-06-04" "2024-06-10").
Proof. vm_compute. reflexivity. Qed.

Example range_month_13 :
  Workflow.computeDateRange (Some "2024-13-01"%string) None 1717977600000
  = Throw "Invalid startDate. Unable to parse date: 2024-13-01".
Proof. vm_compute. reflexivity. Qed.

Example range_malformed :
  Workflow.computeDateRange None (Some "10/06/2024"%string) 1717977600000
  = Throw "Invalid endDate. Expected format YYYY-MM-DD, received: 10/06/2024".
Proof. vm_compute. reflexivity. Qed.

Example range_february_30 :
  Workflow.computeDateRange (Some "2024-02-30"%string) None 1717977600000
  = Ok (Workflow.Build_DateRange "2024-03-01" "2024-03-07").
Proof. vm_compute. reflexivity. Qed.

Example range_start_after_end :
  Workflow.computeDateRange (Some "2024-06-05"%string) (Some "2024-06-01"%string)
    1717977600000
  = Throw "endDate must be on or after startDate.".
Proof. vm_compute. reflexivity. Qed.

Example range_future_end :
  Workflow.computeDateRange None (Some "2024-06-11"%string) 1717977600000
  = Throw "endDate cannot be in the future.".
Proof. vm_compute. reflexivity. Qed.

Example range_end_only :
  Workflow.computeDateRange None (Some "2024-06-10"%string) 1717977600000
  = Ok (Workflow.Build_DateRange "2024-06-04" "2024-06-10").
Proof. vm_compute. reflexivity. Qed.

(** ** Minor and major units *)

Section MajorUnits.

Lemma Qfloor_half (k : Z) : Qfloor (inject_Z k + (1 # 2)) = k.
Proof.
  unfold Qfloor, Qplus, inject_Z. cbn [Qnum Qden].
  replace (k * 2 + 1 * 1) with (1 + k * 2) by lia.
  rewrite Z.div_add by lia. reflexivity.
Qed.

Lemma toFixed2_comp (x y : Q) : x == y -> Js.toFixed2 x = Js.toFixed2 y.
Proof.
  intros E. unfold Js.toFixed2.
  assert (Ef : Qfloor (Qabs x * 100 + (1 # 2)) = Qfloor (Qabs y * 100 + (1 # 2))).
  { apply Qfloor_comp. now rewrite E. }
  assert (Eb : Qle_bool 0 x = Qle_bool 0 y) by now rewrite E.
  now rewrite Ef, Eb.
Qed.

(** A whole number of hundredths is its own rounding to two places. *)
Lemma toFixed2_hundredths (n : Z) : Js.toFixed2 (n # 100) == n # 100.
Proof.
  unfold Js.toFixed2.
  assert (E : Qabs (n # 100) * 100 + (1 # 2) == inject_Z (Z.abs n) + (1 # 2)).
  { apply Qplus_comp; [|reflexivity].
    unfold Qabs, Qeq, Qmult, inject_Z. cbn [Qnum Qden]. lia. }
  rewrite (Qfloor_comp _ _ E), Qfloor_half.
  destruct (Qle_bool 0 (n # 100)) eqn:B.
  - apply Qle_bool_iff in B. unfold Qle in B. cbn [Qnum Qden] in B.
    unfold Qeq. cbn [Qnum Qden]. lia.
  - assert (H : ~ (0 <= n # 100)%Q).
    { intros H. apply Qle_bool_iff in H. congruence. }
    unfold Qle in H. cbn [Qnum Qden] in H.
    unfold Qeq. cbn [Qnum Qden]. lia.
Qed.

Lemma toFixed2_integer (n : Z) : Js.toFixed2 (inject_Z n) == inject_Z n.
Proof.
  assert (E : inject_Z n == (n * 100) # 100).
  { unfold Qeq, inject_Z. cbn [Qnum Qden]. lia. }
  rewrite (toFixed2_comp _ _ E), toFixed2_hundredths. symmetry. exact E.
Qed.

Lemma lower_upper_char (c : ascii) :
  Str.lower_char (Str.upper_char c) = Str.lower_char c.
Proof. destruct c as [[] [] [] [] [] [] [] []]; reflexivity. Qed.

Lemma lower_lower_char (c : ascii) :
  Str.lower_char (Str.lower_char c) = Str.lower_char c.
Proof. destruct c as [[] [] [] [] [] [] [] []]; reflexivity. Qed.

Lemma upper_lower_char (c : ascii) :
  Str.upper_char (Str.lower_char c) = Str.upper_char c.
Proof. destruct c as [[] [] [] [] [] [] [] []]; reflexivity. Qed.

Lemma upper_upper_char (c : ascii) :
  Str.upper_char (Str.upper_char c) = Str.upper_char c.
Proof. destruct c as [[] [] [] [] [] [] [] []]; reflexivity. Qed.

Lemma map_chars_compose (f g h : ascii -> ascii) (s : string) :
  (forall c, f (g c) = h c) ->
  Str.map_chars f (Str.map_chars g s) = Str.map_chars h s.
Proof.
  intros H. induction s as [|c s IH]; [reflexivity|].
  cbn [Str.map_chars]. now rewrite H, IH.
Qed.

Lemma toLowerCase_toUpperCase (s : string) :
  Str.toLowerCase (Str.toUpperCase s) = Str.toLowerCase s.
Proof. apply map_chars_compose, lower_upper_char. Qed.

Lemma toLowerCase_idem (s : string) :
  Str.toLowerCase (Str.toLowerCase s) = Str.toLowerCase s.
Proof. apply map_chars_compose, lower_lower_char. Qed.

Lemma toUpperCase_toLowerCase (s : string) :
  Str.toUpperCase (Str.toLowerCase s) = Str.toUpperCase s.
Proof. apply map_chars_compose, upper_lower_char. Qed.

Lemma toUpperCase_idem (s : string) :
  Str.toUpperCase (Str.toUpperCase s) = Str.toUpperCase s.
Proof. apply map_chars_compose, upper_upper_char. Qed.

End MajorUnits.

(** C8. Minor-to-major conversion.  For every integer amount in minor
    units and every currency code, [convertToMajorUnits] is the amount
    divided by 1 when the lower-cased code is in the zero-decimal set and
    by 100 otherwise; the casing of the code does not matter; 1050 in USD
    is 10.50 and 1050 in JPY is 1050. *)
Theorem convertToMajorUnits_divides (amount : Z) (currency : string) :
  let zero_decimal :=
    Js.has StripeAnalytics.ZERO_DECIMAL_CURRENCIES (Str.toLowerCase currency) in
  StripeAnalytics.convertToMajorUnits amount currency
    == inject_Z amount / (if zero_decimal then 1 else 100)
  /\ StripeAnalytics.convertToMajorUnits amount (Str.toUpperCase currency)
     = StripeAnalytics.convertToMajorUnits amount currency
  /\ StripeAnalytics.convertToMajorUnits amount (Str.toLowerCase currency)
     = StripeAnalytics.convertToMajorUnits amount currency
  /\ StripeAnalytics.convertToMajorUnits 1050 "USD" == 10.5
  /\ StripeAnalytics.convertToMajorUnits 1050 "usd" == 10.5
  /\ StripeAnalytics.convertToMajorUnits 1050 "JPY" == 1050
  /\ StripeAnalytics.convertToMajorUnits 1050 "jpy" == 1050.
Proof.
  cbv zeta. split; [|split; [|split; [|repeat split]]].
  - unfold StripeAnalytics.convertToMajorUnits.
    destruct (Js.has _ _).
    + assert (E : inject_Z amount / inject_Z 1 == inject_Z amount)
        by (change (inject_Z 1) with 1%Q; field).
      rewrite (toFixed2_comp _ _ E), toFixed2_integer.
      change 1%Q with (inject_Z 1) at 1. symmetry. exact E.
    + assert (E : inject_Z amount / inject_Z 100 == amount # 100).
      { unfold Qdiv, Qinv, Qmult, Qeq, inject_Z. cbn [Qnum Qden]. lia. }
      rewrite (toFixed2_comp _ _ E), toFixed2_hundredths.
      symmetry. exact E.
  - unfold StripeAnalytics.convertToMajorUnits.
    now rewrite toLowerCase_toUpperCase.
  - unfold StripeAnalytics.convertToMajorUnits.
    now rewrite toLowerCase_idem.
Qed.

(** ** Maps in insertion order and the grouping loops *)

Section MapFacts.
Context {V : Type}.

Definition keys (m : list (string * V)) : list string := List.map fst m.

Lemma map_get_set_same (k : string) (v : V) (m : list (string * V)) :
  Js.map_get k (Js.map_set k v m) = Some v.
Proof.
  induction m as [|[k' v'] m IH]; cbn.
  - now rewrite String.eqb_refl.
  - destruct (String.eqb k' k) eqn:E; cbn; rewrite E; [reflexivity|exact IH].
Qed.

Lemma map_get_set_other (k k' : string) (v : V) (m : list (string * V)) :
  k <> k' -> Js.map_get k' (Js.map_set k v m) = Js.map_get k' m.
Proof.
  intros Hne. induction m as [|[k0 v0] m IH]; cbn.
  - destruct (String.eqb k k') eqn:E; [apply String.eqb_eq in E; contradiction|reflexivity].
  - destruct (String.eqb k0 k) eqn:E; cbn.
    + apply String.eqb_eq in E. subst k0.
      destruct (String.eqb k k') eqn:E'; [apply String.eqb_eq in E'; contradiction|reflexivity].
    + destruct (String.eqb k0 k'); [reflexivity|exact IH].
Qed.

Lemma map_get_In (k : string) (m : list (string * V)) :
  In k (keys m) <-> Js.map_get k m <> None.
Proof.
  induction m as [|[k0 v0] m IH]; cbn.
  - tauto.
  - destruct (String.eqb k0 k) eqn:E.
    + apply String.eqb_eq in E. split; [discriminate|auto].
    + apply String.eqb_neq in E. rewrite <- IH. tauto.
Qed.

Lemma keys_map_set (k : string) (v : V) (m : list (string * V)) :
  (In k (keys m) /\ keys (Js.map_set k v m) = keys m)
  \/ (~ In k (keys m) /\ keys (Js.map_set k v m) = keys m ++ [k]).
Proof.
  induction m as [|[k0 v0] m IH].
  - right. split; [intros []|reflexivity].
  - cbn [Js.map_set]. destruct (String.eqb k0 k) eqn:E.
    + apply String.eqb_eq in E. subst k0. left. split; [now left|reflexivity].
    + apply String.eqb_neq in E.
      destruct IH as [[Hin Heq]|[Hnin Heq]].
      * left. split; [now right|]. cbn. f_equal. exact Heq.
      * right. split.
        -- cbn. intros [H|H]; [congruence|contradiction].
        -- cbn. f_equal. exact Heq.
Qed.

Lemma keys_map_set_In (k k' : string) (v : V) (m : list (string * V)) :
  In k' (keys (Js.map_set k v m)) <-> k' = k \/ In k' (keys m).
Proof.
  destruct (keys_map_set k v m) as [[Hin ->]|[Hnin ->]].
  - split; [auto|]. intros [->|H]; assumption.
  - rewrite in_app_iff. cbn. intuition congruence.
Qed.

Lemma keys_map_set_NoDup (k : string) (v : V) (m : list (string * V)) :
  NoDup (keys m) -> NoDup (keys (Js.map_set k v m)).
Proof.
  intros Hnd. destruct (keys_map_set k v m) as [[Hin ->]|[Hnin ->]]; [exact Hnd|].
  apply NoDup_app; [exact Hnd|repeat constructor; auto|].
  intros x Hx [<-|[]]. contradiction.
Qed.

Lemma In_map_get (k : string) (v : V) (m : list (string * V)) :
  NoDup (keys m) -> In (k, v) m -> Js.map_get k m = Some v.
Proof.
  induction m as [|[k0 v0] m IH]; cbn; [tauto|].
  intros Hnd [H|H].
  - inversion H; subst. now rewrite String.eqb_refl.
  - inversion Hnd as [|? ? Hnot Hnd']; subst.
    destruct (String.eqb k0 k) eqn:E.
    + apply String.eqb_eq in E. subst k0.
      exfalso. apply Hnot. unfold keys. apply in_map_iff. now exists (k, v).
    + auto.
Qed.

Lemma map_get_Some_In (k : string) (v : V) (m : list (string * V)) :
  Js.map_get k m = Some v -> In (k, v) m.
Proof.
  induction m as [|[k0 v0] m IH]; cbn; [discriminate|].
  destruct (String.eqb k0 k) eqn:E.
  - apply String.eqb_eq in E. intros H. inversion H; subst. now left.
  - auto.
Qed.

End MapFacts.

(** A loop that groups its input under a string key, each group
    accumulating an entry from [v0] with [upd]. *)
Section Grouping.
Context {X V : Type}.
Variable key : X -> string.
Variable upd : V -> X -> V.
Variable v0 : V.

Definition group_step (m : list (string * V)) (x : X) : list (string * V) :=
  Js.map_set (key x)
    (upd (match Js.map_get (key x) m with Some e => e | None => v0 end) x) m.

Definition entry_or_default (k : string) (m : list (string * V)) : V :=
  match Js.map_get k m with Some e => e | None => v0 end.

Lemma group_NoDup (xs : list X) :
  forall m, NoDup (keys m) -> NoDup (keys (fold_left group_step xs m)).
Proof.
  induction xs as [|x xs IH]; intros m Hnd; cbn [fold_left]; [exact Hnd|].
  apply IH. unfold group_step. now apply keys_map_set_NoDup.
Qed.

Lemma group_keys (xs : list X) :
  forall m k, In k (keys (fold_left group_step xs m))
              <-> In k (keys m) \/ exists x, In x xs /\ key x = k.
Proof.
  induction xs as [|x xs IH]; intros m k; cbn [fold_left].
  - split; [auto|]. intros [H|[x [[] _]]]. exact H.
  - rewrite IH. unfold group_step at 1. rewrite keys_map_set_In. cbn [In].
    split.
    + intros [[->|H]|[y [Hy Hk]]]; eauto.
    + intros [H|[y [[->|Hy] Hk]]]; eauto.
Qed.

Lemma group_entry (xs : list X) :
  forall m k,
    entry_or_default k (fold_left group_step xs m)
    = fold_left upd (filter (fun x => String.eqb (key x) k) xs) (entry_or_default k m).
Proof.
  induction xs as [|x xs IH]; intros m k; cbn [fold_left filter]; [reflexivity|].
  rewrite IH. destruct (String.eqb (key x) k) eqn:E; cbn [fold_left].
  - apply String.eqb_eq in E. subst k. f_equal.
    unfold entry_or_default, group_step. now rewrite map_get_set_same.
  - apply String.eqb_neq in E. f_equal.
    unfold entry_or_default, group_step. now rewrite map_get_set_other.
Qed.

End Grouping.

Section Sorting.
Context {A : Type}.
Variable key : A -> Q.

Lemma insert_desc_perm (x : A) (l : list A) :
  Permutation (Js.insert_desc key x l) (x :: l).
Proof.
  induction l as [|y l IH]; cbn; [reflexivity|].
  destruct (Qle_bool (key y) (key x)); [reflexivity|].
  rewrite IH. apply perm_swap.
Qed.

Lemma sort_desc_perm (l : list A) : Permutation (Js.sort_desc key l) l.
Proof.
  induction l as [|x l IH]; cbn; [reflexivity|].
  rewrite insert_desc_perm. now constructor.
Qed.

End Sorting.

(** ** Currency rollups *)

Section CurrencyRollup.

Definition stripe_key (c : StripeAnalytics.ChargeSummary) : string :=
  Str.toLowerCase (StripeAnalytics.currency c).

Definition stripe_upd (entry : StripeAnalytics.CurrencyEntry)
  (charge : StripeAnalytics.ChargeSummary) : StripeAnalytics.CurrencyEntry :=
  StripeAnalytics.Build_CurrencyEntry
    (StripeAnalytics.chargeCount entry + 1)
    (if StripeAnalytics.refunded charge
     then StripeAnalytics.refundedCount entry + 1
     else StripeAnalytics.refundedCount entry)
    (StripeAnalytics.grossAmountMinor entry + StripeAnalytics.amount charge).

Definition paypal_key (c : PaypalCharge.CardInfoRecord) : string :=
  Str.toUpperCase (match PaypalCharge.currency c with Some x => x | None => "USD"%string end).

Definition paypal_upd (entry : PaypalAnalytics.CurrencyEntry)
  (charge : PaypalCharge.CardInfoRecord) : PaypalAnalytics.CurrencyEntry :=
  PaypalAnalytics.Build_CurrencyEntry
    (PaypalAnalytics.transactionCount entry + 1)
    (PaypalAnalytics.refundedCount entry
     + (if PaypalAnalytics.isRefunded (PaypalCharge.status charge) then 1 else 0))
    (PaypalAnalytics.grossAmountMinor entry + PaypalCharge.amountMinor charge)
    (PaypalAnalytics.grossAmountMajor entry + PaypalCharge.amountMajor charge)%Q.

Lemma stripe_count (l : list StripeAnalytics.ChargeSummary) :
  forall e, StripeAnalytics.chargeCount (fold_left stripe_upd l e)
            = StripeAnalytics.chargeCount e + Z.of_nat (List.length l).
Proof.
  induction l as [|c l IH]; intros e; cbn [fold_left List.length].
  - lia.
  - rewrite IH. cbn. lia.
Qed.

Lemma paypal_count (l : list PaypalCharge.CardInfoRecord) :
  forall e, PaypalAnalytics.transactionCount (fold_left paypal_upd l e)
            = PaypalAnalytics.transactionCount e + Z.of_nat (List.length l).
Proof.
  induction l as [|c l IH]; intros e; cbn [fold_left List.length].
  - lia.
  - rewrite IH. cbn. lia.
Qed.

(** What a grouping loop followed by a projection and a sort returns. *)
Lemma grouped_breakdown {X V B : Type}
  (key : X -> string) (upd : V -> X -> V) (v0 : V)
  (project : string * V -> B) (name : B -> string) (rank : B -> Q)
  (xs : list X) :
  (forall k v, name (project (k, v)) = k) ->
  let m := fold_left (group_step key upd v0) xs [] in
  let b := Js.sort_desc rank (List.map project m) in
  NoDup (List.map name b)
  /\ (forall e, In e b -> exists x, In x xs /\ name e = key x)
  /\ (forall x, In x xs ->
        In (project (key x,
                     fold_left upd (filter (fun y => String.eqb (key y) (key x)) xs) v0)) b).
Proof.
  intros Hname m b.
  assert (Hnd : NoDup (keys m)) by (apply group_NoDup; constructor).
  assert (Hperm : Permutation b (List.map project m)) by apply sort_desc_perm.
  assert (Hkeys : List.map name (List.map project m) = keys m).
  { unfold keys. rewrite map_map. apply map_ext. intros [k v]. apply Hname. }
  split; [|split].
  - apply (Permutation_NoDup (l := keys m)); [|exact Hnd].
    rewrite <- Hkeys. symmetry. now apply Permutation_map.
  - intros e He.
    apply (Permutation_in _ Hperm) in He.
    apply in_map_iff in He as [[k v] [<- Hin]].
    rewrite Hname.
    assert (Hk : In k (keys m)) by (unfold keys; apply in_map_iff; now exists (k, v)).
    apply group_keys in Hk as [[]|[x [Hx Hkx]]]. now exists x.
  - intros x Hx.
    apply (Permutation_in _ (Permutation_sym Hperm)).
    apply in_map. apply map_get_Some_In.
    assert (Hk : In (key x) (keys m)) by (apply group_keys; right; now exists x).
    pose proof (group_entry key upd v0 xs [] (key x)) as Hentry.
    fold m in Hentry. unfold entry_or_default in Hentry. cbn [Js.map_get] in Hentry.
    apply map_get_In in Hk.
    destruct (Js.map_get (key x) m) as [v|]; [|contradiction].
    now rewrite Hentry.
Qed.

Lemma stripe_breakdown (charges : list StripeAnalytics.ChargeSummary) :
  let b := StripeAnalytics.aggregateByCurrency charges in
  NoDup (List.map StripeAnalytics.cb_currency b)
  /\ (forall e, In e b ->
        exists c, In c charges
                  /\ StripeAnalytics.cb_currency e = Str.toLowerCase (StripeAnalytics.currency c))
  /\ (forall c, In c charges ->
        exists e, In e b
          /\ StripeAnalytics.cb_currency e = Str.toLowerCase (StripeAnalytics.currency c)
          /\ StripeAnalytics.cb_chargeCount e
             = Z.of_nat (List.length
                 (filter (fun c' => String.eqb (Str.toLowerCase (StripeAnalytics.currency c'))
                                               (Str.toLowerCase (StripeAnalytics.currency c)))
                         charges))).
Proof.
  cbv zeta. unfold StripeAnalytics.aggregateByCurrency.
  match goal with
  | |- context [Js.sort_desc ?rank (List.map ?project _)] =>
      pose proof (grouped_breakdown stripe_key stripe_upd
                    (StripeAnalytics.Build_CurrencyEntry 0 0 0)
                    project StripeAnalytics.cb_currency rank charges
                    (fun k v => eq_refl)) as H
  end.
  cbv zeta in H. destruct H as (Hnd & Hsub & Hsup).
  split; [exact Hnd|split].
  - intros e He. destruct (Hsub e He) as [c [Hc Hk]]. now exists c.
  - intros c Hc. eexists. split; [exact (Hsup c Hc)|]. split; [reflexivity|].
    cbn [StripeAnalytics.cb_chargeCount]. rewrite stripe_count. reflexivity.
Qed.

Lemma paypal_breakdown (charges : list PaypalCharge.CardInfoRecord) :
  let code c := match PaypalCharge.currency c with Some x => x | None => "USD"%string end in
  let b := PaypalAnalytics.aggregateByCurrency charges in
  NoDup (List.map PaypalAnalytics.cb_currency b)
  /\ (forall e, In e b ->
        exists c, In c charges /\ PaypalAnalytics.cb_currency e = Str.toUpperCase (code c))
  /\ (forall c, In c charges ->
        exists e, In e b
          /\ PaypalAnalytics.cb_currency e = Str.toUpperCase (code c)
          /\ PaypalAnalytics.cb_transactionCount e
             = Z.of_nat (List.length
                 (filter (fun c' => String.eqb (Str.toUpperCase (code c'))
                                               (Str.toUpperCase (code c)))
                         charges))).
Proof.
  cbv zeta. unfold PaypalAnalytics.aggregateByCurrency.
  match goal with
  | |- context [Js.sort_desc ?rank (List.map ?project _)] =>
      pose proof (grouped_breakdown paypal_key paypal_upd
                    (PaypalAnalytics.Build_CurrencyEntry 0 0 0 0%Q)
                    project PaypalAnalytics.cb_currency rank charges
                    (fun k v => eq_refl)) as H
  end.
  cbv zeta in H. destruct H as (Hnd & Hsub & Hsup).
  split; [exact Hnd|split].
  - intros e He. destruct (Hsub e He) as [c [Hc Hk]]. now exists c.
  - intros c Hc. eexists. split; [exact (Hsup c Hc)|]. split; [reflexivity|].
    cbn [PaypalAnalytics.cb_transactionCount]. rewrite paypal_count. reflexivity.
Qed.

End CurrencyRollup.

(** Two card-ledger charges whose currency codes differ only in case. *)
Definition usd_charge (id code : string) (amount : Z) : StripeAnalytics.ChargeSummary :=
  StripeAnalytics.Build_ChargeSummary id amount code (Some "succeeded"%string)
    None None 1717977600 false None None [] [].

(** C4, as stated, fails on the card-ledger rollup: two charges in "USD"
    and "usd" are merged into one group, but the key of that group is
    "usd", which is not the upper-cased code. *)
Lemma stripe_currency_key_is_lower_case :
  let breakdown :=
    StripeAnalytics.aggregateByCurrency [usd_charge "ch_1" "USD" 1050; usd_charge "ch_2" "usd" 250] in
  List.map StripeAnalytics.cb_currency breakdown = ["usd"%string]
  /\ ~ (forall e, In e breakdown ->
          StripeAnalytics.cb_currency e = Str.toUpperCase (StripeAnalytics.cb_currency e)).
Proof.
  cbv zeta. split; [vm_compute; reflexivity|].
  intros H.
  specialize (H _ (or_introl eq_refl)).
  vm_compute in H. discriminate H.
Qed.

(** C4, amended.  Both currency rollups group by the case-normalised
    code, lower case in the card-ledger rollup and upper case (with a
    missing code read as USD) in the wallet-ledger rollup: the keys of the
    breakdown are pairwise distinct, every key is the normalised code of a
    charge of the input, and every charge is counted in the one entry
    whose key is its normalised code, together with all charges whose
    codes normalise to the same key. *)
Theorem aggregateByCurrency_case_normalized
  (stripeCharges : list StripeAnalytics.ChargeSummary)
  (paypalCharges : list PaypalCharge.CardInfoRecord) :
  let lower c := Str.toLowerCase (StripeAnalytics.currency c) in
  let upper c :=
    Str.toUpperCase (match PaypalCharge.currency c with Some x => x | None => "USD"%string end) in
  let stripe := StripeAnalytics.aggregateByCurrency stripeCharges in
  let paypal := PaypalAnalytics.aggregateByCurrency paypalCharges in
  (NoDup (List.map StripeAnalytics.cb_currency stripe)
   /\ (forall e, In e stripe ->
         exists c, In c stripeCharges /\ StripeAnalytics.cb_currency e = lower c)
   /\ (forall c, In c stripeCharges ->
         exists e, In e stripe
           /\ StripeAnalytics.cb_currency e = lower c
           /\ StripeAnalytics.cb_chargeCount e
              = Z.of_nat (List.length
                  (filter (fun c' => String.eqb (lower c') (lower c)) stripeCharges))))
  /\ (NoDup (List.map PaypalAnalytics.cb_currency paypal)
      /\ (forall e, In e paypal ->
            exists c, In c paypalCharges /\ PaypalAnalytics.cb_currency e = upper c)
      /\ (forall c, In c paypalCharges ->
            exists e, In e paypal
              /\ PaypalAnalytics.cb_currency e = upper c
              /\ PaypalAnalytics.cb_transactionCount e
                 = Z.of_nat (List.length
                     (filter (fun c' => String.eqb (upper c') (upper c)) paypalCharges)))).
Proof.
  cbv zeta. split.
  - exact (stripe_breakdown stripeCharges).
  - exact (paypal_breakdown paypalCharges).
Qed.

(** ** Top customers of an empty charge set *)

Lemma slice0_nil {A : Type} (n : Z) : Js.slice0 n (@nil A) = [].
Proof. unfold Js.slice0. destruct (n <? 0); apply firstn_nil. Qed.

(** C9. For an empty charge set both top-customers rollups return
    totalCustomers = 0, an empty topCustomers array and exactly one
    insight, the sentence that states that there was no activity; no field
    of the result is null. *)
Theorem buildTopCustomersSummary_empty
  (startDate endDate : string) (limit : Z) (Date_parse : string -> option Z) :
  StripeAnalytics.buildTopCustomersSummary startDate endDate [] limit
  = StripeAnalytics.Build_TopCustomersOutput (startDate, endDate) 0 []
      [("No customer activity detected between " ++ startDate ++ " and "
        ++ endDate ++ ".")%string]
  /\ PaypalAnalytics.buildTopCustomersSummary Date_parse startDate endDate [] limit
     = PaypalAnalytics.Build_TopCustomersOutput (startDate, endDate) 0 []
         [("No PayPal customer activity detected between " ++ startDate ++ " and "
           ++ endDate ++ ".")%string].
Proof.
  split.
  - unfold StripeAnalytics.buildTopCustomersSummary. cbn [fold_left List.map List.length].
    change (Js.sort_desc StripeAnalytics.tc_grossAmountMajor []) with (@nil StripeAnalytics.TopCustomer).
    rewrite slice0_nil. reflexivity.
  - unfold PaypalAnalytics.buildTopCustomersSummary. cbn [fold_left List.map List.length].
    change (Js.sort_desc PaypalAnalytics.tc_grossAmountMajor []) with (@nil PaypalAnalytics.CustomerBreakdown).
    rewrite slice0_nil. reflexivity.
Qed.

(** ** The wallet-ledger adapter *)

Section WalletAdapter.
Import PaypalCharge.

Variable parseFloat : string -> number.
Variable Date_parse : string -> option Z.
Variable now : Z.

Lemma toNullableString_nonempty (value : option string) (s : string) :
  toNullableString value = Some s -> s <> EmptyString.
Proof.
  unfold toNullableString. destruct value as [[|c v]|]; try discriminate.
  destruct (0 <? String.length (Str.trim (String c v)))%nat eqn:E; [|discriminate].
  intros H. inversion H; subst. intros Hs. rewrite Hs in E. discriminate.
Qed.

Lemma orElse_nonempty (a b : option string) (s : string) :
  orElse (toNullableString a) (toNullableString b) = Some s -> s <> EmptyString.
Proof.
  unfold orElse. destruct (toNullableString a) eqn:Ea.
  - intros H. inversion H; subst. eapply toNullableString_nonempty, Ea.
  - apply toNullableString_nonempty.
Qed.

Lemma Qfloor_nonneg (x : Q) : (0 <= x)%Q -> 0 <= Qfloor x.
Proof.
  intros H. change 0 with (Qfloor 0). now apply Qfloor_resp_le.
Qed.

Lemma toFixed2_nonneg (x : Q) : (0 <= x)%Q -> (0 <= Js.toFixed2 x)%Q.
Proof.
  intros H. unfold Js.toFixed2.
  assert (B : Qle_bool 0 x = true) by now apply Qle_bool_iff.
  rewrite B.
  assert (Hn : 0 <= Qfloor (Qabs x * 100 + (1 # 2))).
  { apply Qfloor_nonneg.
    apply (Qle_trans _ (0 * 100 + 0)); [discriminate|].
    apply Qplus_le_compat; [|discriminate].
    apply Qmult_le_compat_r; [apply Qabs_nonneg|discriminate]. }
  unfold Qle. cbn [Qnum Qden]. lia.
Qed.

Lemma normalizeAmount_nonneg (a : option TransactionAmount) :
  0 <= fst (normalizeAmount parseFloat a)
  /\ (0 <= snd (normalizeAmount parseFloat a))%Q.
Proof.
  unfold normalizeAmount.
  destruct (match a with Some a0 => value a0 | None => None end) as [v|];
    [|split; [reflexivity|discriminate]].
  destruct (parseFloat v) as [| |q]; try (split; [reflexivity|discriminate]).
  destruct (Qle_bool 0 q) eqn:B; [|split; [reflexivity|discriminate]].
  apply Qle_bool_iff in B.
  set (divisor := if Js.has _ _ then 1 else 100).
  assert (Hd : (0 < inject_Z divisor)%Q).
  { unfold divisor. destruct (Js.has _ _); reflexivity. }
  assert (Hminor : 0 <= Js.round (q * inject_Z divisor)).
  { unfold Js.round. apply Qfloor_nonneg.
    apply (Qle_trans _ (0 * inject_Z divisor + 0)); [discriminate|].
    apply Qplus_le_compat; [|discriminate].
    apply Qmult_le_compat_r; [exact B|now apply Qlt_le_weak]. }
  cbn [fst snd]. split; [exact Hminor|].
  apply toFixed2_nonneg.
  apply Qle_shift_div_l; [exact Hd|].
  rewrite Qmult_0_l. change 0%Q with (inject_Z 0). now rewrite <- Zle_Qle.
Qed.

(** A transaction amount that is missing, has no value, has a value that
    is not a number, or has a negative value. *)
Definition unusable_amount (a : option TransactionAmount) : Prop :=
  match a with
  | None => True
  | Some amount =>
      match value amount with
      | None => True
      | Some v =>
          match parseFloat v with
          | NaN => True
          | Infinity _ => True
          | Finite q => (q < 0)%Q
          end
      end
  end.

Lemma normalizeAmount_unusable (a : option TransactionAmount) :
  unusable_amount a -> normalizeAmount parseFloat a = (0, 0%Q).
Proof.
  unfold unusable_amount, normalizeAmount.
  destruct a as [amount|]; [|reflexivity].
  destruct (value amount) as [v|]; [|reflexivity].
  destruct (parseFloat v) as [| |q]; try reflexivity.
  intros Hq. destruct (Qle_bool 0 q) eqn:B; [|reflexivity].
  apply Qle_bool_iff in B. exfalso. apply (Qlt_not_le _ _ Hq B).
Qed.

(** The parts of a transaction the adapter reads. *)
Definition info_of (detail : PaypalTransactionDetail) : TransactionInfo :=
  match transaction_info detail with Some i => i | None => no_info end.

Definition order_id_of (detail : PaypalTransactionDetail) : option string :=
  orElse (toNullableString (invoice_id (info_of detail)))
         (toNullableString (custom_field (info_of detail))).

Lemma mapPaypalTransactionToCardInfo_dropped (detail : PaypalTransactionDetail) :
  isExpressCheckoutPayment detail = false
  \/ toNullableString (transaction_id (info_of detail)) = None
  \/ order_id_of detail = None ->
  mapPaypalTransactionToCardInfo parseFloat Date_parse now detail = Ok None.
Proof.
  unfold mapPaypalTransactionToCardInfo, order_id_of, info_of.
  intros [H|[H|H]].
  - now rewrite H.
  - destruct (isExpressCheckoutPayment detail); [|reflexivity].
    cbn [negb]. now rewrite H.
  - destruct (isExpressCheckoutPayment detail); [|reflexivity].
    cbn [negb]. destruct (toNullableString (transaction_id _)); [|reflexivity].
    now rewrite H.
Qed.

Lemma mapPaypalTransactionToCardInfo_kept
  (detail : PaypalTransactionDetail) (r : CardInfoRecord) :
  mapPaypalTransactionToCardInfo parseFloat Date_parse now detail = Ok (Some r) ->
  isExpressCheckoutPayment detail = true
  /\ toNullableString (transaction_id (info_of detail)) = Some (transactionId r)
  /\ order_id_of detail = Some (orderId r)
  /\ (amountMinor r, amountMajor r)
     = normalizeAmount parseFloat (transaction_amount (info_of detail)).
Proof.
  unfold mapPaypalTransactionToCardInfo, order_id_of, info_of.
  destruct (isExpressCheckoutPayment detail); cbn [negb]; [|discriminate].
  destruct (toNullableString (transaction_id _)) as [tid|]; [|discriminate].
  destruct (orElse _ _) as [oid|]; [|discriminate].
  destruct (toISOString _) as [created|]; cbn [bind]; [|discriminate].
  intros H. inversion H; subst. cbn.
  repeat split. now destruct (normalizeAmount _ _).
Qed.

Lemma map_records_In (transactions : list PaypalTransactionDetail) :
  forall records r,
    map_records parseFloat Date_parse now transactions = Ok records ->
    In r records ->
    exists detail, In detail transactions
      /\ mapPaypalTransactionToCardInfo parseFloat Date_parse now detail = Ok (Some r).
Proof.
  induction transactions as [|d ds IH]; intros records r H Hin; cbn in H.
  - inversion H; subst. destruct Hin.
  - destruct (mapPaypalTransactionToCardInfo parseFloat Date_parse now d) as [rec|] eqn:Ed;
      cbn [bind] in H; [|discriminate].
    destruct (map_records parseFloat Date_parse now ds) as [rest|] eqn:Er;
      cbn [bind] in H; [|discriminate].
    inversion H; subst. destruct rec as [r0|].
    + destruct Hin as [<-|Hin].
      * exists d. split; [now left|exact Ed].
      * destruct (IH _ _ eq_refl Hin) as [d' [Hd' Hm]]. exists d'. split; [now right|exact Hm].
    + destruct (IH _ _ eq_refl Hin) as [d' [Hd' Hm]]. exists d'. split; [now right|exact Hm].
Qed.

End WalletAdapter.

(** C10. Every record that [fetchPaypalCardInfo] returns comes from a
    fetched transaction that matches the express-checkout vocabulary (an
    event code in the set, or a description that contains the phrase), and
    carries that transaction's trimmed, non-empty transaction id and order
    id; its amounts are non-negative.  A transaction outside the
    vocabulary or without either id is dropped, and a missing, non-numeric
    or negative amount becomes 0 minor and 0 major units. *)
Theorem fetchPaypalCardInfo_record_invariant
  (parseFloat : string -> PaypalCharge.number) (Date_parse : string -> option Z) (now : Z)
  (fetch_token : result (Response PaypalAuth.TokenBody))
  (fetch_page : Z -> Z -> Z -> result (Response PaypalCharge.TransactionsPage))
  (fuel : nat) (start finish : Z)
  (records : list PaypalCharge.CardInfoRecord) (r : PaypalCharge.CardInfoRecord)
  (Hreturned : PaypalCharge.fetchPaypalCardInfo parseFloat Date_parse now fetch_token
                 fetch_page fuel start finish = Some (Ok records))
  (Hin : In r records) :
  PaypalCharge.transactionId r <> EmptyString
  /\ PaypalCharge.orderId r <> EmptyString
  /\ 0 <= PaypalCharge.amountMinor r
  /\ (0 <= PaypalCharge.amountMajor r)%Q
  /\ (exists detail,
        PaypalCharge.isExpressCheckoutPayment detail = true
        /\ PaypalCharge.toNullableString (PaypalCharge.transaction_id (info_of detail))
           = Some (PaypalCharge.transactionId r)
        /\ order_id_of detail = Some (PaypalCharge.orderId r)
        /\ (PaypalCharge.amountMinor r, PaypalCharge.amountMajor r)
           = PaypalCharge.normalizeAmount parseFloat
               (PaypalCharge.transaction_amount (info_of detail)))
  /\ (forall detail,
        PaypalCharge.isExpressCheckoutPayment detail = false
        \/ PaypalCharge.toNullableString (PaypalCharge.transaction_id (info_of detail)) = None
        \/ order_id_of detail = None ->
        PaypalCharge.mapPaypalTransactionToCardInfo parseFloat Date_parse now detail = Ok None)
  /\ (forall amount,
        unusable_amount parseFloat amount ->
        PaypalCharge.normalizeAmount parseFloat amount = (0, 0%Q)).
Proof.
  unfold PaypalCharge.fetchPaypalCardInfo in Hreturned.
  destruct (PaypalCharge.fetchPaypalTransactions fetch_token fetch_page fuel start finish)
    as [[transactions|m]|]; try discriminate.
  inversion Hreturned as [Hmap]. clear Hreturned.
  destruct (map_records_In parseFloat Date_parse now transactions records r Hmap Hin)
    as [detail [_ Hkept]].
  apply mapPaypalTransactionToCardInfo_kept in Hkept.
  destruct Hkept as (Hx & Htid & Hoid & Hamount).
  pose proof (normalizeAmount_nonneg parseFloat
                (PaypalCharge.transaction_amount (info_of detail))) as [Hminor Hmajor].
  rewrite <- Hamount in Hminor, Hmajor. cbn [fst snd] in Hminor, Hmajor.
  split; [eapply toNullableString_nonempty, Htid|].
  split; [eapply orElse_nonempty, Hoid|].
  split; [exact Hminor|]. split; [exact Hmajor|].
  split; [now exists detail|].
  split.
  - apply mapPaypalTransactionToCardInfo_dropped.
  - apply normalizeAmount_unusable.
Qed.

(** A ledger that answers with one page holding one express-checkout
    transaction, and the built-ins fixed for the example. *)
Module WalletExample.
Import PaypalCharge.

Definition parseFloat (s : string) : number :=
  if String.eqb s "12.34" then Finite (1234 # 100) else NaN.

Definition Date_parse (s : string) : option Z :=
  if String.eqb s "2024-06-10T00:00:00Z" then Some 1717977600000 else None.

Definition now : Z := 1717977600000.

Definition fetch_token : result (Response PaypalAuth.TokenBody) :=
  Ok (Build_Response _ true 200 "" (Ok (PaypalAuth.Build_TokenBody (Some "token"%string)))).

Definition detail : PaypalTransactionDetail :=
  Build_PaypalTransactionDetail
    (Some (Build_TransactionInfo
             (Some " 9AB12345CD "%string) None None (Some "t0006"%string) None
             (Some "S"%string) (Some "2024-06-10T00:00:00Z"%string) None
             (Some (Build_TransactionAmount (Some "usd"%string) (Some "12.34"%string)))
             (Some "INV-1"%string) None))
    None None.

Definition fetch_page (start finish page : Z) : result (Response TransactionsPage) :=
  Ok (Build_Response _ true 200 ""
        (Ok (Build_TransactionsPage (Some [detail]) (Some 1)))).

Definition record : CardInfoRecord :=
  Build_CardInfoRecord "INV-1" "9AB12345CD" 1234 (1234 # 100)
    "2024-06-10T00:00:00.000Z" (Some "S"%string) (Some "USD"%string)
    None None None None None None None None None None None None.

End WalletExample.

(** The invariant on the record of that ledger. *)
Lemma fetchPaypalCardInfo_record_invariant_witness :
  PaypalCharge.fetchPaypalCardInfo WalletExample.parseFloat WalletExample.Date_parse
    WalletExample.now WalletExample.fetch_token WalletExample.fetch_page
    2 1717200000000 1717977600000
  = Some (Ok [WalletExample.record])
  /\ In WalletExample.record [WalletExample.record]
  /\ PaypalCharge.transactionId WalletExample.record <> EmptyString
  /\ 0 <= PaypalCharge.amountMinor WalletExample.record.
Proof.
  assert (H : PaypalCharge.fetchPaypalCardInfo WalletExample.parseFloat
                WalletExample.Date_parse WalletExample.now WalletExample.fetch_token
                WalletExample.fetch_page 2 1717200000000 1717977600000
              = Some (Ok [WalletExample.record])) by (vm_compute; reflexivity).
  assert (Hin : In WalletExample.record [WalletExample.record]) by (simpl; auto).
  pose proof (fetchPaypalCardInfo_record_invariant _ _ _ _ _ _ _ _ _ _ H Hin) as P.
  split; [exact H|]. split; [exact Hin|].
  split; [exact (proj1 P)|exact (proj1 (proj2 (proj2 P)))].
Defined.

(** ** Ledger failures *)

Section LedgerFailures.

Variable Number_of_string : string -> option Q.
Variable list_charges : Z -> Z -> result (list StripeCharge.ApiCharge).
Variable parseFloat : string -> PaypalCharge.number.
Variable Date_parse : string -> option Z.
Variable now : Z.
Variable fetch_token : result (Response PaypalAuth.TokenBody).
Variable fetch_page : Z -> Z -> Z -> result (Response PaypalCharge.TransactionsPage).

Lemma try_catch_never_throws {A : Type} (body : result A) (handler : A) :
  is_throw (try_catch body handler) = false.
Proof. now destruct body. Qed.

Lemma getStripeCharges_list_failure (startDate endDate : string) (a b : Z) (m : string) :
  StripeCharge.parseDateToUnix startDate "startDate" = Ok a ->
  StripeCharge.parseDateToUnix endDate "endDate" = Ok b ->
  a <= b ->
  list_charges a b = Throw m ->
  StripeCharge.getStripeCharges_body Number_of_string list_charges startDate endDate = Throw m.
Proof.
  intros Ha Hb Hab Hl. unfold StripeCharge.getStripeCharges_body.
  rewrite Ha, Hb. cbn [bind].
  destruct (b <? a) eqn:E; [apply Z.ltb_lt in E; lia|].
  now rewrite Hl.
Qed.

Lemma paypalChargeTool_never_throws (fuel : nat) (startDate endDate : string) (m : string) :
  PaypalCharge.paypalChargeTool parseFloat Date_parse now fetch_token fetch_page
    fuel startDate endDate <> Some (Throw m).
Proof.
  unfold PaypalCharge.paypalChargeTool.
  destruct (PaypalCharge.parseDateRange startDate endDate) as [[start finish]|];
    [|discriminate].
  destruct (PaypalCharge.fetchPaypalCardInfo _ _ _ _ _ _ _ _) as [[records|m']|];
    discriminate.
Qed.

End LedgerFailures.

(** A card ledger whose listing always fails. *)
Definition unreachable_ledger (gte lte : Z) : result (list StripeCharge.ApiCharge) :=
  Throw "An error occurred with our connection to Stripe.".

(** C1, as stated, fails on the card-ledger side: with a ledger whose
    listing fails for the range 2024-06-01..2024-06-07, the body of
    [getStripeCharges] throws, yet [getStripeCharges] returns the empty
    array and does not throw. *)
Lemma getStripeCharges_swallows_failure :
  StripeCharge.getStripeCharges_body (fun _ => None) unreachable_ledger
    "2024-06-01" "2024-06-07"
  = Throw "An error occurred with our connection to Stripe."
  /\ StripeCharge.getStripeCharges (fun _ => None) unreachable_ledger
       "2024-06-01" "2024-06-07" = Ok []
  /\ is_throw (StripeCharge.getStripeCharges (fun _ => None) unreachable_ledger
                 "2024-06-01" "2024-06-07") = false.
Proof. vm_compute. repeat split. Qed.

(** C1, amended.  Both ledger adapters degrade to an empty result set.
    For every date range, a wallet-ledger fetch failure is caught and the
    PayPal charge tool returns the empty array; the tool never throws.  A
    card-ledger fetch failure is caught inside [getStripeCharges], which
    returns the empty array as well; it never throws. *)
Theorem ledger_failures_degrade_to_empty
  (Number_of_string : string -> option Q)
  (list_charges : Z -> Z -> result (list StripeCharge.ApiCharge))
  (parseFloat : string -> PaypalCharge.number) (Date_parse : string -> option Z) (now : Z)
  (fetch_token : result (Response PaypalAuth.TokenBody))
  (fetch_page : Z -> Z -> Z -> result (Response PaypalCharge.TransactionsPage))
  (fuel : nat) (startDate endDate : string) :
  let paypalTool :=
    PaypalCharge.paypalChargeTool parseFloat Date_parse now fetch_token fetch_page in
  let fetchPaypal :=
    PaypalCharge.fetchPaypalCardInfo parseFloat Date_parse now fetch_token fetch_page in
  let getStripe := StripeCharge.getStripeCharges Number_of_string list_charges in
  (forall start finish m,
      PaypalCharge.parseDateRange startDate endDate = Ok (start, finish) ->
      fetchPaypal fuel start finish = Some (Throw m) ->
      paypalTool fuel startDate endDate = Some (Ok []))
  /\ (forall m, paypalTool fuel startDate endDate <> Some (Throw m))
  /\ (forall a b m,
        StripeCharge.parseDateToUnix startDate "startDate" = Ok a ->
        StripeCharge.parseDateToUnix endDate "endDate" = Ok b ->
        a <= b ->
        list_charges a b = Throw m ->
        getStripe startDate endDate = Ok [])
  /\ (forall m,
        StripeCharge.getStripeCharges_body Number_of_string list_charges startDate endDate
        = Throw m ->
        getStripe startDate endDate = Ok [])
  /\ is_throw (getStripe startDate endDate) = false.
Proof.
  cbv zeta. split; [|split; [|split; [|split]]].
  - intros start finish m Hrange Hfail.
    unfold PaypalCharge.paypalChargeTool. now rewrite Hrange, Hfail.
  - intros m. apply paypalChargeTool_never_throws.
  - intros a b m Ha Hb Hab Hl. unfold StripeCharge.getStripeCharges.
    now rewrite (getStripeCharges_list_failure _ _ _ _ _ _ _ Ha Hb Hab Hl).
  - intros m Hbody. unfold StripeCharge.getStripeCharges. now rewrite Hbody.
  - apply try_catch_never_throws.
Qed.

(** A wallet ledger that hands out a token and then answers 503. *)
Module Outage.
Import PaypalCharge.

Definition fetch_token : result (Response PaypalAuth.TokenBody) :=
  Ok (Build_Response _ true 200 "" (Ok (PaypalAuth.Build_TokenBody (Some "token"%string)))).

Definition fetch_page (start finish page : Z) : result (Response TransactionsPage) :=
  Ok (Build_Response _ false 503 "Service Unavailable" (Throw "no body")).

End Outage.

Example paypalChargeTool_on_outage :
  PaypalCharge.fetchPaypalCardInfo (fun _ => PaypalCharge.NaN) (fun _ => None) 0
    Outage.fetch_token Outage.fetch_page 2 1717200000000 1718236799999
  = Some (Throw "Failed to fetch PayPal transactions: 503 Service Unavailable")
  /\ PaypalCharge.paypalChargeTool (fun _ => PaypalCharge.NaN) (fun _ => None) 0
       Outage.fetch_token Outage.fetch_page 2 "2024-06-01" "2024-06-12"
     = Some (Ok []).
Proof. vm_compute. split; reflexivity. Qed.

(** ** Stitching pages together *)

Section Pagination.
Import PurchaseSessions.

Variable Row : Type.
Variable fetcher : FetchOptions -> result (list Row).
Variable context : Context.
Variables target perPage : Z.

Local Notation "'options'" := (page_options context perPage).
Local Notation "'size' l" := (Z.of_nat (List.length l)) (at level 10, l at level 9).

(** The accumulation as the specification words it: starting at page [p]
    with the rows [acc] in hand, the pages [pages] are fetched and the rows
    [final] are in hand when the loop stops. *)
Inductive stitched : Z -> list Row -> list Z -> list Row -> Prop :=
| stop_at_target (p : Z) (acc : list Row) :
    target <= size acc ->
    stitched p acc [] acc
| stop_on_empty_page (p : Z) (acc : list Row) :
    size acc < target ->
    fetcher (options p) = Ok [] ->
    stitched p acc [p] acc
| stop_on_short_page (p : Z) (acc batch : list Row) :
    size acc < target ->
    fetcher (options p) = Ok batch ->
    batch <> [] -> size batch < perPage ->
    stitched p acc [p] (acc ++ batch)
| next_page (p : Z) (acc batch : list Row) (pages : list Z) (final : list Row) :
    size acc < target ->
    fetcher (options p) = Ok batch ->
    batch <> [] -> perPage <= size batch ->
    stitched (p + 1) (acc ++ batch) pages final ->
    stitched p acc (p :: pages) final.

Lemma accumulate_stitched (p : Z) (acc : list Row) (calls : list FetchOptions) :
  match accumulate Row fetcher context target perPage p acc calls with
  | Ok (final, calls') =>
      exists pages, calls' = calls ++ List.map options pages /\ stitched p acc pages final
  | Throw m => exists p', p <= p' /\ fetcher (options p') = Throw m
  end.
Proof.
  funelim (accumulate Row fetcher context target perPage p acc calls).
  - (* the target is reached *)
    exists []. split; [now rewrite app_nil_r|]. apply stop_at_target. lia.
  - (* an empty page *)
    exists [currentPage]. split; [reflexivity|]. now apply stop_on_empty_page.
  - (* the fetch throws *)
    exists currentPage. split; [lia|assumption].
  - (* a short page *)
    exists [currentPage]. split; [reflexivity|].
    apply stop_on_short_page; [assumption|assumption|discriminate|assumption].
  - (* a full page: on to the next one *)
    destruct (accumulate Row fetcher context target perPage (currentPage + 1)
                (rows ++ r :: batch) (calls ++ [options currentPage]))
      as [[final calls']|m].
    + destruct H as [pages [-> Hs]]. exists (currentPage :: pages). split.
      * rewrite <- app_assoc. reflexivity.
      * eapply next_page; eauto; [discriminate|lia].
    + destruct H as [p' [Hp' Hf]]. exists p'. split; [lia|exact Hf].
Qed.

(** The accumulation is a function of the page to start at and of the
    rows in hand. *)
Lemma stitched_deterministic (p : Z) (acc : list Row) (pages : list Z) (final : list Row) :
  stitched p acc pages final ->
  forall pages' final', stitched p acc pages' final' -> pages' = pages /\ final' = final.
Proof.
  induction 1 as [p acc Ht|p acc Ht He|p acc batch Ht Hf Hne Hs
                 |p acc batch pages final Ht Hf Hne Hfull _ IH];
    intros pages' final' H2; inversion H2; subst;
    try lia; try congruence;
    repeat match goal with
      | H1 : fetcher ?o = Ok ?a, H2 : fetcher ?o = Ok ?b |- _ =>
          assert (a = b) by congruence; subst; clear H2
      end;
    try (split; reflexivity); try lia; try contradiction.
  match goal with
  | H : stitched (p + 1) _ _ _ |- _ => destruct (IH _ _ H) as [-> ->]
  end.
  split; reflexivity.
Qed.

(** The pages fetched are consecutive, starting at the requested page. *)
Lemma stitched_consecutive (p : Z) (acc : list Row) (pages : list Z) (final : list Row) :
  stitched p acc pages final ->
  pages = List.map (fun i => p + Z.of_nat i) (seq 0 (List.length pages)).
Proof.
  induction 1 as [p acc _|p acc _ _|p acc batch _ _ _ _|p acc batch pages final _ _ _ _ _ IH].
  - reflexivity.
  - cbn. f_equal. lia.
  - cbn. f_equal. lia.
  - cbn [List.length seq List.map]. f_equal; [lia|].
    rewrite IH at 1. rewrite <- seq_shift, map_map.
    apply map_ext. intros i. lia.
Qed.

(** When the loop stops, one of the three conditions holds. *)
Definition stop_reason (pages : list Z) (final : list Row) : Prop :=
  target <= size final
  \/ (exists batch, fetcher (options (last pages 0)) = Ok batch /\ size batch < perPage)
  \/ fetcher (options (last pages 0)) = Ok [].

Lemma stitched_stop_reason (p : Z) (acc : list Row) (pages : list Z) (final : list Row) :
  stitched p acc pages final -> stop_reason pages final.
Proof.
  induction 1 as [p acc Ht|p acc _ He|p acc batch _ Hf _ Hs
                 |p acc batch pages final _ _ _ _ Hrest IH].
  - now left.
  - right. right. exact He.
  - right. left. exists batch. split; assumption.
  - destruct pages as [|q pages].
    + inversion Hrest; subst. left. assumption.
    + exact IH.
Qed.

(** Every page but the last came back full, and was asked for only while
    the rows in hand were short of the target. *)
Lemma stitched_full_pages (p : Z) (acc : list Row) (pages : list Z) (final : list Row) :
  stitched p acc pages final ->
  forall q, In q (removelast pages) ->
    exists batch, fetcher (options q) = Ok batch /\ batch <> [] /\ perPage <= size batch.
Proof.
  induction 1 as [p acc _|p acc _ _|p acc batch _ _ _ _
                 |p acc batch pages final _ Hf Hne Hfull Hrest IH];
    try (intros q []).
  intros q Hq. destruct pages as [|q' pages]; [destruct Hq|].
  cbn [removelast] in Hq. destruct Hq as [<-|Hq].
  - exists batch. repeat split; assumption.
  - apply IH. exact Hq.
Qed.

Lemma stitched_nonempty_fetch (p : Z) (acc : list Row) (pages : list Z) (final : list Row) :
  stitched p acc pages final -> pages <> [] -> size acc < target.
Proof. destruct 1; intros Hne; try assumption. now contradiction Hne. Qed.

(** The cut of the rows in hand to the target: their first [target]
    rows (none for a target below zero, with which the loop fetches
    nothing). *)
Lemma stitched_slice (p : Z) (pages : list Z) (final : list Row) :
  stitched p [] pages final ->
  Js.slice0 target final = firstn (Z.to_nat target) final.
Proof.
  intros Hs. unfold Js.slice0. destruct (target <? 0) eqn:E; [|reflexivity].
  apply Z.ltb_lt in E.
  inversion Hs; subst; cbn [List.length] in *; try lia.
  now rewrite !firstn_nil.
Qed.

End Pagination.

(** With [fetchAllPages] set, the tool runs the loop from the requested
    page with no rows in hand and cuts the result to the target. *)
Lemma execute_traced_all_pages
  (Row : Type)
  (getPurchaseSessionsByDateRange getDevPurchaseSessionsByDateRange :
     PurchaseSessions.FetchOptions -> result (list Row))
  (context : PurchaseSessions.Context) :
  PurchaseSessions.ctx_fetchAllPages context = true ->
  let fetcher :=
    match PurchaseSessions.ctx_environment context with
    | PurchaseSessions.env_dev => getDevPurchaseSessionsByDateRange
    | PurchaseSessions.env_default => getPurchaseSessionsByDateRange
    end in
  let page := match PurchaseSessions.ctx_page context with Some p => p | None => 1 end in
  let target := match PurchaseSessions.ctx_limit context with Some l => l | None => 100 end in
  let perPage :=
    match PurchaseSessions.ctx_pageSize context with Some n => n | None => 100 end in
  PurchaseSessions.execute_traced Row getPurchaseSessionsByDateRange
    getDevPurchaseSessionsByDateRange context
  = (traced <- PurchaseSessions.accumulate Row fetcher context target perPage page [] [] ;;
     Ok (Js.slice0 target (fst traced), snd traced)).
Proof.
  intros Hall. unfold PurchaseSessions.execute_traced. rewrite Hall. reflexivity.
Qed.

(** Three rows behind the paged query. *)
Module ThreeRows.
Import PurchaseSessions.

Definition run_query (table : string) (startDate endDate : option string)
  : result (list string) :=
  Ok ["T-1001"; "T-1002"; "T-1003"]%string.

Definition fetcher : FetchOptions -> result (list string) :=
  fetchPurchaseSessions string string (fun _ row => row) run_query "events".

Definition context : Context :=
  Build_Context None None (Some 10) env_default (Some 1) (Some 2) true true.

End ThreeRows.

(** Five rows behind the paged query, asked for with a limit of 3 and
    pages of 2: the second page brings the rows in hand to 4. *)
Module FiveRows.
Import PurchaseSessions.

Definition run_query (table : string) (startDate endDate : option string)
  : result (list string) :=
  Ok ["T-1"; "T-2"; "T-3"; "T-4"; "T-5"]%string.

Definition fetcher : FetchOptions -> result (list string) :=
  fetchPurchaseSessions string string (fun _ row => row) run_query "events".

Definition context : Context :=
  Build_Context None None (Some 3) env_default (Some 1) (Some 2) true true.

End FiveRows.

(** C5. Multi-page accumulation.  With [fetchAllPages] set, whatever the
    pages hold, the tool fetches consecutive pages of [pageSize] starting
    at the requested page and appends their rows; every page before the
    last came back non-empty and full; it stops exactly when the rows in
    hand reach the target, when a page comes back short, or when a page
    comes back empty; and what the tool returns is the first [limit] of
    the rows in hand, all of them when they are fewer.  The tool fails
    only when a fetch fails.  With pageSize = 2, three rows and
    limit = 10 the tool fetches twice (2 rows, then 1 row) and returns
    exactly 3 rows; with pageSize = 2, five rows and limit = 3 it
    fetches twice, has 4 rows in hand and returns the first 3. *)
Theorem accumulate_pages
  (Row : Type)
  (getPurchaseSessionsByDateRange getDevPurchaseSessionsByDateRange :
     PurchaseSessions.FetchOptions -> result (list Row))
  (context : PurchaseSessions.Context) :
  let fetcher :=
    match PurchaseSessions.ctx_environment context with
    | PurchaseSessions.env_dev => getDevPurchaseSessionsByDateRange
    | PurchaseSessions.env_default => getPurchaseSessionsByDateRange
    end in
  let page := match PurchaseSessions.ctx_page context with Some p => p | None => 1 end in
  let target := match PurchaseSessions.ctx_limit context with Some l => l | None => 100 end in
  let perPage :=
    match PurchaseSessions.ctx_pageSize context with Some n => n | None => 100 end in
  let options := PurchaseSessions.page_options context perPage in
  (PurchaseSessions.ctx_fetchAllPages context = true ->
   match PurchaseSessions.execute_traced Row getPurchaseSessionsByDateRange
           getDevPurchaseSessionsByDateRange context with
   | Ok (returned, calls) =>
       PurchaseSessions.execute Row getPurchaseSessionsByDateRange
         getDevPurchaseSessionsByDateRange context = Ok returned
       /\ exists pages rows,
            calls = List.map options pages
            /\ pages = List.map (fun i => page + Z.of_nat i) (seq 0 (List.length pages))
            /\ stitched Row fetcher context target perPage page [] pages rows
            /\ (forall q, In q (removelast pages) ->
                  exists batch, fetcher (options q) = Ok batch /\ batch <> []
                                /\ perPage <= Z.of_nat (List.length batch))
            /\ stop_reason Row fetcher context target perPage pages rows
            /\ returned = firstn (Z.to_nat target) rows
            /\ Z.of_nat (List.length returned)
               = Z.min (Z.of_nat (List.length rows)) (Z.max 0 target)
   | Throw m =>
       PurchaseSessions.execute Row getPurchaseSessionsByDateRange
         getDevPurchaseSessionsByDateRange context = Throw m
       /\ exists p, page <= p /\ fetcher (options p) = Throw m
   end)
  /\ ThreeRows.fetcher (PurchaseSessions.page_options ThreeRows.context 2 1)
     = Ok ["T-1001"; "T-1002"]%string
  /\ ThreeRows.fetcher (PurchaseSessions.page_options ThreeRows.context 2 2)
     = Ok ["T-1003"]%string
  /\ PurchaseSessions.execute_traced string ThreeRows.fetcher ThreeRows.fetcher
       ThreeRows.context
     = Ok (["T-1001"; "T-1002"; "T-1003"]%string,
           [PurchaseSessions.page_options ThreeRows.context 2 1;
            PurchaseSessions.page_options ThreeRows.context 2 2])
  /\ PurchaseSessions.accumulate string FiveRows.fetcher FiveRows.context 3 2 1 [] []
     = Ok (["T-1"; "T-2"; "T-3"; "T-4"]%string,
           [PurchaseSessions.page_options FiveRows.context 2 1;
            PurchaseSessions.page_options FiveRows.context 2 2])
  /\ PurchaseSessions.execute_traced string FiveRows.fetcher FiveRows.fetcher
       FiveRows.context
     = Ok (["T-1"; "T-2"; "T-3"]%string,
           [PurchaseSessions.page_options FiveRows.context 2 1;
            PurchaseSessions.page_options FiveRows.context 2 2])
  /\ PurchaseSessions.execute string FiveRows.fetcher FiveRows.fetcher FiveRows.context
     = Ok ["T-1"; "T-2"; "T-3"]%string.
Proof.
  cbv zeta. split; [|repeat split; vm_compute; reflexivity].
  intros Hall. unfold PurchaseSessions.execute.
  rewrite (execute_traced_all_pages Row _ _ context Hall). cbv zeta.
  set (fetcher := match PurchaseSessions.ctx_environment context with
                  | PurchaseSessions.env_dev => getDevPurchaseSessionsByDateRange
                  | PurchaseSessions.env_default => getPurchaseSessionsByDateRange
                  end).
  set (page := match PurchaseSessions.ctx_page context with Some p => p | None => 1 end).
  set (target := match PurchaseSessions.ctx_limit context with Some l => l | None => 100 end).
  set (perPage := match PurchaseSessions.ctx_pageSize context with
                  | Some n => n | None => 100 end).
  pose proof (accumulate_stitched Row fetcher context target perPage page [] []) as H.
  destruct (PurchaseSessions.accumulate Row fetcher context target perPage page [] [])
    as [[rows calls]|m]; cbn [bind fst snd].
  - destruct H as [pages [-> Hs]]. split; [reflexivity|]. exists pages, rows.
    split; [reflexivity|].
    split; [eapply stitched_consecutive, Hs|].
    split; [exact Hs|].
    split; [eapply stitched_full_pages, Hs|].
    split; [eapply stitched_stop_reason, Hs|].
    rewrite (stitched_slice Row fetcher context target perPage page pages rows Hs).
    split; [reflexivity|].
    rewrite length_firstn. lia.
  - split; [reflexivity|exact H].
Qed.

(** ** Session attribution *)

Section Attribution.
Import SessionsQuery.

Variable C : Chooser.

Lemma choose_nil (A : Type) : choose C A [] = None.
Proof.
  destruct (choose C A []) as [x|] eqn:E; [|reflexivity].
  destruct (choose_In C A [] x E).
Qed.

Lemma non_null_In {A : Type} (l : list (option A)) (v : A) :
  In v (non_null l) <-> In (Some v) l.
Proof.
  unfold non_null. rewrite in_flat_map. split.
  - intros [[a|] [Hin Hv]]; [|destruct Hv].
    destruct Hv as [<-|[]]. exact Hin.
  - intros H. exists (Some v). split; [exact H|now left].
Qed.

Lemma non_null_nil {A : Type} (l : list (option A)) :
  non_null l = [] <-> forall o, In o l -> o = None.
Proof.
  induction l as [|[a|] l IH]; cbn.
  - split; [intros _ o []|reflexivity].
  - split; [discriminate|]. intros H. specialize (H (Some a) (or_introl eq_refl)). discriminate.
  - rewrite IH. split.
    + intros H o [<-|Ho]; [reflexivity|now apply H].
    + intros H o Ho. apply H. now right.
Qed.

(** [ANY_VALUE] returns a value that some row of the group carries, and
    NULL only when no row carries one. *)
Lemma any_value_Some (column : EventRow -> option string) (rows : list EventRow) (v : string) :
  any_value C column rows = Some v -> In v (non_null (List.map column rows)).
Proof. apply choose_In. Qed.

Lemma any_value_None (column : EventRow -> option string) (rows : list EventRow) :
  any_value C column rows = None <-> non_null (List.map column rows) = [].
Proof.
  unfold any_value. split.
  - intros H. destruct (non_null (List.map column rows)) as [|x l] eqn:E; [reflexivity|].
    exfalso. apply (choose_nonempty C string (x :: l)); [discriminate|exact H].
  - intros ->. apply choose_nil.
Qed.

Lemma fold_min_le (l : list Z) : forall a, fold_left Z.min l a <= a.
Proof.
  induction l as [|x l IH]; intros a; cbn; [lia|].
  specialize (IH (Z.min a x)). lia.
Qed.

Lemma fold_min_lower (l : list Z) : forall a x, In x l -> fold_left Z.min l a <= x.
Proof.
  induction l as [|y l IH]; intros a x Hx; cbn; [destruct Hx|].
  destruct Hx as [->|Hx].
  - pose proof (fold_min_le l (Z.min a x)). lia.
  - now apply IH.
Qed.

Lemma fold_min_attained (l : list Z) : forall a, fold_left Z.min l a = a \/ In (fold_left Z.min l a) l.
Proof.
  induction l as [|y l IH]; intros a; cbn; [now left|].
  destruct (IH (Z.min a y)) as [H|H].
  - rewrite H. destruct (Z.min_spec a y) as [[_ ->]|[_ ->]]; auto.
  - right. now right.
Qed.

(** The earliest rows: no row is earlier, and there is one when there is
    a row at all. *)
Lemma earliest_rows_In (rows : list EventRow) (r : EventRow) :
  In r (earliest_rows rows) ->
  In r rows /\ forall r', In r' rows -> event_ts r <= event_ts r'.
Proof.
  destruct rows as [|r0 rest]; [intros []|].
  unfold earliest_rows. rewrite filter_In. intros [Hin Hts].
  apply Z.eqb_eq in Hts. split; [exact Hin|].
  intros r' [<-|Hr'].
  - rewrite Hts. apply fold_min_le.
  - rewrite Hts. apply fold_min_lower. now apply in_map.
Qed.

Lemma earliest_rows_nonempty (rows : list EventRow) :
  rows <> [] -> earliest_rows rows <> [].
Proof.
  destruct rows as [|r0 rest]; [contradiction|]. intros _.
  unfold earliest_rows.
  set (least := fold_left Z.min (List.map event_ts rest) (event_ts r0)).
  assert (H : exists r, In r (r0 :: rest) /\ event_ts r = least).
  { destruct (fold_min_attained (List.map event_ts rest) (event_ts r0)) as [H|H].
    - exists r0. split; [now left|]. now rewrite <- H.
    - apply in_map_iff in H as [r [Hr Hin]]. exists r. split; [now right|exact Hr]. }
  destruct H as [r [Hin Hts]].
  intros Hnil.
  assert (Hr : In r (filter (fun x => event_ts x =? least) (r0 :: rest))).
  { apply filter_In. split; [exact Hin|]. now apply Z.eqb_eq. }
  rewrite Hnil in Hr. destruct Hr.
Qed.

(** The first value by timestamp comes from a row that carries it and that
    no row carrying a value precedes. *)
Lemma first_by_ts_Some (expr : EventRow -> option string) (rows : list EventRow) (v : string) :
  first_by_ts C expr rows = Some v ->
  exists r, In r rows /\ expr r = Some v
            /\ forall r', In r' rows -> expr r' <> None -> event_ts r <= event_ts r'.
Proof.
  unfold first_by_ts. intros H. apply choose_In in H.
  apply non_null_In in H. apply in_map_iff in H as [r [Hv Hr]].
  apply earliest_rows_In in Hr as [Hin Hmin].
  apply filter_In in Hin as [Hin _].
  exists r. split; [exact Hin|]. split; [exact Hv|].
  intros r' Hr' Hsome. apply Hmin. apply filter_In. split; [exact Hr'|].
  destruct (expr r'); [reflexivity|contradiction].
Qed.

Lemma first_by_ts_None (expr : EventRow -> option string) (rows : list EventRow) :
  first_by_ts C expr rows = None -> forall r, In r rows -> expr r = None.
Proof.
  unfold first_by_ts. intros H r Hr.
  destruct (expr r) as [v|] eqn:E; [|reflexivity]. exfalso.
  set (carrying := filter (fun r => is_some (expr r)) rows) in *.
  assert (Hc : carrying <> []).
  { intros Hnil. assert (Hin : In r carrying).
    { apply filter_In. split; [exact Hr|]. now rewrite E. }
    rewrite Hnil in Hin. destruct Hin. }
  apply earliest_rows_nonempty in Hc.
  destruct (earliest_rows carrying) as [|e es] eqn:Ee; [contradiction|].
  assert (He : In e carrying).
  { apply (earliest_rows_In carrying e). rewrite Ee. now left. }
  apply filter_In in He as [_ He].
  destruct (expr e) as [w|] eqn:Ew; [|discriminate].
  apply (choose_nonempty C string (non_null (List.map expr (e :: es)))); [|exact H].
  cbn. rewrite Ew. discriminate.
Qed.

Lemma first_by_ts_nil (expr : EventRow -> option string) :
  first_by_ts C expr [] = None.
Proof. unfold first_by_ts. cbn. apply choose_nil. Qed.

(** The columns of [starts] after the LEFT JOIN: what [ANY_VALUE] picks
    among the session_start events of the session. *)
Definition joined_starts (rows : list EventRow) : Starts :=
  match starts C rows with Some s => s | None => no_starts end.

Lemma joined_starts_columns (rows : list EventRow) :
  utm_source_start (joined_starts rows)
    = any_value C source_start (session_start_rows rows)
  /\ utm_medium_start (joined_starts rows)
    = any_value C medium_start (session_start_rows rows)
  /\ utm_campaign_start (joined_starts rows)
    = any_value C campaign_start (session_start_rows rows).
Proof.
  unfold joined_starts, starts.
  destruct (session_start_rows rows) as [|r group].
  - unfold any_value. cbn. rewrite choose_nil. auto.
  - cbn. auto.
Qed.

(** What the session_start events of a session carry in a column. *)
Definition carried (column : EventRow -> option string) (rows : list EventRow) : list string :=
  non_null (List.map column (session_start_rows rows)).

Lemma any_value_carried (column : EventRow -> option string) (rows : list EventRow) :
  (carried column rows <> [] ->
     exists v, any_value C column (session_start_rows rows) = Some v
               /\ In v (carried column rows))
  /\ (carried column rows = [] ->
     any_value C column (session_start_rows rows) = None).
Proof.
  split.
  - intros Hne.
    destruct (any_value C column (session_start_rows rows)) as [v|] eqn:E.
    + exists v. split; [reflexivity|]. now apply any_value_Some.
    + apply any_value_None in E. contradiction.
  - intros Hnil. now apply any_value_None.
Qed.

Lemma external_referrer_carries (r : EventRow) :
  external_referrer r = true -> exists referrer, page_referrer r = Some referrer.
Proof.
  unfold external_referrer. destruct (page_referrer r) as [referrer|].
  - intros _. now exists referrer.
  - rewrite andb_false_r. discriminate.
Qed.

(** The first external referrer of a session. *)
Lemma first_referrer_spec (rows : list EventRow) :
  let candidates := filter external_referrer rows in
  (candidates = [] -> first_referrer C rows = None)
  /\ (candidates <> [] ->
      exists r referrer,
        first_referrer C rows = Some referrer
        /\ In r candidates /\ page_referrer r = Some referrer
        /\ forall r', In r' candidates -> event_ts r <= event_ts r').
Proof.
  cbv zeta. unfold first_referrer. split.
  - intros ->. apply first_by_ts_nil.
  - intros Hne.
    destruct (first_by_ts C page_referrer (filter external_referrer rows))
      as [referrer|] eqn:E.
    + destruct (first_by_ts_Some _ _ _ E) as [r [Hin [Hv Hmin]]].
      exists r, referrer. repeat split; try assumption.
      intros r' Hr'. apply Hmin; [exact Hr'|].
      apply filter_In in Hr' as [_ Hx].
      destruct (external_referrer_carries r' Hx) as [x ->]. discriminate.
    + exfalso. destruct (filter external_referrer rows) as [|r0 rest] eqn:Ef;
        [contradiction|].
      assert (Hin : In r0 (filter external_referrer rows)) by (rewrite Ef; now left).
      pose proof (first_by_ts_None _ _ E r0 (or_introl eq_refl)) as Hnone.
      apply filter_In in Hin as [_ Hx].
      destruct (external_referrer_carries r0 Hx) as [x Hsome]. congruence.
Qed.

Lemma same_session_iff (user : string) (session : option Z) (r : EventRow) :
  same_session user session r = true
  <-> (user_pseudo_id r, ga_session_id r) = (user, session).
Proof.
  unfold same_session. rewrite andb_true_iff, String.eqb_eq. split.
  - intros [-> H]. f_equal.
    destruct (ga_session_id r) as [a|], session as [b|]; try discriminate; [|reflexivity].
    apply Z.eqb_eq in H. now subst.
  - intros H. inversion H; subst. split; [reflexivity|].
    destruct (ga_session_id r); [apply Z.eqb_refl|reflexivity].
Qed.

Lemma session_keys_In (rows : list EventRow) (k : string * option Z) :
  In k (session_keys rows) <-> exists r, In r rows /\ (user_pseudo_id r, ga_session_id r) = k.
Proof.
  induction rows as [|r0 rows IH]; cbn [session_keys In].
  - split; [intros []|intros [r [[] _]]].
  - rewrite filter_In, IH. split.
    + intros [H|[[r [Hr Hk]] _]].
      * exists r0. auto.
      * exists r. auto.
    + intros [r [[<-|Hr] Hk]]; [now left|].
      destruct (same_session (fst k) (snd k) r0) eqn:E.
      * left. apply same_session_iff in E. rewrite E. now destruct k.
      * right. split; [now exists r|]. reflexivity.
Qed.

Lemma session_keys_NoDup (rows : list EventRow) : NoDup (session_keys rows).
Proof.
  induction rows as [|r0 rows IH]; cbn [session_keys]; constructor.
  - rewrite filter_In. intros [_ H]. cbn in H.
    assert (E : same_session (user_pseudo_id r0) (ga_session_id r0) r0 = true)
      by now apply same_session_iff.
    rewrite E in H. discriminate.
  - now apply NoDup_filter.
Qed.

Definition verdict_key (v : SessionRow) : string * option Z :=
  (sf_user_pseudo_id v, sf_ga_session_id v).

Lemma sessions_final_keys (rows : list EventRow) :
  List.map verdict_key (sessions_final C rows)
  = filter (fun k => is_some (snd k)) (session_keys rows).
Proof.
  unfold sessions_final.
  induction (session_keys rows) as [|[user [s|]] keys IH]; cbn [flat_map filter].
  - reflexivity.
  - cbn. f_equal. exact IH.
  - cbn. exact IH.
Qed.

Lemma sessions_final_In (rows : list EventRow) (v : SessionRow) :
  In v (sessions_final C rows) ->
  v = session_row C (sf_user_pseudo_id v) (sf_ga_session_id v)
        (filter (same_session (sf_user_pseudo_id v) (sf_ga_session_id v)) rows).
Proof.
  unfold sessions_final. rewrite in_flat_map.
  intros [[user [s|]] [_ H]]; cbn in H; [|destruct H].
  destruct H as [<-|[]]. reflexivity.
Qed.

End Attribution.

Section Verdicts.
Import SessionsQuery.

Variable C : Chooser.

(** The three attribution columns of a session whose session_start events
    carry a source or a medium. *)
Lemma session_row_tier1 (user : string) (session : option Z) (rows : list EventRow) :
  carried source_start rows <> [] \/ carried medium_start rows <> [] ->
  let v := session_row C user session rows in
  traffic_source_type v = "session_start"%string
  /\ (carried source_start rows <> [] -> In (traffic_source v) (carried source_start rows))
  /\ (carried medium_start rows <> [] -> In (traffic_medium v) (carried medium_start rows))
  /\ (carried campaign_start rows <> [] ->
        In (traffic_campaign v) (carried campaign_start rows))
  /\ (carried source_start rows = [] ->
        traffic_source v
        = or_default (coalesce [sf_utm_source_lp v; sf_ref_source v]) "(direct)")
  /\ (carried medium_start rows = [] ->
        traffic_medium v
        = or_default (coalesce [sf_utm_medium_lp v; sf_ref_medium v]) "(none)")
  /\ (carried campaign_start rows = [] ->
        traffic_campaign v = or_default (sf_utm_campaign_lp v) "(not set)").
Proof.
  intros Hcarries. cbv zeta. unfold session_row. cbn.
  fold (joined_starts C rows).
  destruct (joined_starts_columns C rows) as (Es & Em & Ec).
  rewrite Es, Em, Ec.
  destruct (any_value_carried C source_start rows) as [Hs1 Hs0].
  destruct (any_value_carried C medium_start rows) as [Hm1 Hm0].
  destruct (any_value_carried C campaign_start rows) as [Hc1 Hc0].
  split; [|split; [|split; [|split; [|split; [|split]]]]].
  - destruct Hcarries as [H|H].
    + destruct (Hs1 H) as [v [-> _]]. reflexivity.
    + destruct (Hm1 H) as [v [-> _]]. cbn. now rewrite orb_true_r.
  - intros H. destruct (Hs1 H) as [v [-> Hv]]. exact Hv.
  - intros H. destruct (Hm1 H) as [v [-> Hv]]. exact Hv.
  - intros H. destruct (Hc1 H) as [v [-> Hv]]. exact Hv.
  - intros H. rewrite (Hs0 H). reflexivity.
  - intros H. rewrite (Hm0 H). reflexivity.
  - intros H. rewrite (Hc0 H). cbn. now destruct (landing_param C "utm_campaign" rows).
Qed.

End Verdicts.

(** A session whose session_start event carries a source but no medium
    and no campaign, and whose landing page carries all three UTM
    parameters. *)
Module MixedSession.
Import SessionsQuery.

Definition events : list Event :=
  [Build_Event 1717977600000000 "session_start" "visitor.1"
     [("ga_session_id", number 1717977600); ("source", text "newsletter")]%string;
   Build_Event 1717977600500000 "page_view" "visitor.1"
     [("ga_session_id", number 1717977600);
      ("page_location",
       text "https://superalink.com/?utm_source=google&utm_medium=cpc&utm_campaign=spring")]%string].

Definition rows : list EventRow := events_base events.

End MixedSession.

(** C2, as stated, fails: in this session the session_start event carries
    a source, the verdict is of type session_start, yet its medium and its
    campaign are the landing URL's utm_medium and utm_campaign, which no
    session_start event carries. *)
Lemma session_start_verdict_mixes_tiers :
  exists v,
    SessionsQuery.sessions_final SessionsQuery.first_chooser MixedSession.rows = [v]
    /\ carried SessionsQuery.source_start MixedSession.rows = ["newsletter"%string]
    /\ carried SessionsQuery.medium_start MixedSession.rows = []
    /\ carried SessionsQuery.campaign_start MixedSession.rows = []
    /\ SessionsQuery.traffic_source_type v = "session_start"%string
    /\ SessionsQuery.traffic_source v = "newsletter"%string
    /\ SessionsQuery.sf_utm_medium_lp v = Some "cpc"%string
    /\ SessionsQuery.sf_utm_campaign_lp v = Some "spring"%string
    /\ SessionsQuery.traffic_medium v = "cpc"%string
    /\ SessionsQuery.traffic_campaign v = "spring"%string
    /\ ~ In (SessionsQuery.traffic_medium v) (carried SessionsQuery.medium_start MixedSession.rows)
    /\ ~ In (SessionsQuery.traffic_campaign v)
           (carried SessionsQuery.campaign_start MixedSession.rows).
Proof.
  eexists. split; [vm_compute; reflexivity|].
  repeat split; try (vm_compute; reflexivity); vm_compute; intros [].
Qed.

(** C2, amended.  Exactly one verdict is produced per session.  For every
    session whose session_start events carry a source or a medium, the
    verdict has sourceType = 'session_start'; each of source, medium and
    campaign that a session_start event carries is taken from the
    session_start events verbatim, whatever the landing URL says; a field
    that no session_start event carries falls back to the landing URL's
    utm value, then (source and medium) to the referrer classification,
    then to its sentinel. *)
Theorem session_start_takes_precedence
  (C : SessionsQuery.Chooser) (events : list SessionsQuery.EventRow) :
  let verdicts := SessionsQuery.sessions_final C events in
  NoDup (List.map verdict_key verdicts)
  /\ (forall r s, In r events -> SessionsQuery.ga_session_id r = Some s ->
        exists v, In v verdicts
                  /\ verdict_key v = (SessionsQuery.user_pseudo_id r, Some s))
  /\ (forall v, In v verdicts ->
        let rows :=
          filter (SessionsQuery.same_session (SessionsQuery.sf_user_pseudo_id v)
                                             (SessionsQuery.sf_ga_session_id v)) events in
        carried SessionsQuery.source_start rows <> []
        \/ carried SessionsQuery.medium_start rows <> [] ->
        SessionsQuery.traffic_source_type v = "session_start"%string
        /\ (carried SessionsQuery.source_start rows <> [] ->
              In (SessionsQuery.traffic_source v) (carried SessionsQuery.source_start rows))
        /\ (carried SessionsQuery.medium_start rows <> [] ->
              In (SessionsQuery.traffic_medium v) (carried SessionsQuery.medium_start rows))
        /\ (carried SessionsQuery.campaign_start rows <> [] ->
              In (SessionsQuery.traffic_campaign v)
                 (carried SessionsQuery.campaign_start rows))
        /\ (carried SessionsQuery.source_start rows = [] ->
              SessionsQuery.traffic_source v
              = SessionsQuery.or_default
                  (SessionsQuery.coalesce
                     [SessionsQuery.sf_utm_source_lp v; SessionsQuery.sf_ref_source v])
                  "(direct)")
        /\ (carried SessionsQuery.medium_start rows = [] ->
              SessionsQuery.traffic_medium v
              = SessionsQuery.or_default
                  (SessionsQuery.coalesce
                     [SessionsQuery.sf_utm_medium_lp v; SessionsQuery.sf_ref_medium v])
                  "(none)")
        /\ (carried SessionsQuery.campaign_start rows = [] ->
              SessionsQuery.traffic_campaign v
              = SessionsQuery.or_default (SessionsQuery.sf_utm_campaign_lp v) "(not set)")).
Proof.
  cbv zeta. split; [|split].
  - rewrite sessions_final_keys. apply NoDup_filter, session_keys_NoDup.
  - intros r s Hr Hs.
    assert (Hk : In (SessionsQuery.user_pseudo_id r, Some s)
                    (List.map verdict_key (SessionsQuery.sessions_final C events))).
    { rewrite sessions_final_keys. apply filter_In. split; [|reflexivity].
      apply session_keys_In. exists r. split; [exact Hr|]. now rewrite Hs. }
    apply in_map_iff in Hk as [v [Hv Hin]]. now exists v.
  - intros v Hv Hcarries.
    pose proof (sessions_final_In C events v Hv) as E.
    pose proof (session_row_tier1 C (SessionsQuery.sf_user_pseudo_id v)
                  (SessionsQuery.sf_ga_session_id v) _ Hcarries) as H.
    cbv zeta in H. rewrite <- E in H. exact H.
Qed.

Section ReferrerTier.
Import SessionsQuery.

Variable C : Chooser.

Lemma search_engine_Some (referrer engine : string) :
  search_engine referrer = Some engine ->
  exists pattern, In (pattern, engine) SEARCH_ENGINES
                  /\ names_engine pattern referrer = true.
Proof.
  unfold search_engine.
  destruct (find _ SEARCH_ENGINES) as [[pattern e]|] eqn:E; [|discriminate].
  cbn. intros H. inversion H; subst.
  apply find_some in E as [Hin Hm]. now exists pattern.
Qed.

Lemma search_engine_None (referrer : string) :
  search_engine referrer = None ->
  forall pattern engine, In (pattern, engine) SEARCH_ENGINES ->
                         names_engine pattern referrer = false.
Proof.
  unfold search_engine.
  destruct (find _ SEARCH_ENGINES) as [[p e]|] eqn:E; [discriminate|].
  intros _ pattern engine Hin.
  exact (find_none _ _ E (pattern, engine) Hin).
Qed.

(** A session that neither tier 1 nor tier 2 decides. *)
Lemma session_row_tier3 (user : string) (session : option Z) (rows : list EventRow) :
  carried source_start rows = [] -> carried medium_start rows = [] ->
  landing_param C "utm_source" rows = None ->
  landing_param C "utm_medium" rows = None ->
  let v := session_row C user session rows in
  traffic_source_type v = (if is_some (ref_source C rows) then "referrer" else "direct")%string
  /\ traffic_source v = or_default (ref_source C rows) "(direct)"
  /\ traffic_medium v = or_default (ref_medium C rows) "(none)".
Proof.
  intros Hs Hm Hus Hum. cbv zeta. unfold session_row. cbn.
  fold (joined_starts C rows).
  destruct (joined_starts_columns C rows) as (Es & Em & _).
  rewrite Es, Em, Hus, Hum.
  rewrite (proj2 (any_value_carried C source_start rows) Hs).
  rewrite (proj2 (any_value_carried C medium_start rows) Hm).
  cbn. repeat split.
  - now destruct (ref_source C rows).
  - now destruct (ref_medium C rows).
Qed.

End ReferrerTier.

(** A session whose only page view arrives from a host that contains
    "google" without being the search engine. *)
Module MailReferrer.
Import SessionsQuery.

Definition events : list Event :=
  [Build_Event 1717977600000000 "session_start" "visitor.2"
     [("ga_session_id", number 1717977601)]%string;
   Build_Event 1717977600500000 "page_view" "visitor.2"
     [("ga_session_id", number 1717977601);
      ("page_location", text "https://superalink.com/pricing");
      ("page_referrer", text "https://mail.google.com/mail/u/0/")]%string].

Definition rows : list EventRow := events_base events.

End MailReferrer.

(** A session whose only page view arrives from a search on google.com. *)
Module SearchReferrer.
Import SessionsQuery.

Definition events : list Event :=
  [Build_Event 1717977600500000 "page_view" "visitor.3"
     [("ga_session_id", number 1717977602);
      ("page_location", text "https://superalink.com/");
      ("page_referrer", text "https://www.google.com/")]%string].

Definition rows : list EventRow := events_base events.

End SearchReferrer.

(** C3, as stated, fails: the referrer host mail.google.com contains the
    name google, the session has no session_start campaign parameter and
    no landing UTM parameter, yet the verdict is medium = referral with
    the host as source, not medium = organic with source = google. *)
Lemma referrer_host_containing_engine_name :
  exists v,
    SessionsQuery.sessions_final SessionsQuery.first_chooser MailReferrer.rows = [v]
    /\ SessionsQuery.url_host "https://mail.google.com/mail/u/0/" = Some "mail.google.com"%string
    /\ Str.includes "mail.google.com" "google" = true
    /\ SessionsQuery.sf_utm_source_start v = None
    /\ SessionsQuery.sf_utm_medium_start v = None
    /\ SessionsQuery.sf_utm_source_lp v = None
    /\ SessionsQuery.sf_utm_medium_lp v = None
    /\ SessionsQuery.traffic_source_type v = "referrer"%string
    /\ SessionsQuery.traffic_medium v = "referral"%string
    /\ SessionsQuery.traffic_source v = "mail.google.com"%string
    /\ SessionsQuery.traffic_medium v <> "organic"%string
    /\ SessionsQuery.traffic_source v <> "google"%string.
Proof.
  eexists. split; [vm_compute; reflexivity|].
  repeat split; try (vm_compute; reflexivity); vm_compute; discriminate.
Qed.

(** C3, amended.  For every session with no session_start source or
    medium and no landing-URL utm_source or utm_medium, attribution uses
    the referrer of a chronologically first page_view whose referrer is
    non-empty and whose host is not superalink.com or a subdomain of it.
    If that referrer matches one of the engine patterns (the text "://",
    an optional "www.", then google., bing., search.yahoo., duckduckgo.,
    baidu. or yandex., case-insensitive, anywhere in the referrer) the
    verdict is medium = organic with the engine's name as source; any
    other such referrer with an http(s) host gives medium = referral with
    the lower-cased host as source; a session with no such page_view, in
    particular one whose referrers all have the site's own domain as
    host, falls through to direct. *)
Theorem referrer_classification
  (C : SessionsQuery.Chooser) (user : string) (session : option Z)
  (rows : list SessionsQuery.EventRow)
  (Hno_start : carried SessionsQuery.source_start rows = []
               /\ carried SessionsQuery.medium_start rows = [])
  (Hno_utm : SessionsQuery.landing_param C "utm_source" rows = None
             /\ SessionsQuery.landing_param C "utm_medium" rows = None) :
  let v := SessionsQuery.session_row C user session rows in
  let candidates := filter SessionsQuery.external_referrer rows in
  (candidates = [] ->
     SessionsQuery.traffic_source_type v = "direct"%string
     /\ SessionsQuery.traffic_source v = "(direct)"%string
     /\ SessionsQuery.traffic_medium v = "(none)"%string)
  /\ ((forall r referrer,
         In r rows -> SessionsQuery.event_name r = "page_view"%string ->
         SessionsQuery.page_referrer r = Some referrer ->
         referrer = EmptyString
         \/ exists host, SessionsQuery.url_host referrer = Some host
                         /\ SessionsQuery.is_own_domain (Str.toLowerCase host) = true) ->
      candidates = [])
  /\ (candidates <> [] ->
      exists r referrer,
        In r candidates
        /\ SessionsQuery.page_referrer r = Some referrer
        /\ (forall r', In r' candidates ->
              SessionsQuery.event_ts r <= SessionsQuery.event_ts r')
        /\ match SessionsQuery.search_engine referrer with
           | Some engine =>
               (exists pattern, In (pattern, engine) SessionsQuery.SEARCH_ENGINES
                                /\ SessionsQuery.names_engine pattern referrer = true)
               /\ SessionsQuery.traffic_source_type v = "referrer"%string
               /\ SessionsQuery.traffic_medium v = "organic"%string
               /\ SessionsQuery.traffic_source v = engine
           | None =>
               match SessionsQuery.url_host referrer with
               | Some host =>
                   SessionsQuery.traffic_source_type v = "referrer"%string
                   /\ SessionsQuery.traffic_medium v = "referral"%string
                   /\ SessionsQuery.traffic_source v = Str.toLowerCase host
               | None => True
               end
           end).
Proof.
  destruct Hno_start as [Hs Hm]. destruct Hno_utm as [Hus Hum].
  cbv zeta.
  destruct (session_row_tier3 C user session rows Hs Hm Hus Hum) as (Ht & Hsrc & Hmed).
  destruct (first_referrer_spec C rows) as [Hnone Hsome].
  split; [|split].
  - intros Hnil. specialize (Hnone Hnil).
    rewrite Ht, Hsrc, Hmed. unfold SessionsQuery.ref_source, SessionsQuery.ref_medium.
    rewrite Hnone. cbn. auto.
  - intros Hown.
    destruct (filter SessionsQuery.external_referrer rows) as [|r rest] eqn:E;
      [reflexivity|]. exfalso.
    assert (Hin : In r (filter SessionsQuery.external_referrer rows))
      by (rewrite E; now left).
    apply filter_In in Hin as [Hin Hx].
    unfold SessionsQuery.external_referrer in Hx.
    apply andb_true_iff in Hx as [Hname Hx]. apply String.eqb_eq in Hname.
    destruct (SessionsQuery.page_referrer r) as [referrer|] eqn:Er; [|discriminate].
    apply andb_true_iff in Hx as [Hne Hext].
    destruct (Hown r referrer Hin Hname Er) as [->|[host [Hh Hd]]].
    + discriminate.
    + rewrite Hh, Hd in Hext. discriminate.
  - intros Hne. destruct (Hsome Hne) as [r [referrer (Hf & Hin & Hr & Hmin)]].
    exists r, referrer. split; [exact Hin|]. split; [exact Hr|]. split; [exact Hmin|].
    rewrite Ht, Hsrc, Hmed. unfold SessionsQuery.ref_source, SessionsQuery.ref_medium.
    rewrite Hf.
    destruct (SessionsQuery.search_engine referrer) as [engine|] eqn:Ee.
    + split; [now apply search_engine_Some|]. cbn. auto.
    + destruct (SessionsQuery.url_host referrer) as [host|]; cbn; auto.
Qed.

(** The classification of the session that arrives from google.com:
    source = google, medium = organic. *)
Lemma referrer_classification_witness :
  (carried SessionsQuery.source_start SearchReferrer.rows = []
   /\ carried SessionsQuery.medium_start SearchReferrer.rows = [])
  /\ (SessionsQuery.landing_param SessionsQuery.first_chooser "utm_source" SearchReferrer.rows
      = None
      /\ SessionsQuery.landing_param SessionsQuery.first_chooser "utm_medium"
           SearchReferrer.rows = None)
  /\ SessionsQuery.traffic_medium
       (SessionsQuery.session_row SessionsQuery.first_chooser "visitor.3"
          (Some 1717977602) SearchReferrer.rows) = "organic"%string
  /\ SessionsQuery.traffic_source
       (SessionsQuery.session_row SessionsQuery.first_chooser "visitor.3"
          (Some 1717977602) SearchReferrer.rows) = "google"%string.
Proof.
  assert (H1 : carried SessionsQuery.source_start SearchReferrer.rows = []
               /\ carried SessionsQuery.medium_start SearchReferrer.rows = [])
    by (split; vm_compute; reflexivity).
  assert (H2 : SessionsQuery.landing_param SessionsQuery.first_chooser "utm_source"
                 SearchReferrer.rows = None
               /\ SessionsQuery.landing_param SessionsQuery.first_chooser "utm_medium"
                    SearchReferrer.rows = None)
    by (split; vm_compute; reflexivity).
  split; [exact H1|]. split; [exact H2|].
  pose proof (referrer_classification SessionsQuery.first_chooser "visitor.3"
                (Some 1717977602) SearchReferrer.rows H1 H2) as P.
  cbv zeta in P. destruct P as (_ & _ & P).
  assert (Hne : filter SessionsQuery.external_referrer SearchReferrer.rows <> [])
    by (vm_compute; discriminate).
  destruct (P Hne) as [r [referrer (Hin & Hr & _ & Hv)]].
  assert (Href : referrer = "https://www.google.com/"%string).
  { vm_compute in Hin. destruct Hin as [<-|[]]. vm_compute in Hr. now inversion Hr. }
  subst referrer. vm_compute in Hv. destruct Hv as (_ & _ & Hmed & Hsrc).
  split; [exact Hmed|exact Hsrc].
Defined.

(* ===================================================================== *)
(** * Reports: grouping loops, rankings and what they add up to *)
(* ===================================================================== *)

Definition sumZ (l : list Z) : Z := fold_right Z.add 0 l.

Definition sumQ (l : list Q) : Q := fold_right Qplus 0%Q l.

Lemma sumZ_cons (x : Z) (l : list Z) : sumZ (x :: l) = x + sumZ l.
Proof. reflexivity. Qed.

Lemma sumZ_app (l l' : list Z) : sumZ (l ++ l') = sumZ l + sumZ l'.
Proof.
  induction l as [|x l IH]; cbn [app]; [reflexivity|]. rewrite !sumZ_cons, IH. lia.
Qed.

Lemma sumZ_perm (l l' : list Z) : Permutation l l' -> sumZ l = sumZ l'.
Proof. induction 1; rewrite ?sumZ_cons; cbn [sumZ fold_right]; lia. Qed.

Lemma sumZ_ones {A : Type} (l : list A) :
  sumZ (List.map (fun _ => 1) l) = Z.of_nat (List.length l).
Proof.
  induction l as [|x l IH]; cbn [List.map List.length]; [reflexivity|].
  rewrite sumZ_cons, IH. lia.
Qed.

Lemma sumZ_indicator {A : Type} (p : A -> bool) (l : list A) :
  sumZ (List.map (fun x => if p x then 1 else 0) l) = Z.of_nat (List.length (filter p l)).
Proof.
  induction l as [|x l IH]; cbn [List.map filter]; [reflexivity|].
  rewrite sumZ_cons, IH. destruct (p x); cbn [List.length]; lia.
Qed.

Lemma sumZ_nonneg (l : list Z) : Forall (fun x => 0 <= x) l -> 0 <= sumZ l.
Proof. induction 1; [cbn; lia|rewrite sumZ_cons; lia]. Qed.

Lemma fold_left_ext {A B : Type} (f g : A -> B -> A) (l : list B) :
  (forall a b, f a b = g a b) -> forall a, fold_left f l a = fold_left g l a.
Proof.
  intros H. induction l as [|b l IH]; intros a; cbn; [reflexivity|]. now rewrite H, IH.
Qed.

Lemma filter_true {A : Type} (l : list A) : filter (fun _ => true) l = l.
Proof. induction l as [|x l IH]; cbn; [reflexivity|]. now rewrite IH. Qed.

(** A loop that files each item that has a key under that key in a Map,
    the entry of a key being rebuilt from the previous one, if any. *)
Section Tally.
Context {X V : Type}.
Variable key : X -> option string.
Variable upd : option V -> X -> V.

Definition tally_step (m : list (string * V)) (x : X) : list (string * V) :=
  match key x with
  | None => m
  | Some k => Js.map_set k (upd (Js.map_get k m) x) m
  end.

Definition keyed (k : string) (x : X) : bool :=
  match key x with Some k' => String.eqb k' k | None => false end.

Definition has_key (x : X) : bool :=
  match key x with Some _ => true | None => false end.

Definition key_list (xs : list X) : list string :=
  flat_map (fun x => match key x with Some k => [k] | None => [] end) xs.

Lemma key_list_In (xs : list X) (k : string) :
  In k (key_list xs) <-> exists x, In x xs /\ key x = Some k.
Proof.
  unfold key_list. rewrite in_flat_map. split.
  - intros [x [Hx Hk]]. exists x. split; [exact Hx|].
    destruct (key x) as [k'|]; [|destruct Hk]. destruct Hk as [->|[]]. reflexivity.
  - intros [x [Hx Hk]]. exists x. split; [exact Hx|]. rewrite Hk. now left.
Qed.

Lemma tally_NoDup (xs : list X) :
  forall m, NoDup (keys m) -> NoDup (keys (fold_left tally_step xs m)).
Proof.
  induction xs as [|x xs IH]; intros m Hnd; cbn [fold_left]; [exact Hnd|].
  apply IH. unfold tally_step. destruct (key x); [|exact Hnd].
  now apply keys_map_set_NoDup.
Qed.

Lemma tally_keys (xs : list X) :
  forall m k, In k (keys (fold_left tally_step xs m))
              <-> In k (keys m) \/ exists x, In x xs /\ key x = Some k.
Proof.
  induction xs as [|x xs IH]; intros m k; cbn [fold_left].
  - split; [auto|]. intros [H|[x [[] _]]]. exact H.
  - rewrite IH. unfold tally_step at 1. cbn [In]. destruct (key x) as [kx|] eqn:E.
    + rewrite keys_map_set_In. split.
      * intros [[->|H]|[y [Hy Hk]]]; eauto.
      * intros [H|[y [[->|Hy] Hk]]]; eauto.
        left. left. congruence.
    + split.
      * intros [H|[y [Hy Hk]]]; eauto.
      * intros [H|[y [[->|Hy] Hk]]]; eauto. congruence.
Qed.

Lemma tally_entry (xs : list X) :
  forall m k,
    Js.map_get k (fold_left tally_step xs m)
    = fold_left (fun o x => Some (upd o x)) (filter (keyed k) xs) (Js.map_get k m).
Proof.
  induction xs as [|x xs IH]; intros m k; cbn [fold_left filter]; [reflexivity|].
  rewrite IH. unfold keyed at 2, tally_step at 1.
  destruct (key x) as [kx|]; [|reflexivity].
  destruct (String.eqb kx k) eqn:E; cbn [fold_left].
  - apply String.eqb_eq in E. subst k. now rewrite map_get_set_same.
  - apply String.eqb_neq in E. now rewrite map_get_set_other.
Qed.

(** The keys of the Map are the distinct keys of the items. *)
Lemma tally_length (xs : list X) :
  List.length (fold_left tally_step xs []) = List.length (nodup string_dec (key_list xs)).
Proof.
  transitivity (List.length (keys (fold_left tally_step xs []))).
  - unfold keys. now rewrite length_map.
  - apply Permutation_length, NoDup_Permutation.
    + apply tally_NoDup. constructor.
    + apply NoDup_nodup.
    + intros k. rewrite nodup_In, tally_keys, key_list_In. cbn [keys List.map In]. tauto.
Qed.

(** An additive measure of the entries is conserved. *)
Variable f : V -> Z.
Variable g : X -> Z.
Hypothesis f_upd :
  forall o x, f (upd o x) = match o with Some v => f v | None => 0 end + g x.

Definition total (m : list (string * V)) : Z := sumZ (List.map (fun e => f (snd e)) m).

Lemma total_map_set (k : string) (v : V) (m : list (string * V)) :
  total (Js.map_set k v m)
  = total m - match Js.map_get k m with Some old => f old | None => 0 end + f v.
Proof.
  unfold total. induction m as [|[k0 v0] m IH]; cbn [Js.map_set Js.map_get List.map snd].
  - rewrite sumZ_cons. cbn [sumZ fold_right]. lia.
  - destruct (String.eqb k0 k); cbn [List.map snd]; rewrite !sumZ_cons; [lia|].
    rewrite IH. lia.
Qed.

Lemma tally_total (xs : list X) :
  forall m, total (fold_left tally_step xs m)
            = total m + sumZ (List.map g (filter has_key xs)).
Proof.
  induction xs as [|x xs IH]; intros m; cbn [fold_left filter List.map].
  - cbn [sumZ fold_right]. lia.
  - rewrite IH. unfold tally_step at 1, has_key at 2.
    destruct (key x) as [k|]; [|lia].
    rewrite total_map_set, f_upd. cbn [List.map]. rewrite sumZ_cons. lia.
Qed.

End Tally.

(** ** Rankings *)

Section Ranking.
Context {A : Type}.
Variable key : A -> Q.

(** In non-increasing order of [key]: every entry is worth at least as
    much as every entry after it. *)
Definition ranked (l : list A) : Prop :=
  StronglySorted (fun a b => (key b <= key a)%Q) l.

Lemma insert_desc_ranked (x : A) (l : list A) :
  ranked l -> ranked (Js.insert_desc key x l).
Proof.
  unfold ranked. induction l as [|y l IH]; intros Hs; cbn [Js.insert_desc].
  - repeat constructor.
  - inversion Hs as [|? ? Hl Hy]; subst.
    destruct (Qle_bool (key y) (key x)) eqn:E.
    + apply Qle_bool_iff in E. constructor; [exact Hs|].
      constructor; [exact E|].
      eapply Forall_impl; [|exact Hy]. cbn. intros b Hb. now apply Qle_trans with (key y).
    + assert (Hlt : (key x < key y)%Q).
      { apply Qnot_le_lt. intros H. apply Qle_bool_iff in H. congruence. }
      constructor; [now apply IH|].
      apply Forall_forall. intros b Hb.
      apply (Permutation_in _ (insert_desc_perm key x l)) in Hb.
      destruct Hb as [<-|Hb]; [now apply Qlt_le_weak|].
      rewrite Forall_forall in Hy. now apply Hy.
Qed.

Lemma sort_desc_ranked (l : list A) : ranked (Js.sort_desc key l).
Proof.
  induction l as [|x l IH]; cbn; [constructor|]. now apply insert_desc_ranked.
Qed.

Lemma firstn_ranked (n : nat) (l : list A) : ranked l -> ranked (firstn n l).
Proof.
  unfold ranked. revert n. induction l as [|x l IH]; intros n Hs.
  - rewrite firstn_nil. constructor.
  - destruct n as [|n]; cbn [firstn]; [constructor|].
    inversion Hs as [|? ? Hl Hx]; subst. constructor; [now apply IH|].
    rewrite Forall_forall in *. intros b Hb. apply Hx.
    rewrite <- (firstn_skipn n l). apply in_or_app. now left.
Qed.

Lemma slice0_ranked (n : Z) (l : list A) : ranked l -> ranked (Js.slice0 n l).
Proof. unfold Js.slice0. destruct (n <? 0); apply firstn_ranked. Qed.

End Ranking.

Lemma slice0_incl {A : Type} (n : Z) (l : list A) (x : A) : In x (Js.slice0 n l) -> In x l.
Proof.
  unfold Js.slice0. intros H. rewrite <- (firstn_skipn (if n <? 0 then (List.length l - Z.to_nat (- n))%nat else Z.to_nat n) l).
  apply in_or_app. left. destruct (n <? 0); exact H.
Qed.

Lemma slice0_length {A : Type} (n : Z) (l : list A) :
  0 <= n -> Z.of_nat (List.length (Js.slice0 n l)) = Z.min n (Z.of_nat (List.length l)).
Proof.
  intros Hn. unfold Js.slice0.
  destruct (n <? 0) eqn:E; [apply Z.ltb_lt in E; lia|].
  rewrite length_firstn. lia.
Qed.

(** What a ranking of the entries of a Map adds up to. *)
Lemma ranking_total {V B : Type} (project : string * V -> B) (rank : B -> Q)
  (F : B -> Z) (f : V -> Z) (m : list (string * V)) :
  (forall k v, F (project (k, v)) = f v) ->
  sumZ (List.map F (Js.sort_desc rank (List.map project m))) = total f m.
Proof.
  intros HF. unfold total.
  rewrite (sumZ_perm _ (List.map F (List.map project m))).
  - rewrite map_map. f_equal. apply map_ext. intros [k v]. apply HF.
  - apply Permutation_map, sort_desc_perm.
Qed.

(* ===================================================================== *)
(** * Reports: the currency, card-brand and product breakdowns *)
(* ===================================================================== *)

Section Breakdowns.

(** The grouping loops of the breakdowns as instances of [tally_step]. *)
Definition stripe_currency (c : StripeAnalytics.ChargeSummary) : option string :=
  Some (Str.toLowerCase (StripeAnalytics.currency c)).

Definition stripe_entry (o : option StripeAnalytics.CurrencyEntry)
  (charge : StripeAnalytics.ChargeSummary) : StripeAnalytics.CurrencyEntry :=
  let entry := match o with Some e => e | None => StripeAnalytics.Build_CurrencyEntry 0 0 0 end in
  StripeAnalytics.Build_CurrencyEntry
    (StripeAnalytics.chargeCount entry + 1)
    (if StripeAnalytics.refunded charge
     then StripeAnalytics.refundedCount entry + 1
     else StripeAnalytics.refundedCount entry)
    (StripeAnalytics.grossAmountMinor entry + StripeAnalytics.amount charge).

Definition paypal_currency (c : PaypalCharge.CardInfoRecord) : option string :=
  Some (Str.toUpperCase
          (match PaypalCharge.currency c with Some x => x | None => "USD"%string end)).

Definition paypal_entry (o : option PaypalAnalytics.CurrencyEntry)
  (charge : PaypalCharge.CardInfoRecord) : PaypalAnalytics.CurrencyEntry :=
  let entry :=
    match o with Some e => e | None => PaypalAnalytics.Build_CurrencyEntry 0 0 0 0%Q end in
  PaypalAnalytics.Build_CurrencyEntry
    (PaypalAnalytics.transactionCount entry + 1)
    (PaypalAnalytics.refundedCount entry
     + (if PaypalAnalytics.isRefunded (PaypalCharge.status charge) then 1 else 0))
    (PaypalAnalytics.grossAmountMinor entry + PaypalCharge.amountMinor charge)
    (PaypalAnalytics.grossAmountMajor entry + PaypalCharge.amountMajor charge)%Q.

Definition volume_entry (o : option StripeReports.VolumeEntry)
  (charge : StripeAnalytics.ChargeSummary) : StripeReports.VolumeEntry :=
  StripeReports.add_charge
    (match o with Some e => e | None => StripeReports.Build_VolumeEntry 0 0 0 end) charge.

Lemma stripe_currency_loop (charges : list StripeAnalytics.ChargeSummary) :
  fold_left StripeAnalytics.aggregateByCurrency_step charges []
  = fold_left (tally_step stripe_currency stripe_entry) charges [].
Proof. apply fold_left_ext. reflexivity. Qed.

Lemma paypal_currency_loop (charges : list PaypalCharge.CardInfoRecord) :
  fold_left PaypalAnalytics.aggregateByCurrency_step charges []
  = fold_left (tally_step paypal_currency paypal_entry) charges [].
Proof. apply fold_left_ext. reflexivity. Qed.

Lemma brand_loop (charges : list StripeAnalytics.ChargeSummary) :
  fold_left StripeReports.aggregateCardBrands_step charges []
  = fold_left (tally_step (fun c => Some (StripeReports.brand_of c)) volume_entry) charges [].
Proof. apply fold_left_ext. reflexivity. Qed.

Lemma product_loop (charges : list StripeAnalytics.ChargeSummary) :
  fold_left StripeReports.aggregateProducts_step charges []
  = fold_left (tally_step StripeReports.product_of volume_entry) charges [].
Proof.
  apply fold_left_ext. intros m c.
  unfold StripeReports.aggregateProducts_step, tally_step.
  destruct (StripeReports.product_of c); reflexivity.
Qed.

(** The entry of a key that occurs in the Map, from the items filed
    under it: the first one starts the entry, the others update it. *)
Lemma fold_Some {X V : Type} (upd : option V -> X -> V) (xs : list X) :
  forall v, fold_left (fun o x => Some (upd o x)) xs (Some v)
            = Some (fold_left (fun e x => upd (Some e) x) xs v).
Proof. induction xs as [|x xs IH]; intros v; cbn; [reflexivity|apply IH]. Qed.

Lemma tally_entry_In {X V : Type} (key : X -> option string) (upd : option V -> X -> V)
  (xs : list X) (k : string) (v : V) :
  In (k, v) (fold_left (tally_step key upd) xs []) ->
  exists x rest,
    filter (keyed key k) xs = x :: rest
    /\ v = fold_left (fun e y => upd (Some e) y) rest (upd None x).
Proof.
  intros Hin.
  assert (Hget : Js.map_get k (fold_left (tally_step key upd) xs []) = Some v).
  { apply In_map_get; [|exact Hin]. apply tally_NoDup. constructor. }
  rewrite tally_entry in Hget. cbn [Js.map_get] in Hget.
  destruct (filter (keyed key k) xs) as [|x rest]; [discriminate|].
  exists x, rest. split; [reflexivity|].
  cbn [fold_left] in Hget. rewrite fold_Some in Hget. congruence.
Qed.

Lemma stripe_entry_fold (rest : list StripeAnalytics.ChargeSummary) :
  forall e,
    let e' := fold_left (fun e y => stripe_entry (Some e) y) rest e in
    StripeAnalytics.chargeCount e'
    = StripeAnalytics.chargeCount e + Z.of_nat (List.length rest)
    /\ StripeAnalytics.refundedCount e'
       = StripeAnalytics.refundedCount e
         + Z.of_nat (List.length (filter StripeAnalytics.refunded rest)).
Proof.
  induction rest as [|c rest IH]; intros e; cbn [fold_left List.length filter].
  - cbn. lia.
  - cbv zeta in IH. destruct (IH (stripe_entry (Some e) c)) as [-> ->].
    cbn [stripe_entry StripeAnalytics.chargeCount StripeAnalytics.refundedCount].
    destruct (StripeAnalytics.refunded c); cbn [List.length]; lia.
Qed.

Lemma paypal_entry_fold (rest : list PaypalCharge.CardInfoRecord) :
  forall e,
    let refunded c := PaypalAnalytics.isRefunded (PaypalCharge.status c) in
    let e' := fold_left (fun e y => paypal_entry (Some e) y) rest e in
    PaypalAnalytics.transactionCount e'
    = PaypalAnalytics.transactionCount e + Z.of_nat (List.length rest)
    /\ PaypalAnalytics.refundedCount e'
       = PaypalAnalytics.refundedCount e + Z.of_nat (List.length (filter refunded rest)).
Proof.
  induction rest as [|c rest IH]; intros e; cbn [fold_left List.length filter].
  - cbn. lia.
  - cbv zeta in IH. destruct (IH (paypal_entry (Some e) c)) as [-> ->].
    cbn [paypal_entry PaypalAnalytics.transactionCount PaypalAnalytics.refundedCount].
    destruct (PaypalAnalytics.isRefunded (PaypalCharge.status c)); cbn [List.length]; lia.
Qed.

Lemma volume_entry_fold (rest : list StripeAnalytics.ChargeSummary) :
  forall e,
    StripeReports.ve_chargeCount (fold_left (fun e y => volume_entry (Some e) y) rest e)
    = StripeReports.ve_chargeCount e + Z.of_nat (List.length rest).
Proof.
  induction rest as [|c rest IH]; intros e; cbn [fold_left List.length].
  - lia.
  - rewrite IH. cbn. lia.
Qed.

Lemma ranking_In {V B : Type} (project : string * V -> B) (rank : B -> Q)
  (m : list (string * V)) (e : B) :
  In e (Js.sort_desc rank (List.map project m)) ->
  exists k v, e = project (k, v) /\ In (k, v) m.
Proof.
  intros He. apply (Permutation_in _ (sort_desc_perm _ _)) in He.
  apply in_map_iff in He as [[k v] [<- Hin]]. now exists k, v.
Qed.

Lemma ranking_names_NoDup {V B : Type} (project : string * V -> B) (rank : B -> Q)
  (name : B -> string) (m : list (string * V)) :
  (forall k v, name (project (k, v)) = k) ->
  NoDup (keys m) ->
  NoDup (List.map name (Js.sort_desc rank (List.map project m))).
Proof.
  intros Hname Hnd.
  apply (Permutation_NoDup (l := keys m)); [|exact Hnd].
  symmetry. rewrite (Permutation_map name (sort_desc_perm rank (List.map project m))).
  rewrite map_map. unfold keys.
  erewrite map_ext; [reflexivity|]. intros [k v]. apply Hname.
Qed.

Lemma NoDup_firstn {A : Type} (n : nat) (l : list A) : NoDup l -> NoDup (firstn n l).
Proof.
  intros Hnd. rewrite <- (firstn_skipn n l) in Hnd. now apply NoDup_app_remove_r in Hnd.
Qed.

Lemma sumZ_firstn_le (n : nat) (l : list Z) :
  Forall (fun x => 0 <= x) l -> sumZ (firstn n l) <= sumZ l.
Proof.
  intros Hpos. rewrite <- (firstn_skipn n l) at 2. rewrite sumZ_app.
  assert (0 <= sumZ (skipn n l)); [|lia].
  apply sumZ_nonneg. apply Forall_forall. intros x Hx.
  rewrite Forall_forall in Hpos. apply Hpos.
  rewrite <- (firstn_skipn n l). apply in_or_app. now right.
Qed.

Lemma product_of_nonempty (c : StripeAnalytics.ChargeSummary) (n : string) :
  StripeReports.product_of c = Some n -> n <> EmptyString.
Proof.
  unfold StripeReports.product_of.
  destruct (Js.map_get "product_name" (StripeAnalytics.metadata c)) as [[|a rest]|];
    try discriminate.
  intros H. inversion H. discriminate.
Qed.

End Breakdowns.

(** X1. Every breakdown of the two reports is a ranking: the currencies of
    both providers, the card brands and the products are listed in
    non-increasing order of their gross amount in major units, so each
    entry is worth at least as much as every entry after it. *)
Theorem breakdowns_are_ranked
  (stripeCharges : list StripeAnalytics.ChargeSummary)
  (paypalCharges : list PaypalCharge.CardInfoRecord) :
  ranked StripeAnalytics.cb_grossAmountMajor
    (StripeAnalytics.aggregateByCurrency stripeCharges)
  /\ ranked StripeReports.bb_grossAmountMajor
       (StripeReports.aggregateCardBrands stripeCharges)
  /\ ranked StripeReports.pb_grossAmountMajor
       (StripeReports.aggregateProducts stripeCharges)
  /\ ranked PaypalAnalytics.cb_grossAmountMajor
       (PaypalAnalytics.aggregateByCurrency paypalCharges).
Proof.
  split; [apply sort_desc_ranked|].
  split; [apply sort_desc_ranked|].
  split; [apply slice0_ranked, sort_desc_ranked|apply sort_desc_ranked].
Qed.

Lemma stripe_currency_sums (charges : list StripeAnalytics.ChargeSummary) :
  let breakdown := StripeAnalytics.aggregateByCurrency charges in
  sumZ (List.map StripeAnalytics.cb_chargeCount breakdown) = Z.of_nat (List.length charges)
  /\ sumZ (List.map StripeAnalytics.cb_refundedCount breakdown)
     = Z.of_nat (List.length (filter StripeAnalytics.refunded charges))
  /\ sumZ (List.map StripeAnalytics.cb_grossAmountMinor breakdown)
     = sumZ (List.map StripeAnalytics.amount charges).
Proof.
  cbv zeta.
  unfold StripeAnalytics.aggregateByCurrency. rewrite stripe_currency_loop.
  split; [|split].
  + rewrite (ranking_total _ _ _ StripeAnalytics.chargeCount) by reflexivity.
    rewrite (tally_total _ _ _ (fun _ => 1)) by (intros [e|] x; reflexivity).
    rewrite sumZ_ones. cbn. now rewrite filter_true.
  + rewrite (ranking_total _ _ _ StripeAnalytics.refundedCount) by reflexivity.
    rewrite (tally_total _ _ _ (fun c => if StripeAnalytics.refunded c then 1 else 0)).
    * rewrite sumZ_indicator. cbn. now rewrite filter_true.
    * intros [e|] x; cbn; destruct (StripeAnalytics.refunded x); lia.
  + rewrite (ranking_total _ _ _ StripeAnalytics.grossAmountMinor) by reflexivity.
    rewrite (tally_total _ _ _ StripeAnalytics.amount) by (intros [e|] x; reflexivity).
    cbn. now rewrite filter_true.
Qed.

Lemma paypal_currency_sums (charges : list PaypalCharge.CardInfoRecord) :
  let breakdown := PaypalAnalytics.aggregateByCurrency charges in
  sumZ (List.map PaypalAnalytics.cb_transactionCount breakdown)
  = Z.of_nat (List.length charges)
  /\ sumZ (List.map PaypalAnalytics.cb_refundedCount breakdown)
     = Z.of_nat (List.length
                   (filter (fun c => PaypalAnalytics.isRefunded (PaypalCharge.status c))
                           charges))
  /\ sumZ (List.map PaypalAnalytics.cb_grossAmountMinor breakdown)
     = sumZ (List.map PaypalCharge.amountMinor charges).
Proof.
  cbv zeta.
  unfold PaypalAnalytics.aggregateByCurrency. rewrite paypal_currency_loop.
  split; [|split].
  + rewrite (ranking_total _ _ _ PaypalAnalytics.transactionCount) by reflexivity.
    rewrite (tally_total _ _ _ (fun _ => 1)) by (intros [e|] x; reflexivity).
    rewrite sumZ_ones. cbn. now rewrite filter_true.
  + rewrite (ranking_total _ _ _ PaypalAnalytics.refundedCount) by reflexivity.
    rewrite (tally_total _ _ _
               (fun c => if PaypalAnalytics.isRefunded (PaypalCharge.status c)
                         then 1 else 0))
      by (intros [e|] x; reflexivity).
    rewrite sumZ_indicator. cbn. now rewrite filter_true.
  + rewrite (ranking_total _ _ _ PaypalAnalytics.grossAmountMinor) by reflexivity.
    rewrite (tally_total _ _ _ PaypalCharge.amountMinor) by (intros [e|] x; reflexivity).
    cbn. now rewrite filter_true.
Qed.

(** X2. The currency breakdowns lose nothing: over the entries of the
    breakdown, the counts add up to the number of charges, the refunded
    counts to the number of refunded charges, and the gross amounts in
    minor units to the sum of the amounts of the charges; likewise for
    the wallet-ledger breakdown. *)
Theorem aggregateByCurrency_totals
  (stripeCharges : list StripeAnalytics.ChargeSummary)
  (paypalCharges : list PaypalCharge.CardInfoRecord) :
  let stripe := StripeAnalytics.aggregateByCurrency stripeCharges in
  let paypal := PaypalAnalytics.aggregateByCurrency paypalCharges in
  let reversed c := PaypalAnalytics.isRefunded (PaypalCharge.status c) in
  (sumZ (List.map StripeAnalytics.cb_chargeCount stripe)
   = Z.of_nat (List.length stripeCharges)
   /\ sumZ (List.map StripeAnalytics.cb_refundedCount stripe)
      = Z.of_nat (List.length (filter StripeAnalytics.refunded stripeCharges))
   /\ sumZ (List.map StripeAnalytics.cb_grossAmountMinor stripe)
      = sumZ (List.map StripeAnalytics.amount stripeCharges))
  /\ (sumZ (List.map PaypalAnalytics.cb_transactionCount paypal)
      = Z.of_nat (List.length paypalCharges)
      /\ sumZ (List.map PaypalAnalytics.cb_refundedCount paypal)
         = Z.of_nat (List.length (filter reversed paypalCharges))
      /\ sumZ (List.map PaypalAnalytics.cb_grossAmountMinor paypal)
         = sumZ (List.map PaypalCharge.amountMinor paypalCharges)).
Proof.
  cbv zeta. split; [apply stripe_currency_sums|apply paypal_currency_sums].
Qed.

Lemma stripe_currency_entries (charges : list StripeAnalytics.ChargeSummary) :
  Forall
    (fun e =>
       1 <= StripeAnalytics.cb_chargeCount e
       /\ 0 <= StripeAnalytics.cb_refundedCount e <= StripeAnalytics.cb_chargeCount e
       /\ StripeAnalytics.cb_grossAmountMajor e
          = StripeAnalytics.convertToMajorUnits
              (StripeAnalytics.cb_grossAmountMinor e) (StripeAnalytics.cb_currency e)
       /\ StripeAnalytics.cb_averageTicketMajor e <> None)
    (StripeAnalytics.aggregateByCurrency charges).
Proof.
  apply Forall_forall; intros e He.
  unfold StripeAnalytics.aggregateByCurrency in He. rewrite stripe_currency_loop in He.
  apply (Permutation_in _ (sort_desc_perm _ _)) in He.
  apply in_map_iff in He as [[k v] [<- Hin]].
  apply tally_entry_In in Hin as (x & rest & Hf & ->).
  pose proof (stripe_entry_fold rest (stripe_entry None x)) as H. cbv zeta in H.
  destruct H as [Hc Hr].
  pose proof (filter_length_le StripeAnalytics.refunded rest) as Hle.
  cbn [StripeAnalytics.cb_chargeCount StripeAnalytics.cb_refundedCount
       StripeAnalytics.cb_grossAmountMajor StripeAnalytics.cb_grossAmountMinor
       StripeAnalytics.cb_currency StripeAnalytics.cb_averageTicketMajor].
  rewrite Hc, Hr.
  cbn [stripe_entry StripeAnalytics.chargeCount StripeAnalytics.refundedCount].
  split; [lia|]. split; [destruct (StripeAnalytics.refunded x); lia|].
  split; [reflexivity|].
  destruct (0 + 1 + Z.of_nat (List.length rest) >? 0) eqn:E; [discriminate|lia].
Qed.

Lemma paypal_currency_entries (charges : list PaypalCharge.CardInfoRecord) :
  Forall
    (fun e =>
       1 <= PaypalAnalytics.cb_transactionCount e
       /\ 0 <= PaypalAnalytics.cb_refundedCount e <= PaypalAnalytics.cb_transactionCount e
       /\ PaypalAnalytics.cb_averageTicketMajor e <> None)
    (PaypalAnalytics.aggregateByCurrency charges).
Proof.
  apply Forall_forall; intros e He.
  unfold PaypalAnalytics.aggregateByCurrency in He. rewrite paypal_currency_loop in He.
  apply (Permutation_in _ (sort_desc_perm _ _)) in He.
  apply in_map_iff in He as [[k v] [<- Hin]].
  apply tally_entry_In in Hin as (x & rest & Hf & ->).
  pose proof (paypal_entry_fold rest (paypal_entry None x)) as H. cbv zeta in H.
  destruct H as [Hc Hr].
  pose proof (filter_length_le
                (fun c => PaypalAnalytics.isRefunded (PaypalCharge.status c)) rest) as Hle.
  cbn [PaypalAnalytics.cb_transactionCount PaypalAnalytics.cb_refundedCount
       PaypalAnalytics.cb_averageTicketMajor].
  rewrite Hc, Hr.
  cbn [paypal_entry PaypalAnalytics.transactionCount PaypalAnalytics.refundedCount].
  split; [lia|].
  split; [destruct (PaypalAnalytics.isRefunded (PaypalCharge.status x)); lia|].
  destruct (0 + 1 + Z.of_nat (List.length rest) >? 0) eqn:E; [discriminate|lia].
Qed.

(** A ranking of the groups of a non-empty input is not empty. *)
Lemma ranking_nonempty {X V B : Type} (key : X -> option string) (upd : option V -> X -> V)
  (project : string * V -> B) (rank : B -> Q) (x : X) (xs : list X) (k : string) :
  In x xs -> key x = Some k ->
  Js.sort_desc rank (List.map project (fold_left (tally_step key upd) xs [])) <> [].
Proof.
  intros Hx Hk Hnil.
  assert (Hin : In k (keys (fold_left (tally_step key upd) xs [])))
    by (apply tally_keys; right; now exists x).
  pose proof (sort_desc_perm rank (List.map project (fold_left (tally_step key upd) xs [])))
    as Hperm.
  rewrite Hnil in Hperm. apply Permutation_nil in Hperm.
  apply map_eq_nil in Hperm. rewrite Hperm in Hin. destruct Hin.
Qed.


(** X4. The card-brand breakdown accounts for every charge, a charge
    without card details counting as brand 'unknown': its counts add up to
    the number of charges and its gross amounts in minor units to the sum
    of the amounts.  The product list has at most ten entries with
    distinct names, each for at least one charge that names the product in
    its metadata; charges without a product name are counted nowhere, so
    the counts add up to no more than the number of charges that have
    one. *)
Theorem brands_and_products (charges : list StripeAnalytics.ChargeSummary) :
  let brands := StripeReports.aggregateCardBrands charges in
  let products := StripeReports.aggregateProducts charges in
  let named c :=
    match StripeReports.product_of c with Some _ => true | None => false end in
  sumZ (List.map StripeReports.bb_chargeCount brands) = Z.of_nat (List.length charges)
  /\ sumZ (List.map StripeReports.bb_grossAmountMinor brands)
     = sumZ (List.map StripeAnalytics.amount charges)
  /\ NoDup (List.map StripeReports.bb_brand brands)
  /\ (List.length products <= 10)%nat
  /\ NoDup (List.map StripeReports.pb_productName products)
  /\ Forall
       (fun p =>
          StripeReports.pb_productName p <> EmptyString
          /\ StripeReports.pb_chargeCount p
             = Z.of_nat (List.length
                 (filter (fun c => match StripeReports.product_of c with
                                   | Some n => String.eqb n (StripeReports.pb_productName p)
                                   | None => false
                                   end) charges))
          /\ 1 <= StripeReports.pb_chargeCount p)
       products
  /\ sumZ (List.map StripeReports.pb_chargeCount products)
     <= Z.of_nat (List.length (filter named charges)).
Proof.
  cbv zeta.
  unfold StripeReports.aggregateCardBrands, StripeReports.aggregateProducts.
  rewrite brand_loop, product_loop.
  set (bm := fold_left (tally_step (fun c => Some (StripeReports.brand_of c)) volume_entry)
               charges []).
  set (pm := fold_left (tally_step StripeReports.product_of volume_entry) charges []).
  match goal with
  | |- context [Js.slice0 10 ?l] => set (ranking := l)
  end.
  assert (Hfacts :
    Forall
      (fun p =>
         StripeReports.pb_productName p <> EmptyString
         /\ StripeReports.pb_chargeCount p
            = Z.of_nat (List.length
                (filter (fun c => match StripeReports.product_of c with
                                  | Some n => String.eqb n (StripeReports.pb_productName p)
                                  | None => false
                                  end) charges))
         /\ 1 <= StripeReports.pb_chargeCount p)
      ranking).
  { apply Forall_forall. intros p Hp.
    apply ranking_In in Hp as (k & v & -> & Hin).
    apply tally_entry_In in Hin as (x & rest & Hf & ->).
    cbn [StripeReports.pb_productName StripeReports.pb_chargeCount].
    rewrite volume_entry_fold.
    change (filter (fun c => match StripeReports.product_of c with
                             | Some n => String.eqb n k
                             | None => false
                             end) charges)
      with (filter (keyed StripeReports.product_of k) charges).
    rewrite Hf. cbn [List.length volume_entry StripeReports.add_charge
                     StripeReports.ve_chargeCount].
    split; [|lia].
    assert (Hx : In x (filter (keyed StripeReports.product_of k) charges))
      by (rewrite Hf; now left).
    apply filter_In in Hx as [_ Hx]. unfold keyed in Hx.
    destruct (StripeReports.product_of x) as [n|] eqn:E; [|discriminate].
    apply String.eqb_eq in Hx. subst n. now apply product_of_nonempty in E. }
  split; [|split; [|split; [|split; [|split; [|split]]]]].
  - rewrite (ranking_total _ _ _ StripeReports.ve_chargeCount) by reflexivity.
    unfold bm. rewrite (tally_total _ _ _ (fun _ => 1)) by (intros [e|] x; reflexivity).
    rewrite sumZ_ones. cbn. now rewrite filter_true.
  - rewrite (ranking_total _ _ _ StripeReports.ve_grossAmountMinor) by reflexivity.
    unfold bm. rewrite (tally_total _ _ _ StripeAnalytics.amount)
      by (intros [e|] x; reflexivity).
    cbn. now rewrite filter_true.
  - apply ranking_names_NoDup; [reflexivity|]. apply tally_NoDup. constructor.
  - unfold Js.slice0. cbn. apply firstn_le_length.
  - unfold Js.slice0. cbn [Z.ltb Z.compare]. rewrite <- firstn_map. apply NoDup_firstn.
    apply ranking_names_NoDup; [reflexivity|]. apply tally_NoDup. constructor.
  - apply Forall_forall. intros p Hp. apply slice0_incl in Hp.
    rewrite Forall_forall in Hfacts. now apply Hfacts.
  - unfold Js.slice0. cbn [Z.ltb Z.compare]. rewrite <- firstn_map.
    etransitivity.
    + apply sumZ_firstn_le. apply Forall_forall. intros n Hn.
      apply in_map_iff in Hn as [p [<- Hp]].
      rewrite Forall_forall in Hfacts. specialize (Hfacts p Hp). lia.
    + unfold ranking.
      rewrite (ranking_total _ _ _ StripeReports.ve_chargeCount) by reflexivity.
      unfold pm. rewrite (tally_total _ _ _ (fun _ => 1)) by (intros [e|] x; reflexivity).
      rewrite sumZ_ones. cbn. reflexivity.
Qed.

(* ===================================================================== *)
(** * Reports: the top customers *)
(* ===================================================================== *)

Section CustomerRankings.

(** What a grouping loop followed by a projection and a ranking lists:
    one entry for each distinct key. *)
Lemma tally_ranking {X V B : Type} (key : X -> option string) (upd : option V -> X -> V)
  (project : string * V -> B) (rank : B -> Q) (name : B -> string) (xs : list X) :
  (forall k v, name (project (k, v)) = k) ->
  let ranking :=
    Js.sort_desc rank (List.map project (fold_left (tally_step key upd) xs [])) in
  ranked rank ranking
  /\ NoDup (List.map name ranking)
  /\ (forall k, In k (List.map name ranking) <-> exists x, In x xs /\ key x = Some k)
  /\ List.length ranking = List.length (fold_left (tally_step key upd) xs [])
  /\ List.length ranking = List.length (nodup string_dec (key_list key xs)).
Proof.
  intros Hname ranking.
  assert (Hperm : Permutation ranking
                    (List.map project (fold_left (tally_step key upd) xs [])))
    by apply sort_desc_perm.
  assert (Hlen : List.length ranking = List.length (fold_left (tally_step key upd) xs [])).
  { rewrite (Permutation_length Hperm). apply length_map. }
  split; [apply sort_desc_ranked|].
  split; [apply ranking_names_NoDup; [exact Hname|apply tally_NoDup; constructor]|].
  split; [|split; [exact Hlen|rewrite Hlen; apply tally_length]].
  intros k.
  assert (Hnames : Permutation (List.map name ranking)
                     (keys (fold_left (tally_step key upd) xs []))).
  { rewrite (Permutation_map name Hperm), map_map. unfold keys.
    erewrite map_ext; [reflexivity|]. intros [k' v]. apply Hname. }
  pose proof (tally_keys key upd xs [] k) as Hkeys. cbn [keys List.map In] in Hkeys.
  split.
  - intros H. apply (Permutation_in _ Hnames) in H.
    apply Hkeys in H as [[]|H]. exact H.
  - intros H. apply (Permutation_in _ (Permutation_sym Hnames)).
    apply Hkeys. now right.
Qed.

(** [charge.customerId ?? 'unknown'] *)
Definition stripe_customer (c : StripeAnalytics.ChargeSummary) : string :=
  match StripeAnalytics.customerId c with Some x => x | None => "unknown"%string end.

Definition stripe_customer_entry (o : option StripeAnalytics.CustomerEntry)
  (charge : StripeAnalytics.ChargeSummary) : StripeAnalytics.CustomerEntry :=
  match o with
  | None =>
      StripeAnalytics.Build_CustomerEntry 1 (StripeAnalytics.amount charge)
        (StripeAnalytics.created charge) (StripeAnalytics.id charge)
        [charge] (StripeAnalytics.metadataAmounts charge)
  | Some existing =>
      let newer :=
        StripeAnalytics.created charge >? StripeAnalytics.ce_lastChargeCreated existing in
      StripeAnalytics.Build_CustomerEntry
        (StripeAnalytics.ce_chargeCount existing + 1)
        (StripeAnalytics.ce_grossAmountMinor existing + StripeAnalytics.amount charge)
        (if newer then StripeAnalytics.created charge
         else StripeAnalytics.ce_lastChargeCreated existing)
        (if newer then StripeAnalytics.id charge
         else StripeAnalytics.ce_lastChargeId existing)
        (StripeAnalytics.ce_charges existing ++ [charge])
        (StripeAnalytics.mergeMetadataTotals
           (StripeAnalytics.ce_metadataTotals existing)
           (StripeAnalytics.metadataAmounts charge))
  end.

Lemma stripe_customer_loop (charges : list StripeAnalytics.ChargeSummary) :
  fold_left StripeAnalytics.customer_step charges []
  = fold_left (tally_step (fun c => Some (stripe_customer c)) stripe_customer_entry)
      charges [].
Proof.
  apply fold_left_ext. intros m c.
  unfold StripeAnalytics.customer_step, tally_step.
  fold (stripe_customer c).
  destruct (Js.map_get (stripe_customer c) m); reflexivity.
Qed.

(** The last charge of a customer: the first of the customer's charges,
    in the order of the input, that no other one is newer than. *)
Definition latest_in (charges : list StripeAnalytics.ChargeSummary)
  (last : StripeAnalytics.ChargeSummary) : Prop :=
  exists pre post,
    charges = pre ++ last :: post
    /\ Forall (fun c => StripeAnalytics.created c < StripeAnalytics.created last) pre
    /\ Forall (fun c => StripeAnalytics.created c <= StripeAnalytics.created last) post.

Definition stripe_entry_of (e : StripeAnalytics.CustomerEntry)
  (mine : list StripeAnalytics.ChargeSummary) : Prop :=
  StripeAnalytics.ce_chargeCount e = Z.of_nat (List.length mine)
  /\ StripeAnalytics.ce_grossAmountMinor e = sumZ (List.map StripeAnalytics.amount mine)
  /\ StripeAnalytics.ce_charges e = mine
  /\ exists last,
       latest_in mine last
       /\ StripeAnalytics.ce_lastChargeId e = StripeAnalytics.id last
       /\ StripeAnalytics.ce_lastChargeCreated e = StripeAnalytics.created last.

Lemma stripe_entry_first (x : StripeAnalytics.ChargeSummary) :
  stripe_entry_of (stripe_customer_entry None x) [x].
Proof.
  split; [reflexivity|]. split; [cbn; lia|]. split; [reflexivity|].
  exists x. split; [|split; reflexivity].
  exists [], []. split; [reflexivity|]. split; constructor.
Qed.

Lemma stripe_entry_next (e : StripeAnalytics.CustomerEntry)
  (mine : list StripeAnalytics.ChargeSummary) (x : StripeAnalytics.ChargeSummary) :
  stripe_entry_of e mine -> stripe_entry_of (stripe_customer_entry (Some e) x) (mine ++ [x]).
Proof.
  intros (Hc & Hm & Hl & last & (pre & post & Hsplit & Hpre & Hpost) & Hid & Hcr).
  split; [|split; [|split]].
  - cbn. rewrite Hc, length_app. cbn. lia.
  - cbn. rewrite Hm, map_app, sumZ_app. cbn. lia.
  - cbn. now rewrite Hl.
  - cbn [stripe_customer_entry StripeAnalytics.ce_lastChargeId
         StripeAnalytics.ce_lastChargeCreated].
    destruct (StripeAnalytics.created x >? StripeAnalytics.ce_lastChargeCreated e) eqn:E.
    + apply Z.gtb_lt in E. rewrite Hcr in E.
      exists x. split; [|split; reflexivity].
      exists mine, []. split; [reflexivity|]. split; [|constructor].
      rewrite Hsplit. apply Forall_app. split.
      * eapply Forall_impl; [|exact Hpre]. cbn. intros; lia.
      * constructor; [exact E|].
        eapply Forall_impl; [|exact Hpost]. cbn. intros; lia.
    + assert (Hle : StripeAnalytics.created x <= StripeAnalytics.created last).
      { rewrite <- Hcr. destruct (Z.gtb_spec (StripeAnalytics.created x)
                                   (StripeAnalytics.ce_lastChargeCreated e)); [discriminate|lia]. }
      exists last. split; [|split; assumption].
      exists pre, (post ++ [x]). split; [|split].
      * rewrite Hsplit, <- app_assoc. reflexivity.
      * exact Hpre.
      * apply Forall_app. split; [exact Hpost|]. now constructor.
Qed.

Lemma stripe_entry_fold_of (rest : list StripeAnalytics.ChargeSummary) :
  forall e mine,
    stripe_entry_of e mine ->
    stripe_entry_of (fold_left (fun e y => stripe_customer_entry (Some e) y) rest e)
      (mine ++ rest).
Proof.
  induction rest as [|x rest IH]; intros e mine H; cbn [fold_left].
  - now rewrite app_nil_r.
  - replace (mine ++ x :: rest) with ((mine ++ [x]) ++ rest)
      by (rewrite <- app_assoc; reflexivity).
    apply IH. now apply stripe_entry_next.
Qed.

(** The wallet-ledger loop. *)
Variable Date_parse : string -> option Z.

Definition paypal_customer_entry (o : option PaypalAnalytics.CustomerEntry)
  (charge : PaypalCharge.CardInfoRecord) : PaypalAnalytics.CustomerEntry :=
  match o with
  | None =>
      PaypalAnalytics.Build_CustomerEntry 1 (PaypalCharge.amountMinor charge)
        (PaypalCharge.amountMajor charge) (PaypalCharge.transactionId charge)
        (PaypalCharge.createdAtUtc charge) [charge]
  | Some existing =>
      let newer :=
        match Date_parse (PaypalCharge.createdAtUtc charge),
              Date_parse (PaypalAnalytics.ce_lastTransactionCreated existing) with
        | Some a, Some b => a >? b
        | _, _ => false
        end in
      PaypalAnalytics.Build_CustomerEntry
        (PaypalAnalytics.ce_transactionCount existing + 1)
        (PaypalAnalytics.ce_grossAmountMinor existing + PaypalCharge.amountMinor charge)
        (PaypalAnalytics.ce_grossAmountMajor existing + PaypalCharge.amountMajor charge)%Q
        (if newer then PaypalCharge.transactionId charge
         else PaypalAnalytics.ce_lastTransactionId existing)
        (if newer then PaypalCharge.createdAtUtc charge
         else PaypalAnalytics.ce_lastTransactionCreated existing)
        (PaypalAnalytics.ce_charges existing ++ [charge])
  end.

Lemma paypal_customer_loop (charges : list PaypalCharge.CardInfoRecord) :
  fold_left (PaypalAnalytics.customer_step Date_parse) charges []
  = fold_left (tally_step (fun c => Some (PaypalAnalytics.deriveCustomerId c))
                 paypal_customer_entry) charges [].
Proof.
  apply fold_left_ext. intros m c.
  unfold PaypalAnalytics.customer_step, tally_step.
  destruct (Js.map_get (PaypalAnalytics.deriveCustomerId c) m); reflexivity.
Qed.

(** No transaction of [mine] is known to be newer than [last]. *)
Definition none_newer (mine : list PaypalCharge.CardInfoRecord)
  (last : PaypalCharge.CardInfoRecord) : Prop :=
  forall c a b,
    In c mine ->
    Date_parse (PaypalCharge.createdAtUtc c) = Some a ->
    Date_parse (PaypalCharge.createdAtUtc last) = Some b ->
    a <= b.

Definition paypal_entry_of (e : PaypalAnalytics.CustomerEntry)
  (mine : list PaypalCharge.CardInfoRecord) : Prop :=
  PaypalAnalytics.ce_transactionCount e = Z.of_nat (List.length mine)
  /\ PaypalAnalytics.ce_grossAmountMinor e = sumZ (List.map PaypalCharge.amountMinor mine)
  /\ PaypalAnalytics.ce_charges e = mine
  /\ exists last,
       In last mine /\ none_newer mine last
       /\ PaypalAnalytics.ce_lastTransactionId e = PaypalCharge.transactionId last
       /\ PaypalAnalytics.ce_lastTransactionCreated e = PaypalCharge.createdAtUtc last.

Lemma paypal_entry_first (x : PaypalCharge.CardInfoRecord) :
  paypal_entry_of (paypal_customer_entry None x) [x].
Proof.
  split; [reflexivity|]. split; [cbn; lia|]. split; [reflexivity|].
  exists x. split; [now left|]. split; [|split; reflexivity].
  intros c a b [<-|[]] Ha Hb. rewrite Ha in Hb. inversion Hb. lia.
Qed.

Lemma paypal_entry_next (e : PaypalAnalytics.CustomerEntry)
  (mine : list PaypalCharge.CardInfoRecord) (x : PaypalCharge.CardInfoRecord) :
  paypal_entry_of e mine -> paypal_entry_of (paypal_customer_entry (Some e) x) (mine ++ [x]).
Proof.
  intros (Hc & Hm & Hl & last & Hin & Hnone & Hid & Hcr).
  split; [|split; [|split]].
  - cbn. rewrite Hc, length_app. cbn. lia.
  - cbn. rewrite Hm, map_app, sumZ_app. cbn. lia.
  - cbn. now rewrite Hl.
  - cbn [paypal_customer_entry PaypalAnalytics.ce_lastTransactionId
         PaypalAnalytics.ce_lastTransactionCreated].
    rewrite Hcr.
    destruct (Date_parse (PaypalCharge.createdAtUtc x)) as [a|] eqn:Ea;
      [destruct (Date_parse (PaypalCharge.createdAtUtc last)) as [b|] eqn:Eb;
       [destruct (a >? b) eqn:E|]|].
    + apply Z.gtb_lt in E.
      exists x. split; [apply in_or_app; right; now left|]. split; [|split; reflexivity].
      intros c a' b' Hc' Ha' Hb'. rewrite Ea in Hb'. inversion Hb'; subst b'.
      apply in_app_or in Hc' as [Hc'|[<-|[]]].
      * specialize (Hnone c a' b Hc' Ha' Eb). lia.
      * rewrite Ea in Ha'. inversion Ha'. lia.
    + exists last. split; [apply in_or_app; now left|]. split; [|split; first [assumption|reflexivity]].
      intros c a' b' Hc' Ha' Hb'. rewrite Eb in Hb'. inversion Hb'; subst b'.
      apply in_app_or in Hc' as [Hc'|[<-|[]]].
      * exact (Hnone c a' b Hc' Ha' Eb).
      * rewrite Ea in Ha'. inversion Ha'; subst a'.
        destruct (Z.gtb_spec a b); [discriminate|lia].
    + exists last. split; [apply in_or_app; now left|]. split; [|split; first [assumption|reflexivity]].
      intros c a' b' Hc' Ha' Hb'. congruence.
    + exists last. split; [apply in_or_app; now left|]. split; [|split; first [assumption|reflexivity]].
      intros c a' b' Hc' Ha' Hb'.
      apply in_app_or in Hc' as [Hc'|[<-|[]]].
      * exact (Hnone c a' b' Hc' Ha' Hb').
      * congruence.
Qed.

Lemma paypal_entry_fold_of (rest : list PaypalCharge.CardInfoRecord) :
  forall e mine,
    paypal_entry_of e mine ->
    paypal_entry_of (fold_left (fun e y => paypal_customer_entry (Some e) y) rest e)
      (mine ++ rest).
Proof.
  induction rest as [|x rest IH]; intros e mine H; cbn [fold_left].
  - now rewrite app_nil_r.
  - replace (mine ++ x :: rest) with ((mine ++ [x]) ++ rest)
      by (rewrite <- app_assoc; reflexivity).
    apply IH. now apply paypal_entry_next.
Qed.

End CustomerRankings.

Lemma key_list_total {X : Type} (key : X -> string) (xs : list X) :
  key_list (fun x => Some (key x)) xs = List.map key xs.
Proof.
  unfold key_list. induction xs as [|x xs IH]; cbn; [reflexivity|]. now rewrite IH.
Qed.

(** Three charges of two customers. *)
Module CustomerExample.

Definition charge (id customer : string) (amount created : Z) : StripeAnalytics.ChargeSummary :=
  StripeAnalytics.Build_ChargeSummary id amount "usd" (Some "succeeded"%string)
    None (Some customer) created false None None [] [].

Definition charges : list StripeAnalytics.ChargeSummary :=
  [charge "ch_1" "cus_A" 1000 1717200000;
   charge "ch_2" "cus_B" 5000 1717286400;
   charge "ch_3" "cus_A" 2500 1717372800].

Definition leader : StripeAnalytics.TopCustomer :=
  StripeAnalytics.Build_TopCustomer "cus_B" 1 5000 (5000 # 100) "ch_2" 1717286400
    [StripeAnalytics.Build_CurrencyBreakdown "usd" 1 0 5000 (5000 # 100) (Some (5000 # 100))]
    [].

Definition record (transaction email : string) (minor : Z) (created : string)
  : PaypalCharge.CardInfoRecord :=
  PaypalCharge.Build_CardInfoRecord "INV" transaction minor (minor # 100) created
    (Some "S"%string) (Some "USD"%string) (Some email)
    None None None None None None None None None None None.

Definition records : list PaypalCharge.CardInfoRecord :=
  [record "T1" "a@example.com" 1000 "2024-06-01T00:00:00.000Z";
   record "T2" "b@example.com" 5000 "2024-06-02T00:00:00.000Z";
   record "T3" "a@example.com" 2500 "2024-06-03T00:00:00.000Z"].

Definition payer : PaypalAnalytics.CustomerBreakdown :=
  PaypalAnalytics.Build_CustomerBreakdown "b@example.com" 1 5000 (5000 # 100) "T2"
    "2024-06-02T00:00:00.000Z"
    [PaypalAnalytics.Build_CurrencyBreakdown "USD" 1 0 5000 (5000 # 100) (Some (5000 # 100))].

(** A date parser for timestamps at UTC midnight. *)
Definition Date_parse (s : string) : option Z :=
  JsDate.parse_utc_midnight (substring 0 10 s).

End CustomerExample.

(** X5. The top customers of the card ledger are the head of a ranking of
    all customers.  There is a list with exactly one entry for each
    distinct customer id of the charges (a charge without a customer
    counting under 'unknown'), in non-increasing order of gross amount in
    major units, such that [topCustomers] is its first [limit] entries and
    [totalCustomers] its length; so [topCustomers] has
    min(limit, totalCustomers) entries and no customer left out is worth
    more than one that is listed. *)
Theorem stripe_top_customers_ranking
  (startDate endDate : string) (charges : list StripeAnalytics.ChargeSummary) (limit : Z)
  (Hlimit : 0 <= limit) :
  let summary := StripeAnalytics.buildTopCustomersSummary startDate endDate charges limit in
  exists ranking,
    StripeAnalytics.topCustomers summary = firstn (Z.to_nat limit) ranking
    /\ ranked StripeAnalytics.tc_grossAmountMajor ranking
    /\ NoDup (List.map StripeAnalytics.tc_customerId ranking)
    /\ (forall k, In k (List.map StripeAnalytics.tc_customerId ranking)
                  <-> exists c, In c charges /\ stripe_customer c = k)
    /\ StripeAnalytics.totalCustomers summary = Z.of_nat (List.length ranking)
    /\ StripeAnalytics.totalCustomers summary
       = Z.of_nat (List.length (nodup string_dec (List.map stripe_customer charges)))
    /\ Z.of_nat (List.length (StripeAnalytics.topCustomers summary))
       = Z.min limit (StripeAnalytics.totalCustomers summary).
Proof.
  cbv zeta. unfold StripeAnalytics.buildTopCustomersSummary.
  cbn [StripeAnalytics.topCustomers StripeAnalytics.totalCustomers].
  rewrite stripe_customer_loop.
  match goal with
  | |- context [Js.slice0 limit (Js.sort_desc ?rank (List.map ?project ?m))] =>
      pose proof (tally_ranking (fun c => Some (stripe_customer c)) stripe_customer_entry
                    project rank StripeAnalytics.tc_customerId charges
                    (fun k v => eq_refl)) as H;
      set (ranking := Js.sort_desc rank (List.map project m)) in *
  end.
  cbv zeta in H. destruct H as (Hr & Hnd & Hk & Hlen & Hdistinct).
  exists ranking.
  split; [unfold Js.slice0; destruct (limit <? 0) eqn:E; [apply Z.ltb_lt in E; lia|reflexivity]|].
  split; [exact Hr|]. split; [exact Hnd|].
  split.
  { intros k. rewrite Hk. split; intros [c [Hc Hkc]]; exists c; split; congruence. }
  split; [now rewrite Hlen|].
  split; [now rewrite <- Hlen, Hdistinct, key_list_total|].
  rewrite slice0_length by exact Hlimit. now rewrite Hlen.
Qed.

Lemma stripe_top_customers_ranking_witness :
  0 <= 1
  /\ exists ranking,
       StripeAnalytics.topCustomers
         (StripeAnalytics.buildTopCustomersSummary "2024-06-01" "2024-06-07"
            CustomerExample.charges 1)
       = firstn (Z.to_nat 1) ranking
       /\ ranked StripeAnalytics.tc_grossAmountMajor ranking
       /\ StripeAnalytics.totalCustomers
            (StripeAnalytics.buildTopCustomersSummary "2024-06-01" "2024-06-07"
               CustomerExample.charges 1)
          = Z.of_nat (List.length ranking).
Proof.
  split; [lia|].
  destruct (stripe_top_customers_ranking "2024-06-01" "2024-06-07"
              CustomerExample.charges 1 ltac:(lia))
    as (ranking & Htop & Hranked & _ & _ & Htotal & _).
  exists ranking. split; [exact Htop|]. split; [exact Hranked|exact Htotal].
Defined.

(** X6. Each customer listed by the card-ledger report sums up that
    customer's charges and nothing else: the customer has at least one
    charge, the count is their number and the gross amount in minor units
    the sum of their amounts, the major amount and the currency breakdown
    are those of exactly these charges, and the last charge is the newest
    of them, the earliest one in the order of the input when several are
    equally new. *)
Theorem stripe_top_customer_entry
  (startDate endDate : string) (charges : list StripeAnalytics.ChargeSummary) (limit : Z)
  (t : StripeAnalytics.TopCustomer)
  (Hin : In t (StripeAnalytics.topCustomers
                 (StripeAnalytics.buildTopCustomersSummary startDate endDate charges limit))) :
  let mine :=
    filter (fun c => String.eqb (stripe_customer c) (StripeAnalytics.tc_customerId t))
      charges in
  mine <> []
  /\ StripeAnalytics.tc_chargeCount t = Z.of_nat (List.length mine)
  /\ StripeAnalytics.tc_grossAmountMinor t = sumZ (List.map StripeAnalytics.amount mine)
  /\ StripeAnalytics.tc_grossAmountMajor t = StripeAnalytics.sumMajorAmount mine
  /\ StripeAnalytics.tc_currencyBreakdown t = StripeAnalytics.aggregateByCurrency mine
  /\ exists last,
       latest_in mine last
       /\ StripeAnalytics.tc_lastChargeId t = StripeAnalytics.id last
       /\ StripeAnalytics.tc_lastChargeCreated t = StripeAnalytics.created last.
Proof.
  cbv zeta. unfold StripeAnalytics.buildTopCustomersSummary in Hin.
  cbn [StripeAnalytics.topCustomers] in Hin. rewrite stripe_customer_loop in Hin.
  apply slice0_incl in Hin.
  apply ranking_In in Hin as (k & v & -> & Hin).
  apply tally_entry_In in Hin as (x & rest & Hf & ->).
  cbn [StripeAnalytics.tc_customerId StripeAnalytics.tc_chargeCount
       StripeAnalytics.tc_grossAmountMinor StripeAnalytics.tc_grossAmountMajor
       StripeAnalytics.tc_currencyBreakdown StripeAnalytics.tc_lastChargeId
       StripeAnalytics.tc_lastChargeCreated].
  change (filter (fun c => String.eqb (stripe_customer c) k) charges)
    with (filter (keyed (fun c => Some (stripe_customer c)) k) charges).
  rewrite Hf.
  pose proof (stripe_entry_fold_of rest _ _ (stripe_entry_first x)) as H.
  cbn [app] in H. destruct H as (Hc & Hm & Hl & Hlast).
  split; [discriminate|]. split; [exact Hc|]. split; [exact Hm|].
  split; [now rewrite Hl|]. split; [now rewrite Hl|exact Hlast].
Qed.

Lemma stripe_top_customer_entry_witness :
  In CustomerExample.leader
    (StripeAnalytics.topCustomers
       (StripeAnalytics.buildTopCustomersSummary "2024-06-01" "2024-06-07"
          CustomerExample.charges 1))
  /\ filter (fun c => String.eqb (stripe_customer c)
                        (StripeAnalytics.tc_customerId CustomerExample.leader))
       CustomerExample.charges <> [].
Proof.
  assert (H : In CustomerExample.leader
                (StripeAnalytics.topCustomers
                   (StripeAnalytics.buildTopCustomersSummary "2024-06-01" "2024-06-07"
                      CustomerExample.charges 1)))
    by (vm_compute; left; reflexivity).
  split; [exact H|].
  exact (proj1 (stripe_top_customer_entry "2024-06-01" "2024-06-07"
                  CustomerExample.charges 1 CustomerExample.leader H)).
Defined.

(** X7. The top customers of the wallet ledger are the head of a ranking
    of all customers, a customer being the e-mail address of a record,
    else its phone number, else 'unknown': one entry for each distinct
    customer, in non-increasing order of gross amount in major units,
    [topCustomers] its first [limit] entries and [totalCustomers] its
    length. *)
Theorem paypal_top_customers_ranking
  (Date_parse : string -> option Z)
  (startDate endDate : string) (charges : list PaypalCharge.CardInfoRecord) (limit : Z)
  (Hlimit : 0 <= limit) :
  let summary :=
    PaypalAnalytics.buildTopCustomersSummary Date_parse startDate endDate charges limit in
  exists ranking,
    PaypalAnalytics.topCustomers summary = firstn (Z.to_nat limit) ranking
    /\ ranked PaypalAnalytics.tc_grossAmountMajor ranking
    /\ NoDup (List.map PaypalAnalytics.tc_customerId ranking)
    /\ (forall k, In k (List.map PaypalAnalytics.tc_customerId ranking)
                  <-> exists c, In c charges /\ PaypalAnalytics.deriveCustomerId c = k)
    /\ PaypalAnalytics.totalCustomers summary = Z.of_nat (List.length ranking)
    /\ PaypalAnalytics.totalCustomers summary
       = Z.of_nat (List.length
                     (nodup string_dec (List.map PaypalAnalytics.deriveCustomerId charges)))
    /\ Z.of_nat (List.length (PaypalAnalytics.topCustomers summary))
       = Z.min limit (PaypalAnalytics.totalCustomers summary).
Proof.
  cbv zeta. unfold PaypalAnalytics.buildTopCustomersSummary.
  cbn [PaypalAnalytics.topCustomers PaypalAnalytics.totalCustomers].
  rewrite paypal_customer_loop.
  match goal with
  | |- context [Js.slice0 limit (Js.sort_desc ?rank (List.map ?project ?m))] =>
      pose proof (tally_ranking (fun c => Some (PaypalAnalytics.deriveCustomerId c))
                    (paypal_customer_entry Date_parse)
                    project rank PaypalAnalytics.tc_customerId charges
                    (fun k v => eq_refl)) as H;
      set (ranking := Js.sort_desc rank (List.map project m)) in *
  end.
  cbv zeta in H. destruct H as (Hr & Hnd & Hk & Hlen & Hdistinct).
  exists ranking.
  split; [unfold Js.slice0; destruct (limit <? 0) eqn:E; [apply Z.ltb_lt in E; lia|reflexivity]|].
  split; [exact Hr|]. split; [exact Hnd|].
  split.
  { intros k. rewrite Hk. split; intros [c [Hc Hkc]]; exists c; split; congruence. }
  split; [now rewrite Hlen|].
  split; [now rewrite <- Hlen, Hdistinct, key_list_total|].
  rewrite slice0_length by exact Hlimit. now rewrite Hlen.
Qed.

Lemma paypal_top_customers_ranking_witness :
  0 <= 1
  /\ exists ranking,
       PaypalAnalytics.topCustomers
         (PaypalAnalytics.buildTopCustomersSummary CustomerExample.Date_parse
            "2024-06-01" "2024-06-07" CustomerExample.records 1)
       = firstn (Z.to_nat 1) ranking
       /\ ranked PaypalAnalytics.tc_grossAmountMajor ranking
       /\ PaypalAnalytics.totalCustomers
            (PaypalAnalytics.buildTopCustomersSummary CustomerExample.Date_parse
               "2024-06-01" "2024-06-07" CustomerExample.records 1)
          = Z.of_nat (List.length ranking).
Proof.
  split; [lia|].
  destruct (paypal_top_customers_ranking CustomerExample.Date_parse
              "2024-06-01" "2024-06-07" CustomerExample.records 1 ltac:(lia))
    as (ranking & Htop & Hranked & _ & _ & Htotal & _).
  exists ranking. split; [exact Htop|]. split; [exact Hranked|exact Htotal].
Defined.

(** X8. Each customer listed by the wallet-ledger report sums up that
    customer's records and nothing else: there is at least one, the count
    is their number, the gross amount in minor units the sum of theirs and
    the currency breakdown that of exactly these records; the last
    transaction is one of them, and none of them has a creation time that
    parses to a later instant than its own. *)
Theorem paypal_top_customer_entry
  (Date_parse : string -> option Z)
  (startDate endDate : string) (charges : list PaypalCharge.CardInfoRecord) (limit : Z)
  (t : PaypalAnalytics.CustomerBreakdown)
  (Hin : In t (PaypalAnalytics.topCustomers
                 (PaypalAnalytics.buildTopCustomersSummary Date_parse startDate endDate
                    charges limit))) :
  let mine :=
    filter (fun c => String.eqb (PaypalAnalytics.deriveCustomerId c)
                       (PaypalAnalytics.tc_customerId t))
      charges in
  mine <> []
  /\ PaypalAnalytics.tc_transactionCount t = Z.of_nat (List.length mine)
  /\ PaypalAnalytics.tc_grossAmountMinor t = sumZ (List.map PaypalCharge.amountMinor mine)
  /\ PaypalAnalytics.tc_currencyBreakdown t = PaypalAnalytics.aggregateByCurrency mine
  /\ exists last,
       In last mine
       /\ PaypalAnalytics.tc_lastTransactionId t = PaypalCharge.transactionId last
       /\ PaypalAnalytics.tc_lastTransactionCreated t = PaypalCharge.createdAtUtc last
       /\ forall c a b,
            In c mine ->
            Date_parse (PaypalCharge.createdAtUtc c) = Some a ->
            Date_parse (PaypalCharge.createdAtUtc last) = Some b ->
            a <= b.
Proof.
  cbv zeta. unfold PaypalAnalytics.buildTopCustomersSummary in Hin.
  cbn [PaypalAnalytics.topCustomers] in Hin. rewrite paypal_customer_loop in Hin.
  apply slice0_incl in Hin.
  apply ranking_In in Hin as (k & v & -> & Hin).
  apply tally_entry_In in Hin as (x & rest & Hf & ->).
  cbn [PaypalAnalytics.tc_customerId PaypalAnalytics.tc_transactionCount
       PaypalAnalytics.tc_grossAmountMinor PaypalAnalytics.tc_currencyBreakdown
       PaypalAnalytics.tc_lastTransactionId PaypalAnalytics.tc_lastTransactionCreated].
  change (filter (fun c => String.eqb (PaypalAnalytics.deriveCustomerId c) k) charges)
    with (filter (keyed (fun c => Some (PaypalAnalytics.deriveCustomerId c)) k) charges).
  rewrite Hf.
  pose proof (paypal_entry_fold_of Date_parse rest _ _ (paypal_entry_first Date_parse x)) as H.
  cbn [app] in H. destruct H as (Hc & Hm & Hl & last & Hlast & Hnone & Hid & Hcr).
  split; [discriminate|]. split; [exact Hc|]. split; [exact Hm|].
  split; [now rewrite Hl|].
  exists last. split; [exact Hlast|]. split; [exact Hid|]. split; [exact Hcr|exact Hnone].
Qed.

Lemma paypal_top_customer_entry_witness :
  In CustomerExample.payer
    (PaypalAnalytics.topCustomers
       (PaypalAnalytics.buildTopCustomersSummary CustomerExample.Date_parse
          "2024-06-01" "2024-06-07" CustomerExample.records 1))
  /\ filter (fun c => String.eqb (PaypalAnalytics.deriveCustomerId c)
                        (PaypalAnalytics.tc_customerId CustomerExample.payer))
       CustomerExample.records <> [].
Proof.
  assert (H : In CustomerExample.payer
                (PaypalAnalytics.topCustomers
                   (PaypalAnalytics.buildTopCustomersSummary CustomerExample.Date_parse
                      "2024-06-01" "2024-06-07" CustomerExample.records 1)))
    by (vm_compute; left; reflexivity).
  split; [exact H|].
  exact (proj1 (paypal_top_customer_entry CustomerExample.Date_parse
                  "2024-06-01" "2024-06-07" CustomerExample.records 1
                  CustomerExample.payer H)).
Defined.

(* ===================================================================== *)
(** * Reports: the charge summaries and the report tools *)
(* ===================================================================== *)

Lemma length_zero_iff {A : Type} (l : list A) :
  (Z.of_nat (List.length l) =? 0) = match l with [] => true | _ => false end.
Proof. destruct l; [reflexivity|]. cbn [List.length]. apply Z.eqb_neq. lia. Qed.

Lemma stripe_breakdowns_nonempty (c : StripeAnalytics.ChargeSummary)
  (charges : list StripeAnalytics.ChargeSummary) :
  StripeAnalytics.aggregateByCurrency (c :: charges) <> []
  /\ StripeReports.aggregateCardBrands (c :: charges) <> [].
Proof.
  split.
  - unfold StripeAnalytics.aggregateByCurrency. rewrite stripe_currency_loop.
    apply (ranking_nonempty stripe_currency stripe_entry _ _ c _
             (Str.toLowerCase (StripeAnalytics.currency c))); [now left|reflexivity].
  - unfold StripeReports.aggregateCardBrands. rewrite brand_loop.
    apply (ranking_nonempty (fun c => Some (StripeReports.brand_of c)) volume_entry _ _ c _
             (StripeReports.brand_of c)); [now left|reflexivity].
Qed.

Lemma paypal_breakdown_nonempty (c : PaypalCharge.CardInfoRecord)
  (charges : list PaypalCharge.CardInfoRecord) :
  PaypalAnalytics.aggregateByCurrency (c :: charges) <> [].
Proof.
  unfold PaypalAnalytics.aggregateByCurrency. rewrite paypal_currency_loop.
  apply (ranking_nonempty paypal_currency paypal_entry _ _ c _
           (Str.toUpperCase
              (match PaypalCharge.currency c with Some x => x | None => "USD"%string end)));
    [now left|reflexivity].
Qed.

(** X9. The card-ledger charge summary is consistent with its currency
    breakdown: totalCharges and refundedCharges are the sums of the
    counts and of the refunded counts of the breakdown, and refundedCharges
    lies between zero and totalCharges.  Without charges the only insight
    is the sentence that no charges were recorded; with charges the
    insights start with the processed-charges sentence, whose refund rate
    is the quotient of the two counts times 100, both computed on doubles
    and printed with one decimal (23 refunds in 80 charges print as
    28.7%), then the sentence on the leading currency, which always
    states an average ticket, and the sentence on the leading card brand,
    followed by at most two more. *)
Theorem stripe_charge_summary
  (startDate endDate : string) (charges : list StripeAnalytics.ChargeSummary) :
  let report := StripeReports.buildChargeSummary startDate endDate charges in
  let total := StripeReports.totalCharges report in
  let refunded := StripeReports.refundedCharges report in
  let processed :=
    ("Processed " ++ Js.string_of_Z total ++ " charges from " ++ startDate
     ++ " to " ++ endDate ++ "; " ++ Js.string_of_Z refunded ++ " ("
     ++ StripeReports.formatPercentage
          (Double.mul (Double.div (inject_Z refunded) (inject_Z total)) 100)
     ++ ") were refunded.")%string in
  let about_currency top average :=
    (Str.toUpperCase (StripeAnalytics.cb_currency top) ++ " led charge volume with "
     ++ Js.string_of_Z (StripeAnalytics.cb_chargeCount top) ++ " charges totaling "
     ++ Js.formatMajor (StripeAnalytics.cb_grossAmountMajor top) ++ "; "
     ++ (Js.formatMajor average ++ " average ticket") ++ ".")%string in
  let about_brand top :=
    (StripeReports.bb_brand top ++ " cards contributed "
     ++ Js.formatMajor (StripeReports.bb_grossAmountMajor top) ++ " across "
     ++ Js.string_of_Z (StripeReports.bb_chargeCount top) ++ " charges.")%string in
  total = sumZ (List.map StripeAnalytics.cb_chargeCount
                  (StripeReports.currencyBreakdown report))
  /\ refunded = sumZ (List.map StripeAnalytics.cb_refundedCount
                        (StripeReports.currencyBreakdown report))
  /\ 0 <= refunded <= total
  /\ (charges = [] ->
      StripeReports.insights report
      = [("No successful charges were recorded between " ++ startDate ++ " and "
          ++ endDate ++ ".")%string])
  /\ (charges <> [] ->
      exists topCurrency average topBrand rest,
        hd_error (StripeReports.currencyBreakdown report) = Some topCurrency
        /\ StripeAnalytics.cb_averageTicketMajor topCurrency = Some average
        /\ hd_error (StripeReports.cardBrandBreakdown report) = Some topBrand
        /\ StripeReports.insights report
           = processed :: about_currency topCurrency average :: about_brand topBrand :: rest
        /\ (List.length rest <= 2)%nat)
  /\ StripeReports.formatPercentage (Double.mul (Double.div 23 80) 100) = "28.7%"%string.
Proof.
  cbv zeta. unfold StripeReports.buildChargeSummary.
  cbn [StripeReports.totalCharges StripeReports.refundedCharges
       StripeReports.currencyBreakdown StripeReports.cardBrandBreakdown
       StripeReports.insights].
  destruct (stripe_currency_sums charges) as (Hcount & Hrefunded & _). cbv zeta in *.
  split; [now rewrite Hcount|]. split; [now rewrite Hrefunded|].
  split; [pose proof (filter_length_le StripeAnalytics.refunded charges); lia|].
  unfold StripeReports.generateChargeSummaryInsights. rewrite !length_zero_iff.
  split; [|split; [|vm_compute; reflexivity]].
  - intros ->. reflexivity.
  - intros Hne. destruct charges as [|c charges]; [contradiction|].
    destruct (stripe_breakdowns_nonempty c charges) as [Hcur Hbrand].
    pose proof (stripe_currency_entries (c :: charges)) as Hentries.
    destruct (StripeAnalytics.aggregateByCurrency (c :: charges)) as [|top tops];
      [contradiction|].
    destruct (StripeReports.aggregateCardBrands (c :: charges)) as [|brand brands];
      [contradiction|].
    inversion Hentries as [|? ? (_ & _ & _ & Haverage) _]; subst.
    destruct (StripeAnalytics.cb_averageTicketMajor top) as [average|] eqn:E;
      [|contradiction].
    eexists top, average, brand, _.
    split; [reflexivity|]. split; [exact E|]. split; [reflexivity|].
    split; [reflexivity|].
    destruct (StripeReports.aggregateProducts (c :: charges));
      destruct (StripeAnalytics.metadata_highlights
                  (StripeReports.aggregateMetadataTotals (c :: charges)));
      cbn [app List.length]; lia.
Qed.

(** X10. The wallet-ledger transaction summary is consistent with its
    currency breakdown: totalTransactions and refundedTransactions are
    the sums of the counts and of the refunded counts of the breakdown.
    It has one insight when there are no records, the sentence that none
    were recorded, and exactly two otherwise: the processed-transactions
    sentence, whose refund rate is the quotient of the two counts times
    100, both computed on doubles and printed with one decimal, and the
    sentence on the leading currency, which always states an average
    ticket. *)
Theorem paypal_charge_summary
  (startDate endDate : string) (charges : list PaypalCharge.CardInfoRecord) :
  let report := PaypalReports.buildChargeSummary startDate endDate charges in
  let total := PaypalReports.totalTransactions report in
  let refunded := PaypalReports.refundedTransactions report in
  let processed :=
    ("Processed " ++ Js.string_of_Z total ++ " PayPal transactions from "
     ++ startDate ++ " to " ++ endDate ++ "; " ++ Js.string_of_Z refunded
     ++ " ("
     ++ StripeReports.formatPercentage
          (Double.mul (Double.div (inject_Z refunded) (inject_Z total)) 100)
     ++ ") were refunded or reversed.")%string in
  let about_currency top average :=
    (Str.toUpperCase (PaypalAnalytics.cb_currency top) ++ " led PayPal volume with "
     ++ Js.string_of_Z (PaypalAnalytics.cb_transactionCount top)
     ++ " transactions totaling "
     ++ Js.formatMajor (PaypalAnalytics.cb_grossAmountMajor top) ++ "; "
     ++ (Js.formatMajor average ++ " average ticket") ++ ".")%string in
  total = sumZ (List.map PaypalAnalytics.cb_transactionCount
                  (PaypalReports.currencyBreakdown report))
  /\ refunded = sumZ (List.map PaypalAnalytics.cb_refundedCount
                        (PaypalReports.currencyBreakdown report))
  /\ 0 <= refunded <= total
  /\ (charges = [] ->
      PaypalReports.insights report
      = [("No PayPal transactions recorded between " ++ startDate ++ " and "
          ++ endDate ++ ".")%string])
  /\ (charges <> [] ->
      exists topCurrency average,
        hd_error (PaypalReports.currencyBreakdown report) = Some topCurrency
        /\ PaypalAnalytics.cb_averageTicketMajor topCurrency = Some average
        /\ PaypalReports.insights report
           = [processed; about_currency topCurrency average]).
Proof.
  cbv zeta. unfold PaypalReports.buildChargeSummary.
  cbn [PaypalReports.totalTransactions PaypalReports.refundedTransactions
       PaypalReports.currencyBreakdown PaypalReports.insights].
  destruct (paypal_currency_sums charges) as (Hcount & Hrefunded & _). cbv zeta in *.
  split; [now rewrite Hcount|]. split; [now rewrite Hrefunded|].
  split.
  { pose proof (filter_length_le
                  (fun c => PaypalAnalytics.isRefunded (PaypalCharge.status c)) charges).
    lia. }
  unfold PaypalReports.generateChargeSummaryInsights. rewrite !length_zero_iff.
  split.
  - intros ->. reflexivity.
  - intros Hne. destruct charges as [|c charges]; [contradiction|].
    pose proof (paypal_breakdown_nonempty c charges) as Hcur.
    pose proof (paypal_currency_entries (c :: charges)) as Hentries.
    destruct (PaypalAnalytics.aggregateByCurrency (c :: charges)) as [|top tops];
      [contradiction|].
    inversion Hentries as [|? ? (_ & _ & Haverage) _]; subst.
    destruct (PaypalAnalytics.cb_averageTicketMajor top) as [average|] eqn:E;
      [|contradiction].
    exists top, average.
    split; [reflexivity|]. split; [exact E|reflexivity].
Qed.

(** X11. The card-ledger report tools never fail, and cannot tell a
    failure from an empty window: when reading the charges fails, be it
    for a malformed date, an end date before the start date or an error of
    the ledger, both tools return the report of a window without charges,
    with zero totals, empty breakdowns and the no-activity sentence as the
    only insight. *)
Theorem stripe_report_tools_on_failure
  (Number_of_string : string -> option Q)
  (list_charges : Z -> Z -> result (list StripeCharge.ApiCharge))
  (startDate endDate : string) (limit : option Z) (m : string)
  (Hfailure : StripeCharge.getStripeCharges_body Number_of_string list_charges
                startDate endDate = Throw m) :
  StripeReports.stripeChargeSummaryTool Number_of_string list_charges startDate endDate
  = Ok (StripeReports.Build_ChargeSummaryOutput (startDate, endDate) 0 0 [] [] [] []
          [("No successful charges were recorded between " ++ startDate ++ " and "
            ++ endDate ++ ".")%string])
  /\ StripeReports.stripeTopCustomersTool Number_of_string list_charges
       startDate endDate limit
     = Ok (StripeAnalytics.Build_TopCustomersOutput (startDate, endDate) 0 []
             [("No customer activity detected between " ++ startDate ++ " and "
               ++ endDate ++ ".")%string])
  /\ StripeReports.stripeChargeSummaryTool Number_of_string list_charges startDate endDate
     = Ok (StripeReports.buildChargeSummary startDate endDate [])
  /\ StripeReports.stripeTopCustomersTool Number_of_string list_charges
       startDate endDate limit
     = Ok (StripeAnalytics.buildTopCustomersSummary startDate endDate []
             (match limit with Some l => l | None => 5 end)).
Proof.
  unfold StripeReports.stripeChargeSummaryTool, StripeReports.stripeTopCustomersTool,
    StripeCharge.getStripeCharges.
  rewrite Hfailure. cbn [try_catch bind].
  assert (Hempty : forall l,
             StripeAnalytics.buildTopCustomersSummary startDate endDate [] l
             = StripeAnalytics.Build_TopCustomersOutput (startDate, endDate) 0 []
                 [("No customer activity detected between " ++ startDate ++ " and "
                   ++ endDate ++ ".")%string]).
  { intros l. unfold StripeAnalytics.buildTopCustomersSummary.
    cbn [fold_left List.map List.length].
    change (Js.sort_desc StripeAnalytics.tc_grossAmountMajor [])
      with (@nil StripeAnalytics.TopCustomer).
    rewrite slice0_nil. reflexivity. }
  split; [reflexivity|]. split; [now rewrite Hempty|]. split; reflexivity.
Qed.

Lemma stripe_report_tools_on_failure_witness :
  StripeCharge.getStripeCharges_body (fun _ => None) unreachable_ledger
    "2024-06-01" "2024-06-07"
  = Throw "An error occurred with our connection to Stripe."
  /\ StripeReports.stripeChargeSummaryTool (fun _ => None) unreachable_ledger
       "2024-06-01" "2024-06-07"
     = Ok (StripeReports.Build_ChargeSummaryOutput ("2024-06-01", "2024-06-07")%string
             0 0 [] [] [] []
             ["No successful charges were recorded between 2024-06-01 and 2024-06-07."%string]).
Proof.
  assert (H : StripeCharge.getStripeCharges_body (fun _ => None) unreachable_ledger
                "2024-06-01" "2024-06-07"
              = Throw "An error occurred with our connection to Stripe.")
    by (vm_compute; reflexivity).
  split; [exact H|].
  exact (proj1 (stripe_report_tools_on_failure (fun _ => None) unreachable_ledger
                  "2024-06-01" "2024-06-07" None _ H)).
Defined.

Section WalletReportTools.

Variable parseFloat : string -> PaypalCharge.number.
Variable Date_parse : string -> option Z.
Variable now : Z.
Variable fetch_token : result (Response PaypalAuth.TokenBody).
Variable fetch_page : Z -> Z -> Z -> result (Response PaypalCharge.TransactionsPage).

Lemma fetch_window_malformed (fuel : nat) (startDate endDate : string) :
  JsDate.match_ymd startDate = None \/ JsDate.match_ymd endDate = None ->
  exists m,
    PaypalReports.fetch_window parseFloat Date_parse now fetch_token fetch_page
      fuel startDate endDate = Some (Throw m).
Proof.
  unfold PaypalReports.fetch_window, PaypalReports.parseDate.
  intros [H|H].
  - rewrite H. eauto.
  - destruct (JsDate.match_ymd startDate) as [[[y mo] d]|]; [|eauto].
    rewrite H. eauto.
Qed.

Lemma fetch_window_no_token (fuel : nat) (startDate endDate : string) (m : string) :
  PaypalAuth.getPaypalAccessToken fetch_token = Throw m ->
  exists m',
    PaypalReports.fetch_window parseFloat Date_parse now fetch_token fetch_page
      fuel startDate endDate = Some (Throw m').
Proof.
  intros Htoken. unfold PaypalReports.fetch_window.
  destruct (PaypalReports.parseDate startDate "startDate" true); [|eauto].
  destruct (PaypalReports.parseDate endDate "endDate" false); [|eauto].
  unfold PaypalCharge.fetchPaypalCardInfo, PaypalCharge.fetchPaypalTransactions.
  rewrite Htoken. eauto.
Qed.

Lemma paypalChargeTool_degrades (fuel : nat) (startDate endDate : string) (m : string) :
  JsDate.match_ymd startDate = None \/ JsDate.match_ymd endDate = None
  \/ PaypalAuth.getPaypalAccessToken fetch_token = Throw m ->
  PaypalCharge.paypalChargeTool parseFloat Date_parse now fetch_token fetch_page
    fuel startDate endDate = Some (Ok []).
Proof.
  unfold PaypalCharge.paypalChargeTool, PaypalCharge.parseDateRange, PaypalCharge.parseDate.
  intros [H|[H|H]].
  - rewrite H. reflexivity.
  - destruct (JsDate.match_ymd startDate) as [[[y mo] d]|]; [|reflexivity].
    rewrite H. reflexivity.
  - destruct (JsDate.match_ymd startDate) as [[[y mo] d]|]; [|reflexivity].
    destruct (JsDate.match_ymd endDate) as [[[y' mo'] d']|]; [|reflexivity].
    cbn [bind].
    match goal with |- context [if ?c then _ else _] => destruct c end; [reflexivity|].
    unfold PaypalCharge.fetchPaypalCardInfo, PaypalCharge.fetchPaypalTransactions.
    rewrite H. reflexivity.
Qed.

End WalletReportTools.

(** X12. The wallet-ledger report tools propagate what the charge tool of
    the same ledger swallows.  When a date does not have the shape
    YYYY-MM-DD, or when the access token cannot be fetched, the summary
    tool and the top-customers tool both throw, with the same error,
    whereas the charge tool returns the empty list. *)
Theorem paypal_report_tools_propagate
  (parseFloat : string -> PaypalCharge.number) (Date_parse : string -> option Z) (now : Z)
  (fetch_token : result (Response PaypalAuth.TokenBody))
  (fetch_page : Z -> Z -> Z -> result (Response PaypalCharge.TransactionsPage))
  (fuel : nat) (startDate endDate : string) (limit : option Z) (m : string)
  (Hfailure : JsDate.match_ymd startDate = None \/ JsDate.match_ymd endDate = None
              \/ PaypalAuth.getPaypalAccessToken fetch_token = Throw m) :
  (exists m',
      PaypalReports.paypalChargeSummaryTool parseFloat Date_parse now fetch_token
        fetch_page fuel startDate endDate = Some (Throw m')
      /\ PaypalReports.paypalTopCustomersTool parseFloat Date_parse now fetch_token
           fetch_page fuel startDate endDate limit = Some (Throw m'))
  /\ PaypalCharge.paypalChargeTool parseFloat Date_parse now fetch_token fetch_page
       fuel startDate endDate = Some (Ok [])
  /\ (JsDate.match_ymd startDate = None ->
      PaypalReports.paypalChargeSummaryTool parseFloat Date_parse now fetch_token
        fetch_page fuel startDate endDate
      = Some (Throw ("Invalid startDate supplied. Expected format YYYY-MM-DD, received: "
                     ++ startDate))).
Proof.
  split; [|split].
  - assert (H : exists m',
               PaypalReports.fetch_window parseFloat Date_parse now fetch_token fetch_page
                 fuel startDate endDate = Some (Throw m')).
    { destruct Hfailure as [H|[H|H]].
      - apply fetch_window_malformed. now left.
      - apply fetch_window_malformed. now right.
      - now apply fetch_window_no_token with (m := m). }
    destruct H as [m' H]. exists m'.
    unfold PaypalReports.paypalChargeSummaryTool, PaypalReports.paypalTopCustomersTool.
    rewrite H. split; reflexivity.
  - now apply paypalChargeTool_degrades with (m := m).
  - intros H. unfold PaypalReports.paypalChargeSummaryTool, PaypalReports.fetch_window,
      PaypalReports.parseDate. rewrite H. reflexivity.
Qed.

Lemma paypal_report_tools_propagate_witness :
  (JsDate.match_ymd "06/01/2024" = None \/ JsDate.match_ymd "2024-06-07" = None
   \/ PaypalAuth.getPaypalAccessToken Outage.fetch_token = Throw "")
  /\ PaypalCharge.paypalChargeTool (fun _ => PaypalCharge.NaN) (fun _ => None) 0
       Outage.fetch_token Outage.fetch_page 2 "06/01/2024" "2024-06-07"
     = Some (Ok []).
Proof.
  assert (H : JsDate.match_ymd "06/01/2024" = None \/ JsDate.match_ymd "2024-06-07" = None
              \/ PaypalAuth.getPaypalAccessToken Outage.fetch_token = Throw "")
    by (left; reflexivity).
  split; [exact H|].
  exact (proj1 (proj2 (paypal_report_tools_propagate (fun _ => PaypalCharge.NaN)
                         (fun _ => None) 0 Outage.fetch_token Outage.fetch_page 2
                         "06/01/2024" "2024-06-07" None "" H))).
Defined.

(* ===================================================================== *)
(** * Metadata amounts: from the charge to the totals of a report *)
(* ===================================================================== *)

Section MetadataTotals.

(** [totals[key] ?? 0] *)
Definition get0 (k : string) (m : list (string * Q)) : Q :=
  match Js.map_get k m with Some v => v | None => 0%Q end.

(** The amounts that the charges hold under a key, in the order in which
    the loop meets them. *)
Definition amounts_under (k : string) (charges : list StripeAnalytics.ChargeSummary)
  : list Q :=
  flat_map
    (fun charge =>
       List.map snd
         (filter (fun e => String.eqb (fst e) k) (StripeAnalytics.metadataAmounts charge)))
    charges.

Lemma get0_map_set (k key : string) (v : Q) (m : list (string * Q)) :
  get0 k (Js.map_set key v m) = if String.eqb key k then v else get0 k m.
Proof.
  unfold get0. destruct (String.eqb key k) eqn:E.
  - apply String.eqb_eq in E. subst. now rewrite map_get_set_same.
  - apply String.eqb_neq in E. now rewrite map_get_set_other.
Qed.

(** One step of the inner loop: [totals[key] = (totals[key] ?? 0) + value] *)
Definition add_amount (totals : list (string * Q)) (entry : string * Q)
  : list (string * Q) :=
  Js.map_set (fst entry) (Double.add (get0 (fst entry) totals) (snd entry)) totals.

Definition add_charge_amounts (totals : list (string * Q))
  (charge : StripeAnalytics.ChargeSummary) : list (string * Q) :=
  fold_left add_amount (StripeAnalytics.metadataAmounts charge) totals.

Lemma aggregateMetadataTotals_fold (charges : list StripeAnalytics.ChargeSummary) :
  StripeReports.aggregateMetadataTotals charges = fold_left add_charge_amounts charges [].
Proof.
  unfold StripeReports.aggregateMetadataTotals. apply fold_left_ext.
  intros totals charge. unfold add_charge_amounts. apply fold_left_ext.
  intros t [key value]. reflexivity.
Qed.

Lemma add_amounts_get0 (k : string) (entries : list (string * Q)) :
  forall totals,
    get0 k (fold_left add_amount entries totals)
    = fold_left Double.add
        (List.map snd (filter (fun e => String.eqb (fst e) k) entries))
        (get0 k totals).
Proof.
  induction entries as [|[key value] entries IH]; intros totals;
    cbn [fold_left filter fst]; [reflexivity|].
  rewrite IH. unfold add_amount. cbn [fst snd]. rewrite get0_map_set.
  destruct (String.eqb key k) eqn:E; [|reflexivity].
  apply String.eqb_eq in E. subst key. reflexivity.
Qed.

Lemma add_charges_get0 (k : string) (charges : list StripeAnalytics.ChargeSummary) :
  forall totals,
    get0 k (fold_left add_charge_amounts charges totals)
    = fold_left Double.add (amounts_under k charges) (get0 k totals).
Proof.
  induction charges as [|c charges IH]; intros totals; cbn [fold_left]; [reflexivity|].
  rewrite IH. unfold add_charge_amounts. rewrite add_amounts_get0.
  unfold amounts_under. cbn [flat_map]. now rewrite fold_left_app.
Qed.

Lemma add_amounts_keys (k : string) (entries : list (string * Q)) :
  forall totals,
    In k (keys (fold_left add_amount entries totals))
    <-> In k (keys totals) \/ In k (keys entries).
Proof.
  induction entries as [|[key value] entries IH]; intros totals; cbn [fold_left].
  - cbn. tauto.
  - rewrite IH. unfold add_amount. cbn [fst snd]. rewrite keys_map_set_In.
    change (keys ((key, value) :: entries)) with (key :: keys entries). cbn [In].
    intuition congruence.
Qed.

Lemma add_charges_keys (k : string) (charges : list StripeAnalytics.ChargeSummary) :
  forall totals,
    In k (keys (fold_left add_charge_amounts charges totals))
    <-> In k (keys totals)
        \/ exists c, In c charges /\ In k (keys (StripeAnalytics.metadataAmounts c)).
Proof.
  induction charges as [|c charges IH]; intros totals; cbn [fold_left].
  - split; [auto|]. intros [H|[c [[] _]]]. exact H.
  - rewrite IH. unfold add_charge_amounts. rewrite add_amounts_keys. cbn [In]. split.
    + intros [[H|H]|[c' [Hc' H]]]; eauto.
    + intros [H|[c' [[<-|Hc'] H]]]; eauto.
Qed.

End MetadataTotals.

(** Three charges whose fees of 0.10, 0.20 and -0.30 cancel on paper. *)
Module FeesExample.

Definition charge (id : string) (fee : Q) : StripeAnalytics.ChargeSummary :=
  StripeAnalytics.Build_ChargeSummary id 1000 "usd" (Some "succeeded"%string)
    None None 1717200000 false None None [] [("booking_fee"%string, fee)].

Definition charges : list StripeAnalytics.ChargeSummary :=
  [charge "ch_1" (10 # 100); charge "ch_2" (20 # 100); charge "ch_3" (- 30 # 100)].

End FeesExample.

(** X13. The metadata totals are the amounts added up as doubles, key by
    key.  Under every key the totals of a charge summary hold the result
    of adding the amounts that the charges hold under that key to 0, one
    after the other in the order of the charges, each addition rounded to
    the nearest double; a key without amounts counts as 0; and the totals
    have exactly the keys that occur in the metadata amounts of some
    charge.  So fees of 0.10, 0.20 and -0.30 total 2^-54 and not 0. *)
Theorem metadata_totals_add_up
  (charges : list StripeAnalytics.ChargeSummary) (k : string) :
  get0 k (StripeReports.aggregateMetadataTotals charges)
  = fold_left Double.add (amounts_under k charges) 0%Q
  /\ (In k (keys (StripeReports.aggregateMetadataTotals charges))
      <-> exists c, In c charges /\ In k (keys (StripeAnalytics.metadataAmounts c)))
  /\ StripeReports.aggregateMetadataTotals FeesExample.charges
     = [("booking_fee"%string, 1 # 18014398509481984)].
Proof.
  rewrite aggregateMetadataTotals_fold. split; [|split].
  - now rewrite add_charges_get0.
  - rewrite add_charges_keys. cbn [keys List.map In]. tauto.
  - vm_compute. reflexivity.
Qed.

Section MetadataAmounts.

Variable Number_of_string : string -> option Q.

(** The amount that one metadata entry contributes, if any. *)
Definition cent_amount (key value : string) : option Q :=
  match value with
  | EmptyString => None
  | _ =>
      if StripeCharge.isCentKey key
      then option_map (fun numeric => (numeric / 100)%Q) (Number_of_string value)
      else None
  end.

Definition extract_step (amounts : list (string * Q)) (entry : string * string)
  : list (string * Q) :=
  match cent_amount (fst entry) (snd entry) with
  | Some a => Js.map_set (fst entry) a amounts
  | None => amounts
  end.

Lemma extractMetadataAmounts_fold (metadata : list (string * string)) :
  StripeCharge.extractMetadataAmounts Number_of_string metadata
  = fold_left extract_step metadata [].
Proof.
  unfold StripeCharge.extractMetadataAmounts. apply fold_left_ext.
  intros amounts [key value]. unfold extract_step, cent_amount. cbn [fst snd].
  destruct value as [|c rest]; [reflexivity|].
  destruct (StripeCharge.isCentKey key); [|reflexivity].
  destruct (Number_of_string (String c rest)); reflexivity.
Qed.

Lemma extract_fold_get (k : string) (metadata : list (string * string)) :
  forall amounts,
    NoDup (keys metadata) ->
    Js.map_get k (fold_left extract_step metadata amounts)
    = match Js.map_get k metadata with
      | Some raw =>
          match cent_amount k raw with
          | Some a => Some a
          | None => Js.map_get k amounts
          end
      | None => Js.map_get k amounts
      end.
Proof.
  induction metadata as [|[key value] rest IH]; intros amounts Hnd;
    cbn [fold_left Js.map_get]; [reflexivity|].
  inversion Hnd as [|? ? Hnot Hnd']; subst.
  rewrite IH by exact Hnd'.
  destruct (String.eqb key k) eqn:E.
  - apply String.eqb_eq in E. subst key.
    assert (Hrest : Js.map_get k rest = None).
    { destruct (Js.map_get k rest) eqn:G; [|reflexivity].
      exfalso. apply Hnot. apply map_get_In. fold (@keys string rest). congruence. }
    rewrite Hrest. unfold extract_step. cbn [fst snd].
    destruct (cent_amount k value); [now rewrite map_get_set_same|reflexivity].
  - apply String.eqb_neq in E.
    assert (Hother : Js.map_get k (extract_step amounts (key, value)) = Js.map_get k amounts).
    { unfold extract_step. cbn [fst snd].
      destruct (cent_amount key value); [now apply map_get_set_other|reflexivity]. }
    now rewrite Hother.
Qed.

End MetadataAmounts.

(** X14. What [extractMetadataAmounts] keeps.  For a metadata object (its
    keys are distinct), the amounts object has an entry under a key
    exactly when the key is a cent key (one of the fixed names or one
    that ends in one of the fixed suffixes, compared in lower case), the
    metadata value under the key is not empty and it converts to a
    number; the entry is then that number divided by 100.  Nothing is
    extracted from any other key. *)
Theorem extractMetadataAmounts_keeps
  (Number_of_string : string -> option Q) (metadata : list (string * string))
  (k : string) (v : Q)
  (Hkeys : NoDup (keys metadata)) :
  Js.map_get k (StripeCharge.extractMetadataAmounts Number_of_string metadata) = Some v
  <-> StripeCharge.isCentKey k = true
      /\ exists raw numeric,
           Js.map_get k metadata = Some raw
           /\ raw <> EmptyString
           /\ Number_of_string raw = Some numeric
           /\ v = (numeric / 100)%Q.
Proof.
  rewrite extractMetadataAmounts_fold, extract_fold_get by exact Hkeys.
  cbn [Js.map_get]. unfold cent_amount. split.
  - destruct (Js.map_get k metadata) as [raw|]; [|discriminate].
    destruct raw as [|c rest]; [discriminate|].
    destruct (StripeCharge.isCentKey k); [|discriminate].
    destruct (Number_of_string (String c rest)) as [numeric|] eqn:E; [|discriminate].
    cbn. intros H. inversion H; subst. split; [reflexivity|].
    exists (String c rest), numeric. repeat split; [discriminate|exact E].
  - intros [Hcent (raw & numeric & -> & Hraw & Hnum & ->)].
    destruct raw as [|c rest]; [contradiction|].
    now rewrite Hcent, Hnum.
Qed.

(** The metadata of a charge for a product sold at 12.50. *)
Module MetadataExample.

Definition metadata : list (string * string) :=
  [("product_name", "Villa"); ("product_gross", "1250"); ("Booking_Fee", "")]%string.

Definition Number_of_string (s : string) : option Q :=
  if String.eqb s "1250" then Some (inject_Z 1250) else None.

End MetadataExample.

Lemma extractMetadataAmounts_keeps_witness :
  NoDup (keys MetadataExample.metadata)
  /\ (Js.map_get "product_gross"
        (StripeCharge.extractMetadataAmounts MetadataExample.Number_of_string
           MetadataExample.metadata)
      = Some (inject_Z 1250 / 100)%Q
      <-> StripeCharge.isCentKey "product_gross" = true
          /\ exists raw numeric,
               Js.map_get "product_gross" MetadataExample.metadata = Some raw
               /\ raw <> EmptyString
               /\ MetadataExample.Number_of_string raw = Some numeric
               /\ (inject_Z 1250 / 100)%Q = (numeric / 100)%Q).
Proof.
  assert (H : NoDup (keys MetadataExample.metadata)).
  { repeat constructor; cbn; intuition discriminate. }
  split; [exact H|].
  exact (extractMetadataAmounts_keeps MetadataExample.Number_of_string
           MetadataExample.metadata "product_gross" (inject_Z 1250 / 100)%Q H).
Defined.

(* ===================================================================== *)
(** * Purchase sessions: what the stitched pages amount to *)
(* ===================================================================== *)

Lemma firstn_plus {A : Type} (a b : nat) (l : list A) :
  firstn (a + b) l = firstn a l ++ firstn b (skipn a l).
Proof.
  revert l. induction a as [|a IH]; intros l; [reflexivity|].
  destruct l as [|x l]; cbn [Nat.add firstn skipn app].
  - now rewrite firstn_nil.
  - now rewrite IH.
Qed.

Lemma firstn_short {A : Type} (n : nat) (l : list A) :
  (List.length (firstn n l) < n)%nat -> firstn n l = l.
Proof.
  intros H. rewrite length_firstn in H. apply firstn_all2. lia.
Qed.

Lemma firstn_empty {A : Type} (n : nat) (l : list A) :
  (1 <= n)%nat -> firstn n l = [] -> l = [].
Proof.
  intros Hn H. destruct l as [|x l]; [reflexivity|].
  destruct n as [|n]; [lia|discriminate H].
Qed.

(** The loop over a source that serves page [p] as the rows
    (p - 1) * perPage, ..., p * perPage - 1 of a fixed list. *)
Section Stitching.
Import PurchaseSessions.

Variable Row : Type.
Variable all : list Row.
Variable fetcher : FetchOptions -> result (list Row).
Variable context : Context.
Variables target perPage page0 : Z.

Hypothesis Hsize : 1 <= perPage.
Hypothesis Hpage : 1 <= page0.
Hypothesis Hfetch :
  forall p, 1 <= p ->
    fetcher (page_options context perPage p)
    = Ok (firstn (Z.to_nat perPage) (skipn (Z.to_nat ((p - 1) * perPage)) all)).

Definition from_start : list Row := skipn (Z.to_nat ((page0 - 1) * perPage)) all.

Lemma page_from_start (p : Z) :
  page0 <= p ->
  fetcher (page_options context perPage p)
  = Ok (firstn (Z.to_nat perPage)
          (skipn (Z.to_nat ((p - page0) * perPage)) from_start)).
Proof.
  intros Hp. rewrite Hfetch by lia. unfold from_start. rewrite skipn_skipn.
  do 3 f_equal. rewrite <- Z2Nat.inj_add by nia. f_equal. lia.
Qed.

Lemma stitched_prefix (p : Z) (acc : list Row) (pages : list Z) (final : list Row) :
  stitched Row fetcher context target perPage p acc pages final ->
  page0 <= p ->
  acc = firstn (Z.to_nat ((p - page0) * perPage)) from_start ->
  List.length acc = Z.to_nat ((p - page0) * perPage) ->
  firstn (Z.to_nat target) final = firstn (Z.to_nat target) from_start.
Proof.
  intros Hs. induction Hs as [p acc Htarget|p acc Hless Hempty
                             |p acc batch Hless Hbatch Hne Hshort
                             |p acc batch pages final Hless Hbatch Hne Hfull Hs IH];
    intros Hp Hacc Hlen.
  - rewrite Hacc, firstn_firstn. f_equal. lia.
  - rewrite page_from_start in Hempty by exact Hp. injection Hempty as Hnil.
    apply firstn_empty in Hnil; [|lia].
    f_equal. rewrite Hacc.
    rewrite <- (firstn_skipn (Z.to_nat ((p - page0) * perPage)) from_start) at 2.
    now rewrite Hnil, app_nil_r.
  - rewrite page_from_start in Hbatch by exact Hp. injection Hbatch as Hb. subst batch.
    rewrite (firstn_short (Z.to_nat perPage)
               (skipn (Z.to_nat ((p - page0) * perPage)) from_start)) by lia.
    f_equal. rewrite Hacc. apply firstn_skipn.
  - rewrite page_from_start in Hbatch by exact Hp. injection Hbatch as Hb.
    assert (Hblen : List.length batch = Z.to_nat perPage).
    { assert (List.length batch <= Z.to_nat perPage)%nat
        by (rewrite <- Hb, length_firstn; lia).
      lia. }
    apply IH; [lia| |].
    + replace (Z.to_nat ((p + 1 - page0) * perPage))
        with (Z.to_nat ((p - page0) * perPage) + Z.to_nat perPage)%nat
        by (rewrite <- Z2Nat.inj_add by nia; f_equal; lia).
      rewrite firstn_plus, <- Hacc, Hb. reflexivity.
    + rewrite length_app, Hlen, Hblen.
      rewrite <- Z2Nat.inj_add by nia. f_equal. lia.
Qed.

End Stitching.

Section PagedQuery.
Import PurchaseSessions.

Variables RawRow Row : Type.
Variable shape : bool -> RawRow -> Row.
Variable run_query : string -> option string -> option string -> result (list RawRow).

(** One page of the loop, read off the ordered result of the statement. *)
Lemma fetch_page_rows (table : string) (context : Context) (perPage p : Z)
  (ordered : list RawRow) :
  1 <= perPage <= MAX_ROWS -> 1 <= p ->
  run_query table (ctx_startDate context) (ctx_endDate context) = Ok ordered ->
  fetchPurchaseSessions RawRow Row shape run_query table (page_options context perPage p)
  = Ok (firstn (Z.to_nat perPage)
          (skipn (Z.to_nat ((p - 1) * perPage))
             (List.map (shape (ctx_truncateStrings context)) ordered))).
Proof.
  intros Hsize Hp Hquery. unfold fetchPurchaseSessions, page_options.
  cbn [pageSize page limit startDate endDate truncateStrings].
  rewrite Hquery. cbn [bind].
  assert (E1 : (perPage >? 0) = true) by (apply Z.gtb_lt; lia).
  assert (E2 : (p >? 0) = true) by (apply Z.gtb_lt; lia).
  rewrite E1, E2. rewrite Z.min_l by lia.
  rewrite <- firstn_map. do 2 f_equal.
  destruct ((p - 1) * perPage >? 0) eqn:E.
  - now rewrite skipn_map.
  - assert ((p - 1) * perPage = 0)
      by (destruct (Z.gtb_spec ((p - 1) * perPage) 0); [discriminate|nia]).
    replace ((p - 1) * perPage) with 0 by lia. reflexivity.
Qed.

End PagedQuery.

(** Ten transactions behind the paged query. *)
Module TenRows.

Definition ordered : list string :=
  ["T-01"; "T-02"; "T-03"; "T-04"; "T-05"; "T-06"; "T-07"; "T-08"; "T-09"; "T-10"]%string.

Definition run_query (table : string) (startDate endDate : option string)
  : result (list string) := Ok ordered.

Definition context : PurchaseSessions.Context :=
  PurchaseSessions.Build_Context None None (Some 5) PurchaseSessions.env_default
    (Some 2) (Some 3) true true.

End TenRows.

(** X15. With [fetchAllPages] set, the tool returns a contiguous window of
    the ordered result of the statement: for a page size between 1 and
    5000, a starting page of at least 1 and a limit that is not negative,
    and as long as the statement keeps returning the same rows, the result
    is the first [limit] rows that follow the (page - 1) * pageSize rows
    before the starting page, each shaped once; no row is skipped or
    repeated where two pages meet, and the tool does not fail. *)
Theorem execute_returns_window
  (RawRow Row : Type) (shape : bool -> RawRow -> Row)
  (run_query : string -> option string -> option string -> result (list RawRow))
  (defaultTable devTable : string) (context : PurchaseSessions.Context)
  (ordered : list RawRow) :
  let table :=
    match PurchaseSessions.ctx_environment context with
    | PurchaseSessions.env_dev => devTable
    | PurchaseSessions.env_default => defaultTable
    end in
  let page := match PurchaseSessions.ctx_page context with Some p => p | None => 1 end in
  let target := match PurchaseSessions.ctx_limit context with Some l => l | None => 100 end in
  let perPage :=
    match PurchaseSessions.ctx_pageSize context with Some n => n | None => 100 end in
  PurchaseSessions.ctx_fetchAllPages context = true ->
  1 <= page -> 0 <= target -> 1 <= perPage <= PurchaseSessions.MAX_ROWS ->
  run_query table (PurchaseSessions.ctx_startDate context)
    (PurchaseSessions.ctx_endDate context) = Ok ordered ->
  PurchaseSessions.execute Row
    (PurchaseSessions.fetchPurchaseSessions RawRow Row shape run_query defaultTable)
    (PurchaseSessions.fetchPurchaseSessions RawRow Row shape run_query devTable)
    context
  = Ok (firstn (Z.to_nat target)
          (skipn (Z.to_nat ((page - 1) * perPage))
             (List.map (shape (PurchaseSessions.ctx_truncateStrings context)) ordered))).
Proof.
  cbv zeta. intros Hall Hpage Htarget Hsize Hquery.
  unfold PurchaseSessions.execute. rewrite execute_traced_all_pages by exact Hall.
  cbv zeta.
  set (page := match PurchaseSessions.ctx_page context with Some p => p | None => 1 end) in *.
  set (target := match PurchaseSessions.ctx_limit context with Some l => l | None => 100 end)
    in *.
  set (perPage :=
         match PurchaseSessions.ctx_pageSize context with Some n => n | None => 100 end) in *.
  set (fetcher :=
         match PurchaseSessions.ctx_environment context with
         | PurchaseSessions.env_dev =>
             PurchaseSessions.fetchPurchaseSessions RawRow Row shape run_query devTable
         | PurchaseSessions.env_default =>
             PurchaseSessions.fetchPurchaseSessions RawRow Row shape run_query defaultTable
         end).
  set (all := List.map (shape (PurchaseSessions.ctx_truncateStrings context)) ordered).
  assert (Hfetch : forall p, 1 <= p ->
             fetcher (PurchaseSessions.page_options context perPage p)
             = Ok (firstn (Z.to_nat perPage) (skipn (Z.to_nat ((p - 1) * perPage)) all))).
  { intros p Hp. unfold fetcher, all.
    destruct (PurchaseSessions.ctx_environment context);
      now apply fetch_page_rows. }
  pose proof (accumulate_stitched Row fetcher context target perPage page [] []) as Hloop.
  destruct (PurchaseSessions.accumulate Row fetcher context target perPage page [] [])
    as [[final calls]|m].
  - destruct Hloop as [pages [_ Hs]]. cbn [bind fst].
    f_equal. unfold Js.slice0.
    destruct (target <? 0) eqn:E; [apply Z.ltb_lt in E; lia|].
    apply (stitched_prefix Row all fetcher context target perPage page
             ltac:(lia) Hpage Hfetch page [] pages final Hs);
      [lia| |]; replace ((page - page) * perPage) with 0 by lia; reflexivity.
  - destruct Hloop as [p [Hp Hthrow]]. rewrite Hfetch in Hthrow by lia. discriminate.
Qed.

Lemma execute_returns_window_witness :
  PurchaseSessions.ctx_fetchAllPages TenRows.context = true
  /\ TenRows.run_query "events" None None = Ok TenRows.ordered
  /\ PurchaseSessions.execute string
       (PurchaseSessions.fetchPurchaseSessions string string (fun _ row => row)
          TenRows.run_query "events")
       (PurchaseSessions.fetchPurchaseSessions string string (fun _ row => row)
          TenRows.run_query "dev_events")
       TenRows.context
     = Ok ["T-04"; "T-05"; "T-06"; "T-07"; "T-08"]%string.
Proof.
  split; [reflexivity|]. split; [reflexivity|].
  apply (execute_returns_window string string (fun _ row => row) TenRows.run_query
           "events" "dev_events" TenRows.context TenRows.ordered);
    unfold PurchaseSessions.MAX_ROWS; cbn; try reflexivity; lia.
Defined.

(** ** Clipping long strings *)

Lemma length_append (a b : string) :
  String.length (a ++ b) = (String.length a + String.length b)%nat.
Proof. induction a as [|c a IH]; cbn; [reflexivity|]. now rewrite IH. Qed.

Lemma length_substring_0 (n : nat) (s : string) :
  (n <= String.length s)%nat -> String.length (substring 0 n s) = n.
Proof.
  revert s. induction n as [|n IH]; intros s Hn.
  - destruct s; reflexivity.
  - destruct s as [|c s]; cbn [String.length] in Hn; [lia|].
    cbn [substring String.length]. rewrite IH by lia. reflexivity.
Qed.

(** X16. Clipping keeps strings within 200 characters.  With truncation
    on, a string of at most 200 characters is returned as it is and a
    longer one as its first 197 characters followed by three dots, which
    makes exactly 200; clipping a clipped string changes nothing.  With
    truncation off the string is returned as it is, and NULL stays NULL
    either way. *)
Theorem maybeTrimString_clips (str : string) :
  exists s,
    PurchaseRows.maybeTrimString true (Some str) = Some s
    /\ (String.length s <= 200)%nat
    /\ ((String.length str <= 200)%nat -> s = str)
    /\ ((200 < String.length str)%nat ->
        s = (substring 0 197 str ++ "...")%string /\ String.length s = 200%nat)
    /\ PurchaseRows.maybeTrimString true (Some s) = Some s
    /\ PurchaseRows.maybeTrimString false (Some str) = Some str
    /\ PurchaseRows.maybeTrimString true None = None
    /\ PurchaseRows.maybeTrimString false None = None.
Proof.
  unfold PurchaseRows.maybeTrimString. cbn [negb].
  destruct (200 <? String.length str)%nat eqn:E.
  - apply Nat.ltb_lt in E.
    assert (Hlen : String.length (substring 0 197 str ++ "...") = 200%nat).
    { rewrite length_append, length_substring_0 by lia. reflexivity. }
    eexists. split; [reflexivity|].
    split; [lia|]. split; [lia|]. split; [now split|].
    split; [|repeat split].
    rewrite Hlen. reflexivity.
  - apply Nat.ltb_ge in E.
    exists str. split; [reflexivity|].
    split; [exact E|]. split; [reflexivity|]. split; [lia|].
    split; [|repeat split].
    destruct (200 <? String.length str)%nat eqn:E'; [apply Nat.ltb_lt in E'; lia|reflexivity].
Qed.

(* ===================================================================== *)
(** * Calendar dates: parsing and formatting undo each other *)
(* ===================================================================== *)

Section CivilDates.
Import JsDate.

(** The days of month [m] (1 = January) of year [y]. *)
Definition days_in_month (y m : Z) : Z :=
  if m =? 2 then (if InLeapYear y then 29 else 28)
  else if (m =? 4) || (m =? 6) || (m =? 9) || (m =? 11) then 30
  else 31.

(** A string that names a day of the calendar: YYYY-MM-DD with a month in
    1..12 and a day that the month has. *)
Definition calendar_date (value : string) : bool :=
  match match_ymd value with
  | Some (y, m, d) => (1 <=? m) && (m <=? 12) && (1 <=? d) && (d <=? days_in_month y m)
  | None => false
  end.

(** The text of a date: four digits, two digits and two digits. *)
Definition ymd_string (y m d : Z) : string :=
  (Str.pad_digits 4 y ++ "-" ++ Str.pad_digits 2 m ++ "-" ++ Str.pad_digits 2 d)%string.

Lemma DayFromYear_mono (a b : Z) : a <= b -> DayFromYear a <= DayFromYear b.
Proof. intros H. unfold DayFromYear. Z.to_euclidean_division_equations. lia. Qed.

Lemma YearFromDay_unique (y day : Z) :
  DayFromYear y <= day < DayFromYear (y + 1) -> YearFromDay day = y.
Proof.
  intros H. pose proof (YearFromDay_spec day) as Hs.
  destruct (Z.lt_trichotomy (YearFromDay day) y) as [Hlt|[Heq|Hgt]]; [|exact Heq|].
  - pose proof (DayFromYear_mono (YearFromDay day + 1) y ltac:(lia)). lia.
  - pose proof (DayFromYear_mono (y + 1) (YearFromDay day) ltac:(lia)). lia.
Qed.

Lemma MakeDay_in_year (y m d : Z) :
  1 <= m <= 12 ->
  MakeDay y (m - 1) d
  = DayFromYear y + (DaysBeforeMonth (m - 1) (InLeapYear y) + d - 1).
Proof.
  intros Hm. unfold MakeDay. cbv zeta.
  rewrite Z.div_small, Z.mod_small, Z.add_0_r by lia. lia.
Qed.

Ltac days_before :=
  repeat match goal with
    | |- context [DaysBeforeMonth ?a ?b] =>
        let v := eval vm_compute in (DaysBeforeMonth a b) in
        change (DaysBeforeMonth a b) with v
    end.

Ltac case_ltb :=
  repeat match goal with
    | |- context [?a <? ?b] =>
        let E := fresh "E" in
        destruct (a <? b) eqn:E; [apply Z.ltb_lt in E | apply Z.ltb_ge in E]
    end.

Ltac each_month m :=
  assert (m = 1 \/ m = 2 \/ m = 3 \/ m = 4 \/ m = 5 \/ m = 6 \/ m = 7 \/ m = 8
          \/ m = 9 \/ m = 10 \/ m = 11 \/ m = 12) as Hcases by lia;
  repeat (destruct Hcases as [Hcases|Hcases]); subst m.

(** A day of the calendar is the day that its day number splits into. *)
Lemma civil_of_MakeDay (y m d : Z) :
  1 <= m <= 12 -> 1 <= d <= days_in_month y m ->
  YearFromDay (MakeDay y (m - 1) d) = y
  /\ MonthFromDay (MakeDay y (m - 1) d) = m - 1
  /\ DateFromDay (MakeDay y (m - 1) d) = d.
Proof.
  intros Hm Hd. rewrite MakeDay_in_year by exact Hm.
  set (w := DaysBeforeMonth (m - 1) (InLeapYear y) + d - 1).
  assert (Hw : 0 <= w < (if InLeapYear y then 366 else 365)).
  { unfold w. unfold days_in_month in Hd. revert Hd.
    destruct (InLeapYear y); intros Hd; each_month m; cbn in Hd; days_before; lia. }
  assert (Hy : YearFromDay (DayFromYear y + w) = y).
  { apply YearFromDay_unique. pose proof (DaysInYear y). lia. }
  split; [exact Hy|].
  assert (Hm' : MonthFromDay (DayFromYear y + w) = m - 1).
  { unfold MonthFromDay, DayWithinYear. cbv zeta. rewrite Hy.
    replace (DayFromYear y + w - DayFromYear y) with w by lia.
    unfold w. unfold days_in_month in Hd. clear Hw Hy. revert Hd.
    destruct (InLeapYear y); intros Hd; each_month m; cbn in Hd; days_before;
      case_ltb; lia. }
  split; [exact Hm'|].
  unfold DateFromDay, DayWithinYear. rewrite Hm', Hy. unfold w. lia.
Qed.

End CivilDates.

Section DateText.
Import JsDate.

Lemma digit_char_mod (n : Z) : Str.digit_char n = Str.digit_char (n mod 10).
Proof. unfold Str.digit_char. now rewrite Z.mod_mod by lia. Qed.

Ltac each_digit n :=
  let H := fresh "Hdigit" in
  assert (n mod 10 = 0 \/ n mod 10 = 1 \/ n mod 10 = 2 \/ n mod 10 = 3 \/ n mod 10 = 4
          \/ n mod 10 = 5 \/ n mod 10 = 6 \/ n mod 10 = 7 \/ n mod 10 = 8 \/ n mod 10 = 9)
    as H by (pose proof (Z.mod_pos_bound n 10 ltac:(lia)); lia);
  repeat (destruct H as [H|H]); rewrite H.

Lemma is_digit_digit_char (n : Z) : Str.is_digit (Str.digit_char n) = true.
Proof. unfold Str.digit_char. each_digit n; reflexivity. Qed.

Lemma digit_value_digit_char (n : Z) : Str.digit_value (Str.digit_char n) = n mod 10.
Proof. unfold Str.digit_char. each_digit n; reflexivity. Qed.

Lemma digit_char_digit_value (c : ascii) :
  Str.is_digit c = true ->
  Str.digit_char (Str.digit_value c) = c /\ 0 <= Str.digit_value c <= 9.
Proof.
  destruct c as [[] [] [] [] [] [] [] []]; try discriminate; intros _;
    (split; [reflexivity|vm_compute; split; discriminate]).
Qed.

Lemma digit_char_is (n : Z) (c : ascii) :
  Str.is_digit c = true -> n mod 10 = Str.digit_value c -> Str.digit_char n = c.
Proof.
  intros Hc Hn. rewrite digit_char_mod, Hn. now apply digit_char_digit_value.
Qed.

Lemma pad_digits_2 (n : Z) :
  Str.pad_digits 2 n
  = String (Str.digit_char (n / 10)) (String (Str.digit_char n) EmptyString).
Proof. reflexivity. Qed.

Lemma pad_digits_4 (n : Z) :
  Str.pad_digits 4 n
  = String (Str.digit_char (n / 10 / 10 / 10))
      (String (Str.digit_char (n / 10 / 10))
         (String (Str.digit_char (n / 10)) (String (Str.digit_char n) EmptyString))).
Proof. reflexivity. Qed.

Lemma ymd_string_chars (y m d : Z) :
  ymd_string y m d
  = String (Str.digit_char (y / 10 / 10 / 10))
      (String (Str.digit_char (y / 10 / 10))
         (String (Str.digit_char (y / 10))
            (String (Str.digit_char y)
               (String "-"
                  (String (Str.digit_char (m / 10))
                     (String (Str.digit_char m)
                        (String "-"
                           (String (Str.digit_char (d / 10))
                              (String (Str.digit_char d) EmptyString))))))))).
Proof. reflexivity. Qed.

Lemma match_ymd_ymd_string (y m d : Z) :
  0 <= y <= 9999 -> 0 <= m <= 99 -> 0 <= d <= 99 ->
  match_ymd (ymd_string y m d) = Some (y, m, d).
Proof.
  intros Hy Hm Hd. rewrite ymd_string_chars. unfold match_ymd.
  cbn [forallb]. rewrite !is_digit_digit_char.
  change (Ascii.eqb "-" "-") with true. cbn [andb].
  cbn [Str.digits_value]. rewrite !digit_value_digit_char.
  f_equal. f_equal; [f_equal|]; Z.to_euclidean_division_equations; lia.
Qed.

Lemma digits_value_cons (acc : Z) (c : ascii) (rest : string) :
  Str.digits_value acc (String c rest)
  = Str.digits_value (10 * acc + Str.digit_value c) rest.
Proof. reflexivity. Qed.

Lemma digits_value_nil (acc : Z) : Str.digits_value acc EmptyString = acc.
Proof. reflexivity. Qed.

Lemma match_ymd_inv (s : string) (y m d : Z) :
  match_ymd s = Some (y, m, d) ->
  s = ymd_string y m d /\ 0 <= y <= 9999 /\ 0 <= m <= 99 /\ 0 <= d <= 99.
Proof.
  unfold match_ymd.
  destruct s as [|y1 [|y2 [|y3 [|y4 [|h1 [|m1 [|m2 [|h2 [|d1 [|d2 [|x rest]]]]]]]]]]];
    try discriminate.
  destruct (forallb Str.is_digit [y1; y2; y3; y4; m1; m2; d1; d2]
            && Ascii.eqb h1 "-" && Ascii.eqb h2 "-") eqn:E; [|discriminate].
  apply andb_true_iff in E as [E Eh2]. apply andb_true_iff in E as [E Eh1].
  apply Ascii.eqb_eq in Eh1, Eh2. subst h1 h2.
  cbn [forallb] in E.
  repeat match type of E with
    | (_ && _) = true => let H := fresh "Hd" in apply andb_true_iff in E as [H E]
    end.
  clear E. rewrite !digits_value_cons, !digits_value_nil.
  match goal with
  | |- Some (?a, ?b, ?c) = _ -> _ =>
      remember a as year eqn:Ey; remember b as month eqn:Em; remember c as day eqn:Ed
  end.
  intros [= <- <- <-].
  destruct (digit_char_digit_value y1 Hd) as [_ R1].
  destruct (digit_char_digit_value y2 Hd0) as [_ R2].
  destruct (digit_char_digit_value y3 Hd1) as [_ R3].
  destruct (digit_char_digit_value y4 Hd2) as [_ R4].
  destruct (digit_char_digit_value m1 Hd3) as [_ R5].
  destruct (digit_char_digit_value m2 Hd4) as [_ R6].
  destruct (digit_char_digit_value d1 Hd5) as [_ R7].
  destruct (digit_char_digit_value d2 Hd6) as [_ R8].
  split; [|lia].
  rewrite ymd_string_chars.
  rewrite (digit_char_is _ y1 Hd) by (Z.to_euclidean_division_equations; lia).
  rewrite (digit_char_is _ y2 Hd0) by (Z.to_euclidean_division_equations; lia).
  rewrite (digit_char_is _ y3 Hd1) by (Z.to_euclidean_division_equations; lia).
  rewrite (digit_char_is _ y4 Hd2) by (Z.to_euclidean_division_equations; lia).
  rewrite (digit_char_is _ m1 Hd3) by (Z.to_euclidean_division_equations; lia).
  rewrite (digit_char_is _ m2 Hd4) by (Z.to_euclidean_division_equations; lia).
  rewrite (digit_char_is _ d1 Hd5) by (Z.to_euclidean_division_equations; lia).
  rewrite (digit_char_is _ d2 Hd6) by (Z.to_euclidean_division_equations; lia).
  reflexivity.
Qed.

Lemma append_String (c : ascii) (a b : string) :
  (String c a ++ b)%string = String c (a ++ b)%string.
Proof. reflexivity. Qed.

(** The date part of [toISOString], for a year of four digits. *)
Lemma formatISODate_ymd (t : Z) :
  0 <= getUTCFullYear t <= 9999 ->
  Workflow.formatISODate t
  = ymd_string (getUTCFullYear t) (getUTCMonth t + 1) (getUTCDate t).
Proof.
  intros Hy. unfold Workflow.formatISODate, toISOString. cbv zeta.
  assert (E : (0 <=? getUTCFullYear t) && (getUTCFullYear t <=? 9999) = true).
  { apply andb_true_iff. split; apply Z.leb_le; lia. }
  rewrite E. rewrite ymd_string_chars, pad_digits_4, !pad_digits_2.
  generalize (Str.pad_digits 2 (TimeWithinDay t / 3600000)). intros hours.
  generalize (Str.pad_digits 2 (TimeWithinDay t / 60000 mod 60)). intros minutes.
  generalize (Str.pad_digits 2 (TimeWithinDay t / 1000 mod 60)). intros seconds.
  generalize (Str.pad_digits 3 (TimeWithinDay t mod 1000)). intros millis.
  generalize (getUTCFullYear t) (getUTCMonth t + 1) (getUTCDate t). intros y m d.
  cbn [String.append substring]. reflexivity.
Qed.

Lemma Day_of_midnight (day : Z) : Day (MakeDate day 0) = day.
Proof.
  unfold Day, MakeDate, msPerDay. rewrite Z.add_0_r. apply Z.div_mul. lia.
Qed.

Lemma instant_of (s : string) (y m d : Z) :
  match_ymd s = Some (y, m, d) -> Workflow.instant s = MakeDate (MakeDay y (m - 1) d) 0.
Proof. intros H. unfold Workflow.instant. now rewrite H. Qed.

End DateText.

Section RoundTrips.
Import JsDate.

Lemma days_in_month_le (y m : Z) : 28 <= days_in_month y m <= 31.
Proof.
  unfold days_in_month.
  destruct (m =? 2); [destruct (InLeapYear y); lia|].
  destruct ((m =? 4) || (m =? 6) || (m =? 9) || (m =? 11)); lia.
Qed.

Lemma calendar_date_inv (s : string) :
  calendar_date s = true ->
  exists y m d,
    match_ymd s = Some (y, m, d)
    /\ 1 <= m <= 12 /\ 1 <= d <= days_in_month y m.
Proof.
  unfold calendar_date. destruct (match_ymd s) as [[[y m] d]|]; [|discriminate].
  intros H. repeat (apply andb_true_iff in H as [H ?]).
  exists y, m, d. split; [reflexivity|]. lia.
Qed.

Lemma calendar_date_in_format (s : string) :
  calendar_date s = true -> Workflow.in_ymd_format s = true.
Proof.
  intros H. apply calendar_date_inv in H as (y & m & d & E & Hm & Hd).
  unfold Workflow.in_ymd_format. rewrite E.
  pose proof (days_in_month_le y m).
  repeat (apply andb_true_iff; split); apply Z.leb_le; lia.
Qed.

Lemma DateFromDay_in_month (day : Z) :
  1 <= DateFromDay day <= days_in_month (YearFromDay day) (MonthFromDay day + 1).
Proof.
  unfold DateFromDay, MonthFromDay, days_in_month. cbv zeta.
  pose proof (DayWithinYear_range day) as H. revert H.
  destruct (InLeapYear (YearFromDay day)); intros H;
    repeat match goal with
      | |- context [?a <? ?b] =>
          let E := fresh "E" in
          destruct (a <? b) eqn:E; [apply Z.ltb_lt in E | apply Z.ltb_ge in E]
      end;
    repeat match goal with
      | |- context [DaysBeforeMonth ?a ?b] =>
          let v := eval vm_compute in (DaysBeforeMonth a b) in
          change (DaysBeforeMonth a b) with v
      end;
    repeat match goal with
      | |- context [?a + 1 =? ?b] =>
          let v := eval vm_compute in (a + 1 =? b) in
          change (a + 1 =? b) with v
      end;
    cbn [orb]; lia.
Qed.

Lemma midnight_of_Day (t : Z) : t mod msPerDay = 0 -> MakeDate (Day t) 0 = t.
Proof.
  intros H. unfold MakeDate, Day.
  pose proof (Z.div_mod t msPerDay ltac:(unfold msPerDay; lia)). lia.
Qed.

Lemma format_of_calendar_date (s : string) :
  calendar_date s = true -> Workflow.formatISODate (Workflow.instant s) = s.
Proof.
  intros H. apply calendar_date_inv in H as (y & m & d & E & Hm & Hd).
  destruct (match_ymd_inv s y m d E) as (Hs & Hy & _).
  destruct (civil_of_MakeDay y m d Hm Hd) as (Cy & Cm & Cd).
  rewrite (instant_of s y m d E).
  rewrite formatISODate_ymd;
    unfold getUTCFullYear, getUTCMonth, getUTCDate; rewrite Day_of_midnight.
  - rewrite Cy, Cm, Cd. replace (m - 1 + 1) with m by lia. now symmetry.
  - now rewrite Cy.
Qed.

Lemma parse_of_format (t : Z) (field : string) :
  t mod msPerDay = 0 -> 0 <= getUTCFullYear t <= 9999 ->
  Workflow.parseISODate (Workflow.formatISODate t) field = Ok t
  /\ match_ymd (Workflow.formatISODate t)
     = Some (getUTCFullYear t, getUTCMonth t + 1, getUTCDate t)
  /\ calendar_date (Workflow.formatISODate t) = true.
Proof.
  intros Hmid Hyear.
  pose proof (MonthFromDay_range (Day t)) as Hm.
  pose proof (DateFromDay_in_month (Day t)) as Hd.
  pose proof (days_in_month_le (YearFromDay (Day t)) (MonthFromDay (Day t) + 1)) as Hdim.
  assert (E : match_ymd (Workflow.formatISODate t)
              = Some (getUTCFullYear t, getUTCMonth t + 1, getUTCDate t)).
  { rewrite formatISODate_ymd by exact Hyear.
    apply match_ymd_ymd_string; unfold getUTCMonth, getUTCDate; lia. }
  assert (R : forall a b, a <= b -> (a <=? b) = true) by (intros; now apply Z.leb_le).
  split; [|split; [exact E|]].
  - unfold Workflow.parseISODate, Workflow.ISO_DATE_REGEX_test, parse_utc_midnight.
    rewrite E. cbn [negb].
    unfold getUTCMonth, getUTCDate.
    rewrite !R by lia. cbn [andb].
    replace (MonthFromDay (Day t) + 1 - 1) with (MonthFromDay (Day t)) by lia.
    unfold getUTCFullYear. rewrite MakeDay_of_day. now rewrite midnight_of_Day.
  - unfold calendar_date. rewrite E. unfold getUTCFullYear, getUTCMonth, getUTCDate.
    rewrite !R by lia. reflexivity.
Qed.

End RoundTrips.

(** X17. Parsing a calendar date and formatting it again gives the date
    back.  For a string YYYY-MM-DD that names a day of the calendar (a
    month in 1..12 and a day that the month has, February 29 only in a
    leap year), [parseISODate] returns the instant of UTC midnight of that
    day and [formatISODate] of that instant is the string itself. *)
Theorem formatISODate_parseISODate (value field : string)
  (Hdate : calendar_date value = true) :
  Workflow.parseISODate value field = Ok (Workflow.instant value)
  /\ Workflow.formatISODate (Workflow.instant value) = value
  /\ Workflow.instant value mod JsDate.msPerDay = 0.
Proof.
  split; [apply parseISODate_ok; now apply calendar_date_in_format|].
  split; [now apply format_of_calendar_date|].
  apply calendar_date_inv in Hdate as (y & m & d & E & _).
  rewrite (instant_of value y m d E). unfold JsDate.MakeDate.
  rewrite Z.add_0_r. apply Z.mod_mul. unfold JsDate.msPerDay. lia.
Qed.

Lemma formatISODate_parseISODate_witness :
  calendar_date "2024-02-29" = true
  /\ Workflow.parseISODate "2024-02-29" "startDate" = Ok 1709164800000
  /\ Workflow.formatISODate (Workflow.instant "2024-02-29") = "2024-02-29"%string.
Proof.
  assert (H : calendar_date "2024-02-29" = true) by reflexivity.
  split; [exact H|].
  destruct (formatISODate_parseISODate "2024-02-29" "startDate" H) as (Hparse & Hformat & _).
  split; [exact Hparse|exact Hformat].
Defined.

(** X18. Formatting a day and parsing it again gives the day back.  For
    an instant at UTC midnight in a year from 0 to 9999, [formatISODate]
    yields a string that names a day of the calendar, and [parseISODate]
    of that string is the instant itself; so the dates that the resolver
    returns are strings that the resolver accepts. *)
Theorem parseISODate_formatISODate (t : Z) (field : string)
  (Hmidnight : t mod JsDate.msPerDay = 0)
  (Hyear : 0 <= JsDate.getUTCFullYear t <= 9999) :
  Workflow.parseISODate (Workflow.formatISODate t) field = Ok t
  /\ calendar_date (Workflow.formatISODate t) = true.
Proof.
  destruct (parse_of_format t field Hmidnight Hyear) as (Hparse & _ & Hdate).
  split; assumption.
Qed.

Lemma parseISODate_formatISODate_witness :
  1717977600000 mod JsDate.msPerDay = 0
  /\ 0 <= JsDate.getUTCFullYear 1717977600000 <= 9999
  /\ Workflow.parseISODate (Workflow.formatISODate 1717977600000) "endDate"
     = Ok 1717977600000.
Proof.
  assert (H1 : 1717977600000 mod JsDate.msPerDay = 0) by reflexivity.
  assert (H2 : 0 <= JsDate.getUTCFullYear 1717977600000 <= 9999)
    by (vm_compute; split; discriminate).
  split; [exact H1|]. split; [exact H2|].
  exact (proj1 (parseISODate_formatISODate 1717977600000 "endDate" H1 H2)).
Defined.

Section ResolvedWindow.
Import JsDate Workflow.

Lemma instant_aligned (s : string) : instant s mod msPerDay = 0.
Proof.
  unfold instant. destruct (match_ymd s) as [[[y m] d]|]; [|reflexivity].
  unfold MakeDate. rewrite Z.add_0_r. apply Z.mod_mul. unfold msPerDay. lia.
Qed.

Lemma startOfUTCDate_aligned (t : Z) : startOfUTCDate t mod msPerDay = 0.
Proof.
  unfold startOfUTCDate, UTC, MakeDate.
  replace (0 * 3600000 + 0 * 60000 + 0 * 1000 + 0) with 0 by lia.
  rewrite Z.add_0_r. apply Z.mod_mul. unfold msPerDay. lia.
Qed.

Lemma aligned_shift (t k : Z) : t mod msPerDay = 0 -> (t + k * msPerDay) mod msPerDay = 0.
Proof.
  intros H. rewrite Z.mod_add by (unfold msPerDay; lia). exact H.
Qed.

Local Opaque formatISODate startOfUTCDate instant in_ymd_format.

Lemma computeDateRange_window_of (startDate endDate : option string) (today : Z)
  (r : DateRange) :
  computeDateRange startDate endDate today = Ok r ->
  exists start finish,
    r = Build_DateRange (formatISODate start) (formatISODate finish)
    /\ start <= finish <= startOfUTCDate today
    /\ start mod msPerDay = 0 /\ finish mod msPerDay = 0
    /\ (truthy startDate && truthy endDate = false -> finish - start <= 6 * msPerDay)
    /\ (truthy startDate = false -> finish - start = 6 * msPerDay)
    /\ (truthy startDate = true -> start = instant (get startDate))
    /\ (truthy endDate = true -> finish = instant (get endDate)).
Proof.
  intros Hr.
  assert (Hraises : raises startDate endDate today = false).
  { rewrite <- computeDateRange_raises, Hr. reflexivity. }
  destruct (raises_false _ _ _ Hraises) as (Hs & He & Hc).
  pose proof (startOfUTCDate_aligned today) as HT.
  destruct (truthy startDate) eqn:Ts, (truthy endDate) eqn:Te.
  - destruct (Hs eq_refl) as [Hfs Hns]. destruct (He eq_refl) as [Hfe Hne].
    specialize (Hc eq_refl eq_refl).
    rewrite computeDateRange_both in Hr by auto.
    exists (instant (get startDate)), (instant (get endDate)).
    split; [congruence|]. split; [lia|].
    split; [apply instant_aligned|]. split; [apply instant_aligned|].
    repeat split; discriminate.
  - destruct (Hs eq_refl) as [Hfs Hns].
    rewrite computeDateRange_start_only in Hr by auto.
    exists (instant (get startDate)),
           (Z.min (instant (get startDate) + 6 * msPerDay) (startOfUTCDate today)).
    split; [congruence|]. split; [unfold msPerDay; lia|].
    split; [apply instant_aligned|].
    split.
    { destruct (Z.min_spec (instant (get startDate) + 6 * msPerDay) (startOfUTCDate today))
        as [[_ ->]|[_ ->]]; [apply aligned_shift, instant_aligned|exact HT]. }
    split; [intros _; lia|]. split; [discriminate|]. split; [reflexivity|discriminate].
  - destruct (He eq_refl) as [Hfe Hne].
    rewrite computeDateRange_end_only in Hr by auto.
    exists (instant (get endDate) - 6 * msPerDay), (instant (get endDate)).
    split; [congruence|]. split; [unfold msPerDay; lia|].
    split.
    { replace (instant (get endDate) - 6 * msPerDay)
        with (instant (get endDate) + (-6) * msPerDay) by lia.
      apply aligned_shift, instant_aligned. }
    split; [apply instant_aligned|].
    split; [intros _; lia|]. split; [intros _; lia|]. split; [discriminate|reflexivity].
  - rewrite computeDateRange_neither in Hr by auto.
    exists (startOfUTCDate today - 6 * msPerDay), (startOfUTCDate today).
    split; [congruence|]. split; [unfold msPerDay; lia|].
    split.
    { replace (startOfUTCDate today - 6 * msPerDay)
        with (startOfUTCDate today + (-6) * msPerDay) by lia.
      now apply aligned_shift. }
    split; [exact HT|].
    split; [intros _; lia|]. split; [intros _; lia|]. split; discriminate.
Qed.

End ResolvedWindow.

(** X19. Whatever the resolver returns is a window of whole days that
    does not reach into the future.  When [computeDateRange] returns, its
    two strings are the formatted dates of two instants at UTC midnight,
    the start not after the end and the end not after the start of today;
    the window spans exactly seven days (the instants are six days apart)
    when no start date was supplied, and at most seven days when only one
    of the dates was; a supplied date is returned as the day it names. *)
Theorem computeDateRange_window
  (startDate endDate : option string) (today : Z) (r : Workflow.DateRange)
  (Hreturned : Workflow.computeDateRange startDate endDate today = Ok r) :
  exists start finish,
    Workflow.startDate r = Workflow.formatISODate start
    /\ Workflow.endDate r = Workflow.formatISODate finish
    /\ start <= finish <= Workflow.startOfUTCDate today
    /\ start mod JsDate.msPerDay = 0 /\ finish mod JsDate.msPerDay = 0
    /\ (Workflow.truthy startDate && Workflow.truthy endDate = false ->
        finish - start <= 6 * JsDate.msPerDay)
    /\ (Workflow.truthy startDate = false -> finish - start = 6 * JsDate.msPerDay)
    /\ (Workflow.truthy startDate = true -> start = Workflow.instant (Workflow.get startDate))
    /\ (Workflow.truthy endDate = true -> finish = Workflow.instant (Workflow.get endDate)).
Proof.
  destruct (computeDateRange_window_of startDate endDate today r Hreturned)
    as (start & finish & -> & H).
  exists start, finish. split; [reflexivity|]. split; [reflexivity|exact H].
Qed.

Lemma computeDateRange_window_witness :
  Workflow.computeDateRange None (Some "2024-06-10"%string) 1718020799999
  = Ok (Workflow.Build_DateRange "2024-06-04" "2024-06-10")
  /\ exists start finish,
       "2024-06-04"%string = Workflow.formatISODate start
       /\ "2024-06-10"%string = Workflow.formatISODate finish
       /\ start <= finish <= Workflow.startOfUTCDate 1718020799999.
Proof.
  assert (H : Workflow.computeDateRange None (Some "2024-06-10"%string) 1718020799999
              = Ok (Workflow.Build_DateRange "2024-06-04" "2024-06-10"))
    by (vm_compute; reflexivity).
  split; [exact H|].
  destruct (computeDateRange_window None (Some "2024-06-10"%string) 1718020799999 _ H)
    as (start & finish & Hs & He & Hle & _).
  exists start, finish. split; [exact Hs|]. split; [exact He|exact Hle].
Defined.

(* ===================================================================== *)
(** * The windows that the ledgers are asked for *)
(* ===================================================================== *)

Section Windows.
Import JsDate.

Lemma UTC_start (y m d : Z) : UTC y m d 0 0 0 0 mod msPerDay = 0.
Proof.
  unfold UTC, MakeDate.
  replace (0 * 3600000 + 0 * 60000 + 0 * 1000 + 0) with 0 by lia.
  rewrite Z.add_0_r. apply Z.mod_mul. unfold msPerDay. lia.
Qed.

Lemma UTC_end (y m d : Z) : UTC y m d 23 59 59 999 = UTC y m d 0 0 0 0 + 86399999.
Proof. unfold UTC, MakeDate. lia. Qed.

Lemma seconds_of_end (t : Z) :
  t mod msPerDay = 0 -> (t + 86399999) / 1000 = t / 1000 + 86399.
Proof. unfold msPerDay. intros H. Z.to_euclidean_division_equations. lia. Qed.

Lemma YearFromDay_mono (a b : Z) : a <= b -> YearFromDay a <= YearFromDay b.
Proof.
  intros H. pose proof (YearFromDay_spec a). pose proof (YearFromDay_spec b).
  destruct (Z_le_gt_dec (YearFromDay a) (YearFromDay b)) as [Hle|Hgt]; [exact Hle|].
  pose proof (DayFromYear_mono (YearFromDay b + 1) (YearFromDay a) ltac:(lia)). lia.
Qed.

Lemma Day_mono (a b : Z) : a <= b -> Day a <= Day b.
Proof. intros H. unfold Day, msPerDay. apply Z.div_le_mono; lia. Qed.

(** An instant from the epoch up to the end of the year 9999 has a year
    of four digits that [Date.UTC] reads as it is. *)
Lemma four_digit_year (t : Z) :
  0 <= t < 253402300800000 -> 1969 <= getUTCFullYear t <= 9999.
Proof.
  intros [Hlo Hhi]. split; [now apply year_after_epoch|].
  unfold getUTCFullYear.
  assert (Hday : Day t <= 2932896).
  { unfold Day, msPerDay. Z.to_euclidean_division_equations. lia. }
  apply YearFromDay_mono in Hday.
  replace (YearFromDay 2932896) with 9999 in Hday by (vm_compute; reflexivity).
  exact Hday.
Qed.

Lemma UTC_of_format (t : Z) :
  t mod msPerDay = 0 -> 0 <= t < 253402300800000 ->
  match_ymd (Workflow.formatISODate t)
  = Some (getUTCFullYear t, getUTCMonth t + 1, getUTCDate t)
  /\ UTC (getUTCFullYear t) (getUTCMonth t + 1 - 1) (getUTCDate t) 0 0 0 0 = t.
Proof.
  intros Hmid Ht. pose proof (four_digit_year t Ht) as Hy.
  destruct (parse_of_format t "" Hmid ltac:(lia)) as (_ & E & _).
  split; [exact E|].
  unfold UTC.
  assert (Hq : (0 <=? getUTCFullYear t) && (getUTCFullYear t <=? 99) = false).
  { apply andb_false_iff. right. apply Z.leb_gt. lia. }
  rewrite Hq. replace (getUTCMonth t + 1 - 1) with (getUTCMonth t) by lia.
  rewrite MakeDay_of_time.
  replace (0 * 3600000 + 0 * 60000 + 0 * 1000 + 0) with 0 by lia.
  now apply midnight_of_Day.
Qed.

Lemma midnights_apart (a b : Z) :
  a mod msPerDay = 0 -> b mod msPerDay = 0 ->
  (b / 1000 + 86399 <? a / 1000) = (b <? a)
  /\ (b + 86399999 <? a) = (b <? a).
Proof.
  unfold msPerDay. intros Ha Hb.
  destruct (Z.ltb_spec b a) as [H|H].
  - split; apply Z.ltb_lt; Z.to_euclidean_division_equations; lia.
  - split; apply Z.ltb_ge; Z.to_euclidean_division_equations; lia.
Qed.

(** The windows that the two adapters make of two dates in YYYY-MM-DD
    form that stand for the midnights [a] and [b]. *)
Lemma parseDateRange_window (startDate endDate : string) (y m d y' m' d' : Z) :
  match_ymd startDate = Some (y, m, d) ->
  match_ymd endDate = Some (y', m', d') ->
  PaypalCharge.parseDateRange startDate endDate
  = if UTC y' (m' - 1) d' 0 0 0 0 <? UTC y (m - 1) d 0 0 0 0
    then Throw "endDate must be after startDate"
    else Ok (UTC y (m - 1) d 0 0 0 0, UTC y' (m' - 1) d' 0 0 0 0 + 86399999).
Proof.
  intros Hs He. unfold PaypalCharge.parseDateRange, PaypalCharge.parseDate.
  rewrite Hs, He. cbn [bind]. rewrite UTC_end.
  destruct (midnights_apart (UTC y (m - 1) d 0 0 0 0) (UTC y' (m' - 1) d' 0 0 0 0)
              (UTC_start _ _ _) (UTC_start _ _ _)) as [_ ->].
  reflexivity.
Qed.

Lemma getStripeCharges_window
  (Number_of_string : string -> option Q)
  (list_charges : Z -> Z -> result (list StripeCharge.ApiCharge))
  (startDate endDate : string) (y m d y' m' d' : Z) :
  match_ymd startDate = Some (y, m, d) ->
  match_ymd endDate = Some (y', m', d') ->
  StripeCharge.getStripeCharges_body Number_of_string list_charges startDate endDate
  = if UTC y' (m' - 1) d' 0 0 0 0 <? UTC y (m - 1) d 0 0 0 0
    then Throw "endDate must be after startDate"
    else
      listed <- list_charges (UTC y (m - 1) d 0 0 0 0 / 1000)
                  (UTC y' (m' - 1) d' 0 0 0 0 / 1000 + 86399) ;;
      Ok (List.map (StripeCharge.to_summary Number_of_string)
            (filter (fun charge => String.eqb (StripeCharge.api_status charge) "succeeded")
               listed)).
Proof.
  intros Hs He. unfold StripeCharge.getStripeCharges_body, StripeCharge.parseDateToUnix.
  rewrite Hs, He.
  change (String.eqb "startDate" "startDate") with true.
  change (String.eqb "endDate" "startDate") with false.
  cbn [bind]. rewrite UTC_end, seconds_of_end by apply UTC_start.
  destruct (midnights_apart (UTC y (m - 1) d 0 0 0 0) (UTC y' (m' - 1) d' 0 0 0 0)
              (UTC_start _ _ _) (UTC_start _ _ _)) as [-> _].
  reflexivity.
Qed.

End Windows.

(** X20. The window that each ledger adapter makes of two dates.  For two
    strings in YYYY-MM-DD form (whether or not they name a day that
    exists), with [a] and [b] the UTC midnights that [Date.UTC] gives for
    them: both adapters refuse the range exactly when [b] is before [a];
    otherwise the wallet-ledger tool asks for the instants from [a] to
    [b + 86399999] ms and the card ledger is asked for the seconds from
    [a / 1000] to [b / 1000 + 86399], both ends included, so that a range
    of one date is never refused and covers that whole day. *)
Theorem adapter_windows
  (Number_of_string : string -> option Q)
  (list_charges : Z -> Z -> result (list StripeCharge.ApiCharge))
  (startDate endDate : string) (y m d y' m' d' : Z)
  (Hstart : JsDate.match_ymd startDate = Some (y, m, d))
  (Hend : JsDate.match_ymd endDate = Some (y', m', d')) :
  let a := JsDate.UTC y (m - 1) d 0 0 0 0 in
  let b := JsDate.UTC y' (m' - 1) d' 0 0 0 0 in
  a mod JsDate.msPerDay = 0 /\ b mod JsDate.msPerDay = 0
  /\ PaypalCharge.parseDateRange startDate endDate
     = (if b <? a then Throw "endDate must be after startDate"
        else Ok (a, b + 86399999))
  /\ StripeCharge.getStripeCharges_body Number_of_string list_charges startDate endDate
     = (if b <? a then Throw "endDate must be after startDate"
        else
          listed <- list_charges (a / 1000) (b / 1000 + 86399) ;;
          Ok (List.map (StripeCharge.to_summary Number_of_string)
                (filter (fun charge =>
                           String.eqb (StripeCharge.api_status charge) "succeeded")
                   listed)))
  /\ (startDate = endDate -> (b <? a) = false).
Proof.
  intros a b. split; [apply UTC_start|]. split; [apply UTC_start|].
  split; [now apply parseDateRange_window|].
  split; [now apply getStripeCharges_window|].
  intros E. subst endDate. rewrite Hstart in Hend. inversion Hend; subst.
  apply Z.ltb_irrefl.
Qed.

(** A ledger that answers for the seconds of 2024-03-01 only, the day
    that [Date.UTC] makes of 2024-02-30. *)
Module WindowExample.

Definition list_charges (gte lte : Z) : result (list StripeCharge.ApiCharge) :=
  if (gte =? 1709251200) && (lte =? 1709337599) then Ok []
  else Throw "another window".

End WindowExample.

Lemma adapter_windows_witness :
  PaypalCharge.parseDateRange "2024-02-30" "2024-02-30"
  = Ok (1709251200000, 1709337599999)
  /\ StripeCharge.getStripeCharges_body (fun _ => None) WindowExample.list_charges
       "2024-02-30" "2024-02-30"
     = Ok [].
Proof.
  assert (H : JsDate.match_ymd "2024-02-30" = Some (2024, 2, 30)) by (vm_compute; reflexivity).
  pose proof (adapter_windows (fun _ => None) WindowExample.list_charges
                "2024-02-30" "2024-02-30" 2024 2 30 2024 2 30 H H) as W.
  cbv zeta in W. destruct W as (_ & _ & Hp & Hs & _).
  split; [exact Hp|exact Hs].
Defined.

Section WorkflowWindows.
Import JsDate.

Variable Date_parse : string -> option Z.

(** [Date.parse] reads a date-only string that names a day of the
    calendar as the UTC midnight of that day. *)
Hypothesis Date_parse_calendar :
  forall s, calendar_date s = true -> Date_parse s = parse_utc_midnight s.

Lemma Date_parse_format (t : Z) :
  t mod msPerDay = 0 -> 0 <= t < 253402300800000 ->
  Date_parse (Workflow.formatISODate t) = Some t.
Proof.
  intros Hmid Ht. pose proof (four_digit_year t Ht) as Hy.
  destruct (parse_of_format t "" Hmid ltac:(lia)) as (Hp & _ & Hc).
  rewrite (Date_parse_calendar _ Hc).
  unfold Workflow.parseISODate in Hp.
  destruct (negb (Workflow.ISO_DATE_REGEX_test (Workflow.formatISODate t)));
    [discriminate|].
  destruct (parse_utc_midnight (Workflow.formatISODate t)); [|discriminate].
  now inversion Hp.
Qed.

Lemma parsed_window_format (start finish : Z) :
  start mod msPerDay = 0 -> finish mod msPerDay = 0 ->
  0 <= start < 253402300800000 -> 0 <= finish < 253402300800000 ->
  WorkflowSteps.parsed_window Date_parse
    (Workflow.formatISODate start) (Workflow.formatISODate finish)
  = if finish <? start then Throw "endDate must be on or after startDate."
    else Ok (start, finish).
Proof.
  intros Hs Hf Hrs Hrf. unfold WorkflowSteps.parsed_window.
  now rewrite !Date_parse_format.
Qed.

End WorkflowWindows.

(** X21. The windows that the workflow reads the two ledgers over.  Take
    the dates of two UTC midnights [start <= finish] between 1970 and
    9999, formatted as the resolver formats them, and a [Date.parse] that
    reads such a date as its UTC midnight.  Then the card-ledger step
    returns what [getStripeCharges] returns, and the ledger is asked for
    the seconds from [start / 1000] to [finish / 1000 + 86399], the whole
    of the end date included; the wallet-ledger step returns what
    [fetchPaypalCardInfo] returns for the instants from [start] to
    [finish], so its window closes at the first instant of the end date,
    whereas the wallet-ledger tool, given the same two dates, goes on to
    [finish + 86399999].  With [finish] before [start] both steps fail
    with the chronology message. *)
Theorem workflow_ledger_windows
  (Date_parse : string -> option Z) (now : Z)
  (Number_of_string : string -> option Q)
  (list_charges : Z -> Z -> result (list StripeCharge.ApiCharge))
  (parseFloat : string -> PaypalCharge.number)
  (fetch_token : result (Response PaypalAuth.TokenBody))
  (fetch_page : Z -> Z -> Z -> result (Response PaypalCharge.TransactionsPage))
  (fuel : nat) (start finish : Z)
  (Hparse : forall s, calendar_date s = true ->
                      Date_parse s = JsDate.parse_utc_midnight s)
  (Hstart : start mod JsDate.msPerDay = 0)
  (Hfinish : finish mod JsDate.msPerDay = 0)
  (Hstart_range : 0 <= start < 253402300800000)
  (Hfinish_range : 0 <= finish < 253402300800000) :
  let startDate := Workflow.formatISODate start in
  let endDate := Workflow.formatISODate finish in
  (start <= finish ->
   WorkflowSteps.fetchStripeCharges Date_parse Number_of_string list_charges
     startDate endDate
   = StripeCharge.getStripeCharges Number_of_string list_charges startDate endDate
   /\ StripeCharge.getStripeCharges_body Number_of_string list_charges startDate endDate
      = (listed <- list_charges (start / 1000) (finish / 1000 + 86399) ;;
         Ok (List.map (StripeCharge.to_summary Number_of_string)
               (filter (fun charge =>
                          String.eqb (StripeCharge.api_status charge) "succeeded")
                  listed)))
   /\ WorkflowSteps.fetchPaypalCharges Date_parse now parseFloat fetch_token fetch_page
        fuel startDate endDate
      = PaypalCharge.fetchPaypalCardInfo parseFloat Date_parse now fetch_token fetch_page
          fuel start finish
   /\ PaypalCharge.parseDateRange startDate endDate = Ok (start, finish + 86399999))
  /\ (finish < start ->
      WorkflowSteps.fetchStripeCharges Date_parse Number_of_string list_charges
        startDate endDate
      = Throw "endDate must be on or after startDate."
      /\ WorkflowSteps.fetchPaypalCharges Date_parse now parseFloat fetch_token fetch_page
           fuel startDate endDate
         = Some (Throw "endDate must be on or after startDate.")).
Proof.
  intros startDate endDate.
  pose proof (parsed_window_format Date_parse Hparse start finish
                Hstart Hfinish Hstart_range Hfinish_range) as Hw.
  fold startDate endDate in Hw.
  destruct (UTC_of_format start Hstart Hstart_range) as [Ms Us].
  destruct (UTC_of_format finish Hfinish Hfinish_range) as [Mf Uf].
  fold startDate in Ms. fold endDate in Mf.
  split.
  - intros Hle. apply Z.ltb_ge in Hle. rewrite Hle in Hw.
    split; [|split; [|split]].
    + unfold WorkflowSteps.fetchStripeCharges. now rewrite Hw.
    + rewrite (getStripeCharges_window _ _ _ _ _ _ _ _ _ _ Ms Mf), Us, Uf.
      now rewrite Hle.
    + unfold WorkflowSteps.fetchPaypalCharges. now rewrite Hw.
    + rewrite (parseDateRange_window _ _ _ _ _ _ _ _ Ms Mf), Us, Uf.
      now rewrite Hle.
  - intros Hlt. apply Z.ltb_lt in Hlt. rewrite Hlt in Hw.
    split.
    + unfold WorkflowSteps.fetchStripeCharges. now rewrite Hw.
    + unfold WorkflowSteps.fetchPaypalCharges. now rewrite Hw.
Qed.

Lemma workflow_ledger_windows_witness :
  1717200000000 mod JsDate.msPerDay = 0
  /\ 1717718400000 mod JsDate.msPerDay = 0
  /\ WorkflowSteps.fetchPaypalCharges JsDate.parse_utc_midnight 0
       (fun _ => PaypalCharge.NaN) Outage.fetch_token Outage.fetch_page
       0 "2024-06-01" "2024-06-07"
     = PaypalCharge.fetchPaypalCardInfo (fun _ => PaypalCharge.NaN)
         JsDate.parse_utc_midnight 0 Outage.fetch_token Outage.fetch_page
         0 1717200000000 1717718400000
  /\ PaypalCharge.parseDateRange "2024-06-01" "2024-06-07"
     = Ok (1717200000000, 1717804799999).
Proof.
  assert (Hs : 1717200000000 mod JsDate.msPerDay = 0) by reflexivity.
  assert (Hf : 1717718400000 mod JsDate.msPerDay = 0) by reflexivity.
  assert (Es : Workflow.formatISODate 1717200000000 = "2024-06-01"%string)
    by (vm_compute; reflexivity).
  assert (Ef : Workflow.formatISODate 1717718400000 = "2024-06-07"%string)
    by (vm_compute; reflexivity).
  pose proof (workflow_ledger_windows JsDate.parse_utc_midnight 0 (fun _ => None)
                unreachable_ledger (fun _ => PaypalCharge.NaN)
                Outage.fetch_token Outage.fetch_page 0
                1717200000000 1717718400000
                (fun s _ => eq_refl) Hs Hf ltac:(lia) ltac:(lia)) as W.
  cbv zeta in W. rewrite Es, Ef in W.
  destruct W as [W _]. destruct (W ltac:(lia)) as (_ & _ & Hp & Ht).
  split; [exact Hs|]. split; [exact Hf|]. split; [exact Hp|exact Ht].
Defined.

(* ===================================================================== *)
(** * The wallet ledger, page by page *)
(* ===================================================================== *)

Section WalletPaging.
Import PaypalCharge.

Variable fetch_page : Z -> Z -> Z -> result (Response TransactionsPage).
Variables start finish : Z.

(** What the loop takes from the body of a page. *)
Definition page_details (data : TransactionsPage) : list PaypalTransactionDetail :=
  match transaction_details data with Some l => l | None => [] end.

Definition reported_total (data : TransactionsPage) : Z :=
  match total_pages data with
  | Some n => if n >? 0 then n else 1
  | None => 1
  end.

(** The listing answers the request for a page with a body. *)
Definition answers (page : Z) (data : TransactionsPage) : Prop :=
  exists response,
    fetch_page start finish page = Ok response
    /\ ok response = true /\ json response = Ok data.

(** The listing refuses the request for a page. *)
Definition refuses (page : Z) (status : Z) (body : string) : Prop :=
  exists response,
    fetch_page start finish page = Ok response
    /\ ok response = false /\ http_status response = status /\ text response = body.

Lemma fetch_pages_step (fuel : nat) (page totalPages : Z)
  (details : list PaypalTransactionDetail) (data : TransactionsPage) :
  page <= totalPages -> answers page data ->
  fetch_pages fetch_page (S fuel) start finish page totalPages details
  = fetch_pages fetch_page fuel start finish (page + 1) (reported_total data)
      (details ++ page_details data).
Proof.
  intros Hle (response & Hf & Hok & Hj). cbn [fetch_pages].
  apply Z.leb_le in Hle. rewrite Hle, Hf, Hok, Hj. reflexivity.
Qed.

(** While every page reports more pages than have been read, the loop
    goes on to the next one. *)
Lemma fetch_pages_prefix (pages : list TransactionsPage) :
  forall (fuel : nat) (page totalPages : Z) (details : list PaypalTransactionDetail),
    page <= totalPages ->
    (forall i data, nth_error pages i = Some data -> answers (page + Z.of_nat i) data) ->
    (forall i data, nth_error pages i = Some data ->
                    page + Z.of_nat i < reported_total data) ->
    exists totalPages',
      page + Z.of_nat (List.length pages) <= totalPages'
      /\ fetch_pages fetch_page (List.length pages + fuel) start finish page totalPages details
         = fetch_pages fetch_page fuel start finish
             (page + Z.of_nat (List.length pages)) totalPages'
             (details ++ List.concat (List.map page_details pages)).
Proof.
  induction pages as [|data pages IH]; intros fuel page totalPages details Hle Hans Hmore.
  - exists totalPages. cbn [List.length List.concat List.map Nat.add].
    rewrite app_nil_r, Z.add_0_r. split; [exact Hle|reflexivity].
  - pose proof (Hans 0%nat data eq_refl) as H0. rewrite Z.add_0_r in H0.
    pose proof (Hmore 0%nat data eq_refl) as M0. rewrite Z.add_0_r in M0.
    destruct (IH fuel (page + 1) (reported_total data) (details ++ page_details data))
      as (total' & Ht & Hrun).
    + lia.
    + intros i d Hi. replace (page + 1 + Z.of_nat i) with (page + Z.of_nat (S i)) by lia.
      now apply Hans.
    + intros i d Hi. replace (page + 1 + Z.of_nat i) with (page + Z.of_nat (S i)) by lia.
      now apply Hmore.
    + exists total'. cbn [List.length]. split; [lia|].
      change (S (List.length pages) + fuel)%nat with (S (List.length pages + fuel)).
      rewrite (fetch_pages_step _ _ _ _ data Hle H0), Hrun.
      cbn [List.map List.concat]. rewrite <- app_assoc.
      f_equal. lia.
Qed.

Lemma fetch_pages_all (pages : list TransactionsPage) (final : TransactionsPage)
  (fuel : nat) :
  (forall i data, nth_error (pages ++ [final]) i = Some data ->
                  answers (1 + Z.of_nat i) data) ->
  (forall i data, nth_error pages i = Some data -> 1 + Z.of_nat i < reported_total data) ->
  reported_total final <= 1 + Z.of_nat (List.length pages) ->
  (List.length pages < fuel)%nat ->
  fetch_pages fetch_page fuel start finish 1 1 []
  = Some (Ok (List.concat (List.map page_details (pages ++ [final])))).
Proof.
  intros Hans Hmore Hfinal Hfuel.
  destruct (fetch_pages_prefix pages (fuel - List.length pages) 1 1 [])
    as (total' & Ht & Hrun); [lia| |exact Hmore|].
  { intros i data Hi. apply Hans. rewrite nth_error_app1; [exact Hi|].
    apply nth_error_Some. congruence. }
  replace (List.length pages + (fuel - List.length pages))%nat with fuel in Hrun by lia.
  rewrite Hrun. cbn [app].
  destruct (fuel - List.length pages)%nat as [|rest] eqn:E; [lia|].
  assert (Hlast : answers (1 + Z.of_nat (List.length pages)) final).
  { apply Hans. rewrite nth_error_app2 by lia. now rewrite Nat.sub_diag. }
  rewrite (fetch_pages_step _ _ _ _ final Ht Hlast).
  rewrite List.map_app, List.concat_app. cbn [List.map List.concat]. rewrite app_nil_r.
  destruct rest; cbn [fetch_pages];
    (replace (1 + Z.of_nat (List.length pages) + 1 <=? reported_total final) with false
      by (symmetry; apply Z.leb_gt; lia)); reflexivity.
Qed.

Lemma fetch_pages_refused (pages : list TransactionsPage) (status : Z) (body : string)
  (fuel : nat) :
  (forall i data, nth_error pages i = Some data -> answers (1 + Z.of_nat i) data) ->
  (forall i data, nth_error pages i = Some data -> 1 + Z.of_nat i < reported_total data) ->
  refuses (1 + Z.of_nat (List.length pages)) status body ->
  (List.length pages < fuel)%nat ->
  fetch_pages fetch_page fuel start finish 1 1 []
  = Some (Throw ("Failed to fetch PayPal transactions: "
                 ++ Js.string_of_Z status ++ " " ++ body)).
Proof.
  intros Hans Hmore (response & Hf & Hok & Hst & Htx) Hfuel.
  destruct (fetch_pages_prefix pages (fuel - List.length pages) 1 1 [])
    as (total' & Ht & Hrun); [lia|exact Hans|exact Hmore|].
  replace (List.length pages + (fuel - List.length pages))%nat with fuel in Hrun by lia.
  rewrite Hrun.
  destruct (fuel - List.length pages)%nat as [|rest] eqn:E; [lia|].
  cbn [fetch_pages]. apply Z.leb_le in Ht. rewrite Ht, Hf, Hok, Hst, Htx. reflexivity.
Qed.

End WalletPaging.

(** X22. The wallet ledger is read page by page, and all or nothing.  With
    an access token, suppose the listing answers the requests for pages
    1, 2, ..., k with a body and each of these pages reports a total
    above its own number.  If it also answers page k + 1 and that page
    reports a total of at most k + 1 (a missing or non-positive total
    counts as 1), then, given fuel for k + 1 requests,
    [fetchPaypalTransactions] returns the transactions of pages 1 to
    k + 1 in that order, whatever later pages would hold, and
    [fetchPaypalCardInfo] maps exactly these.  If instead the listing
    refuses page k + 1, both throw the message with the status and the
    body of that response, and nothing of the k pages read so far is
    returned. *)
Theorem wallet_ledger_page_by_page
  (parseFloat : string -> PaypalCharge.number) (Date_parse : string -> option Z)
  (now : Z) (fetch_token : result (Response PaypalAuth.TokenBody))
  (fetch_page : Z -> Z -> Z -> result (Response PaypalCharge.TransactionsPage))
  (start finish : Z) (token : string)
  (pages : list PaypalCharge.TransactionsPage) (fuel : nat)
  (Htoken : PaypalAuth.getPaypalAccessToken fetch_token = Ok (Some token))
  (Hanswers : forall i data, nth_error pages i = Some data ->
                answers fetch_page start finish (1 + Z.of_nat i) data)
  (Hmore : forall i data, nth_error pages i = Some data ->
             1 + Z.of_nat i < reported_total data)
  (Hfuel : (List.length pages < fuel)%nat) :
  (forall final,
     answers fetch_page start finish (1 + Z.of_nat (List.length pages)) final ->
     reported_total final <= 1 + Z.of_nat (List.length pages) ->
     PaypalCharge.fetchPaypalTransactions fetch_token fetch_page fuel start finish
     = Some (Ok (List.concat (List.map page_details (pages ++ [final]))))
     /\ PaypalCharge.fetchPaypalCardInfo parseFloat Date_parse now fetch_token fetch_page
          fuel start finish
        = Some (PaypalCharge.map_records parseFloat Date_parse now
                  (List.concat (List.map page_details (pages ++ [final])))))
  /\ (forall status body,
        refuses fetch_page start finish (1 + Z.of_nat (List.length pages)) status body ->
        PaypalCharge.fetchPaypalTransactions fetch_token fetch_page fuel start finish
        = Some (Throw ("Failed to fetch PayPal transactions: "
                       ++ Js.string_of_Z status ++ " " ++ body))
        /\ PaypalCharge.fetchPaypalCardInfo parseFloat Date_parse now fetch_token
             fetch_page fuel start finish
           = Some (Throw ("Failed to fetch PayPal transactions: "
                          ++ Js.string_of_Z status ++ " " ++ body))).
Proof.
  split.
  - intros final Hfinal Htotal.
    assert (Hrun : PaypalCharge.fetchPaypalTransactions fetch_token fetch_page
                     fuel start finish
                   = Some (Ok (List.concat (List.map page_details (pages ++ [final]))))).
    { unfold PaypalCharge.fetchPaypalTransactions. rewrite Htoken.
      apply fetch_pages_all; try assumption.
      intros i data Hi. destruct (Nat.lt_ge_cases i (List.length pages)) as [Hlt|Hge].
      - rewrite nth_error_app1 in Hi by exact Hlt. now apply Hanswers.
      - rewrite nth_error_app2 in Hi by exact Hge.
        destruct (i - List.length pages)%nat as [|j] eqn:E.
        + inversion Hi; subst data.
          replace i with (List.length pages) by lia. exact Hfinal.
        + destruct j; discriminate. }
    split; [exact Hrun|].
    unfold PaypalCharge.fetchPaypalCardInfo. now rewrite Hrun.
  - intros status body Hrefused.
    assert (Hrun : PaypalCharge.fetchPaypalTransactions fetch_token fetch_page
                     fuel start finish
                   = Some (Throw ("Failed to fetch PayPal transactions: "
                                  ++ Js.string_of_Z status ++ " " ++ body))).
    { unfold PaypalCharge.fetchPaypalTransactions. rewrite Htoken.
      now apply fetch_pages_refused with (pages := pages). }
    split; [exact Hrun|].
    unfold PaypalCharge.fetchPaypalCardInfo. now rewrite Hrun.
Qed.

(** A listing of two pages: the first holds the transaction of
    [WalletExample] and reports two pages, the second is empty; any other
    page is refused. *)
Module TwoPages.
Import PaypalCharge.

Definition first : TransactionsPage :=
  Build_TransactionsPage (Some [WalletExample.detail]) (Some 2).

Definition second : TransactionsPage := Build_TransactionsPage None (Some 2).

Definition fetch_page (start finish page : Z) : result (Response TransactionsPage) :=
  if page =? 1 then Ok (Build_Response _ true 200 "" (Ok first))
  else if page =? 2 then Ok (Build_Response _ true 200 "" (Ok second))
  else Ok (Build_Response _ false 400 "INVALID_REQUEST" (Throw "no body")).

End TwoPages.

Lemma wallet_ledger_page_by_page_witness :
  PaypalCharge.fetchPaypalTransactions WalletExample.fetch_token TwoPages.fetch_page
    2 1717200000000 1717977600000
  = Some (Ok [WalletExample.detail])
  /\ PaypalCharge.fetchPaypalCardInfo WalletExample.parseFloat WalletExample.Date_parse
       WalletExample.now WalletExample.fetch_token TwoPages.fetch_page
       2 1717200000000 1717977600000
     = Some (Ok [WalletExample.record]).
Proof.
  assert (Htoken : PaypalAuth.getPaypalAccessToken WalletExample.fetch_token
                   = Ok (Some "token"%string)) by reflexivity.
  assert (Hanswers : forall i data, nth_error [TwoPages.first] i = Some data ->
            answers TwoPages.fetch_page 1717200000000 1717977600000
              (1 + Z.of_nat i) data).
  { intros [|[|i]] data Hi; try discriminate. inversion Hi; subst data.
    eexists. split; [reflexivity|]. split; reflexivity. }
  assert (Hmore : forall i data, nth_error [TwoPages.first] i = Some data ->
            1 + Z.of_nat i < reported_total data).
  { intros [|[|i]] data Hi; try discriminate. inversion Hi; subst data.
    reflexivity. }
  assert (Hfuel : (List.length [TwoPages.first] < 2)%nat) by (cbn; lia).
  assert (Hfinal : answers TwoPages.fetch_page 1717200000000 1717977600000
                     (1 + Z.of_nat (List.length [TwoPages.first])) TwoPages.second).
  { eexists. split; [reflexivity|]. split; reflexivity. }
  assert (Htotal : reported_total TwoPages.second
                   <= 1 + Z.of_nat (List.length [TwoPages.first])) by (cbn; lia).
  exact (proj1 (wallet_ledger_page_by_page WalletExample.parseFloat
                  WalletExample.Date_parse WalletExample.now WalletExample.fetch_token
                  TwoPages.fetch_page 1717200000000 1717977600000 "token"
                  [TwoPages.first] 2 Htoken Hanswers Hmore Hfuel)
           TwoPages.second Hfinal Htotal).
Defined.

Section WalletAmounts.
Import PaypalCharge.

Variable parseFloat : string -> number.






End WalletAmounts.


(* ===================================================================== *)
(** * Purchases and their sessions *)
(* ===================================================================== *)

Section SessionKeys.

Fixpoint chars_all (p : ascii -> bool) (s : string) : bool :=
  match s with
  | EmptyString => true
  | String c rest => p c && chars_all p rest
  end.

(** A character of a number: neither the separator of the key nor a sign. *)
Definition plain (c : ascii) : bool :=
  negb (Ascii.eqb c ".") && negb (Ascii.eqb c "-").

Definition not_dot (c : ascii) : bool := negb (Ascii.eqb c ".").

Lemma string_of_uint_plain (d : Decimal.uint) :
  chars_all plain (NilEmpty.string_of_uint d) = true.
Proof. induction d; cbn; auto. Qed.

Lemma NilZero_plain (d : Decimal.uint) :
  chars_all plain (NilZero.string_of_uint d) = true.
Proof. destruct d; try reflexivity; apply (string_of_uint_plain (_ _)). Qed.

Lemma chars_all_weaken (p q : ascii -> bool) (s : string) :
  (forall c, p c = true -> q c = true) -> chars_all p s = true -> chars_all q s = true.
Proof.
  intros H. induction s as [|c s IH]; cbn; [reflexivity|].
  rewrite !andb_true_iff. intros [Hc Hs]. auto.
Qed.

Lemma N_to_uint_nonnil (n : N) : N.to_uint n <> Decimal.Nil.
Proof.
  destruct n as [|p]; [discriminate|]. apply DecimalPos.Unsigned.to_uint_nonnil.
Qed.

Lemma string_of_N_inj (a b : N) :
  NilZero.string_of_uint (N.to_uint a) = NilZero.string_of_uint (N.to_uint b) -> a = b.
Proof.
  intros H. apply DecimalN.Unsigned.to_uint_inj.
  assert (E : Some (N.to_uint a) = Some (N.to_uint b)).
  { rewrite <- (NilZero.usu _ (N_to_uint_nonnil a)), <- (NilZero.usu _ (N_to_uint_nonnil b)).
    now rewrite H. }
  now inversion E.
Qed.

Lemma string_of_Z_not_dot (n : Z) : chars_all not_dot (Js.string_of_Z n) = true.
Proof.
  unfold Js.string_of_Z. destruct (n <? 0).
  - cbn. apply chars_all_weaken with (p := plain); [|apply NilZero_plain].
    intros c. unfold plain, not_dot. rewrite andb_true_iff. tauto.
  - apply chars_all_weaken with (p := plain); [|apply NilZero_plain].
    intros c. unfold plain, not_dot. rewrite andb_true_iff. tauto.
Qed.

Lemma string_of_Z_inj (a b : Z) : Js.string_of_Z a = Js.string_of_Z b -> a = b.
Proof.
  unfold Js.string_of_Z.
  destruct (Z.ltb_spec a 0) as [Ha|Ha], (Z.ltb_spec b 0) as [Hb|Hb]; intros H.
  - cbn in H. inversion H as [E]. apply string_of_N_inj in E. lia.
  - exfalso. pose proof (NilZero_plain (N.to_uint (Z.to_N b))) as P.
    rewrite <- H in P. cbn in P. discriminate.
  - exfalso. pose proof (NilZero_plain (N.to_uint (Z.to_N a))) as P.
    rewrite H in P. cbn in P. discriminate.
  - apply string_of_N_inj in H. lia.
Qed.

(** The last dot of a key separates the user from the session. *)
Lemma key_split (s1 : string) :
  forall s2 t1 t2,
    chars_all not_dot t1 = true -> chars_all not_dot t2 = true ->
    (s1 ++ "." ++ t1 = s2 ++ "." ++ t2)%string -> s1 = s2 /\ t1 = t2.
Proof.
  induction s1 as [|c s1 IH]; intros [|c2 s2] t1 t2 H1 H2 E; cbn in E.
  - inversion E. auto.
  - exfalso. inversion E as [[Hc Ht]]. subst t1.
    clear - H1. induction s2 as [|x s2 IH]; cbn in H1.
    + discriminate.
    + apply andb_true_iff in H1. tauto.
  - exfalso. inversion E as [[Hc Ht]]. subst t2.
    clear - H2. induction s1 as [|x s1 IH']; cbn in H2.
    + discriminate.
    + apply andb_true_iff in H2. tauto.
  - inversion E as [[Hc Ht]]. destruct (IH s2 t1 t2 H1 H2 Ht) as [-> ->]. auto.
Qed.

Lemma session_key_of_inj (u u' : string) (a b : Z) :
  PurchaseJoin.session_key_of u (Some a) = PurchaseJoin.session_key_of u' (Some b) ->
  u = u' /\ a = b.
Proof.
  unfold PurchaseJoin.session_key_of. intros H. inversion H as [E].
  destruct (key_split u u' _ _ (string_of_Z_not_dot a) (string_of_Z_not_dot b) E)
    as [-> Hs].
  split; [reflexivity|now apply string_of_Z_inj].
Qed.

End SessionKeys.

Section JoinFacts.

Lemma filter_all {A : Type} (f : A -> bool) (l : list A) :
  (forall x, In x l -> f x = true) -> filter f l = l.
Proof.
  induction l as [|x l IH]; intros H; cbn; [reflexivity|].
  rewrite (H x) by now left. f_equal. apply IH. intros y Hy. apply H. now right.
Qed.

Lemma filter_none {A : Type} (f : A -> bool) (l : list A) :
  (forall x, In x l -> f x = false) -> filter f l = [].
Proof.
  induction l as [|x l IH]; intros H; cbn; [reflexivity|].
  rewrite (H x) by now left. apply IH. intros y Hy. apply H. now right.
Qed.

(** Among the rows made from distinct keys, those that match one key are
    the rows made from it. *)
Lemma filter_flat_map_unique {K R : Type} (f : K -> list R) (m : R -> bool) (k0 : K)
  (keys : list K) :
  NoDup keys ->
  (forall k r, In r (f k) -> m r = true -> k = k0) ->
  (forall r, In r (f k0) -> m r = true) ->
  (In k0 keys -> filter m (flat_map f keys) = f k0)
  /\ (~ In k0 keys -> filter m (flat_map f keys) = []).
Proof.
  intros Hnd Honly Hall.
  induction keys as [|k keys IH]; cbn [flat_map].
  - split; [intros []|reflexivity].
  - inversion Hnd as [|? ? Hnot Hnd']; subst.
    destruct (IH Hnd') as [IHin IHout].
    rewrite filter_app. split.
    + intros [->|Hin].
      * rewrite (filter_all _ _ Hall), (IHout Hnot). apply app_nil_r.
      * assert (Hk : k <> k0) by (intros ->; contradiction).
        rewrite (filter_none m (f k)), (IHin Hin); [reflexivity|].
        intros r Hr. destruct (m r) eqn:E; [|reflexivity].
        exfalso. apply Hk. now apply (Honly k r).
    + intros Hout.
      rewrite IHout by (intros H; apply Hout; now right).
      rewrite (filter_none m (f k)); [reflexivity|].
      intros r Hr. destruct (m r) eqn:E; [|reflexivity].
      exfalso. apply Hout. left. now apply (Honly k r).
Qed.

Lemma fold_max_ge (l : list Z) : forall a, a <= fold_left Z.max l a.
Proof.
  induction l as [|x l IH]; intros a; cbn; [lia|].
  specialize (IH (Z.max a x)). lia.
Qed.

Lemma fold_max_upper (l : list Z) : forall a x, In x l -> x <= fold_left Z.max l a.
Proof.
  induction l as [|y l IH]; intros a x Hx; cbn; [destruct Hx|].
  destruct Hx as [->|Hx].
  - pose proof (fold_max_ge l (Z.max a x)). lia.
  - now apply IH.
Qed.

Lemma countif_le (name : string) (events : list SessionsQuery.Event) :
  0 <= PurchaseJoin.countif name events <= Z.of_nat (List.length events).
Proof.
  unfold PurchaseJoin.countif.
  pose proof (filter_length_le
                (fun e => String.eqb (SessionsQuery.raw_event_name e) name) events).
  lia.
Qed.

Lemma countif_In (name : string) (events : list SessionsQuery.Event)
  (e : SessionsQuery.Event) :
  In e events -> SessionsQuery.raw_event_name e = name ->
  1 <= PurchaseJoin.countif name events.
Proof.
  intros Hin Hname. unfold PurchaseJoin.countif.
  assert (H : In e (filter (fun e => String.eqb (SessionsQuery.raw_event_name e) name)
                      events)).
  { apply filter_In. split; [exact Hin|]. now apply String.eqb_eq. }
  destruct (filter _ events); [destruct H|]. cbn [List.length]. lia.
Qed.

Lemma countif_disjoint (a b : string) (events : list SessionsQuery.Event) :
  a <> b ->
  PurchaseJoin.countif a events + PurchaseJoin.countif b events
  <= Z.of_nat (List.length events).
Proof.
  intros Hab. unfold PurchaseJoin.countif.
  induction events as [|e events IH]; cbn [filter List.length]; [lia|].
  destruct (String.eqb (SessionsQuery.raw_event_name e) a) eqn:Ea,
           (String.eqb (SessionsQuery.raw_event_name e) b) eqn:Eb;
    cbn [List.length]; try lia.
  apply String.eqb_eq in Ea, Eb. congruence.
Qed.

End JoinFacts.

Section PurchasesAndSessions.
Import PurchaseJoin.

Variables startDate endDate : option Z.
Variable events : list SessionsQuery.Event.

(** The source row that the statement makes of a purchase event. *)
Definition source_row (e : SessionsQuery.Event) : SourceRow :=
  Build_SourceRow
    (Build_PurchaseRow
       (SessionsQuery.param_string "transaction_id" e)
       (SessionsQuery.raw_user_pseudo_id e)
       (SessionsQuery.param_int "ga_session_id" e)
       (SessionsQuery.event_timestamp e)
       (day_tz e))
    (session_key_of (SessionsQuery.raw_user_pseudo_id e)
       (SessionsQuery.param_int "ga_session_id" e)).

(** The purchase events that reach the result: in the window and with a
    transaction id. *)
Definition recorded (e : SessionsQuery.Event) : bool :=
  String.eqb (SessionsQuery.raw_event_name e) "purchase"
  && in_window startDate endDate (day_tz e)
  && SessionsQuery.is_some (SessionsQuery.param_string "transaction_id" e).

Lemma filter_map_swap {A B : Type} (f : A -> B) (p : B -> bool) (l : list A) :
  filter p (List.map f l) = List.map f (filter (fun x => p (f x)) l).
Proof.
  induction l as [|x l IH]; cbn; [reflexivity|].
  destruct (p (f x)); cbn; now rewrite IH.
Qed.

Lemma filter_filter {A : Type} (p q : A -> bool) (l : list A) :
  filter p (filter q l) = filter (fun x => q x && p x) l.
Proof.
  induction l as [|x l IH]; cbn; [reflexivity|].
  destruct (q x); cbn; [destruct (p x); now rewrite IH|exact IH].
Qed.

Lemma source_events :
  source startDate endDate events = List.map source_row (filter recorded events).
Proof.
  unfold source, purchases. rewrite filter_map_swap, filter_filter, List.map_map.
  reflexivity.
Qed.

Definition rows_of (k : string * option Z) : list SessionMetrics :=
  match snd k with
  | Some _ =>
      match session_metrics (fst k) (snd k)
              (session_events (fst k) (snd k)
                 (events_in_window startDate endDate events)) with
      | Some row => [row]
      | None => []
      end
  | None => []
  end.

Lemma sessions_final_rows :
  sessions_final startDate endDate events
  = flat_map rows_of
      (SessionsQuery.session_keys
         (SessionsQuery.events_base (events_in_window startDate endDate events))).
Proof. reflexivity. Qed.

Lemma session_metrics_columns (user : string) (session : option Z)
  (group : list SessionsQuery.Event) (row : SessionMetrics) :
  session_metrics user session group = Some row ->
  sm_session_key row = session_key_of user session
  /\ sm_user_pseudo_id row = user /\ sm_ga_session_id row = session.
Proof.
  destruct group as [|first rest]; [discriminate|].
  intros H. inversion H. cbn. auto.
Qed.

(** A purchase event in the window belongs to its own session. *)
Lemma recorded_in_session (e : SessionsQuery.Event) :
  In e events -> recorded e = true ->
  In e (session_events (SessionsQuery.raw_user_pseudo_id e)
          (SessionsQuery.param_int "ga_session_id" e)
          (events_in_window startDate endDate events)).
Proof.
  intros Hin Hrec. unfold recorded in Hrec.
  apply andb_true_iff in Hrec. destruct Hrec as [Hrec _].
  apply andb_true_iff in Hrec. destruct Hrec as [_ Hwin].
  unfold session_events, events_in_window.
  apply filter_In. split; [apply filter_In; auto|].
  now apply same_session_iff.
Qed.

(** The sessions that a source row joins: none without a session id,
    else the one row of its own session. *)
Lemma joined_sessions (e : SessionsQuery.Event) :
  In e events -> recorded e = true ->
  match SessionsQuery.param_int "ga_session_id" e with
  | None =>
      filter (on_session_key (source_row e)) (sessions_final startDate endDate events) = []
  | Some id =>
      exists row,
        session_metrics (SessionsQuery.raw_user_pseudo_id e) (Some id)
          (session_events (SessionsQuery.raw_user_pseudo_id e) (Some id)
             (events_in_window startDate endDate events)) = Some row
        /\ filter (on_session_key (source_row e))
             (sessions_final startDate endDate events) = [row]
  end.
Proof.
  intros Hin Hrec. pose proof (recorded_in_session e Hin Hrec) as Hgroup.
  destruct (SessionsQuery.param_int "ga_session_id" e) as [id|] eqn:Hid.
  - set (user := SessionsQuery.raw_user_pseudo_id e) in *.
    set (group := session_events user (Some id)
                    (events_in_window startDate endDate events)) in *.
    destruct (session_metrics user (Some id) group) as [row|] eqn:Hrow.
    2:{ destruct group; [destruct Hgroup|discriminate]. }
    exists row. split; [reflexivity|].
    assert (Hrows : rows_of (user, Some id) = [row]).
    { unfold rows_of. cbn [fst snd]. fold group. now rewrite Hrow. }
    rewrite sessions_final_rows, <- Hrows.
    apply (filter_flat_map_unique rows_of (on_session_key (source_row e)) (user, Some id)).
    + apply session_keys_NoDup.
    + intros [u [s|]] r Hr Hm; unfold rows_of in Hr; cbn [fst snd] in Hr;
        [|destruct Hr].
      destruct (session_metrics u (Some s) _) as [row'|] eqn:Hrow'; [|destruct Hr].
      destruct Hr as [<-|[]].
      destruct (session_metrics_columns _ _ _ _ Hrow') as (Hk & _ & _).
      unfold on_session_key, source_row in Hm. cbn [session_key] in Hm.
      rewrite Hk, Hid in Hm. fold user in Hm.
      change (session_key_of user (Some id))
        with (Some (user ++ "." ++ Js.string_of_Z id)%string) in Hm.
      change (session_key_of u (Some s))
        with (Some (u ++ "." ++ Js.string_of_Z s)%string) in Hm.
      apply String.eqb_eq in Hm.
      destruct (session_key_of_inj user u id s) as [-> ->]; [|reflexivity].
      unfold session_key_of. now rewrite Hm.
    + intros r Hr. rewrite Hrows in Hr. destruct Hr as [<-|[]].
      destruct (session_metrics_columns _ _ _ _ Hrow) as (Hk & _ & _).
      unfold on_session_key, source_row. cbn [session_key].
      rewrite Hk, Hid. fold user. cbn [session_key_of]. apply String.eqb_refl.
    + apply session_keys_In. exists (SessionsQuery.events_base_row e). split.
      * unfold SessionsQuery.events_base. apply in_map.
        unfold group, session_events in Hgroup. apply filter_In in Hgroup. tauto.
      * cbn. now rewrite Hid.
  - apply filter_none. intros row _. unfold on_session_key, source_row.
    cbn [session_key]. now rewrite Hid.
Qed.

(** Each source row gives one row of the join. *)
Lemma left_join_one_each (recorded_events : list SessionsQuery.Event) :
  (forall e, In e recorded_events -> In e events /\ recorded e = true) ->
  left_join (List.map source_row recorded_events)
    (sessions_final startDate endDate events)
  = List.map
      (fun e =>
         (source_row e,
          match SessionsQuery.param_int "ga_session_id" e with
          | Some id =>
              session_metrics (SessionsQuery.raw_user_pseudo_id e) (Some id)
                (session_events (SessionsQuery.raw_user_pseudo_id e) (Some id)
                   (events_in_window startDate endDate events))
          | None => None
          end))
      recorded_events.
Proof.
  induction recorded_events as [|e rest IH]; intros Hall; [reflexivity|].
  cbn [List.map left_join flat_map].
  change (flat_map _ (List.map source_row rest))
    with (left_join (List.map source_row rest) (sessions_final startDate endDate events)).
  rewrite IH by (intros x Hx; apply Hall; now right).
  destruct (Hall e (or_introl eq_refl)) as [Hin Hrec].
  pose proof (joined_sessions e Hin Hrec) as Hj.
  destruct (SessionsQuery.param_int "ga_session_id" e) as [id|].
  - destruct Hj as (row & -> & ->). reflexivity.
  - rewrite Hj. reflexivity.
Qed.

Lemma selected_rows :
  selected startDate endDate events
  = List.map
      (fun e =>
         (source_row e,
          match SessionsQuery.param_int "ga_session_id" e with
          | Some id =>
              session_metrics (SessionsQuery.raw_user_pseudo_id e) (Some id)
                (session_events (SessionsQuery.raw_user_pseudo_id e) (Some id)
                   (events_in_window startDate endDate events))
          | None => None
          end))
      (filter recorded events).
Proof.
  unfold selected. rewrite source_events, left_join_one_each.
  2:{ intros e He. apply filter_In in He. exact He. }
  rewrite filter_map_swap. f_equal. apply filter_all.
  intros e He. apply filter_In in He. destruct He as [_ Hrec].
  unfold recorded in Hrec. cbn [fst source_row purchase event_date].
  apply andb_true_iff in Hrec. destruct Hrec as [Hrec _].
  apply andb_true_iff in Hrec. tauto.
Qed.

(** What the metrics of a group say about an event of the group. *)
Lemma session_metrics_of_event (user : string) (session : option Z)
  (group : list SessionsQuery.Event) (row : SessionMetrics) (e : SessionsQuery.Event) :
  session_metrics user session group = Some row -> In e group ->
  session_start_ts row <= SessionsQuery.event_timestamp e <= session_end_ts row
  /\ events_count row = Z.of_nat (List.length group)
  /\ pageviews_count row = countif "page_view" group
  /\ transactions_count row = countif "purchase" group
  /\ conversion_flag row = (0 <? countif "purchase" group)
  /\ has_session_start row = (0 <? countif "session_start" group)
  /\ is_engaged_session row
     = (10000 <=? engagement_time_msec_sum row) || (2 <=? pageviews_count row)
  /\ bounce_like row = (pageviews_count row =? 1) && negb (is_engaged_session row)
  /\ session_duration_sec row = (session_end_ts row - session_start_ts row) # 1000000.
Proof.
  destruct group as [|first rest]; [discriminate|].
  intros H Hin. inversion H; subst row; clear H.
  cbn [session_start_ts session_end_ts events_count pageviews_count transactions_count
       conversion_flag has_session_start is_engaged_session bounce_like
       session_duration_sec engagement_time_msec_sum].
  split; [|repeat split; reflexivity].
  destruct Hin as [<-|Hin].
  - split; [apply fold_min_le|apply fold_max_ge].
  - assert (Ht : In (SessionsQuery.event_timestamp e)
                   (List.map SessionsQuery.event_timestamp rest)) by now apply in_map.
    split; [now apply fold_min_lower|now apply fold_max_upper].
Qed.

End PurchasesAndSessions.

(** X24. The statement selects one row per recorded purchase.  The rows
    selected by the purchase-sessions statement are, in the order of the
    table, those of the purchase events whose day in Asia/Makassar lies
    in the window and that carry a transaction id, one row each: the
    left join neither drops a purchase nor repeats one, because a session
    key stands for one pair of user and session id only.  A purchase
    without a session id has NULL in every session column, and a
    purchase with one carries the metrics of its own session. *)
Theorem selected_one_row_per_purchase
  (startDate endDate : option Z) (events : list SessionsQuery.Event) :
  List.map fst (PurchaseJoin.selected startDate endDate events)
  = PurchaseJoin.source startDate endDate events
  /\ PurchaseJoin.source startDate endDate events
     = List.map source_row (filter (recorded startDate endDate) events)
  /\ List.map snd (PurchaseJoin.selected startDate endDate events)
     = List.map
         (fun e =>
            match SessionsQuery.param_int "ga_session_id" e with
            | Some id =>
                PurchaseJoin.session_metrics (SessionsQuery.raw_user_pseudo_id e) (Some id)
                  (PurchaseJoin.session_events (SessionsQuery.raw_user_pseudo_id e)
                     (Some id)
                     (PurchaseJoin.events_in_window startDate endDate events))
            | None => None
            end)
         (filter (recorded startDate endDate) events)
  /\ (forall u u' a b,
        PurchaseJoin.session_key_of u (Some a) = PurchaseJoin.session_key_of u' (Some b) ->
        u = u' /\ a = b).
Proof.
  rewrite selected_rows, source_events, !List.map_map. cbn [fst snd].
  split; [reflexivity|]. split; [reflexivity|]. split; [reflexivity|].
  apply session_key_of_inj.
Qed.

(** X25. A purchase is joined to the session it was made in.  A selected
    row comes from a purchase with a transaction id and a day in the
    window.  Without a session id its session columns are NULL.  With
    one, they are the metrics of the events in the window that have the
    purchase's user and session id: the session starts no later and ends
    no earlier than the purchase, its duration is not negative, it counts
    at least one transaction and is flagged as a conversion, its page
    views and transactions together do not exceed its events, and a
    session that is bounce-like has one page view and is not engaged. *)
Theorem purchase_joins_its_session
  (startDate endDate : option Z) (events : list SessionsQuery.Event)
  (sr : PurchaseJoin.SourceRow) (o : option PurchaseJoin.SessionMetrics)
  (Hrow : In (sr, o) (PurchaseJoin.selected startDate endDate events)) :
  let p := PurchaseJoin.purchase sr in
  let group :=
    PurchaseJoin.session_events (PurchaseJoin.user_pseudo_id p)
      (PurchaseJoin.ga_session_id p)
      (PurchaseJoin.events_in_window startDate endDate events) in
  PurchaseJoin.transaction_id p <> None
  /\ PurchaseJoin.in_window startDate endDate (PurchaseJoin.event_date p) = true
  /\ PurchaseJoin.session_key sr
     = PurchaseJoin.session_key_of (PurchaseJoin.user_pseudo_id p)
         (PurchaseJoin.ga_session_id p)
  /\ match PurchaseJoin.ga_session_id p with
     | None => o = None
     | Some id =>
         exists row,
           o = Some row
           /\ PurchaseJoin.session_metrics (PurchaseJoin.user_pseudo_id p) (Some id) group
              = Some row
           /\ PurchaseJoin.sm_session_key row = PurchaseJoin.session_key sr
           /\ PurchaseJoin.session_start_ts row <= PurchaseJoin.purchase_ts p
              <= PurchaseJoin.session_end_ts row
           /\ (0 <= PurchaseJoin.session_duration_sec row)%Q
           /\ 1 <= PurchaseJoin.transactions_count row
           /\ PurchaseJoin.conversion_flag row = true
           /\ PurchaseJoin.pageviews_count row + PurchaseJoin.transactions_count row
              <= PurchaseJoin.events_count row
           /\ PurchaseJoin.events_count row = Z.of_nat (List.length group)
           /\ (PurchaseJoin.bounce_like row = true ->
               PurchaseJoin.is_engaged_session row = false
               /\ PurchaseJoin.pageviews_count row = 1)
     end.
Proof.
  rewrite selected_rows in Hrow. apply in_map_iff in Hrow.
  destruct Hrow as (e & Heq & He). apply filter_In in He. destruct He as [Hin Hrec].
  inversion Heq as [[Hsr Ho]]. clear Heq. cbv zeta.
  cbn [PurchaseJoin.purchase source_row PurchaseJoin.transaction_id
       PurchaseJoin.user_pseudo_id PurchaseJoin.ga_session_id PurchaseJoin.purchase_ts
       PurchaseJoin.event_date PurchaseJoin.session_key].
  pose proof (recorded_in_session startDate endDate events e Hin Hrec) as Hgroup.
  pose proof (joined_sessions startDate endDate events e Hin Hrec) as Hj.
  pose proof Hrec as Hrec'. unfold recorded in Hrec'.
  apply andb_true_iff in Hrec'. destruct Hrec' as [Hrec' Htx].
  apply andb_true_iff in Hrec'. destruct Hrec' as [Hname Hwin].
  apply String.eqb_eq in Hname.
  split; [destruct (SessionsQuery.param_string "transaction_id" e); [discriminate|
          discriminate Htx]|].
  split; [exact Hwin|]. split; [reflexivity|].
  destruct (SessionsQuery.param_int "ga_session_id" e) as [id|]; [|reflexivity].
  destruct Hj as (row & Hmetrics & _). exists row.
  split; [now rewrite Hmetrics|]. split; [exact Hmetrics|].
  destruct (session_metrics_columns _ _ _ _ Hmetrics) as (Hk & _ & _).
  destruct (session_metrics_of_event _ _ _ _ e Hmetrics Hgroup)
    as (Hts & Hev & Hpv & Htr & Hconv & _ & Heng & Hbounce & Hdur).
  pose proof (countif_In "purchase" _ e Hgroup Hname) as Hone.
  split; [exact Hk|]. split; [exact Hts|].
  split; [rewrite Hdur; unfold Qle; cbn [Qnum Qden]; lia|].
  split; [now rewrite Htr|].
  split; [rewrite Hconv; apply Z.ltb_lt; lia|].
  split; [rewrite Hpv, Htr, Hev; apply countif_disjoint; discriminate|].
  split; [exact Hev|].
  intros Hb. rewrite Hbounce in Hb. apply andb_true_iff in Hb.
  destruct Hb as [Hp He]. apply Z.eqb_eq in Hp. apply negb_true_iff in He. auto.
Qed.

(** A visit of three events that ends in a purchase, and a purchase that
    carries no session id. *)
Module Checkout.
Import SessionsQuery.

Definition events : list Event :=
  [ Build_Event 1717977600000000 "session_start" "u.1"
      [("ga_session_id", number 77)]%string;
    Build_Event 1717977601000000 "page_view" "u.1"
      [("ga_session_id", number 77); ("engagement_time_msec", number 4000)]%string;
    Build_Event 1717977660000000 "purchase" "u.1"
      [("ga_session_id", number 77); ("transaction_id", text "T-1")]%string;
    Build_Event 1717977700000000 "purchase" "u.2"
      [("transaction_id", text "T-2")]%string ].

Definition visit : PurchaseJoin.SessionMetrics :=
  PurchaseJoin.Build_SessionMetrics (Some "u.1.77"%string) "u.1" (Some 77)
    1717977600000000 1717977660000000 (60000000 # 1000000)
    1 3 4000 false true 1 true true.

Definition row : PurchaseJoin.SourceRow * option PurchaseJoin.SessionMetrics :=
  (PurchaseJoin.Build_SourceRow
     (PurchaseJoin.Build_PurchaseRow (Some "T-1"%string) "u.1" (Some 77)
        1717977660000000 19884)
     (Some "u.1.77"%string),
   Some visit).

End Checkout.

Lemma purchase_joins_its_session_witness :
  In Checkout.row (PurchaseJoin.selected None None Checkout.events)
  /\ exists row,
       snd Checkout.row = Some row
       /\ PurchaseJoin.session_start_ts row <= 1717977660000000
          <= PurchaseJoin.session_end_ts row
       /\ PurchaseJoin.conversion_flag row = true.
Proof.
  assert (H : In Checkout.row (PurchaseJoin.selected None None Checkout.events))
    by (vm_compute; left; reflexivity).
  split; [exact H|].
  destruct (proj2 (proj2 (proj2
              (purchase_joins_its_session None None Checkout.events
                 (fst Checkout.row) (snd Checkout.row) H))))
    as (row & Ho & _ & _ & Hts & _ & _ & Hconv & _).
  exists row. split; [exact Ho|]. split; [exact Hts|exact Hconv].
Defined.

(* ===================================================================== *)
(** * The offset of a time-zone name *)
(* ===================================================================== *)

Section OffsetNames.
Import TimezoneInfo.

Definition sign_chars : list ascii := ["+"; "-"]%char.

Definition digit_chars : list ascii :=
  ["0"; "1"; "2"; "3"; "4"; "5"; "6"; "7"; "8"; "9"]%char.

(** The strings of two digits. *)
Definition digit_pairs : list string :=
  flat_map (fun a => List.map (fun b => String a (String b EmptyString)) digit_chars)
    digit_chars.

Lemma is_digit_In (c : ascii) : Str.is_digit c = true -> In c digit_chars.
Proof.
  destruct c as [[] [] [] [] [] [] [] []]; intros H; vm_compute in H;
    try discriminate H; cbn; tauto.
Qed.

Lemma is_sign_In (c : ascii) : is_sign c = true -> In c sign_chars.
Proof.
  unfold is_sign. rewrite orb_true_iff, !Ascii.eqb_eq. cbn. intuition.
Qed.

Lemma digit_pairs_In (a b : ascii) :
  Str.is_digit a = true -> Str.is_digit b = true ->
  In (String a (String b EmptyString)) digit_pairs.
Proof.
  intros Ha Hb. unfold digit_pairs. apply in_flat_map. exists a.
  split; [now apply is_digit_In|]. apply in_map_iff. exists b.
  split; [reflexivity|now apply is_digit_In].
Qed.

Lemma pair_value (a b : ascii) :
  Str.is_digit a = true -> Str.is_digit b = true ->
  Str.digits_value 0 (String a (String b EmptyString))
  = 10 * Str.digit_value a + Str.digit_value b
  /\ 0 <= Str.digit_value a <= 9 /\ 0 <= Str.digit_value b <= 9.
Proof.
  intros Ha Hb. rewrite !digits_value_cons, digits_value_nil.
  destruct (digit_char_digit_value a Ha) as [_ Ra].
  destruct (digit_char_digit_value b Hb) as [_ Rb].
  split; [lia|split; assumption].
Qed.

(** The second group of the pattern, read off what follows the hours. *)
Definition minutes_group (rest : string) : option string :=
  match rest with
  | String c after => if Ascii.eqb c ":" then two_digits after else two_digits rest
  | EmptyString => None
  end.

(** Two digits, or nothing. *)
Definition digits_or_none (m2 : option string) : Prop :=
  m2 = None
  \/ exists a b, m2 = Some (String a (String b EmptyString))
                 /\ Str.is_digit a = true /\ Str.is_digit b = true.

Lemma two_digits_shape (s : string) : digits_or_none (two_digits s).
Proof.
  unfold two_digits. destruct s as [|a [|b rest]]; try (now left).
  destruct (Str.is_digit a) eqn:Ha, (Str.is_digit b) eqn:Hb; try (now left).
  right. exists a, b. auto.
Qed.

Lemma minutes_group_shape (rest : string) : digits_or_none (minutes_group rest).
Proof.
  unfold minutes_group. destruct rest as [|c after]; [now left|].
  destruct (Ascii.eqb c ":"); apply two_digits_shape.
Qed.

(** What the two groups of a match are: a sign and two digits, and two
    digits or nothing. *)
Definition well_formed (groups : string * option string) : Prop :=
  exists sign h1 h2,
    fst groups = String sign (String h1 (String h2 EmptyString))
    /\ is_sign sign = true /\ Str.is_digit h1 = true /\ Str.is_digit h2 = true
    /\ digits_or_none (snd groups).

Lemma match_here_shape (s : string) (groups : string * option string) :
  match_here s = Some groups -> well_formed groups.
Proof.
  unfold match_here.
  destruct s as [|g [|m [|t [|sign [|h1 [|h2 rest]]]]]]; try discriminate.
  destruct (Ascii.eqb (Str.lower_char g) "g" && Ascii.eqb (Str.lower_char m) "m"
            && Ascii.eqb (Str.lower_char t) "t"); [|discriminate].
  cbn [andb].
  destruct (is_sign sign) eqn:Hs; [|discriminate].
  destruct (Str.is_digit h1) eqn:H1; [|discriminate].
  destruct (Str.is_digit h2) eqn:H2; [|discriminate].
  cbn [andb]. intros H. inversion H. exists sign, h1, h2. cbn [fst snd].
  repeat (split; [first [reflexivity|assumption]|]).
  apply (minutes_group_shape rest).
Qed.

Lemma match_offset_shape (s : string) (groups : string * option string) :
  match_offset s = Some groups -> well_formed groups.
Proof.
  induction s as [|c s IH]; cbn [match_offset].
  - destruct (match_here EmptyString) eqn:E; [|discriminate].
    intros H. inversion H; subst. now apply match_here_shape with (s := EmptyString).
  - destruct (match_here (String c s)) eqn:E.
    + intros H. inversion H; subst. now apply match_here_shape with (s := String c s).
    + exact IH.
Qed.

(** A name that begins with GMT, a sign and two digits is matched at its
    start. *)
Lemma match_offset_long (sign h1 h2 : ascii) (rest : string) :
  is_sign sign = true -> Str.is_digit h1 = true -> Str.is_digit h2 = true ->
  match_offset ("GMT" ++ String sign (String h1 (String h2 rest)))
  = Some (String sign (String h1 (String h2 EmptyString)), minutes_group rest).
Proof.
  intros Hs H1 H2.
  assert (E : match_here ("GMT" ++ String sign (String h1 (String h2 rest)))
              = Some (String sign (String h1 (String h2 EmptyString)),
                      minutes_group rest)).
  { cbn [String.append match_here].
    change (Ascii.eqb (Str.lower_char "G") "g") with true.
    change (Ascii.eqb (Str.lower_char "M") "m") with true.
    change (Ascii.eqb (Str.lower_char "T") "t") with true.
    rewrite Hs, H1, H2. reflexivity. }
  cbn [String.append] in *. cbn [match_offset]. now rewrite E.
Qed.

(** The offset in minutes that [parseOffset] makes of the two groups, and
    the label that it makes of an offset. *)
Definition total_of (groups : string * option string) : Z :=
  let hours := Number_of_signed (fst groups) in
  let mins := match snd groups with
              | Some digits => Str.digits_value 0 digits
              | None => 0
              end in
  hours * 60 + Z.sgn hours * mins.

Definition label_of (total : Z) : string :=
  let sign : string := if 0 <=? total then "+"%string else "-"%string in
  ("GMT" ++ sign ++ padStart2 (Z.abs total / 60) ++ ":"
   ++ padStart2 (Z.abs total mod 60))%string.

Definition no_offset : Offset :=
  Build_Offset 0 ("GMT" ++ String PLUS_MINUS "00:00")%string.

Lemma parseOffset_match (tzName : string) (groups : string * option string) :
  match_offset tzName = Some groups ->
  parseOffset tzName = Build_Offset (total_of groups) (label_of (total_of groups)).
Proof. unfold parseOffset. intros ->. destruct groups. reflexivity. Qed.

Lemma parseOffset_cases (tzName : string) :
  parseOffset tzName = no_offset
  \/ exists groups,
       well_formed groups
       /\ parseOffset tzName = Build_Offset (total_of groups) (label_of (total_of groups)).
Proof.
  unfold parseOffset. destruct (match_offset tzName) as [[m1 m2]|] eqn:E; [|now left].
  right. exists (m1, m2). split; [now apply match_offset_shape with (s := tzName)|].
  reflexivity.
Qed.

(** The offset that a sign, two hour digits and two minute digits stand
    for, as [parseOffset] reads them. *)
Definition offset_read (sign : ascii) (hh mm : string) : Z :=
  let hours := Str.digits_value 0 hh in
  let minutes := Str.digits_value 0 mm in
  if hours =? 0 then 0
  else if Ascii.eqb sign "-" then - (hours * 60 + minutes)
  else hours * 60 + minutes.

Lemma total_of_read (sign h1 h2 : ascii) (m2 : option string) :
  Str.is_digit h1 = true -> Str.is_digit h2 = true -> digits_or_none m2 ->
  total_of (String sign (String h1 (String h2 EmptyString)), m2)
  = offset_read sign (String h1 (String h2 EmptyString))
      (match m2 with Some digits => digits | None => "00"%string end)
  /\ 0 <= Str.digits_value 0 (String h1 (String h2 EmptyString)) <= 99
  /\ 0 <= Str.digits_value 0 (match m2 with Some digits => digits | None => "00"%string end)
     <= 99.
Proof.
  intros H1 H2 Hm.
  destruct (pair_value h1 h2 H1 H2) as (Eh & R1 & R2).
  assert (Rm : 0 <= Str.digits_value 0
                      (match m2 with Some digits => digits | None => "00"%string end)
               <= 99).
  { destruct Hm as [->|(a & b & -> & Ha & Hb)]; [vm_compute; split; discriminate|].
    destruct (pair_value a b Ha Hb) as (Em & Ra & Rb). lia. }
  split; [|split; [lia|exact Rm]].
  unfold total_of, offset_read, Number_of_signed. cbn [fst snd].
  assert (Em : match m2 with Some digits => Str.digits_value 0 digits | None => 0 end
               = Str.digits_value 0
                   (match m2 with Some digits => digits | None => "00"%string end)).
  { destruct m2; reflexivity. }
  rewrite Em.
  set (hh := Str.digits_value 0 (String h1 (String h2 EmptyString))) in *.
  set (mm := Str.digits_value 0 _) in *.
  destruct (Z.eqb_spec hh 0) as [E0|E0].
  - rewrite E0. destruct (Ascii.eqb sign "-"); reflexivity.
  - destruct (Ascii.eqb sign "-").
    + replace (Z.sgn (- hh)) with (-1) by (symmetry; apply Z.sgn_neg; lia). lia.
    + replace (Z.sgn hh) with 1 by (symmetry; apply Z.sgn_pos; lia). lia.
Qed.

Lemma total_of_range (groups : string * option string) :
  well_formed groups ->
  total_of groups = 0 \/ 60 <= Z.abs (total_of groups) <= 6039.
Proof.
  intros (sign & h1 & h2 & Hfst & _ & H1 & H2 & Hm).
  destruct groups as [m1 m2]. cbn [fst snd] in *. subst m1.
  destruct (total_of_read sign h1 h2 m2 H1 H2 Hm) as (-> & Rh & Rm).
  unfold offset_read.
  destruct (Z.eqb_spec (Str.digits_value 0 (String h1 (String h2 EmptyString))) 0);
    [now left|].
  right. destruct (Ascii.eqb sign "-"); lia.
Qed.

(** A number below 100 is padded to its two digits. *)
Definition two_digit_text (n : Z) : bool :=
  match padStart2 n with
  | String a (String b EmptyString) =>
      Str.is_digit a && Str.is_digit b
      && (Str.digits_value 0 (String a (String b EmptyString)) =? n)
  | _ => false
  end.

Lemma padStart2_below_100 :
  forallb (fun k => two_digit_text (Z.of_nat k)) (seq 0 100) = true.
Proof. vm_compute. reflexivity. Qed.

Lemma padStart2_digits (n : Z) :
  0 <= n < 100 ->
  exists a b,
    padStart2 n = String a (String b EmptyString)
    /\ Str.is_digit a = true /\ Str.is_digit b = true
    /\ Str.digits_value 0 (String a (String b EmptyString)) = n.
Proof.
  intros Hn. pose proof padStart2_below_100 as H. rewrite forallb_forall in H.
  specialize (H (Z.to_nat n)). rewrite Z2Nat.id in H by lia.
  assert (Hin : In (Z.to_nat n) (seq 0 100)) by (apply in_seq; lia).
  specialize (H Hin). unfold two_digit_text in H.
  destruct (padStart2 n) as [|a [|b [|c rest]]]; try discriminate.
  apply andb_true_iff in H. destruct H as [H Hv].
  apply andb_true_iff in H. destruct H as [Ha Hb].
  apply Z.eqb_eq in Hv. exists a, b. auto.
Qed.

(** The label of an offset reads back as the offset. *)
Lemma parseOffset_label (total : Z) :
  total = 0 \/ 60 <= Z.abs total -> Z.abs total < 6000 ->
  parseOffset (label_of total) = Build_Offset total (label_of total).
Proof.
  intros Hshape Hlt.
  destruct (padStart2_digits (Z.abs total / 60)) as (h1 & h2 & Eh & H1 & H2 & Vh).
  { Z.to_euclidean_division_equations. lia. }
  destruct (padStart2_digits (Z.abs total mod 60)) as (a & b & Em & Ha & Hb & Vm).
  { Z.to_euclidean_division_equations. lia. }
  set (sign := if 0 <=? total then "+"%char else "-"%char).
  assert (Hsign : is_sign sign = true) by (unfold sign; destruct (0 <=? total); reflexivity).
  assert (El : label_of total
               = ("GMT" ++ String sign (String h1 (String h2
                    (String ":" (String a (String b EmptyString))))))%string).
  { unfold label_of. rewrite Eh, Em. unfold sign.
    destruct (0 <=? total); reflexivity. }
  rewrite El at 1.
  rewrite (parseOffset_match _ _ (match_offset_long sign h1 h2 _ Hsign H1 H2)).
  change (minutes_group (String ":" (String a (String b EmptyString))))
    with (two_digits (String a (String b EmptyString))).
  unfold two_digits. rewrite Ha, Hb. cbn [andb].
  assert (Et : total_of (String sign (String h1 (String h2 EmptyString)),
                         Some (String a (String b EmptyString))) = total).
  { destruct (total_of_read sign h1 h2 (Some (String a (String b EmptyString))) H1 H2)
      as (-> & _ & _).
    { right. exists a, b. auto. }
    unfold offset_read. rewrite Vh, Vm.
    destruct (Z.eqb_spec (Z.abs total / 60) 0) as [E0|E0].
    - destruct Hshape as [->|Hbig]; [reflexivity|].
      exfalso. revert E0. Z.to_euclidean_division_equations. lia.
    - unfold sign. destruct (Z.leb_spec 0 total) as [Hpos|Hneg].
      + change (Ascii.eqb "+" "-") with false. cbv iota.
        Z.to_euclidean_division_equations. lia.
      + change (Ascii.eqb "-" "-") with true. cbv iota.
        Z.to_euclidean_division_equations. lia. }
  now rewrite Et.
Qed.

Lemma no_offset_label : parseOffset (offsetLabel no_offset) = no_offset.
Proof. vm_compute. reflexivity. Qed.

End OffsetNames.

Section OffsetsOfNames.
Import TimezoneInfo.

(** The names with one hour digit: GMT, a sign, a digit, and nothing more
    or a colon and two digits. *)
Definition short_names : list string :=
  flat_map
    (fun sign =>
       flat_map
         (fun d =>
            List.map (fun rest => ("GMT" ++ String sign (String d rest))%string)
              (EmptyString :: List.map (fun m => String ":" m) digit_pairs))
         digit_chars)
    sign_chars.

Definition Offset_eqb (a b : Offset) : bool :=
  (offsetMinutes a =? offsetMinutes b) && String.eqb (offsetLabel a) (offsetLabel b).

Lemma Offset_eqb_eq (a b : Offset) : Offset_eqb a b = true -> a = b.
Proof.
  unfold Offset_eqb. rewrite andb_true_iff, Z.eqb_eq, String.eqb_eq.
  destruct a, b. cbn. intros [-> ->]. reflexivity.
Qed.

Lemma short_names_unread :
  forallb (fun name => Offset_eqb (parseOffset name) no_offset) short_names = true.
Proof. vm_compute. reflexivity. Qed.

Lemma short_names_In (sign d : ascii) (rest : string) :
  is_sign sign = true -> Str.is_digit d = true ->
  (rest = EmptyString
   \/ exists a b, Str.is_digit a = true /\ Str.is_digit b = true
                  /\ rest = String ":" (String a (String b EmptyString))) ->
  In ("GMT" ++ String sign (String d rest))%string short_names.
Proof.
  intros Hs Hd Hrest. unfold short_names. apply in_flat_map. exists sign.
  split; [now apply is_sign_In|]. apply in_flat_map. exists d.
  split; [now apply is_digit_In|]. apply in_map_iff. exists rest.
  split; [reflexivity|].
  destruct Hrest as [->|(a & b & Ha & Hb & ->)]; [now left|].
  right. apply in_map_iff. exists (String a (String b EmptyString)).
  split; [reflexivity|now apply digit_pairs_In].
Qed.

(** The offset of a name with two hour digits. *)
Lemma long_name_offset (sign h1 h2 : ascii) (rest : string) :
  is_sign sign = true -> Str.is_digit h1 = true -> Str.is_digit h2 = true ->
  offsetMinutes (parseOffset ("GMT" ++ String sign (String h1 (String h2 rest))))
  = offset_read sign (String h1 (String h2 EmptyString))
      (match minutes_group rest with Some digits => digits | None => "00"%string end).
Proof.
  intros Hs H1 H2.
  rewrite (parseOffset_match _ _ (match_offset_long sign h1 h2 rest Hs H1 H2)).
  cbn [offsetMinutes].
  now destruct (total_of_read sign h1 h2 (minutes_group rest) H1 H2
                  (minutes_group_shape rest)) as (-> & _ & _).
Qed.

End OffsetsOfNames.

(** X26. The offsets that [parseOffset] returns.  For every name, the
    offset in minutes is 0 or at least an hour away from 0 and at most
    6039 in size, so an offset of less than an hour is never reported;
    and when it is below a hundred hours in size (always, when the
    minutes of the name are below 60), the label that comes with it reads
    back as the same offset and the same label. *)
Theorem parseOffset_offsets (tzName : string) :
  let r := TimezoneInfo.parseOffset tzName in
  (TimezoneInfo.offsetMinutes r = 0
   \/ 60 <= Z.abs (TimezoneInfo.offsetMinutes r) <= 6039)
  /\ (Z.abs (TimezoneInfo.offsetMinutes r) < 6000 ->
      TimezoneInfo.parseOffset (TimezoneInfo.offsetLabel r) = r).
Proof.
  cbv zeta. destruct (parseOffset_cases tzName) as [->|(groups & Hwf & ->)].
  - split; [now left|]. intros _. apply no_offset_label.
  - cbn [TimezoneInfo.offsetMinutes TimezoneInfo.offsetLabel].
    pose proof (total_of_range groups Hwf) as Hrange.
    split; [exact Hrange|]. intros Hlt.
    apply parseOffset_label; [|exact Hlt].
    destruct Hrange as [H0|H]; [now left|right; lia].
Qed.

(** X27. The names that [parseOffset] reads.  A name with a single hour
    digit (GMT, a sign, one digit, then nothing or a colon and two
    digits, such as GMT+8 or GMT+5:30) is not read at all: the offset is
    0 and the label the plus-minus one.  A name with two hour digits is
    read as hours and minutes with the sign, whether the minutes follow a
    colon, follow directly or are left out, except that with the hours 00
    the minutes are dropped and the offset is 0. *)
Theorem parseOffset_names (sign h1 h2 a b : ascii)
  (Hsign : TimezoneInfo.is_sign sign = true)
  (Hh1 : Str.is_digit h1 = true) (Hh2 : Str.is_digit h2 = true)
  (Ha : Str.is_digit a = true) (Hb : Str.is_digit b = true) :
  let hh := String h1 (String h2 EmptyString) in
  let mm := String a (String b EmptyString) in
  TimezoneInfo.parseOffset ("GMT" ++ String sign (String h1 EmptyString)) = no_offset
  /\ TimezoneInfo.parseOffset ("GMT" ++ String sign (String h1 (String ":" mm)))
     = no_offset
  /\ TimezoneInfo.offsetMinutes
       (TimezoneInfo.parseOffset ("GMT" ++ String sign hh ++ ":" ++ mm))
     = offset_read sign hh mm
  /\ TimezoneInfo.offsetMinutes (TimezoneInfo.parseOffset ("GMT" ++ String sign hh ++ mm))
     = offset_read sign hh mm
  /\ TimezoneInfo.offsetMinutes (TimezoneInfo.parseOffset ("GMT" ++ String sign hh))
     = offset_read sign hh "00".
Proof.
  cbv zeta.
  pose proof short_names_unread as Hshort. rewrite forallb_forall in Hshort.
  split; [|split; [|split; [|split]]].
  - apply Offset_eqb_eq, Hshort. apply short_names_In; auto.
  - apply Offset_eqb_eq, Hshort. apply short_names_In; auto.
    right. exists a, b. auto.
  - change ("GMT" ++ String sign (String h1 (String h2 EmptyString)) ++ ":"
            ++ String a (String b EmptyString))%string
      with ("GMT" ++ String sign (String h1 (String h2
              (String ":" (String a (String b EmptyString))))))%string.
    rewrite long_name_offset by assumption.
    change (minutes_group (String ":" (String a (String b EmptyString))))
      with (TimezoneInfo.two_digits (String a (String b EmptyString))).
    unfold TimezoneInfo.two_digits. now rewrite Ha, Hb.
  - change ("GMT" ++ String sign (String h1 (String h2 EmptyString))
            ++ String a (String b EmptyString))%string
      with ("GMT" ++ String sign (String h1 (String h2
              (String a (String b EmptyString)))))%string.
    rewrite long_name_offset by assumption.
    unfold minutes_group.
    assert (Hcolon : Ascii.eqb a ":" = false).
    { apply Ascii.eqb_neq. intros ->. discriminate Ha. }
    rewrite Hcolon. unfold TimezoneInfo.two_digits. now rewrite Ha, Hb.
  - rewrite long_name_offset by assumption. reflexivity.
Qed.

Lemma parseOffset_names_witness :
  TimezoneInfo.parseOffset "GMT+8" = no_offset
  /\ TimezoneInfo.offsetMinutes (TimezoneInfo.parseOffset "GMT+08:00") = 480
  /\ TimezoneInfo.offsetMinutes (TimezoneInfo.parseOffset "GMT-00:30") = 0.
Proof.
  pose proof (parseOffset_names "+" "0" "8" "0" "0"
                eq_refl eq_refl eq_refl eq_refl eq_refl) as P.
  pose proof (parseOffset_names "-" "0" "0" "3" "0"
                eq_refl eq_refl eq_refl eq_refl eq_refl) as Q.
  cbv zeta in P, Q.
  split; [|split].
  - pose proof (parseOffset_names "+" "8" "0" "0" "0"
                  eq_refl eq_refl eq_refl eq_refl eq_refl) as S.
    exact (proj1 S).
  - exact (proj1 (proj2 (proj2 P))).
  - exact (proj1 (proj2 (proj2 Q))).
Defined.

(* ===================================================================== *)
(** * Conversion into USD *)
(* ===================================================================== *)

Section Rates.
Import CurrencyConversion.

(** The rate that an entry offers for a currency: its value, when that is
    a finite number above zero and the upper-cased key is the currency. *)
Definition offered (currency : string) (entry : string * PaypalCharge.number)
  : option Q :=
  match snd entry with
  | PaypalCharge.Finite numeric =>
      if Qle_bool numeric 0 then None
      else if String.eqb (Str.toUpperCase (fst entry)) currency then Some numeric
      else None
  | _ => None
  end.

(** The last rate that the entries offer for a currency. *)
Definition last_offered (currency : string) (raw : list (string * PaypalCharge.number))
  : option Q :=
  fold_left (fun found entry =>
               match offered currency entry with
               | Some rate => Some rate
               | None => found
               end)
    raw None.

Definition rate_step (rates : list (string * Q)) (entry : string * PaypalCharge.number)
  : list (string * Q) :=
  match snd entry with
  | PaypalCharge.Finite numeric =>
      if Qle_bool numeric 0 then rates
      else Js.map_set (Str.toUpperCase (fst entry)) numeric rates
  | _ => rates
  end.

Lemma normalizeRates_fold (raw : list (string * PaypalCharge.number)) :
  normalizeRates raw = fold_left rate_step raw [].
Proof.
  unfold normalizeRates. apply fold_left_ext. intros rates [key value]. reflexivity.
Qed.

Lemma rate_step_get (currency : string) (rates : list (string * Q))
  (entry : string * PaypalCharge.number) :
  Js.map_get currency (rate_step rates entry)
  = match offered currency entry with
    | Some rate => Some rate
    | None => Js.map_get currency rates
    end.
Proof.
  unfold rate_step, offered. destruct (snd entry) as [| |numeric]; try reflexivity.
  destruct (Qle_bool numeric 0); [reflexivity|].
  destruct (String.eqb (Str.toUpperCase (fst entry)) currency) eqn:E.
  - apply String.eqb_eq in E. subst currency. apply map_get_set_same.
  - apply String.eqb_neq in E. now apply map_get_set_other.
Qed.

Lemma rates_fold_get (currency : string) (raw : list (string * PaypalCharge.number)) :
  forall rates found,
    Js.map_get currency rates = found ->
    Js.map_get currency (fold_left rate_step raw rates)
    = fold_left (fun found entry =>
                   match offered currency entry with
                   | Some rate => Some rate
                   | None => found
                   end)
        raw found.
Proof.
  induction raw as [|entry raw IH]; intros rates found H; cbn [fold_left]; [exact H|].
  apply IH. rewrite rate_step_get, H. reflexivity.
Qed.

Lemma normalizeRates_get (currency : string) (raw : list (string * PaypalCharge.number)) :
  Js.map_get currency (normalizeRates raw) = last_offered currency raw.
Proof. rewrite normalizeRates_fold. now apply rates_fold_get. Qed.

Lemma offered_positive (currency : string) (entry : string * PaypalCharge.number)
  (rate : Q) :
  offered currency entry = Some rate ->
  (0 < rate)%Q /\ Str.toUpperCase currency = currency.
Proof.
  unfold offered. destruct (snd entry) as [| |numeric]; try discriminate.
  destruct (Qle_bool numeric 0) eqn:E; [discriminate|].
  destruct (String.eqb (Str.toUpperCase (fst entry)) currency) eqn:Ek; [|discriminate].
  intros H. inversion H; subst. apply String.eqb_eq in Ek. split.
  - apply Qnot_le_lt. intros Hle. apply Qle_bool_iff in Hle. congruence.
  - rewrite <- Ek. apply toUpperCase_idem.
Qed.

Lemma last_offered_positive (currency : string)
  (raw : list (string * PaypalCharge.number)) (rate : Q) :
  last_offered currency raw = Some rate ->
  (0 < rate)%Q /\ Str.toUpperCase currency = currency.
Proof.
  unfold last_offered.
  assert (G : forall found,
             (forall r, found = Some r ->
                        (0 < r)%Q /\ Str.toUpperCase currency = currency) ->
             fold_left (fun found entry =>
                          match offered currency entry with
                          | Some rate => Some rate
                          | None => found
                          end) raw found = Some rate ->
             (0 < rate)%Q /\ Str.toUpperCase currency = currency).
  { induction raw as [|entry raw IH]; intros found Hf; cbn [fold_left].
    - apply Hf.
    - apply IH. destruct (offered currency entry) as [r|] eqn:E; [|exact Hf].
      intros r' Hr. inversion Hr; subst. now apply offered_positive with (entry := entry). }
  apply G. discriminate.
Qed.

Lemma rates_fold_NoDup (raw : list (string * PaypalCharge.number)) :
  forall rates, NoDup (keys rates) -> NoDup (keys (fold_left rate_step raw rates)).
Proof.
  induction raw as [|entry raw IH]; intros rates H; cbn [fold_left]; [exact H|].
  apply IH. unfold rate_step. destruct (snd entry) as [| |numeric]; try exact H.
  destruct (Qle_bool numeric 0); [exact H|]. now apply keys_map_set_NoDup.
Qed.

Lemma normalizeRates_NoDup (raw : list (string * PaypalCharge.number)) :
  NoDup (keys (normalizeRates raw)).
Proof. rewrite normalizeRates_fold. apply rates_fold_NoDup. constructor. Qed.

Lemma map_set_absent {V : Type} (k : string) (v : V) (m : list (string * V)) :
  ~ In k (keys m) -> Js.map_set k v m = m ++ [(k, v)].
Proof.
  induction m as [|[k0 v0] m IH]; cbn; [reflexivity|]. intros H.
  destruct (String.eqb k0 k) eqn:E.
  - apply String.eqb_eq in E. tauto.
  - f_equal. apply IH. tauto.
Qed.

(** Normalised rates, normalised again, are themselves. *)
Lemma rates_fold_again (m : list (string * Q)) :
  forall rates,
    NoDup (keys m) ->
    (forall k, In k (keys m) -> ~ In k (keys rates)) ->
    (forall k v, In (k, v) m -> Str.toUpperCase k = k /\ Qle_bool v 0 = false) ->
    fold_left rate_step (as_values m) rates = rates ++ m.
Proof.
  induction m as [|[k v] m IH]; intros rates Hnd Hdis Hok; cbn [as_values List.map fold_left].
  - now rewrite app_nil_r.
  - inversion Hnd as [|? ? Hnot Hnd']; subst.
    destruct (Hok k v (or_introl eq_refl)) as [Hk Hv].
    unfold rate_step at 2. cbn [fst snd]. rewrite Hv, Hk.
    rewrite map_set_absent by (apply Hdis; now left).
    change (List.map _ m) with (as_values m).
    rewrite IH.
    + now rewrite <- app_assoc.
    + exact Hnd'.
    + intros k' Hk' Hin. unfold keys in Hin. rewrite List.map_app, in_app_iff in Hin.
      destruct Hin as [Hin|[<-|[]]].
      * apply (Hdis k'); [now right|exact Hin].
      * apply Hnot. exact Hk'.
    + intros k' v' Hin. apply Hok. now right.
Qed.

Lemma map_get_entry {V : Type} (k : string) (v : V) (m : list (string * V)) :
  In (k, v) m -> NoDup (keys m) -> Js.map_get k m = Some v.
Proof. intros Hin Hnd. now apply In_map_get. Qed.

Lemma normalizeRates_again (raw : list (string * PaypalCharge.number)) :
  normalizeRates (as_values (normalizeRates raw)) = normalizeRates raw.
Proof.
  rewrite (normalizeRates_fold (as_values _)).
  rewrite rates_fold_again; [reflexivity|apply normalizeRates_NoDup|auto|].
  intros k v Hin.
  pose proof (map_get_entry k v _ Hin (normalizeRates_NoDup raw)) as Hget.
  rewrite normalizeRates_get in Hget.
  destruct (last_offered_positive k raw v Hget) as [Hpos Hk].
  split; [exact Hk|].
  destruct (Qle_bool v 0) eqn:E; [|reflexivity].
  apply Qle_bool_iff in E. exfalso. now apply (Qlt_not_le 0 v).
Qed.

End Rates.

(** X28. Conversion with override rates.  When the override rates hold
    at least one usable entry (a finite number above zero), the remote
    rates are never consulted: whatever the rate service would answer,
    USD is converted at the rate 1 with the source default, any other
    currency at the last usable override given for its upper-cased code,
    with the source override, and a currency without one fails with the
    message that no rate is available, without falling back to the
    service.  The amount in USD is the product of the amount and the
    rate as doubles, rounded to two decimals (15 at the rate 0.001 gives
    0.01), and the rate is above zero. *)
Theorem conversion_with_overrides
  (fetch_latest : result (Response (option (list (string * PaypalCharge.number)))))
  (contextCurrency : string) (amount : Q)
  (raw : list (string * PaypalCharge.number))
  (Husable : CurrencyConversion.normalizeRates raw <> []) :
  let currency := Str.toUpperCase contextCurrency in
  CurrencyConversion.execute fetch_latest contextCurrency amount (Some raw)
  = (if String.eqb currency "USD"
     then Ok (CurrencyConversion.Build_Conversion currency amount
                (Js.toFixed2 (Double.mul amount 1)) 1 CurrencyConversion.default)
     else
       match last_offered currency raw with
       | Some rate =>
           Ok (CurrencyConversion.Build_Conversion currency amount
                 (Js.toFixed2 (Double.mul amount rate)) rate CurrencyConversion.override)
       | None =>
           Throw ("No USD conversion rate available for " ++ currency
                  ++ ". Provide overrideRates or set USD_CONVERSION_RATES env JSON.")
       end)
  /\ (forall rate, last_offered currency raw = Some rate -> (0 < rate)%Q).
Proof.
  cbv zeta. split.
  - unfold CurrencyConversion.execute, CurrencyConversion.resolveRates.
    destruct (CurrencyConversion.normalizeRates raw) as [|entry rest] eqn:E;
      [contradiction|].
    change (0 <? List.length (entry :: rest))%nat with true. cbv iota.
    rewrite <- E, normalizeRates_again. cbn [bind fst snd].
    unfold CurrencyConversion.resolveRate.
    destruct (String.eqb (Str.toUpperCase contextCurrency) "USD"); [reflexivity|].
    rewrite normalizeRates_get.
    destruct (last_offered (Str.toUpperCase contextCurrency) raw); reflexivity.
  - intros rate H. now destruct (last_offered_positive _ _ _ H).
Qed.

(** Override rates with a code in lower case, an entry that is not usable
    and a later entry for the same code; and a rate service that is down. *)
Module RatesExample.

Definition overrides : list (string * PaypalCharge.number) :=
  [("jpy", PaypalCharge.Finite (64 # 10000)); ("EUR", PaypalCharge.NaN);
   ("JPY", PaypalCharge.Finite (1 # 1000))]%string.

Definition service_down
  : result (Response (option (list (string * PaypalCharge.number)))) :=
  Ok (Build_Response _ false 503 "Service Unavailable" (Throw "no body")).

Definition service_up
  : result (Response (option (list (string * PaypalCharge.number)))) :=
  Ok (Build_Response _ true 200 ""
        (Ok (Some [("IDR"%string, PaypalCharge.Finite (1 # 1000));
                   ("EUR"%string, PaypalCharge.Finite (11 # 10))]))).

End RatesExample.

Lemma conversion_with_overrides_witness :
  CurrencyConversion.normalizeRates RatesExample.overrides <> []
  /\ CurrencyConversion.execute RatesExample.service_down "jpy" (inject_Z 15)
       (Some RatesExample.overrides)
     = Ok (CurrencyConversion.Build_Conversion "JPY" (inject_Z 15)
             (1 # 100) (1 # 1000) CurrencyConversion.override).
Proof.
  assert (H : CurrencyConversion.normalizeRates RatesExample.overrides <> [])
    by (vm_compute; discriminate).
  split; [exact H|].
  exact (proj1 (conversion_with_overrides RatesExample.service_down "jpy"
                  (inject_Z 15) RatesExample.overrides H)).
Defined.

Section RemoteRates.
Import CurrencyConversion.

Variable fetch_latest : result (Response (option (list (string * PaypalCharge.number)))).

Lemma fetchUsdRates_rates (rates : list (string * Q)) :
  fetchUsdRates fetch_latest = Ok rates ->
  rates <> []
  /\ (forall k r, Js.map_get k rates = Some r ->
                  (0 < r)%Q /\ Str.toUpperCase k = k).
Proof.
  unfold fetchUsdRates. destruct fetch_latest as [response|m]; [|discriminate].
  cbn [bind]. destruct (negb (ok response)); [discriminate|].
  destruct (json response) as [[raw|]|m]; try discriminate.
  destruct (normalizeRates raw) as [|entry rest] eqn:E; [discriminate|].
  cbn [List.length Nat.eqb]. intros H. inversion H; subst rates. clear H.
  split; [discriminate|]. intros k r Hget. rewrite <- E, normalizeRates_get in Hget.
  now apply last_offered_positive with (raw := raw).
Qed.

Lemma execute_remote (contextCurrency : string) (amount : Q)
  (overrideRates : option (list (string * PaypalCharge.number))) :
  normalizeRates (match overrideRates with Some raw => raw | None => [] end) = [] ->
  execute fetch_latest contextCurrency amount overrideRates
  = (rates <- fetchUsdRates fetch_latest ;;
     chosen <- resolveRate (Str.toUpperCase contextCurrency) rates remote ;;
     Ok (Build_Conversion (Str.toUpperCase contextCurrency) amount
           (Js.toFixed2 (Double.mul amount (fst chosen))) (fst chosen) (snd chosen))).
Proof.
  intros H. unfold execute, resolveRates. rewrite H.
  change (0 <? List.length (@nil (string * Q)))%nat with false. cbv iota.
  destruct (fetchUsdRates fetch_latest); reflexivity.
Qed.

End RemoteRates.

(** X29. Conversion without override rates.  When the override rates
    are absent or hold no usable entry, every conversion asks the rate
    service first, USD included: if fetching the rates fails, the
    conversion fails with that message, whatever the currency.  If it
    succeeds, the rates are not empty, each is above zero and filed under
    an upper-cased code; USD is then converted at the rate 1 with the
    source default and any other currency at the service's rate for its
    upper-cased code with the source remote, or fails when the service
    has none; the amount in USD is the product of the amount and the
    rate as doubles, rounded to two decimals.  No conversion reports the
    source config. *)
Theorem conversion_without_overrides
  (fetch_latest : result (Response (option (list (string * PaypalCharge.number)))))
  (contextCurrency : string) (amount : Q)
  (overrideRates : option (list (string * PaypalCharge.number)))
  (Hnone : CurrencyConversion.normalizeRates
             (match overrideRates with Some raw => raw | None => [] end) = []) :
  let currency := Str.toUpperCase contextCurrency in
  let converted := CurrencyConversion.execute fetch_latest contextCurrency amount
                     overrideRates in
  (forall m, CurrencyConversion.fetchUsdRates fetch_latest = Throw m ->
             converted = Throw m)
  /\ (forall rates,
        CurrencyConversion.fetchUsdRates fetch_latest = Ok rates ->
        rates <> []
        /\ (forall k r, Js.map_get k rates = Some r ->
                        (0 < r)%Q /\ Str.toUpperCase k = k)
        /\ converted
           = (if String.eqb currency "USD"
              then Ok (CurrencyConversion.Build_Conversion currency amount
                         (Js.toFixed2 (Double.mul amount 1)) 1 CurrencyConversion.default)
              else
                match Js.map_get currency rates with
                | Some rate =>
                    Ok (CurrencyConversion.Build_Conversion currency amount
                          (Js.toFixed2 (Double.mul amount rate)) rate CurrencyConversion.remote)
                | None =>
                    Throw ("No USD conversion rate available for " ++ currency
                           ++ ". Provide overrideRates or set USD_CONVERSION_RATES env JSON.")
                end))
  /\ (forall c, converted = Ok c ->
                CurrencyConversion.rateSource c <> CurrencyConversion.config
                /\ CurrencyConversion.rateSource c <> CurrencyConversion.override
                /\ (0 < CurrencyConversion.rateUsed c)%Q).
Proof.
  cbv zeta. rewrite (execute_remote fetch_latest _ _ _ Hnone).
  split; [|split].
  - intros m ->. reflexivity.
  - intros rates Hrates. destruct (fetchUsdRates_rates _ _ Hrates) as [Hne Hpos].
    split; [exact Hne|]. split; [exact Hpos|].
    rewrite Hrates. cbn [bind]. unfold CurrencyConversion.resolveRate.
    destruct (String.eqb (Str.toUpperCase contextCurrency) "USD"); [reflexivity|].
    destruct (Js.map_get (Str.toUpperCase contextCurrency) rates); reflexivity.
  - intros c. destruct (CurrencyConversion.fetchUsdRates fetch_latest) as [rates|m] eqn:Hrates;
      [|discriminate].
    destruct (fetchUsdRates_rates _ _ Hrates) as [_ Hpos].
    cbn [bind]. unfold CurrencyConversion.resolveRate.
    destruct (String.eqb (Str.toUpperCase contextCurrency) "USD").
    + cbn [bind fst snd]. intros H. inversion H; subst c. cbn.
      split; [discriminate|]. split; [discriminate|reflexivity].
    + destruct (Js.map_get (Str.toUpperCase contextCurrency) rates) as [rate|] eqn:Hget;
        [|discriminate].
      cbn [bind fst snd]. intros H. inversion H; subst c. cbn.
      split; [discriminate|]. split; [discriminate|].
      now destruct (Hpos _ _ Hget).
Qed.

Lemma conversion_without_overrides_witness :
  CurrencyConversion.fetchUsdRates RatesExample.service_down
  = Throw "Failed to fetch FX rates from exchangerate.host: 503"
  /\ CurrencyConversion.execute RatesExample.service_down "USD" (inject_Z 10) None
     = Throw "Failed to fetch FX rates from exchangerate.host: 503"
  /\ CurrencyConversion.execute RatesExample.service_up "idr" (inject_Z 15) None
     = Ok (CurrencyConversion.Build_Conversion "IDR" (inject_Z 15)
             (1 # 100) (1 # 1000) CurrencyConversion.remote).
Proof.
  assert (H : CurrencyConversion.fetchUsdRates RatesExample.service_down
              = Throw "Failed to fetch FX rates from exchangerate.host: 503")
    by reflexivity.
  assert (U : CurrencyConversion.fetchUsdRates RatesExample.service_up
              = Ok [("IDR"%string, 1 # 1000); ("EUR"%string, 11 # 10)])
    by reflexivity.
  split; [exact H|]. split.
  - exact (proj1 (conversion_without_overrides RatesExample.service_down "USD"
                    (inject_Z 10) None eq_refl) _ H).
  - exact (proj2 (proj2 (proj1 (proj2
             (conversion_without_overrides RatesExample.service_up "idr"
                (inject_Z 15) None eq_refl)) _ U))).
Defined.
